(** * A shallow embedding of the teleoperation filters, the motion recorder
      and the motion player of the lerobot scripts

    The Python sources embedded here are

    - [lerobot/teleoperate_filtered.py]     (modules [WristRoll], [TeleoperateFiltered]),
    - [lerobot/teleoperate_elbow_filter.py] (modules [ElbowFlex], [TeleoperateElbowFilter]),
    - [lerobot/teleoperate_wrist_disabled.py]
                                            (module [TeleoperateWristDisabled]),
    - [lerobot/teleoperate_logging.py], the deadzone of its loop
                                            (module [TeleoperateLogging]),
    - [record_motion.py], [record_with_teleop.py]
                                            (modules [RecordMotion], [RecordWithTeleop]),
    - [replay_motion.py], [replay_all.py], [select_and_replay.py]
                                            (modules [ReplayMotion], [ReplayAll], [SelectAndReplay]).

    The loop and the main function that the teleoperation scripts have in
    common are in module [Teleop].

    Python floats are kept abstract behind the operation class [PyFloat]; it
    has two instances, IEEE binary64 (Rocq's primitive floats, which is what
    CPython computes with) and the exact rationals [Qc].  Statements proved
    for every instance hold in particular for binary64.

    The names of files are Python [str]s, sequences of Unicode code points
    ([pystr]); which characters are decimal digits is left to the class
    [Unicode], whose instance [unicode_14_0] is the database of CPython
    3.11. *)

From Stdlib Require Import String Ascii Bool Arith ZArith NArith Lia List.
From Stdlib Require Import QArith Qcanon Qcabs.
From Stdlib Require Import Floats.
From Stdlib Require Import Permutation Sorted OrderedTypeEx.
Import ListNotations.

Set Implicit Arguments.
Close Scope Qc_scope.
Close Scope Q_scope.
Open Scope string_scope.
Open Scope list_scope.

(** ** Python floats *)

(** The float operations the scripts use.  [f_lit q] is the float written as
    the decimal literal of value [q]; [f_of_nat n] is the conversion of the
    integer [n] that Python performs in [float / int]. *)
Class PyFloat (F : Type) : Type := {
  f_lit : Q -> F;
  f_of_nat : nat -> F;
  f_add : F -> F -> F;
  f_sub : F -> F -> F;
  f_mul : F -> F -> F;
  f_div : F -> F -> F;
  f_abs : F -> F;
  f_ltb : F -> F -> bool;
  f_leb : F -> F -> bool
}.

(** [a > b] is [b < a], [a >= b] is [b <= a]. *)
Definition f_gtb {F} `{PyFloat F} (a b : F) : bool := f_ltb b a.
Definition f_geb {F} `{PyFloat F} (a b : F) : bool := f_leb b a.

(** The one comparison law used below: [a <= b] excludes [b < a]. *)
Class PyFloatOrder (F : Type) {ops : PyFloat F} : Prop :=
  f_leb_not_ltb : forall a b : F, f_leb a b = true -> f_ltb b a = false.

Arguments PyFloatOrder F {ops}.

(** IEEE binary64. *)
Definition b64_of_Z (z : Z) : float :=
  match z with
  | Z0 => PrimFloat.of_uint63 (Uint63.of_Z 0)
  | Zpos p => PrimFloat.of_uint63 (Uint63.of_pos p)
  | Zneg p => PrimFloat.opp (PrimFloat.of_uint63 (Uint63.of_pos p))
  end.

Definition b64_lit (q : Q) : float :=
  PrimFloat.div (b64_of_Z (Qnum q)) (b64_of_Z (Zpos (Qden q))).

#[export] Instance binary64 : PyFloat float := {
  f_lit := b64_lit;
  f_of_nat := fun n => b64_of_Z (Z.of_nat n);
  f_add := PrimFloat.add;
  f_sub := PrimFloat.sub;
  f_mul := PrimFloat.mul;
  f_div := PrimFloat.div;
  f_abs := PrimFloat.abs;
  f_ltb := PrimFloat.ltb;
  f_leb := PrimFloat.leb
}.

(** Exact rational arithmetic. *)
Definition Qc_ltb (a b : Qc) : bool :=
  match (a ?= b)%Qc with Lt => true | _ => false end.
Definition Qc_leb (a b : Qc) : bool :=
  match (a ?= b)%Qc with Gt => false | _ => true end.

#[export] Instance exact : PyFloat Qc := {
  f_lit := Q2Qc;
  f_of_nat := fun n => Q2Qc (inject_Z (Z.of_nat n));
  f_add := Qcplus;
  f_sub := Qcminus;
  f_mul := Qcmult;
  f_div := Qcdiv;
  f_abs := Qcabs;
  f_ltb := Qc_ltb;
  f_leb := Qc_leb
}.

(** Python's builtin [sum]: additions from the left, starting at [0] (as
    CPython does up to 3.11; later versions also compensate the rounding
    errors of float additions). *)
Definition py_sum {F} `{PyFloat F} (l : list F) : F :=
  fold_left f_add l (f_lit 0).

(** ** Python dicts with string keys

    A dict keeps its keys in insertion order; assigning to a key that is
    present replaces the value in place, assigning to a new key appends. *)
Definition dict (V : Type) : Type := list (string * V).

Fixpoint dict_get {V} (k : string) (d : dict V) : option V :=
  match d with
  | [] => None
  | (k', v) :: d' => if String.eqb k k' then Some v else dict_get k d'
  end.

Definition dict_mem {V} (k : string) (d : dict V) : bool :=
  match dict_get k d with Some _ => true | None => false end.

Fixpoint dict_set {V} (k : string) (v : V) (d : dict V) : dict V :=
  match d with
  | [] => [(k, v)]
  | (k', v') :: d' =>
      if String.eqb k k' then (k, v) :: d' else (k', v') :: dict_set k v d'
  end.

Definition dict_keys {V} (d : dict V) : list string := map fst d.

(** Exceptions raised by the modelled code or by its collaborators. *)
Inductive exn : Type :=
| KeyboardInterrupt
| ZeroDivisionError
| FileNotFoundError
| ValueError (msg : string)
| OtherException (msg : string).

(** Everything but [KeyboardInterrupt] is caught by [except Exception]. *)
Definition is_Exception (e : exn) : bool :=
  match e with KeyboardInterrupt => false | _ => true end.

(** ** Python strings

    A [str] is the sequence of its Unicode code points.  The names of the
    files are [str]s.  The keys of the frames and of the recordings, the
    messages of the exceptions and the printed lines only occur as ASCII
    literals of the scripts and are kept as [string]s. *)
Definition pystr : Type := list N.

(** The [str] that an ASCII literal denotes. *)
Definition str (s : string) : pystr := map N_of_ascii (list_ascii_of_string s).

(** [s == t] *)
Fixpoint pystr_eqb (s t : pystr) : bool :=
  match s, t with
  | [], [] => true
  | a :: s', b :: t' => (a =? b)%N && pystr_eqb s' t'
  | _, _ => false
  end.

(** [s < t]: the first code point that differs decides, and a proper prefix
    is smaller. *)
Fixpoint pystr_ltb (s t : pystr) : bool :=
  match s, t with
  | _, [] => false
  | [], _ :: _ => true
  | a :: s', b :: t' => (a <? b)%N || ((a =? b)%N && pystr_ltb s' t')
  end.

(** What the scripts use of the Unicode database of the interpreter: the
    value of a character that is a decimal digit (category Nd).  These are
    the characters [\d] matches in a [str] pattern, and the digits [int]
    reads. *)
Class Unicode : Type := { digit_value : N -> option N }.

(** The decimal digits come in runs of ten, from the digit zero to the digit
    nine of a script; a database is given by its digits zero. *)
Definition digit_value_in (zeros : list N) (c : N) : option N :=
  match find (fun zero => (zero <=? c)%N && (c <? zero + 10)%N) zeros with
  | Some zero => Some (c - zero)%N
  | None => None
  end.

(** The digits zero of Unicode 14.0.0, the database of CPython 3.11. *)
Definition zeros_14_0 : list N :=
  [ 0x30; 0x660; 0x6f0; 0x7c0; 0x966; 0x9e6; 0xa66; 0xae6; 0xb66; 0xbe6; 0xc66;
    0xce6; 0xd66; 0xde6; 0xe50; 0xed0; 0xf20; 0x1040; 0x1090; 0x17e0; 0x1810;
    0x1946; 0x19d0; 0x1a80; 0x1a90; 0x1b50; 0x1bb0; 0x1c40; 0x1c50; 0xa620;
    0xa8d0; 0xa900; 0xa9d0; 0xa9f0; 0xaa50; 0xabf0; 0xff10; 0x104a0; 0x10d30;
    0x11066; 0x110f0; 0x11136; 0x111d0; 0x112f0; 0x11450; 0x114d0; 0x11650;
    0x116c0; 0x11730; 0x118e0; 0x11950; 0x11c50; 0x11d50; 0x11da0; 0x16a60;
    0x16ac0; 0x16b50; 0x1d7ce; 0x1d7d8; 0x1d7e2; 0x1d7ec; 0x1d7f6; 0x1e140;
    0x1e2f0; 0x1e950; 0x1fbf0 ]%N.

#[export] Instance unicode_14_0 : Unicode := {| digit_value := digit_value_in zeros_14_0 |}.

(** ** lerobot/teleoperate_filtered.py *)
Module WristRoll.

Inductive FilterType : Type :=
| NONE | DEADZONE | MOVING_AVERAGE | GRIPPER_LINKED | COMBINED.

Definition FilterType_eqb (a b : FilterType) : bool :=
  match a, b with
  | NONE, NONE | DEADZONE, DEADZONE | MOVING_AVERAGE, MOVING_AVERAGE
  | GRIPPER_LINKED, GRIPPER_LINKED | COMBINED, COMBINED => true
  | _, _ => false
  end.

(** [t in [a, b]] *)
Definition FilterType_in (t : FilterType) (l : list FilterType) : bool :=
  existsb (FilterType_eqb t) l.

Section Filter.
Context {F : Type} `{PyFloat F}.

(** The fields of [TeleoperateFilteredConfig] the filter reads. *)
Record TeleoperateFilteredConfig : Type := {
  cfg_filter_type : FilterType;
  cfg_deadzone_threshold : F;
  cfg_moving_average_window : Z;
  cfg_gripper_change_threshold : F
}.

Record WristRollFilter : Type := {
  filter_type : FilterType;
  deadzone_threshold : F;
  moving_average_window : Z;
  gripper_change_threshold : F;
  wrist_roll_history : list F;
  prev_gripper_value : option F;
  prev_wrist_roll_value : option F
}.

(** [WristRollFilter.__init__] *)
Definition init (config : TeleoperateFilteredConfig) : WristRollFilter := {|
  filter_type := cfg_filter_type config;
  deadzone_threshold := cfg_deadzone_threshold config;
  moving_average_window := cfg_moving_average_window config;
  gripper_change_threshold := cfg_gripper_change_threshold config;
  wrist_roll_history := [];
  prev_gripper_value := None;
  prev_wrist_roll_value := None
|}.

Definition wrist_roll_key : string := "wrist_roll.pos".
Definition gripper_key : string := "gripper.pos".

(** What a call of [apply_filter] leaves behind: the filter object as mutated
    by the call, and either the returned action or the exception raised. *)
Inductive outcome : Type :=
| Returns (self' : WristRollFilter) (action' : dict F)
| Raises (self' : WristRollFilter) (e : exn).

(** Lines 135-137: the deadzone block. *)
Definition deadzone_stage (self : WristRollFilter) (filtered_value : F) : F :=
  if FilterType_in (filter_type self) [DEADZONE; COMBINED] then
    if f_ltb (f_abs filtered_value) (deadzone_threshold self)
    then f_lit 0 else filtered_value
  else filtered_value.

(** Lines 141-143: [append], then [pop(0)] when the list became longer than
    the window. *)
Definition push_history (self : WristRollFilter) (filtered_value : F) : list F :=
  let history := wrist_roll_history self ++ [filtered_value] in
  if (Z.of_nat (length history) >? moving_average_window self)%Z
  then tl history else history.

(** Line 145: [sum(history) / len(history)]; dividing by the integer [0]
    raises. *)
Definition mean (history : list F) : option F :=
  match history with
  | [] => None
  | _ => Some (f_div (py_sum history) (f_of_nat (length history)))
  end.

(** Lines 148-160: the gripper block; returns the new [prev_gripper_value]
    and the filtered value. *)
Definition gripper_stage (self : WristRollFilter) (action : dict F)
    (filtered_value : F) : option F * F :=
  if FilterType_in (filter_type self) [GRIPPER_LINKED; COMBINED] then
    match dict_get gripper_key action with
    | Some current_gripper_value =>
        let filtered_value :=
          match prev_gripper_value self, prev_wrist_roll_value self with
          | Some prev_gripper, Some prev_wrist_roll =>
              let gripper_change :=
                f_abs (f_sub current_gripper_value prev_gripper) in
              if f_gtb gripper_change (gripper_change_threshold self)
              then prev_wrist_roll else filtered_value
          | _, _ => filtered_value
          end in
        (Some current_gripper_value, filtered_value)
    | None => (prev_gripper_value self, filtered_value)
    end
  else (prev_gripper_value self, filtered_value).

Definition set_history (self : WristRollFilter) (h : list F) : WristRollFilter := {|
  filter_type := filter_type self;
  deadzone_threshold := deadzone_threshold self;
  moving_average_window := moving_average_window self;
  gripper_change_threshold := gripper_change_threshold self;
  wrist_roll_history := h;
  prev_gripper_value := prev_gripper_value self;
  prev_wrist_roll_value := prev_wrist_roll_value self
|}.

Definition set_prev (self : WristRollFilter) (g w : option F) : WristRollFilter := {|
  filter_type := filter_type self;
  deadzone_threshold := deadzone_threshold self;
  moving_average_window := moving_average_window self;
  gripper_change_threshold := gripper_change_threshold self;
  wrist_roll_history := wrist_roll_history self;
  prev_gripper_value := g;
  prev_wrist_roll_value := w
|}.

(** Lines 162-172, after the moving-average block. *)
Definition finish (self : WristRollFilter) (action : dict F)
    (filtered_value : F) : outcome :=
  let '(prev_gripper, filtered_value) := gripper_stage self action filtered_value in
  Returns (set_prev self prev_gripper (Some filtered_value))
          (dict_set wrist_roll_key filtered_value action).

(** [WristRollFilter.apply_filter] *)
Definition apply_filter (self : WristRollFilter) (action : dict F) : outcome :=
  match dict_get wrist_roll_key action with
  | None => Returns self action
  | Some original_value =>
      if FilterType_eqb (filter_type self) NONE then Returns self action
      else
        let filtered_value := deadzone_stage self original_value in
        if FilterType_in (filter_type self) [MOVING_AVERAGE; COMBINED] then
          let self := set_history self (push_history self filtered_value) in
          match mean (wrist_roll_history self) with
          | None => Raises self ZeroDivisionError
          | Some filtered_value => finish self action filtered_value
          end
        else finish self action filtered_value
  end.

(** The part of [teleop_loop] that concerns the filter: every action read
    from the leader goes through [apply_filter] and the result is sent to the
    follower; an exception ends the loop.  Returns the filter and the actions
    sent. *)
Fixpoint teleop_loop (self : WristRollFilter) (actions : list (dict F))
    : WristRollFilter * list (dict F) :=
  match actions with
  | [] => (self, [])
  | action :: rest =>
      match apply_filter self action with
      | Returns self' action' =>
          let '(self'', sent) := teleop_loop self' rest in
          (self'', action' :: sent)
      | Raises self' _ => (self', [])
      end
  end.

End Filter.

Arguments TeleoperateFilteredConfig : clear implicits.
Arguments WristRollFilter : clear implicits.
Arguments outcome : clear implicits.

End WristRoll.

(** ** lerobot/teleoperate_elbow_filter.py *)
Module ElbowFlex.

Section Filter.
Context {F : Type} `{PyFloat F}.

(** [numpy.mean] and [numpy.std] are library functions; the filter is
    embedded for any pair of functions standing for them. *)
Variable np_mean : list F -> F.
Variable np_std : list F -> F.

(** The fields of [TeleoperateElbowFilterConfig] the filter reads. *)
Record TeleoperateElbowFilterConfig : Type := {
  cfg_elbow_threshold : F;
  cfg_wrist_deadzone : F;
  cfg_filter_strength : F;
  cfg_adaptive_threshold : bool
}.

Record ElbowFlexFilter : Type := {
  elbow_threshold : F;
  wrist_deadzone : F;
  filter_strength : F;
  adaptive_threshold : bool;
  prev_elbow_value : option F;
  prev_wrist_value : option F;
  elbow_changes_history : list F;
  max_history_size : Z;
  total_frames : nat;
  filtered_frames : nat
}.

(** [ElbowFlexFilter.__init__] *)
Definition init (config : TeleoperateElbowFilterConfig) : ElbowFlexFilter := {|
  elbow_threshold := cfg_elbow_threshold config;
  wrist_deadzone := cfg_wrist_deadzone config;
  filter_strength := cfg_filter_strength config;
  adaptive_threshold := cfg_adaptive_threshold config;
  prev_elbow_value := None;
  prev_wrist_value := None;
  elbow_changes_history := [];
  max_history_size := 100%Z;
  total_frames := 0%nat;
  filtered_frames := 0%nat
|}.

Definition elbow_key : string := "elbow_flex.pos".
Definition wrist_key : string := "wrist_roll.pos".

Definition set_adaptive (self : ElbowFlexFilter) (threshold : F) (history : list F)
    : ElbowFlexFilter := {|
  elbow_threshold := threshold;
  wrist_deadzone := wrist_deadzone self;
  filter_strength := filter_strength self;
  adaptive_threshold := adaptive_threshold self;
  prev_elbow_value := prev_elbow_value self;
  prev_wrist_value := prev_wrist_value self;
  elbow_changes_history := history;
  max_history_size := max_history_size self;
  total_frames := total_frames self;
  filtered_frames := filtered_frames self
|}.

Definition set_prev (self : ElbowFlexFilter) (e w : option F) : ElbowFlexFilter := {|
  elbow_threshold := elbow_threshold self;
  wrist_deadzone := wrist_deadzone self;
  filter_strength := filter_strength self;
  adaptive_threshold := adaptive_threshold self;
  prev_elbow_value := e;
  prev_wrist_value := w;
  elbow_changes_history := elbow_changes_history self;
  max_history_size := max_history_size self;
  total_frames := total_frames self;
  filtered_frames := filtered_frames self
|}.

Definition set_counters (self : ElbowFlexFilter) (total filtered : nat)
    : ElbowFlexFilter := {|
  elbow_threshold := elbow_threshold self;
  wrist_deadzone := wrist_deadzone self;
  filter_strength := filter_strength self;
  adaptive_threshold := adaptive_threshold self;
  prev_elbow_value := prev_elbow_value self;
  prev_wrist_value := prev_wrist_value self;
  elbow_changes_history := elbow_changes_history self;
  max_history_size := max_history_size self;
  total_frames := total;
  filtered_frames := filtered
|}.

(** Lines 121-123: [append], then [pop(0)] when longer than
    [max_history_size]. *)
Definition push_history (self : ElbowFlexFilter) (elbow_change : F) : list F :=
  let history := elbow_changes_history self ++ [elbow_change] in
  if (Z.of_nat (length history) >? max_history_size self)%Z
  then tl history else history.

(** [ElbowFlexFilter.update_adaptive_threshold] *)
Definition update_adaptive_threshold (self : ElbowFlexFilter) (elbow_change : F)
    : ElbowFlexFilter :=
  if negb (adaptive_threshold self) then self
  else
    let history := push_history self elbow_change in
    if (10 <=? length history)%nat then
      let mean_change := np_mean history in
      let std_change := np_std history in
      let new_threshold := f_add mean_change (f_mul (f_lit (15 # 10)) std_change) in
      set_adaptive self
        (f_add (f_mul (f_lit (9 # 10)) (elbow_threshold self))
               (f_mul (f_lit (1 # 10)) new_threshold))
        history
    else set_adaptive self (elbow_threshold self) history.

(** Lines 177-182: interpolation with the previous value. *)
Definition blend (self : ElbowFlexFilter) (current_wrist : F) : F :=
  match prev_wrist_value self with
  | Some prev_wrist =>
      f_add (f_mul (f_sub (f_lit 1) (filter_strength self)) current_wrist)
            (f_mul (filter_strength self) prev_wrist)
  | None => current_wrist
  end.

(** [ElbowFlexFilter.apply_filter]: the filter object as mutated by the
    call, and the returned action. *)
Definition apply_filter (self : ElbowFlexFilter) (action : dict F)
    : ElbowFlexFilter * dict F :=
  match dict_get elbow_key action, dict_get wrist_key action with
  | Some current_elbow, Some current_wrist =>
      let self := set_counters self (total_frames self + 1)%nat (filtered_frames self) in
      match prev_elbow_value self with
      | None => (set_prev self (Some current_elbow) (Some current_wrist), action)
      | Some prev_elbow =>
          let elbow_change := f_abs (f_sub current_elbow prev_elbow) in
          let self := update_adaptive_threshold self elbow_change in
          let '(self, action) :=
            if f_gtb elbow_change (elbow_threshold self) then
              (* should_filter *)
              let self :=
                set_counters self (total_frames self) (filtered_frames self + 1)%nat in
              (self, dict_set wrist_key (blend self current_wrist) action)
            else if f_ltb (f_abs current_wrist) (wrist_deadzone self) then
              (self, dict_set wrist_key (f_lit 0) action)
            else (self, action) in
          (set_prev self (Some current_elbow) (dict_get wrist_key action), action)
      end
  | _, _ => (self, action)
  end.

(** The part of [teleop_loop] that concerns the filter; returns the filter
    and the actions sent to the follower. *)
Fixpoint teleop_loop (self : ElbowFlexFilter) (actions : list (dict F))
    : ElbowFlexFilter * list (dict F) :=
  match actions with
  | [] => (self, [])
  | action :: rest =>
      let '(self', action') := apply_filter self action in
      let '(self'', sent) := teleop_loop self' rest in
      (self'', action' :: sent)
  end.

End Filter.

Arguments TeleoperateElbowFilterConfig : clear implicits.
Arguments ElbowFlexFilter : clear implicits.

End ElbowFlex.

(** ** Recordings, files and observable effects *)
Section Recording.
Variable F : Type.

(** One captured frame, [{"timestamp": ..., "action": ...}]. *)
Record frame : Type := { timestamp : F; action : dict F }.

(** The values found in a pickled recording. *)
Inductive pyval : Type :=
| PInt (z : Z)
| PFloat (x : F)
| PStrList (l : list string)
| PFrames (l : list frame).

(** A recording is a dict with string keys. *)
Definition recording : Type := dict pyval.

(** What a path of the directory holds: a pickled dict, something
    [pickle.load] rejects, or a sub-directory. *)
Inductive file : Type :=
| Pickled (data : recording)
| NotAPickle
| Directory.

(** The entries of the working directory, in the order in which the
    directory lists them. *)
Definition files : Type := list (pystr * file).

Fixpoint file_at (path : pystr) (fs : files) : option file :=
  match fs with
  | [] => None
  | (p, f) :: fs' => if pystr_eqb path p then Some f else file_at path fs'
  end.

(** The directory after [path] was created or overwritten. *)
Fixpoint write_file (path : pystr) (f : file) (fs : files) : files :=
  match fs with
  | [] => [(path, f)]
  | (p, f') :: fs' =>
      if pystr_eqb path p then (path, f) :: fs' else (p, f') :: write_file path f fs'
  end.

Definition file_names (fs : files) : list pystr := map fst fs.

(** Effects a script has on the devices, the disk and the terminal.  A
    printed line is recorded by the constant part of its text; [EDump] is a
    [pickle.dump] that returned. *)
Inductive event : Type :=
| EConnect (device : string)
| EDisconnect (device : string)
| ESendAction (action : dict F)
| EDump (path : pystr) (data : recording)
| ESleep
| EPrint (msg : string).

Record world : Type := { w_files : files; w_trace : list event }.

Definition emit (w : world) (evs : list event) : world :=
  {| w_files := w_files w; w_trace := w_trace w ++ evs |}.

(** What the file system or the user may oppose to the three steps by which
    [save_recording] writes: [output_file.parent.mkdir(parents=True,
    exist_ok=True)] raises; [open(output_file, "wb")] raises; or
    [pickle.dump(data, f)] raises after the file was opened. *)
Inductive write_fault : Type :=
| MkdirRaises (e : exn)
| OpenRaises (e : exn)
| DumpRaises (e : exn).

(** The three steps.  [open] refuses a directory; it truncates the file, so
    that a [pickle.dump] that raises leaves an incomplete pickle behind. *)
Definition dump (fault : option write_fault) (w : world) (path : pystr)
    (data : recording) : world * option exn :=
  match fault with
  | Some (MkdirRaises e) => (w, Some e)
  | _ =>
      match file_at path (w_files w) with
      | Some Directory => (w, Some (OtherException "IsADirectoryError"))
      | _ =>
          match fault with
          | Some (OpenRaises e) => (w, Some e)
          | Some (DumpRaises e) =>
              ({| w_files := write_file path NotAPickle (w_files w);
                  w_trace := w_trace w |}, Some e)
          | _ =>
              ({| w_files := write_file path (Pickled data) (w_files w);
                  w_trace := w_trace w ++ [EDump path data] |}, None)
          end
      end
  end.

End Recording.

Arguments PInt {F} z.
Arguments PStrList {F} l.
Arguments NotAPickle {F}.
Arguments Directory {F}.
Arguments EConnect {F} device.
Arguments EDisconnect {F} device.
Arguments ESleep {F}.
Arguments EPrint {F} msg.

(** [l[-1]] *)
Definition py_last {A} (l : list A) : option A :=
  match rev l with x :: _ => Some x | [] => None end.

(** ** record_motion.py *)
Module RecordMotion.
Section Main.
Context {F : Type}.

(** [save_recording]: the exception that leaves it, if any.  The lines it
    prints after the write format the number of frames, a float and the
    keys of a frame. *)
Definition save_recording (fault : option write_fault) (frames : list (frame F))
    (output_path : pystr) (fps : Z) (w : world F) : world F * option exn :=
  let data : recording F :=
    [ ("fps", PInt fps);
      ("frames", PFrames frames);
      ("num_frames", PInt (Z.of_nat (length frames)));
      ("duration", match py_last frames with
                   | Some f => PFloat (timestamp f)
                   | None => PInt 0
                   end);
      ("motor_names", PStrList match frames with
                               | f :: _ => dict_keys (action f)
                               | [] => []
                               end) ] in
  match dump fault w output_path data with
  | (w, Some e) => (w, Some e)
  | (w, None) =>
      (emit w [EPrint "Recording saved to"; EPrint "Total frames";
               EPrint "Duration"; EPrint "Motors"], None)
  end.

(** The command-line arguments [main] uses after the devices are built. *)
Record Args : Type := { args_output : pystr; args_fps : Z }.

(** One iteration of the recording loop, as the leader arm and the user
    drive it: the iteration completes; or the loop is left before the frame
    is appended ([leader.get_action()] raises, or the user interrupts); or
    the frame is appended and the user interrupts before
    [frame_count % args.fps] is evaluated; or the frame is appended and the
    progress line or the wait that follows raises or is interrupted. *)
Inductive tick : Type :=
| TickOk (timestamp : F) (action : dict F)
| TickGetActionRaises (e : exn)
| TickAppendedRaises (timestamp : F) (action : dict F) (e : exn)
| TickWaitRaises (timestamp : F) (action : dict F) (e : exn).

(** The behaviour of the leader arm, of the user and of the file system
    during one run.  The class [SO100Leader] is not among the sources: what
    its methods raise and what [is_connected] answers in the [finally] block
    are parameters. *)
Record session : Type := {
  connect_raises : option exn;
  ticks : list tick;
  is_connected : bool;
  disconnect_raises : option exn;
  save_fault : option write_fault
}.

(** The [while True] loop.  It ends only by an exception; [None] when the
    ticks run out while it is still looping.  [frame_count % args.fps] and
    [1 / args.fps] divide by [args.fps]. *)
Fixpoint record_loop (fps : Z) (ticks : list tick) (frames : list (frame F))
    (w : world F) : option (list (frame F) * world F * exn) :=
  match ticks with
  | [] => None
  | TickGetActionRaises e :: _ => Some (frames, w, e)
  | TickAppendedRaises ts a e :: _ =>
      Some (frames ++ [{| timestamp := ts; action := a |}], w, e)
  | TickOk ts a :: rest =>
      let frames := frames ++ [{| timestamp := ts; action := a |}] in
      if (fps =? 0)%Z then Some (frames, w, ZeroDivisionError)
      else
        let w := if (Z.of_nat (length frames) mod fps =? 0)%Z
                 then emit w [EPrint "Recorded"] else w in
        record_loop fps rest frames w
  | TickWaitRaises ts a e :: _ =>
      let frames := frames ++ [{| timestamp := ts; action := a |}] in
      if (fps =? 0)%Z then Some (frames, w, ZeroDivisionError)
      else
        let w := if (Z.of_nat (length frames) mod fps =? 0)%Z
                 then emit w [EPrint "Recorded"] else w in
        Some (frames, w, e)
  end.

(** The [try] block: what was captured, and the exception that ended it. *)
Definition try_block (args : Args) (env : session) (w : world F)
    : option (list (frame F) * world F * exn) :=
  let w := emit w [EPrint "Connecting to leader arm"; EConnect "leader"] in
  match connect_raises env with
  | Some e => Some ([], w, e)
  | None =>
      let w := emit w [EPrint "Connected successfully!"; EPrint "Recording"] in
      record_loop (args_fps args) (ticks env) [] w
  end.

(** The [finally] block; the exception it raises, if any, replaces the
    pending one. *)
Definition finally_block (args : Args) (env : session) (frames : list (frame F))
    (pending : option exn) (w : world F) : world F * option exn :=
  let disconnected :=
    if is_connected env then
      let w := emit w [EPrint "Disconnecting leader arm..."; EDisconnect "leader"] in
      (w, disconnect_raises env)
    else (w, None) in
  match disconnected with
  | (w, Some e) => (w, Some e)
  | (w, None) =>
      match frames with
      | [] => (emit w [EPrint "No frames recorded."], pending)
      | _ :: _ =>
          match save_recording (save_fault env) frames (args_output args)
                  (args_fps args) w with
          | (w, Some e) => (w, Some e)
          | (w, None) => (w, pending)
          end
      end
  end.

(** [main]: the final world and the exception that leaves [main], if any;
    [None] while the loop has not been left. *)
Definition main (args : Args) (env : session) (w : world F)
    : option (world F * option exn) :=
  match try_block args env w with
  | None => None
  | Some (frames, w, e) =>
      let '(w, pending) :=
        if is_Exception e
        then (emit w [EPrint "Error during recording"], Some e)
        else (emit w [EPrint "Recording stopped by user."], None) in
      Some (finally_block args env frames pending w)
  end.

End Main.

Arguments tick : clear implicits.
Arguments session : clear implicits.

End RecordMotion.

(** ** record_with_teleop.py *)
Module RecordWithTeleop.
Section Main.
Context {F : Type}.

(** [save_recording] *)
Definition save_recording (fault : option write_fault) (frames : list (frame F))
    (output_path : pystr) (fps : Z) (w : world F) : world F * option exn :=
  let data : recording F :=
    [ ("fps", PInt fps);
      ("frames", PFrames frames);
      ("num_frames", PInt (Z.of_nat (length frames)));
      ("duration", match py_last frames with
                   | Some f => PFloat (timestamp f)
                   | None => PInt 0
                   end);
      ("motor_names", PStrList match frames with
                               | f :: _ => dict_keys (action f)
                               | [] => []
                               end) ] in
  match dump fault w output_path data with
  | (w, Some e) => (w, Some e)
  | (w, None) =>
      (emit w [EPrint "Recording saved to"; EPrint "Total frames";
               EPrint "Duration"; EPrint "Motors"], None)
  end.

Record Args : Type := { args_output : pystr; args_fps : Z }.

(** One iteration of the loop: it completes; or the loop is left before
    [follower.send_action] is called ([leader.get_action()] raises, or the
    user interrupts); or [follower.send_action(action)] raises; or the
    action is sent and the user interrupts before the frame is appended; or
    the frame is appended and the user interrupts before
    [frame_count % args.fps] is evaluated; or the frame is appended and the
    progress line or the wait that follows raises or is interrupted. *)
Inductive tick : Type :=
| TickOk (timestamp : F) (action : dict F)
| TickGetActionRaises (e : exn)
| TickSendActionRaises (action : dict F) (e : exn)
| TickSentRaises (action : dict F) (e : exn)
| TickAppendedRaises (timestamp : F) (action : dict F) (e : exn)
| TickWaitRaises (timestamp : F) (action : dict F) (e : exn).

Record session : Type := {
  leader_connect_raises : option exn;
  follower_connect_raises : option exn;
  ticks : list tick;
  leader_is_connected : bool;
  follower_is_connected : bool;
  leader_disconnect_raises : option exn;
  follower_disconnect_raises : option exn;
  save_fault : option write_fault
}.

Fixpoint record_loop (fps : Z) (ticks : list tick) (frames : list (frame F))
    (w : world F) : option (list (frame F) * world F * exn) :=
  match ticks with
  | [] => None
  | TickGetActionRaises e :: _ => Some (frames, w, e)
  | TickSendActionRaises a e :: _ => Some (frames, w, e)
  | TickSentRaises a e :: _ => Some (frames, emit w [ESendAction a], e)
  | TickAppendedRaises ts a e :: _ =>
      Some (frames ++ [{| timestamp := ts; action := a |}], emit w [ESendAction a], e)
  | TickOk ts a :: rest =>
      let w := emit w [ESendAction a] in
      let frames := frames ++ [{| timestamp := ts; action := a |}] in
      if (fps =? 0)%Z then Some (frames, w, ZeroDivisionError)
      else
        let w := if (Z.of_nat (length frames) mod fps =? 0)%Z
                 then emit w [EPrint "Recorded"] else w in
        record_loop fps rest frames w
  | TickWaitRaises ts a e :: _ =>
      let w := emit w [ESendAction a] in
      let frames := frames ++ [{| timestamp := ts; action := a |}] in
      if (fps =? 0)%Z then Some (frames, w, ZeroDivisionError)
      else
        let w := if (Z.of_nat (length frames) mod fps =? 0)%Z
                 then emit w [EPrint "Recorded"] else w in
        Some (frames, w, e)
  end.

Definition try_block (args : Args) (env : session) (w : world F)
    : option (list (frame F) * world F * exn) :=
  let w := emit w [EPrint "Connecting to leader arm"; EConnect "leader"] in
  match leader_connect_raises env with
  | Some e => Some ([], w, e)
  | None =>
      let w := emit w [EPrint "Leader arm connected successfully!";
                       EPrint "Connecting to follower arm"; EConnect "follower"] in
      match follower_connect_raises env with
      | Some e => Some ([], w, e)
      | None =>
          let w := emit w [EPrint "Follower arm connected successfully!";
                           EPrint "Recording"] in
          record_loop (args_fps args) (ticks env) [] w
      end
  end.

Definition finally_block (args : Args) (env : session) (frames : list (frame F))
    (pending : option exn) (w : world F) : world F * option exn :=
  let leader_done :=
    if leader_is_connected env then
      let w := emit w [EPrint "Disconnecting leader arm..."; EDisconnect "leader"] in
      (w, leader_disconnect_raises env)
    else (w, None) in
  match leader_done with
  | (w, Some e) => (w, Some e)
  | (w, None) =>
      let follower_done :=
        if follower_is_connected env then
          let w := emit w [EPrint "Disconnecting follower arm...";
                           EDisconnect "follower"] in
          (w, follower_disconnect_raises env)
        else (w, None) in
      match follower_done with
      | (w, Some e) => (w, Some e)
      | (w, None) =>
          match frames with
          | [] => (emit w [EPrint "No frames recorded."], pending)
          | _ :: _ =>
              match save_recording (save_fault env) frames (args_output args)
                      (args_fps args) w with
              | (w, Some e) => (w, Some e)
              | (w, None) => (w, pending)
              end
          end
      end
  end.

Definition main (args : Args) (env : session) (w : world F)
    : option (world F * option exn) :=
  match try_block args env w with
  | None => None
  | Some (frames, w, e) =>
      let '(w, pending) :=
        if is_Exception e
        then (emit w [EPrint "Error during recording"], Some e)
        else (emit w [EPrint "Recording stopped by user."], None) in
      Some (finally_block args env frames pending w)
  end.

End Main.

Arguments tick : clear implicits.
Arguments session : clear implicits.

End RecordWithTeleop.

(** ** File names, regular expressions and sorting as the player uses them *)

(** The code points of the characters [.] and newline. *)
Definition dot : N := 46.
Definition newline : N := 10.

(** [name.rfind(".")], as the pair of what precedes the last dot and what
    starts at it. *)
Fixpoint rsplit_dot (name : pystr) : option (pystr * pystr) :=
  match name with
  | [] => None
  | c :: rest =>
      match rsplit_dot rest with
      | Some (before, from_dot) => Some (c :: before, from_dot)
      | None => if (c =? dot)%N then Some ([], name) else None
      end
  end.

(** [pathlib]'s [suffix] and [stem] of a final path component: the last dot
    counts when it is neither the first nor the last character. *)
Definition py_suffix (name : pystr) : pystr :=
  match rsplit_dot name with
  | Some (before, from_dot) =>
      if negb (pystr_eqb before []) && (2 <=? length from_dot)%nat
      then from_dot else []
  | None => []
  end.

Definition py_stem (name : pystr) : pystr :=
  match rsplit_dot name with
  | Some (before, from_dot) =>
      if negb (pystr_eqb before []) && (2 <=? length from_dot)%nat
      then before else name
  | None => name
  end.

(** [fnmatch] of a name against ["*" + suffix]. *)
Fixpoint ends_with (suffix s : pystr) : bool :=
  pystr_eqb suffix s ||
  match s with
  | [] => false
  | _ :: rest => ends_with suffix rest
  end.

Fixpoint drop_prefix (p s : pystr) : option pystr :=
  match p, s with
  | [], _ => Some s
  | a :: p', b :: s' => if (a =? b)%N then drop_prefix p' s' else None
  | _ :: _, [] => None
  end.

Section Digits.
Context {U : Unicode}.

(** [\d] *)
Definition is_digit (c : N) : bool :=
  match digit_value c with Some _ => true | None => false end.

(** The longest run of digits at the start of a [str], and the rest. *)
Fixpoint take_digits (s : pystr) : pystr * pystr :=
  match s with
  | c :: rest =>
      if is_digit c then
        let '(ds, tail) := take_digits rest in (c :: ds, tail)
      else ([], s)
  | [] => ([], [])
  end.

(** [re.match(p + r"(\d+)", s)] for a literal [p]: the digits of group 1 and
    what follows the match. *)
Definition re_match_digits (p : string) (s : pystr) : option (pystr * pystr) :=
  match drop_prefix (str p) s with
  | Some rest =>
      let '(ds, tail) := take_digits rest in
      match ds with [] => None | _ :: _ => Some (ds, tail) end
  | None => None
  end.

(** [int(ds)] for a [str] of decimal digits, which is what group 1 holds.
    (A file name is too short for the limit that [int] puts on the number
    of digits.) *)
Definition int_of_digits (ds : pystr) : N :=
  fold_left (fun n c => (10 * n + match digit_value c with
                                  | Some d => d
                                  | None => 0
                                  end)%N) ds 0%N.

End Digits.

(** The tuples [sort_key] returns: [(0, num)], [(1, num)], [(2, filename)]. *)
Inductive sort_key_t : Type :=
| KConf (num : N)
| KAnx (num : N)
| KOther (filename : pystr).

Definition group (k : sort_key_t) : nat :=
  match k with KConf _ => 0 | KAnx _ => 1 | KOther _ => 2 end.

(** [a < b] on these tuples: by the first component, then by the second. *)
Definition key_ltb (a b : sort_key_t) : bool :=
  match a, b with
  | KConf n, KConf m => (n <? m)%N
  | KAnx n, KAnx m => (n <? m)%N
  | KOther s, KOther t => pystr_ltb s t
  | _, _ => (group a <? group b)%nat
  end.

(** The body of the nested function [sort_key], from the name it extracted. *)
Definition conf_anx_key {U : Unicode} (filename : pystr) : sort_key_t :=
  match re_match_digits "conf" filename with
  | Some (ds, _) => KConf (int_of_digits ds)
  | None =>
      match re_match_digits "anx" filename with
      | Some (ds, _) => KAnx (int_of_digits ds)
      | None => KOther filename
      end
  end.

(** [list.sort(key=...)]: a stable sort that compares keys with [<].  Each
    element is inserted after the elements already placed that it is not
    smaller than. *)
Section Sort.
Variables (A K : Type) (key : A -> K) (ltb : K -> K -> bool).

Fixpoint insert_by_key (x : A) (sorted : list A) : list A :=
  match sorted with
  | [] => [x]
  | y :: rest =>
      if ltb (key x) (key y) then x :: sorted else y :: insert_by_key x rest
  end.

Definition sort_by_key (l : list A) : list A :=
  fold_left (fun sorted x => insert_by_key x sorted) l [].

End Sort.

(** ** What the three players share *)

Definition required_keys : list string := ["fps"; "frames"; "num_frames"].

(** [ValueError(f"Invalid recording file: missing '{key}'")] *)
Definition missing_key_error (key : string) : exn :=
  ValueError ("Invalid recording file: missing '" ++ key ++ "'").

(** [for key in required_keys: if key not in data: ...]: the first key that
    is missing. *)
Definition first_missing {V} (keys : list string) (data : dict V) : option string :=
  find (fun key => negb (dict_mem key data)) keys.

(** How the follower arm and the user drive one frame of a replay: the
    iteration completes; or the loop is left before the action is sent
    ([follower.send_action] raises, or the user interrupts); or the action
    is sent and the user interrupts before [(idx + 1) % fps] is evaluated;
    or the progress line or the wait after it raises or is interrupted. *)
Inductive step : Type :=
| StepOk
| SendRaises (e : exn)
| SentRaises (e : exn)
| WaitRaises (e : exn).

Section Replay.
Context {F : Type} `{PyFloat F}.

(** [recording["frames"]] as the [for] loop sees it: a list of frames, or
    something the first iteration rejects with a [TypeError]. *)
Definition frames_of (v : pyval F) : option (list (frame F)) :=
  match v with
  | PFrames l => Some l
  | PStrList [] => Some []
  | _ => None
  end.

(** [(idx + 1) % fps] and [1 / fps]: the exception they raise, if any. *)
Definition fps_error (v : pyval F) : option exn :=
  match v with
  | PInt z => if (z =? 0)%Z then Some ZeroDivisionError else None
  | PFloat x =>
      if f_leb x (f_lit 0) && f_leb (f_lit 0) x then Some ZeroDivisionError else None
  | _ => Some (OtherException "TypeError")
  end.

(** The format specifications [.1f] and [.2f]: the exception they raise, if
    any.  An [int] is converted to a float first, which fails from
    [2**1024 - 2**970] on, the first integer that does not round to a finite
    float. *)
Definition format_f_error (v : pyval F) : option exn :=
  match v with
  | PFloat _ => None
  | PInt z =>
      if (2 ^ 1024 - 2 ^ 970 <=? Z.abs z)%Z then Some (OtherException "OverflowError")
      else None
  | _ => Some (OtherException "TypeError")
  end.

(** A replacement field without format specification, [f"{v}"]: the
    exception it raises, if any.  [str] refuses an [int] of more than 4300
    digits (CPython 3.10.7 and later, with the default limit). *)
Definition int_str_error : exn :=
  ValueError "Exceeds the limit (4300 digits) for integer string conversion".

Definition str_error (v : pyval F) : option exn :=
  match v with
  | PInt z => if (10 ^ 4300 <=? Z.abs z)%Z then Some int_str_error else None
  | _ => None
  end.

(** [', '.join(v)]: the exception it raises, if any. *)
Definition join_error (v : pyval F) : option exn :=
  match v with
  | PStrList _ | PFrames [] => None
  | _ => Some (OtherException "TypeError")
  end.

(** The exception raised by formatting [data.get(key, default)], for a
    default that can be formatted. *)
Definition field_error (check : pyval F -> option exn) (key : string)
    (data : recording F) : option exn :=
  match dict_get key data with Some v => check v | None => None end.

(** The fields of one formatted line are evaluated from left to right. *)
Definition first_error (errors : list (option exn)) : option exn :=
  match find (fun r : option exn => match r with Some _ => true | None => false end)
             errors with
  | Some r => r
  | None => None
  end.

(** Lines printed in turn, each given with the exception that building its
    text raises, if any: such a line ends the sequence, and nothing of it is
    printed. *)
Fixpoint print_lines (lines : list (option exn * string)) (w : world F)
    : world F * option exn :=
  match lines with
  | [] => (w, None)
  | (Some e, _) :: _ => (w, Some e)
  | (None, msg) :: rest => print_lines rest (emit w [EPrint msg])
  end.

(** The [for idx, frame in enumerate(frames)] loop of the three players;
    a missing script entry stands for [StepOk]. *)
Fixpoint replay_frames (fps : pyval F) (frames : list (frame F)) (steps : list step)
    (w : world F) : world F * option exn :=
  match frames with
  | [] => (w, None)
  | frame :: rest =>
      match hd StepOk steps with
      | SendRaises e => (w, Some e)
      | SentRaises e => (emit w [ESendAction (action frame)], Some e)
      | st =>
          let w := emit w [ESendAction (action frame)] in
          match fps_error fps with
          | Some e => (w, Some e)
          | None =>
              match st with
              | WaitRaises e => (w, Some e)
              | _ => replay_frames fps rest (tl steps) w
              end
          end
      end
  end.

(** The loop over whatever [recording["frames"]] holds. *)
Definition replay_value (fps frames : pyval F) (steps : list step) (w : world F)
    : world F * option exn :=
  match frames_of frames with
  | Some l => replay_frames fps l steps w
  | None => (w, Some (OtherException "TypeError"))
  end.

End Replay.

(** ** replay_motion.py *)
Module ReplayMotion.
Section Main.
Context {F : Type} `{PyFloat F}.

(** [load_recording]: the recording, or the exception raised. *)
Definition load_recording (input_path : pystr) (w : world F)
    : world F * (recording F + exn) :=
  match file_at input_path (w_files w) with
  | None => (w, inr FileNotFoundError)
  | Some Directory => (w, inr (OtherException "IsADirectoryError"))
  | Some NotAPickle => (w, inr (OtherException "UnpicklingError"))
  | Some (Pickled data) =>
      match first_missing required_keys data with
      | Some key => (w, inr (missing_key_error key))
      | None =>
          match print_lines
                  [ (None, "Loaded recording from");
                    (field_error str_error "num_frames" data, "Frames");
                    (field_error format_f_error "duration" data, "Duration");
                    (field_error str_error "fps" data, "FPS");
                    (field_error join_error "motor_names" data, "Motors") ] w with
          | (w, Some e) => (w, inr e)
          | (w, None) => (w, inl data)
          end
      end
  end.

Record Args : Type := { args_input : pystr; args_loop : bool }.

(** One pass over the frames, and the pause that follows it when looping. *)
Record cycle : Type := { steps : list step; sleep_raises : option exn }.

(** The behaviour of the follower arm and of the user during one run: the
    first pass, and the passes after it when looping. *)
Record session : Type := {
  connect_raises : option exn;
  first_cycle : cycle;
  later_cycles : list cycle;
  is_connected : bool;
  disconnect_raises : option exn
}.

(** The [while True] replay loop; [None] when the described cycles run out
    while it is still looping. *)
Fixpoint replay_loop (loop : bool) (fps frames : pyval F) (c : cycle)
    (later : list cycle) (w : world F) : option (world F * option exn) :=
  let w := emit w [EPrint "Replaying motion"] in
  match replay_value fps frames (steps c) w with
  | (w, Some e) => Some (w, Some e)
  | (w, None) =>
      let w := emit w [EPrint "Replay complete!"] in
      if negb loop then Some (w, None)
      else
        let w := emit w [EPrint "Pausing 2 seconds before next loop..."; ESleep] in
        match sleep_raises c with
        | Some e => Some (w, Some e)
        | None =>
            match later with
            | [] => None
            | c' :: later' => replay_loop loop fps frames c' later' w
            end
        end
  end.

(** [main]: the final world and the exception that leaves [main], if any. *)
Definition main (args : Args) (env : session) (w : world F)
    : option (world F * option exn) :=
  match load_recording (args_input args) w with
  | (w, inr e) => Some (emit w [EPrint "Error loading recording"], None)
  | (w, inl recording) =>
      let w := emit w [EPrint "Connecting to follower arm"; EConnect "follower"] in
      let body :=
        match connect_raises env with
        | Some e => Some (w, Some e)
        | None =>
            let w := emit w [EPrint "Connected successfully!"] in
            match dict_get "fps" recording, dict_get "frames" recording with
            | Some fps, Some frames =>
                replay_loop (args_loop args) fps frames (first_cycle env)
                            (later_cycles env) w
            | _, _ => Some (w, Some (OtherException "KeyError"))
            end
        end in
      match body with
      | None => None
      | Some (w, raised) =>
          let '(w, pending) :=
            match raised with
            | None => (w, None)
            | Some e =>
                if is_Exception e
                then (emit w [EPrint "Error during replay"], Some e)
                else (emit w [EPrint "Replay stopped by user."], None)
            end in
          if is_connected env then
            let w := emit w [EPrint "Disconnecting follower arm..."; EDisconnect "follower"] in
            match disconnect_raises env with
            | Some e => Some (w, Some e)
            | None => Some (w, pending)
            end
          else Some (w, pending)
      end
  end.

End Main.

Arguments session : clear implicits.

End ReplayMotion.

(** ** replay_all.py *)
Module ReplayAll.
Section Main.
Context {F : Type} `{PyFloat F} {U : Unicode}.

(** The nested [sort_key]: the key of [file_path.stem]. *)
Definition sort_key (file_path : pystr) : sort_key_t :=
  conf_anx_key (py_stem file_path).

(** [find_pkl_files]: [glob("*.pkl")] yields the matching entries in the
    order the directory lists them. *)
Definition find_pkl_files (directory : files F) : list pystr :=
  let pkl_files := filter (ends_with (str ".pkl")) (file_names directory) in
  sort_by_key sort_key key_ltb pkl_files.

(** [load_recording]: [None] when loading fails or a key is missing. *)
Definition load_recording (pkl_file : pystr) (w : world F)
    : world F * option (recording F) :=
  match file_at pkl_file (w_files w) with
  | Some (Pickled data) =>
      match first_missing required_keys data with
      | Some _ => (w, None)
      | None => (w, Some data)
      end
  | _ => (emit w [EPrint "load error"], None)
  end.

(** [replay_recording]: the value returned, or the exception that leaves
    the function. *)
Definition replay_recording (recording : recording F) (steps : list step)
    (w : world F) : world F * (bool + exn) :=
  match dict_get "fps" recording, dict_get "frames" recording,
        dict_get "num_frames" recording with
  | Some fps, Some frames, Some num_frames =>
      match first_error [ str_error num_frames;
                          field_error format_f_error "duration" recording;
                          str_error fps ] with
      | Some e => (w, inr e)
      | None =>
          let w := emit w [EPrint "frames, duration, rate"] in
          match replay_value fps frames steps w with
          | (w, None) => (emit w [EPrint "done"], inl true)
          | (w, Some e) =>
              if is_Exception e then (emit w [EPrint "error"], inl false)
              else (w, inr e)
          end
      end
  | _, _, _ => (w, inr (OtherException "KeyError"))
  end.

Record Args : Type := { args_loop : bool }.

(** What happens while one file is replayed, and during the pause after it. *)
Record file_script : Type := { steps : list step; sleep_raises : option exn }.

Definition undisturbed : file_script := {| steps := []; sleep_raises := None |}.

(** The [for idx, pkl_file in enumerate(pkl_files, 1)] loop; [total] is
    [len(pkl_files)].  A missing script entry stands for [undisturbed]. *)
Fixpoint replay_files (loop : bool) (total idx : nat) (pkl_files : list pystr)
    (scripts : list file_script) (w : world F) : world F * option exn :=
  match pkl_files with
  | [] => (w, None)
  | pkl_file :: rest =>
      let sc := hd undisturbed scripts in
      let w := emit w [EPrint "replaying file"] in
      match load_recording pkl_file w with
      | (w, None) =>
          replay_files loop total (S idx) rest (tl scripts) (emit w [EPrint "skip"])
      | (w, Some recording) =>
          match replay_recording recording (steps sc) w with
          | (w, inr e) => (w, Some e)
          | (w, inl success) =>
              if (idx <? total)%nat || loop then
                let w := emit w [EPrint "waiting"; ESleep] in
                match sleep_raises sc with
                | Some e => (w, Some e)
                | None => replay_files loop total (S idx) rest (tl scripts) w
                end
              else replay_files loop total (S idx) rest (tl scripts) w
          end
      end
  end.

(** The behaviour of the follower arm and of the user during one run. *)
Record session : Type := {
  connect_raises : option exn;
  first_cycle : list file_script;
  later_cycles : list (list file_script);
  is_connected : bool;
  disconnect_raises : option exn
}.

(** The [while True] loop over cycles; [None] when the described cycles run
    out while it is still looping. *)
Fixpoint replay_cycles (loop : bool) (pkl_files : list pystr)
    (c : list file_script) (later : list (list file_script)) (w : world F)
    : option (world F * option exn) :=
  let w := if loop then emit w [EPrint "cycle"] else w in
  match replay_files loop (length pkl_files) 1 pkl_files c w with
  | (w, Some e) => Some (w, Some e)
  | (w, None) =>
      if negb loop then Some (w, None)
      else
        let w := emit w [EPrint "cycle complete"] in
        match later with
        | [] => None
        | c' :: later' => replay_cycles loop pkl_files c' later' w
        end
  end.

(** [main] *)
Definition main (args : Args) (env : session) (w : world F)
    : option (world F * option exn) :=
  let pkl_files := find_pkl_files (w_files w) in
  match pkl_files with
  | [] => Some (emit w [EPrint "no .pkl files found"], None)
  | _ :: _ =>
      let w := emit w (EPrint "files found" :: map (fun _ => EPrint "file") pkl_files) in
      let w := emit w [EPrint "connecting"; EConnect "follower"] in
      let body :=
        match connect_raises env with
        | Some e => Some (w, Some e)
        | None =>
            let w := emit w [EPrint "connected"] in
            match replay_cycles (args_loop args) pkl_files (first_cycle env)
                                (later_cycles env) w with
            | None => None
            | Some (w, Some KeyboardInterrupt) =>
                Some (emit w [EPrint "replay stopped"; EPrint "all replays done"], None)
            | Some (w, Some e) => Some (w, Some e)
            | Some (w, None) => Some (emit w [EPrint "all replays done"], None)
            end
        end in
      match body with
      | None => None
      | Some (w, raised) =>
          let '(w, pending) :=
            match raised with
            | None => (w, None)
            | Some e =>
                if is_Exception e then (emit w [EPrint "error"], Some e)
                else (w, Some e)
            end in
          if is_connected env then
            let w := emit w [EPrint "disconnecting"; EDisconnect "follower"] in
            match disconnect_raises env with
            | Some e => Some (w, Some e)
            | None => Some (emit w [EPrint "disconnected"], pending)
            end
          else Some (w, pending)
      end
  end.

End Main.

Arguments session : clear implicits.

End ReplayAll.

(** ** select_and_replay.py *)
Module SelectAndReplay.
Section Main.
Context {F : Type} {U : Unicode}.

(** [re.match(r"(?:anx|conf)\d+$", name)]; [$] also matches before a final
    newline. *)
Definition re_match_recording_name (name : pystr) : bool :=
  let at_end (tail : pystr) := pystr_eqb tail [] || pystr_eqb tail [newline] in
  match re_match_digits "anx" name with
  | Some (_, tail) => at_end tail
  | None =>
      match re_match_digits "conf" name with
      | Some (_, tail) => at_end tail
      | None => false
      end
  end.

(** The nested [sort_key]. *)
Definition sort_key (file_path : pystr) : sort_key_t :=
  let filename :=
    if pystr_eqb (py_suffix file_path) (str ".pkl") then py_stem file_path
    else file_path in
  conf_anx_key filename.

(** [find_pkl_files]: [iterdir()] yields the entries in the order the
    directory lists them. *)
Definition find_pkl_files (directory : files F) : list pystr :=
  let recording_files :=
    map fst
      (filter (fun entry : pystr * file F =>
                 match snd entry with
                 | Directory => false
                 | _ => pystr_eqb (py_suffix (fst entry)) (str ".pkl")
                        || re_match_recording_name (fst entry)
                 end)
              directory) in
  sort_by_key sort_key key_ltb recording_files.

End Main.

Section Menu.
Context {F : Type} `{PyFloat F} {U : Unicode}.

(** [str.strip], [str.lower] and [int] are builtins; the menu is embedded
    for any functions standing for them.  [py_int] answers [None] where
    [int] raises [ValueError]. *)
Variables py_strip py_lower : string -> string.
Variable py_int : string -> option Z.

(** What [load_recording_info] returns; [None] in a field stands for the
    default ["?"]. *)
Record recording_info : Type := {
  info_num_frames : option (pyval F);
  info_duration : pyval F;
  info_fps : option (pyval F)
}.

(** [load_recording_info]: [None] when opening or unpickling fails. *)
Definition load_recording_info (pkl_file : pystr) (w : world F)
    : option recording_info :=
  match file_at pkl_file (w_files w) with
  | Some (Pickled data) =>
      Some {| info_num_frames := dict_get "num_frames" data;
              info_duration := match dict_get "duration" data with
                               | Some v => v
                               | None => PInt 0
                               end;
              info_fps := dict_get "fps" data |}
  | _ => None
  end.

(** What the user does at one prompt: a line is entered, or [input]
    raises. *)
Inductive input : Type :=
| Line (text : string)
| InputRaises (e : exn).

(** The listing loop of [display_menu]; a field of the second line of an
    entry that cannot be formatted raises after the first line was
    printed. *)
Fixpoint list_entries (pkl_files : list pystr) (w : world F) : world F * option exn :=
  match pkl_files with
  | [] => (w, None)
  | pkl_file :: rest =>
      match load_recording_info pkl_file w with
      | Some info =>
          let w := emit w [EPrint "entry"] in
          match first_error
                  [ match info_num_frames info with Some v => str_error v | None => None end;
                    format_f_error (info_duration info);
                    match info_fps info with Some v => str_error v | None => None end ] with
          | None => list_entries rest (emit w [EPrint "frames, duration, rate"; EPrint ""])
          | Some e => (w, Some e)
          end
      | None => list_entries rest (emit w [EPrint "entry (load error)"; EPrint ""])
      end
  end.

(** The [while True] loop of [display_menu]; [n] is [len(pkl_files)].  The
    value returned is [None] or an index; the outer [None] says that the
    inputs ran out while the loop was still prompting. *)
Fixpoint prompt (n : nat) (inputs : list input) (w : world F)
    : option (world F * (option nat + exn)) :=
  match inputs with
  | [] => None
  | i :: rest =>
      let w := emit w [EPrint "select a file"] in
      match i with
      | InputRaises KeyboardInterrupt => Some (emit w [EPrint "bye"], inl None)
      | InputRaises (ValueError _) =>
          prompt n rest (emit w [EPrint "enter a valid number"])
      | InputRaises e => Some (w, inr e)
      | Line text =>
          let choice := py_strip text in
          if String.eqb (py_lower choice) "q" then Some (w, inl None)
          else
            match py_int choice with
            | None => prompt n rest (emit w [EPrint "enter a valid number"])
            | Some choice_num =>
                if (1 <=? choice_num)%Z && (choice_num <=? Z.of_nat n)%Z
                then Some (w, inl (Some (Z.to_nat (choice_num - 1))))
                else prompt n rest (emit w [EPrint "enter a number in range"])
            end
      end
  end.

(** [display_menu] *)
Definition display_menu (pkl_files : list pystr) (inputs : list input) (w : world F)
    : option (world F * (option nat + exn)) :=
  let w := emit w [EPrint "rule"; EPrint "available recordings"; EPrint "rule"] in
  match list_entries pkl_files w with
  | (w, Some e) => Some (w, inr e)
  | (w, None) => prompt (length pkl_files) inputs (emit w [EPrint "rule"])
  end.

(** [load_recording]: the recording, or the exception raised. *)
Definition load_recording (pkl_file : pystr) (w : world F)
    : world F * (recording F + exn) :=
  match file_at pkl_file (w_files w) with
  | None => (w, inr FileNotFoundError)
  | Some Directory => (w, inr (OtherException "IsADirectoryError"))
  | Some NotAPickle => (w, inr (OtherException "UnpicklingError"))
  | Some (Pickled data) =>
      match first_missing required_keys data with
      | Some key => (w, inr (missing_key_error key))
      | None =>
          match print_lines
                  [ (None, "loaded");
                    (field_error str_error "num_frames" data, "frames");
                    (field_error format_f_error "duration" data, "duration");
                    (field_error str_error "fps" data, "rate") ] w with
          | (w, Some e) => (w, inr e)
          | (w, None) => (w, inl data)
          end
      end
  end.

(** The [while True] loop of [replay_recording]; [None] when the described
    cycles run out while it is still looping. *)
Fixpoint replay_loop (loop_mode : bool) (fps frames : pyval F) (c : ReplayMotion.cycle)
    (later : list ReplayMotion.cycle) (w : world F) : option (world F * option exn) :=
  let w := emit w [EPrint "replaying"] in
  match replay_value fps frames (ReplayMotion.steps c) w with
  | (w, Some e) => Some (w, Some e)
  | (w, None) =>
      let w := emit w [EPrint "replay complete"] in
      if negb loop_mode then Some (w, None)
      else
        let w := emit w [EPrint "next loop in 2 seconds"; ESleep] in
        match ReplayMotion.sleep_raises c with
        | Some e => Some (w, Some e)
        | None =>
            match later with
            | [] => None
            | c' :: later' => replay_loop loop_mode fps frames c' later' w
            end
        end
  end.

(** [replay_recording]: the exception that leaves the function, if any;
    [KeyboardInterrupt] is caught here. *)
Definition replay_recording (recording : recording F) (loop_mode : bool)
    (c : ReplayMotion.cycle) (later : list ReplayMotion.cycle) (w : world F)
    : option (world F * option exn) :=
  match dict_get "fps" recording, dict_get "frames" recording with
  | Some fps, Some frames =>
      match replay_loop loop_mode fps frames c later w with
      | None => None
      | Some (w, Some KeyboardInterrupt) => Some (emit w [EPrint "replay stopped"], None)
      | Some (w, raised) => Some (w, raised)
      end
  | _, _ => Some (w, Some (OtherException "KeyError"))
  end.

Record Args : Type := { args_loop : bool }.

(** The behaviour of the user at the menu, and of the follower arm and the
    user during the replay. *)
Record session : Type := {
  inputs : list input;
  connect_raises : option exn;
  first_cycle : ReplayMotion.cycle;
  later_cycles : list ReplayMotion.cycle;
  is_connected : bool;
  disconnect_raises : option exn
}.

(** [main]: the final world and the exception that leaves [main], if any. *)
Definition main (args : Args) (env : session) (w : world F)
    : option (world F * option exn) :=
  let pkl_files := find_pkl_files (w_files w) in
  match pkl_files with
  | [] => Some (emit w [EPrint "no .pkl files found"], None)
  | _ :: _ =>
      match display_menu pkl_files (inputs env) w with
      | None => None
      | Some (w, inr e) => Some (w, Some e)
      | Some (w, inl None) => Some (emit w [EPrint "bye"], None)
      | Some (w, inl (Some selected_idx)) =>
          match nth_error pkl_files selected_idx with
          | None => Some (w, Some (OtherException "IndexError"))
          | Some selected_file =>
              match load_recording selected_file w with
              | (w, inr e) =>
                  if is_Exception e then Some (emit w [EPrint "load error"], None)
                  else Some (w, Some e)
              | (w, inl recording) =>
                  let w := emit w [EPrint "connecting"; EConnect "follower"] in
                  let body :=
                    match connect_raises env with
                    | Some e => Some (w, Some e)
                    | None =>
                        replay_recording recording (args_loop args) (first_cycle env)
                          (later_cycles env) (emit w [EPrint "connected"])
                    end in
                  match body with
                  | None => None
                  | Some (w, raised) =>
                      let w :=
                        match raised with
                        | Some e =>
                            if is_Exception e then emit w [EPrint "replay error"] else w
                        | None => w
                        end in
                      if is_connected env then
                        let w := emit w [EPrint "disconnecting"; EDisconnect "follower"] in
                        match disconnect_raises env with
                        | Some e => Some (w, Some e)
                        | None => Some (emit w [EPrint "disconnected"], raised)
                        end
                      else Some (w, raised)
                  end
              end
          end
      end
  end.

End Menu.

Arguments recording_info : clear implicits.

End SelectAndReplay.

(** ** What the teleoperation scripts share

    [teleoperate_filtered.py], [teleoperate_elbow_filter.py] and
    [teleoperate_wrist_disabled.py] run the same loop around the treatment
    each gives to the action read from the leader.  The lines a filter
    object prints about itself are not recorded. *)
Module Teleop.
Section Session.
Context {F : Type}.

(** How the devices and the user drive one iteration: what
    [teleop.get_action()] returns or raises; what the display block raises,
    when [display_data] is set; what [robot.send_action] and the wait raise;
    whether [duration] is set and has elapsed at the end of the iteration. *)
Record tick : Type := {
  get_action : dict F + exn;
  display_raises : option exn;
  send_action_raises : option exn;
  busy_wait_raises : option exn;
  duration_reached : bool
}.

(** The behaviour of the devices and of the user during one run;
    [action_features] are the keys of [robot.action_features]. *)
Record session : Type := {
  teleop_connect_raises : option exn;
  robot_connect_raises : option exn;
  action_features : list string;
  ticks : list tick;
  rerun_shutdown_raises : option exn;
  teleop_disconnect_raises : option exn;
  robot_disconnect_raises : option exn
}.

(** The fields of the configuration the loop reads. *)
Record Config : Type := { cfg_fps : Z; cfg_display_data : bool }.

Section Loop.
Variable S : Type.

(** What the script does to the action just read: the state it keeps, the
    lines it prints, and the action to send or the exception raised. *)
Variable treat : S -> dict F -> S * list (event F) * (dict F + exn).

(** The statistic lines printed after the table of motor values. *)
Variable report : S -> world F -> world F * option exn.

(** The [while True] loop.  [Some (_, _, None)] when the loop returned
    because [duration] elapsed, [Some (_, _, Some e)] when [e] was raised,
    [None] when the ticks run out while it is still looping.  The measured
    [loop_s] is taken to be positive. *)
Fixpoint while_true (cfg : Config) (ticks : list tick) (self : S) (w : world F)
    : option (S * world F * option exn) :=
  match ticks with
  | [] => None
  | t :: rest =>
      match get_action t with
      | inr e => Some (self, w, Some e)
      | inl action =>
          let '(self, lines, treated) := treat self action in
          let w := emit w lines in
          match treated with
          | inr e => Some (self, w, Some e)
          | inl action =>
              match (if cfg_display_data cfg then display_raises t else None) with
              | Some e => Some (self, w, Some e)
              | None =>
                  match send_action_raises t with
                  | Some e => Some (self, w, Some e)
                  | None =>
                      let w := emit w [ESendAction action] in
                      if (cfg_fps cfg =? 0)%Z then Some (self, w, Some ZeroDivisionError)
                      else
                        match busy_wait_raises t with
                        | Some e => Some (self, w, Some e)
                        | None =>
                            let w := emit w (EPrint "rule" :: EPrint "NAME | NORM"
                                             :: map (fun _ => EPrint "motor") action
                                             ++ [EPrint "time"]) in
                            match report self w with
                            | (w, Some e) => Some (self, w, Some e)
                            | (w, None) =>
                                if duration_reached t then Some (self, w, None)
                                else while_true cfg rest self w
                            end
                        end
                  end
              end
          end
      end
  end.

(** [teleop_loop]: [max] over the action features, the banner, the loop. *)
Definition teleop_loop (banner : list (event F)) (cfg : Config) (env : session)
    (self : S) (w : world F) : option (S * world F * option exn) :=
  match action_features env with
  | [] => Some (self, w, Some (ValueError "max() arg is an empty sequence"))
  | _ :: _ => while_true cfg (ticks env) self (emit w banner)
  end.

(** What the [finally] block prints before it disconnects. *)
Variable final_report : S -> world F -> world F * option exn.

(** The decorated main function: both devices are connected before the
    [try]; [KeyboardInterrupt] is passed over; the [finally] block reports,
    shuts the viewer down when [display_data] is set, and disconnects. *)
Definition teleoperate (banner : list (event F)) (cfg : Config) (env : session)
    (self : S) (w : world F) : option (world F * option exn) :=
  let w := emit w [EConnect "teleop"] in
  match teleop_connect_raises env with
  | Some e => Some (w, Some e)
  | None =>
      let w := emit w [EConnect "robot"] in
      match robot_connect_raises env with
      | Some e => Some (w, Some e)
      | None =>
          match teleop_loop banner cfg env self w with
          | None => None
          | Some (self, w, raised) =>
              let pending :=
                match raised with
                | Some KeyboardInterrupt => None
                | _ => raised
                end in
              match final_report self w with
              | (w, Some e) => Some (w, Some e)
              | (w, None) =>
                  match (if cfg_display_data cfg then rerun_shutdown_raises env
                         else None) with
                  | Some e => Some (w, Some e)
                  | None =>
                      let w := emit w [EDisconnect "teleop"] in
                      match teleop_disconnect_raises env with
                      | Some e => Some (w, Some e)
                      | None =>
                          let w := emit w [EDisconnect "robot"] in
                          match robot_disconnect_raises env with
                          | Some e => Some (w, Some e)
                          | None => Some (w, pending)
                          end
                      end
                  end
              end
          end
      end
  end.

End Loop.
End Session.

Arguments tick : clear implicits.
Arguments session : clear implicits.

End Teleop.

(** ** lerobot/teleoperate_filtered.py, the loop and the main function *)
Module TeleoperateFiltered.
Section Main.
Context {F : Type} `{PyFloat F}.

(** [action = wrist_roll_filter.apply_filter(action)] *)
Definition treat (self : WristRoll.WristRollFilter F) (action : dict F)
    : WristRoll.WristRollFilter F * list (event F) * (dict F + exn) :=
  match WristRoll.apply_filter self action with
  | WristRoll.Returns self' action' => (self', [], inl action')
  | WristRoll.Raises self' e => (self', [], inr e)
  end.

Definition no_report (self : WristRoll.WristRollFilter F) (w : world F)
    : world F * option exn := (w, None).

(** [teleop_loop] *)
Definition teleop_loop (cfg : Teleop.Config) (env : Teleop.session F)
    (self : WristRoll.WristRollFilter F) (w : world F)
    : option (WristRoll.WristRollFilter F * world F * option exn) :=
  Teleop.teleop_loop treat no_report [] cfg env self w.

(** [teleoperate_filtered] *)
Definition teleoperate_filtered (config : WristRoll.TeleoperateFilteredConfig F)
    (cfg : Teleop.Config) (env : Teleop.session F) (w : world F)
    : option (world F * option exn) :=
  Teleop.teleoperate treat no_report no_report [] cfg env (WristRoll.init config) w.

End Main.
End TeleoperateFiltered.

(** ** lerobot/teleoperate_elbow_filter.py, the statistics, the loop and the
       main function *)
Module TeleoperateElbowFilter.
Section Main.
Context {F : Type} `{PyFloat F}.
Variable np_mean : list F -> F.
Variable np_std : list F -> F.

(** [ElbowFlexFilter.get_statistics] *)
Definition get_statistics (self : ElbowFlex.ElbowFlexFilter F) : dict (pyval F) :=
  if (ElbowFlex.total_frames self =? 0)%nat then
    [ ("filter_rate", PFloat (f_lit 0)); ("total_frames", PInt 0);
      ("filtered_frames", PInt 0) ]
  else
    [ ("filter_rate", PFloat (f_div (f_of_nat (ElbowFlex.filtered_frames self))
                                    (f_of_nat (ElbowFlex.total_frames self))));
      ("total_frames", PInt (Z.of_nat (ElbowFlex.total_frames self)));
      ("filtered_frames", PInt (Z.of_nat (ElbowFlex.filtered_frames self)));
      ("current_threshold", PFloat (ElbowFlex.elbow_threshold self)) ].

(** [stats[key]] in a format string: a missing key raises [KeyError]. *)
Definition subscript (stats : dict (pyval F)) (key : string) : option exn :=
  match dict_get key stats with
  | Some _ => None
  | None => Some (OtherException "KeyError")
  end.

(** The statistic lines of [teleop_loop]. *)
Definition report (self : ElbowFlex.ElbowFlexFilter F) (w : world F)
    : world F * option exn :=
  let stats := get_statistics self in
  match subscript stats "filtered_frames", subscript stats "total_frames",
        subscript stats "filter_rate" with
  | None, None, None =>
      let w := emit w [EPrint "filter"] in
      if ElbowFlex.adaptive_threshold self then
        match subscript stats "current_threshold" with
        | None => (emit w [EPrint "threshold"], None)
        | Some e => (w, Some e)
        end
      else (w, None)
  | Some e, _, _ | None, Some e, _ | None, None, Some e => (w, Some e)
  end.

(** The statistic lines of the [finally] block. *)
Definition final_report (self : ElbowFlex.ElbowFlexFilter F) (w : world F)
    : world F * option exn :=
  let final_stats := get_statistics self in
  let w := emit w [EPrint "final statistics"] in
  match subscript final_stats "total_frames" with
  | Some e => (w, Some e)
  | None =>
      let w := emit w [EPrint "total frames"] in
      match subscript final_stats "filtered_frames" with
      | Some e => (w, Some e)
      | None =>
          let w := emit w [EPrint "filtered frames"] in
          match subscript final_stats "filter_rate" with
          | Some e => (w, Some e)
          | None =>
              let w := emit w [EPrint "filter rate"] in
              if ElbowFlex.adaptive_threshold self then
                match subscript final_stats "current_threshold" with
                | None => (emit w [EPrint "final threshold"], None)
                | Some e => (w, Some e)
                end
              else (w, None)
          end
      end
  end.

(** [action = elbow_filter.apply_filter(action)] *)
Definition treat (self : ElbowFlex.ElbowFlexFilter F) (action : dict F)
    : ElbowFlex.ElbowFlexFilter F * list (event F) * (dict F + exn) :=
  let '(self', action') := ElbowFlex.apply_filter np_mean np_std self action in
  (self', [], inl action').

(** [teleop_loop] *)
Definition teleop_loop (cfg : Teleop.Config) (env : Teleop.session F)
    (self : ElbowFlex.ElbowFlexFilter F) (w : world F)
    : option (ElbowFlex.ElbowFlexFilter F * world F * option exn) :=
  Teleop.teleop_loop treat report [] cfg env self w.

(** [teleoperate_elbow_filter] *)
Definition teleoperate_elbow_filter (config : ElbowFlex.TeleoperateElbowFilterConfig F)
    (cfg : Teleop.Config) (env : Teleop.session F) (w : world F)
    : option (world F * option exn) :=
  Teleop.teleoperate treat report final_report [] cfg env (ElbowFlex.init config) w.

End Main.
End TeleoperateElbowFilter.

(** ** lerobot/teleoperate_wrist_disabled.py *)
Module TeleoperateWristDisabled.
Section Main.
Context {F : Type} `{PyFloat F}.

Definition wrist_roll_key : string := "wrist_roll.pos".

(** The block that fixes [wrist_roll.pos] at [0.0], and the warning it
    prints when the value read was larger than [0.1]. *)
Definition disable_wrist_roll (action : dict F) : list (event F) * dict F :=
  match dict_get wrist_roll_key action with
  | Some original_value =>
      (if f_gtb (f_abs original_value) (f_lit (1 # 10))
       then [EPrint "wrist_roll disabled"] else [],
       dict_set wrist_roll_key (f_lit 0) action)
  | None => ([], action)
  end.

(** The loop keeps no state between iterations. *)
Definition treat (self : unit) (action : dict F)
    : unit * list (event F) * (dict F + exn) :=
  let '(lines, action') := disable_wrist_roll action in
  (self, lines, inl action').

Definition no_report (self : unit) (w : world F) : world F * option exn := (w, None).

Definition banner : list (event F) :=
  [EPrint "wrist_roll disabled mode"; EPrint "wrist_roll is fixed at 0.0"; EPrint "rule"].

(** [teleop_loop] *)
Definition teleop_loop (cfg : Teleop.Config) (env : Teleop.session F) (w : world F)
    : option (unit * world F * option exn) :=
  Teleop.teleop_loop treat no_report banner cfg env tt w.

(** [teleoperate_wrist_disabled] *)
Definition teleoperate_wrist_disabled (cfg : Teleop.Config) (env : Teleop.session F)
    (w : world F) : option (world F * option exn) :=
  Teleop.teleoperate treat no_report no_report banner cfg env tt w.

End Main.
End TeleoperateWristDisabled.

(** ** lerobot/teleoperate_logging.py, the deadzone of its loop *)
Module TeleoperateLogging.
Section Loop.
Context {F : Type} `{PyFloat F}.

Definition wrist_roll_key : string := "wrist_roll.pos".

(** [if wrist_roll_key in action: if abs(action[wrist_roll_key]) < 5.0:
    action[wrist_roll_key] = 0.0] *)
Definition deadzone (action : dict F) : dict F :=
  match dict_get wrist_roll_key action with
  | Some value =>
      if f_ltb (f_abs value) (f_lit 5) then dict_set wrist_roll_key (f_lit 0) action
      else action
  | None => action
  end.

End Loop.
End TeleoperateLogging.

(** * Specification-side definitions *)

(** The last [n] elements of a list: what a FIFO of capacity [n] holds. *)
Definition lastn {A} (n : nat) (l : list A) : list A := skipn (length l - n) l.

Section ElbowSpec.
Context {F : Type} {ops : PyFloat F}.
Variables np_mean np_std : list F -> F.

(** The threshold the adaptive rule computes from a history. *)
Definition smoothed (threshold : F) (history : list F) : F :=
  f_add (f_mul (f_lit (9 # 10)) threshold)
        (f_mul (f_lit (1 # 10))
               (f_add (np_mean history) (f_mul (f_lit (15 # 10)) (np_std history)))).

(** The value a tick after the first stores under [wrist_roll.pos]. *)
Definition tick_output (self : ElbowFlex.ElbowFlexFilter F)
    (elbow_change threshold w : F) : F :=
  if f_gtb elbow_change threshold then
    match ElbowFlex.prev_wrist_value self with
    | Some prev_output =>
        f_add (f_mul (f_sub (f_lit 1) (ElbowFlex.filter_strength self)) w)
              (f_mul (ElbowFlex.filter_strength self) prev_output)
    | None => w
    end
  else if f_ltb (f_abs w) (ElbowFlex.wrist_deadzone self) then f_lit 0
  else w.

End ElbowSpec.

(** [x] may stand before [y] in a list sorted by [key]: [y]'s key is not
    smaller. *)
Definition not_after {A K} (key : A -> K) (ltb : K -> K -> bool) (x y : A) : Prop :=
  ltb (key y) (key x) = false.

(** The devices the [finally] block of [record_with_teleop.py] disconnects. *)
Definition teleop_devices {F} (env : RecordWithTeleop.session F) : list string :=
  (if RecordWithTeleop.leader_is_connected env then ["leader"] else []) ++
  (if RecordWithTeleop.follower_is_connected env then ["follower"] else []).

(** The ticks that end the recording loop. *)
Definition tick_raises {F} (t : RecordMotion.tick F) : bool :=
  match t with RecordMotion.TickOk _ _ => false | _ => true end.

Definition teleop_tick_raises {F} (t : RecordWithTeleop.tick F) : bool :=
  match t with RecordWithTeleop.TickOk _ _ => false | _ => true end.

(** Lexical order of two [str]s: [s] is a prefix of [t], or the first code
    point at which they differ is smaller in [s]. *)
Definition lex_le (s t : pystr) : Prop :=
  (exists rest, t = s ++ rest) \/
  (exists common a b s' t',
     s = common ++ a :: s' /\ t = common ++ b :: t' /\ (a < b)%N).

(** The number that a sequence of decimal digits denotes, the most
    significant digit first. *)
Fixpoint number_of (digits : list N) : N :=
  match digits with
  | [] => 0
  | d :: rest => d * 10 ^ N.of_nat (length rest) + number_of rest
  end.

(** [s] spells the number [n] in decimal digits, of any scripts. *)
Definition spells {U : Unicode} (s : pystr) (n : N) : Prop :=
  exists digits, map digit_value s = map Some digits /\ n = number_of digits.

(** [tail] does not start with a decimal digit. *)
Definition stops {U : Unicode} (tail : pystr) : Prop :=
  match tail with [] => True | c :: _ => digit_value c = None end.

(** [name] is a name of the family of [prefix] with the number [n]: the
    prefix, then one or more decimal digits that spell [n], then anything
    that does not go on with a digit. *)
Definition numbered {U : Unicode} (prefix : string) (n : N) (name : pystr) : Prop :=
  exists ds tail,
    name = str prefix ++ ds ++ tail /\ ds <> [] /\ spells ds n /\ stops tail.

Definition in_family {U : Unicode} (prefix : string) (name : pystr) : Prop :=
  exists n, numbered prefix n name.

(** The order of the recordings, on names without their extension: the
    [conf] names by their numbers, then the [anx] names by their numbers,
    then the other names in lexical order. *)
Definition name_precedes {U : Unicode} (a b : pystr) : Prop :=
  (exists n m, numbered "conf" n a /\ numbered "conf" m b /\ (n <= m)%N) \/
  (in_family "conf" a /\ ~ in_family "conf" b) \/
  (exists n m, numbered "anx" n a /\ numbered "anx" m b /\ (n <= m)%N) \/
  (in_family "anx" a /\ ~ in_family "conf" b /\ ~ in_family "anx" b) \/
  (~ in_family "conf" a /\ ~ in_family "anx" a /\
   ~ in_family "conf" b /\ ~ in_family "anx" b /\ lex_le a b).

(** The name by which a recording is ordered: the file name less its
    extension [.pkl], if it has this extension after a name that is not
    empty. *)
Definition bare_name (file_name bare : pystr) : Prop :=
  (bare <> [] /\ file_name = bare ++ str ".pkl") \/
  ((forall b, b <> [] -> file_name <> b ++ str ".pkl") /\ bare = file_name).

(** What [select_and_replay.py] takes for the name of a recording: a name
    with the extension [.pkl], or [anx] or [conf] followed by one or more
    digits and possibly a final newline. *)
Definition recording_name {U : Unicode} (name : pystr) : Prop :=
  (exists b, b <> [] /\ name = b ++ str ".pkl") \/
  (exists prefix ds tail,
     (prefix = "anx" \/ prefix = "conf") /\ name = str prefix ++ ds ++ tail /\
     ds <> [] /\ Forall (fun c => digit_value c <> None) ds /\
     (tail = [] \/ tail = [newline])).

(** [a] may stand before [b] in the order of the recordings. *)
Definition file_precedes {U : Unicode} (a b : pystr) : Prop :=
  exists bare_a bare_b,
    bare_name a bare_a /\ bare_name b bare_b /\ name_precedes bare_a bare_b.

(** What the order of two keys means for the names they come from. *)
Definition key_precedes (a b : sort_key_t) : Prop :=
  match a, b with
  | KConf n, KConf m => (n <= m)%N
  | KAnx n, KAnx m => (n <= m)%N
  | KOther s, KOther t => lex_le s t
  | _, _ => group a < group b
  end.

Section WorldSpec.
Context {F : Type}.

(** The invariant of a recording built from [frames]. *)
Definition recording_of (frames : list (frame F)) (data : recording F) : Prop :=
  dict_get "frames" data = Some (PFrames frames) /\
  dict_get "num_frames" data = Some (PInt (Z.of_nat (length frames))) /\
  (frames = [] ->
     dict_get "duration" data = Some (PInt 0) /\
     dict_get "motor_names" data = Some (PStrList [])) /\
  (forall earlier f, frames = earlier ++ [f] ->
     dict_get "duration" data = Some (PFloat (timestamp f))) /\
  (forall f later, frames = f :: later ->
     dict_get "motor_names" data = Some (PStrList (dict_keys (action f)))).

(** Events that neither write a file nor disconnect a device. *)
Definition quiet (ev : event F) : Prop :=
  match ev with
  | EDump _ _ => False
  | EDisconnect _ => False
  | _ => True
  end.

Definition no_dump (ev : event F) : Prop :=
  match ev with EDump _ _ => False | _ => True end.

(** [w'] is [w] after the events [evs], none of which wrote a file. *)
Definition extends (w w' : world F) (evs : list (event F)) : Prop :=
  w_files w' = w_files w /\ w_trace w' = w_trace w ++ evs.

(** The run from [w] to [w'] stored [frames] under [path], after having
    disconnected every device of [devices]. *)
Definition persisted_after_disconnect (w w' : world F) (path : pystr)
    (frames : list (frame F)) (devices : list string) : Prop :=
  exists data before after,
    file_at path (w_files w') = Some (Pickled data) /\
    dict_get "frames" data = Some (PFrames frames) /\
    w_trace w' = w_trace w ++ before ++ EDump path data :: after /\
    (forall device, In device devices -> In (EDisconnect device) before) /\
    (forall p d, ~ In (EDump p d) before).

(** Nothing stands in the way of writing [path]: no step of the write is
    made to fail, and [path] is not a directory. *)
Definition writable (fault : option write_fault) (path : pystr) (w : world F) : Prop :=
  fault = None /\ file_at path (w_files w) <> Some Directory.

(** The run from [w] to [w'] wrote no file and said so. *)
Definition nothing_written (w w' : world F) : Prop :=
  w_files w' = w_files w /\
  exists evs,
    w_trace w' = w_trace w ++ evs /\
    (forall p d, ~ In (EDump p d) evs) /\
    In (EPrint "No frames recorded.") evs.

End WorldSpec.

(** * Concrete inputs for the examples, on binary64 *)

Definition wrist_config (t : WristRoll.FilterType) (deadzone : Q) (window : Z)
    (gripper : Q) : WristRoll.TeleoperateFilteredConfig float :=
  {| WristRoll.cfg_filter_type := t;
     WristRoll.cfg_deadzone_threshold := f_lit deadzone;
     WristRoll.cfg_moving_average_window := window;
     WristRoll.cfg_gripper_change_threshold := f_lit gripper |}.

(** Deadzone(threshold=5.0) *)
Definition deadzone_5 : WristRoll.WristRollFilter float :=
  WristRoll.init (wrist_config WristRoll.DEADZONE 5 10 5).

(** GripperLinked(change_threshold=5.0) *)
Definition gripper_linked_5 : WristRoll.WristRollFilter float :=
  WristRoll.init (wrist_config WristRoll.GRIPPER_LINKED 20 10 5).

(** MovingAverage(window=3) *)
Definition moving_average_3 : WristRoll.WristRollFilter float :=
  WristRoll.init (wrist_config WristRoll.MOVING_AVERAGE 20 3 5).

Definition gripper_frame (gripper wrist_roll : Q) : dict float :=
  [(WristRoll.gripper_key, f_lit gripper); (WristRoll.wrist_roll_key, f_lit wrist_roll)].

(** The pairs (0,10), (8,12), (8,20). *)
Definition scenario_C : list (dict float) :=
  [gripper_frame 0 10; gripper_frame 8 12; gripper_frame 8 20].

(** A frame whose wrist roll is 0.1. *)
Definition tenth : dict float := [(WristRoll.wrist_roll_key, f_lit (1 # 10))].

(** MovingAverage(window=2) *)
Definition moving_average_2 : WristRoll.WristRollFilter float :=
  WristRoll.init (wrist_config WristRoll.MOVING_AVERAGE 20 2 5).

(** A frame whose wrist roll is [2.0 ** 1023], a finite float. *)
Definition two_to_1023 : float := 0x1p1023%float.

Definition huge : dict float := [(WristRoll.wrist_roll_key, two_to_1023)].

(** Textbook mean and population standard deviation on binary64, standing
    for numpy's in the examples. *)
Definition ref_mean (l : list float) : float :=
  PrimFloat.div (py_sum l) (f_of_nat (length l)).

Definition ref_std (l : list float) : float :=
  let m := ref_mean l in
  PrimFloat.sqrt
    (ref_mean (map (fun x => PrimFloat.mul (PrimFloat.abs (PrimFloat.sub x m))
                                           (PrimFloat.abs (PrimFloat.sub x m))) l)).

(** The default configuration of the elbow filter. *)
Definition elbow_config (adaptive : bool) : ElbowFlex.TeleoperateElbowFilterConfig float :=
  {| ElbowFlex.cfg_elbow_threshold := f_lit 2;
     ElbowFlex.cfg_wrist_deadzone := f_lit 5;
     ElbowFlex.cfg_filter_strength := f_lit (8 # 10);
     ElbowFlex.cfg_adaptive_threshold := adaptive |}.

Definition elbow_frame (elbow wrist : Q) : dict float :=
  [(ElbowFlex.elbow_key, f_lit elbow); (ElbowFlex.wrist_key, f_lit wrist)].

(** The files conf2, anx1, conf1, zeta, anx3, in the order the directory
    lists them. *)
Definition example_directory : files float :=
  [ (str "conf2.pkl", NotAPickle); (str "anx1.pkl", NotAPickle);
    (str "conf1.pkl", NotAPickle); (str "zeta.pkl", NotAPickle);
    (str "anx3.pkl", NotAPickle) ].

(** Names that tell the numeric order from the lexical one, the stem from
    the file name, and the digits of another script (conf followed by the
    Arabic-Indic digit three) from other characters; in the order the
    directory lists them. *)
Definition telling_directory : files float :=
  [ (str "zeta.pkl", NotAPickle); (str "take.pkl", NotAPickle);
    (str "conf12.pkl", NotAPickle); (str "take-2.pkl", NotAPickle);
    (str "anx10.pkl", NotAPickle); (str "abc.pkl", NotAPickle);
    (str "conf" ++ [0x663%N] ++ str ".pkl", NotAPickle);
    (str "anx9.pkl", NotAPickle); (str "conf2.pkl", NotAPickle) ].

Definition empty_world : world float := {| w_files := []; w_trace := [] |}.

(** A frame of the constant input [{shoulder: 12.0}]. *)
Definition shoulder_12 : dict float := [("shoulder", f_lit 12)].

(** A session of [record_motion.py]: one frame is captured, then the user
    interrupts; [disconnect] is what [leader.disconnect()] raises. *)
Definition interrupted_session (disconnect : option exn) : RecordMotion.session float :=
  {| RecordMotion.connect_raises := None;
     RecordMotion.ticks :=
       [RecordMotion.TickOk (f_lit 0) shoulder_12;
        RecordMotion.TickGetActionRaises KeyboardInterrupt];
     RecordMotion.is_connected := true;
     RecordMotion.disconnect_raises := disconnect;
     RecordMotion.save_fault := None |}.

Definition record_args : RecordMotion.Args :=
  {| RecordMotion.args_output := str "recorded_motion.pkl";
     RecordMotion.args_fps := 10 |}.

(** A directory whose first recording lacks ["fps"]. *)
Definition one_frame : frame float := {| timestamp := f_lit 0; action := shoulder_12 |}.

Definition broken_recording : recording float :=
  [("frames", PFrames [one_frame]); ("num_frames", PInt 1)].

Definition good_recording : recording float :=
  [("fps", PInt 10); ("frames", PFrames [one_frame]); ("num_frames", PInt 1)].

Definition replay_world : world float :=
  {| w_files := [(str "conf1.pkl", Pickled broken_recording);
                 (str "conf2.pkl", Pickled good_recording)];
     w_trace := [] |}.

(** * Further specification-side definitions and inputs *)

(** The actions a trace sent to the follower arm, in the order sent. *)
Definition sent_actions {F} (evs : list (event F)) : list (dict F) :=
  flat_map (fun ev => match ev with ESendAction a => [a] | _ => [] end) evs.

(** [n] complete passes over [l], followed by its first [k] elements. *)
Definition passes {A} (l : list A) (n k : nat) : list A :=
  concat (repeat l n) ++ firstn k l.

(** A value that can be written out in decimal: anything but an [int] of
    more than 4300 digits. *)
Definition writes_out {F} (v : pyval F) : bool :=
  match v with PInt z => (Z.abs z <? 10 ^ 4300)%Z | _ => true end.

(** A value that can be written as a float with a fixed number of decimals:
    a float, or an [int] that rounds to a finite float. *)
Definition writes_as_float {F} (v : pyval F) : bool :=
  match v with
  | PFloat _ => true
  | PInt z => (Z.abs z <? 2 ^ 1024 - 2 ^ 970)%Z
  | _ => false
  end.

(** A list of strings. *)
Definition joins {F} (v : pyval F) : bool :=
  match v with
  | PStrList _ => true
  | PFrames l => match l with [] => true | _ :: _ => false end
  | _ => false
  end.

(** [p] holds of the value under [key], if there is one. *)
Definition where_present {F} (key : string) (p : pyval F -> bool) (data : recording F)
    : bool :=
  match dict_get key data with Some v => p v | None => true end.

(** A recording whose summary every player can print: the number of frames
    and the rate can be written out, and the duration, if given, can be
    written as a float. *)
Definition summarizable {F} (data : recording F) : bool :=
  where_present "num_frames" writes_out data && where_present "fps" writes_out data &&
  where_present "duration" writes_as_float data.

(** A recording every player accepts: the three required keys are present,
    its summary can be printed, and the motor names, if given, are a list
    of strings. *)
Definition loadable {F} (data : recording F) : bool :=
  dict_mem "fps" data && dict_mem "frames" data && dict_mem "num_frames" data &&
  summarizable data && where_present "motor_names" joins data.

Definition is_connect {F} (ev : event F) : bool :=
  match ev with EConnect _ => true | _ => false end.

(** Sending the action of a frame. *)
Definition send_of {F} (f : frame F) : event F := ESendAction (action f).

(** Events that touch neither a file nor a connection. *)
Definition plain {F} (ev : event F) : Prop :=
  match ev with
  | ESendAction _ | ESleep | EPrint _ => True
  | _ => False
  end.

(** What the [for] loop of a player iterates over. *)
Definition iterated {F} (v : pyval F) : list (frame F) :=
  match v with PFrames l => l | _ => [] end.

(** The frames a player iterates over when it replays a recording, and
    when it replays the file at [path]. *)
Definition frames_in_recording {F} (data : recording F) : list (frame F) :=
  match dict_get "frames" data with Some v => iterated v | None => [] end.

Definition frames_in_file {F} (path : pystr) (fs : files F) : list (frame F) :=
  match file_at path fs with
  | Some (Pickled data) => frames_in_recording data
  | _ => []
  end.

Definition recorded_actions {F} (path : pystr) (fs : files F) : list (dict F) :=
  map (@action F) (frames_in_file path fs).

(** The actions sent while the files of [visits] are replayed in turn, each
    up to the given number of frames. *)
Definition visits_actions {F} (fs : files F) (visits : list (pystr * nat))
    : list (dict F) :=
  flat_map (fun v => firstn (snd v) (recorded_actions (fst v) fs)) visits.

(** A step that does not end the batch: the device accepts the action, or
    raises something [except Exception] catches. *)
Definition step_survivable (st : step) : bool :=
  match st with
  | StepOk => true
  | SendRaises e | SentRaises e | WaitRaises e => is_Exception e
  end.

(** The file at [path] holds a recording every player accepts. *)
Definition file_loadable {F} (path : pystr) (fs : files F) : bool :=
  match file_at path fs with
  | Some (Pickled data) => loadable data
  | _ => false
  end.

(** A step of a replay in which the iteration gets as far as
    [(idx + 1) % fps]. *)
Definition reaches_division (st : step) : bool :=
  match st with StepOk | WaitRaises _ => true | SendRaises _ | SentRaises _ => false end.

(** A rate by which no frame number can be divided: the integer zero, a
    float that equals zero, or no number at all. *)
Definition unusable_rate {F} `{PyFloat F} (fps : pyval F) : Prop :=
  match fps with
  | PInt z => z = 0%Z
  | PFloat x => f_leb x (f_lit 0) = true /\ f_leb (f_lit 0) x = true
  | _ => True
  end.

(** What the division by such a rate raises. *)
Definition rate_error {F} (fps : pyval F) : exn :=
  match fps with
  | PInt _ | PFloat _ => ZeroDivisionError
  | _ => OtherException "TypeError"
  end.

(** The frames [record_motion.py] holds when its loop is left: one for every
    tick up to the first that raises, that one included when it raised
    after the frame was appended. *)
Fixpoint captured {F} (ticks : list (RecordMotion.tick F)) : list (frame F) :=
  match ticks with
  | [] => []
  | RecordMotion.TickOk ts a :: rest => {| timestamp := ts; action := a |} :: captured rest
  | RecordMotion.TickAppendedRaises ts a _ :: _
  | RecordMotion.TickWaitRaises ts a _ :: _ => [{| timestamp := ts; action := a |}]
  | RecordMotion.TickGetActionRaises _ :: _ => []
  end.

(** The same for [record_with_teleop.py]. *)
Fixpoint teleop_captured {F} (ticks : list (RecordWithTeleop.tick F)) : list (frame F) :=
  match ticks with
  | [] => []
  | RecordWithTeleop.TickOk ts a :: rest =>
      {| timestamp := ts; action := a |} :: teleop_captured rest
  | RecordWithTeleop.TickAppendedRaises ts a _ :: _
  | RecordWithTeleop.TickWaitRaises ts a _ :: _ => [{| timestamp := ts; action := a |}]
  | RecordWithTeleop.TickGetActionRaises _ :: _ => []
  | RecordWithTeleop.TickSendActionRaises _ _ :: _ => []
  | RecordWithTeleop.TickSentRaises _ _ :: _ => []
  end.

(** The action that [record_with_teleop.py] sent to the follower without
    recording it: that of a tick interrupted between [send_action] and
    [frames.append], if the loop was left there. *)
Fixpoint sent_unrecorded {F} (ticks : list (RecordWithTeleop.tick F)) : list (dict F) :=
  match ticks with
  | RecordWithTeleop.TickOk _ _ :: rest => sent_unrecorded rest
  | RecordWithTeleop.TickSentRaises a _ :: _ => [a]
  | _ => []
  end.

(** With [--fps 0] the first division ends the loop. *)
Definition kept {A} (fps : Z) (l : list A) : list A :=
  if (fps =? 0)%Z then firstn 1 l else l.

(** A frame the elbow filter counts: it holds both keys. *)
Definition both_keys {F} (a : dict F) : bool :=
  dict_mem ElbowFlex.elbow_key a && dict_mem ElbowFlex.wrist_key a.

Definition counted {F} (actions : list (dict F)) : nat :=
  length (filter both_keys actions).

(** What relates the two counters of the elbow filter to the first-frame
    flag [prev_elbow_value]. *)
Definition counters_ok {F} (self : ElbowFlex.ElbowFlexFilter F) : Prop :=
  match ElbowFlex.prev_elbow_value self with
  | None => ElbowFlex.total_frames self = 0 /\ ElbowFlex.filtered_frames self = 0
  | Some _ => ElbowFlex.filtered_frames self < ElbowFlex.total_frames self
  end.

(** The history of elbow changes holds one entry per counted frame after
    the first, up to its capacity. *)
Definition history_ok {F} (self : ElbowFlex.ElbowFlexFilter F) : Prop :=
  ElbowFlex.max_history_size self = 100%Z /\
  length (ElbowFlex.elbow_changes_history self) =
    (if ElbowFlex.adaptive_threshold self
     then Nat.min 100 (ElbowFlex.total_frames self - 1) else 0).

(** The filter object a call of [apply_filter] leaves behind. *)
Definition outcome_state {F} (o : WristRoll.outcome F) : WristRoll.WristRollFilter F :=
  match o with
  | WristRoll.Returns self' _ => self'
  | WristRoll.Raises self' _ => self'
  end.

(** The frames that precede the first one holding [wrist_roll.pos]. *)
Fixpoint before_wrist_roll {F} (actions : list (dict F)) : list (dict F) :=
  match actions with
  | [] => []
  | a :: rest =>
      if dict_mem WristRoll.wrist_roll_key a then [] else a :: before_wrist_roll rest
  end.

(** Every frame holds both keys and its gripper value differs from the one
    before it by more than the threshold; [g] is the value before the
    first frame. *)
Fixpoint gripper_moving {F} `{PyFloat F} (threshold g : F) (actions : list (dict F))
    : bool :=
  match actions with
  | [] => true
  | a :: rest =>
      match dict_get WristRoll.gripper_key a, dict_get WristRoll.wrist_roll_key a with
      | Some g', Some _ =>
          f_gtb (f_abs (f_sub g' g)) threshold && gripper_moving threshold g' rest
      | _, _ => false
      end
  end.

(** The same filter object with another filter type. *)
Definition with_type {F} (self : WristRoll.WristRollFilter F) (t : WristRoll.FilterType)
    : WristRoll.WristRollFilter F :=
  {| WristRoll.filter_type := t;
     WristRoll.deadzone_threshold := WristRoll.deadzone_threshold self;
     WristRoll.moving_average_window := WristRoll.moving_average_window self;
     WristRoll.gripper_change_threshold := WristRoll.gripper_change_threshold self;
     WristRoll.wrist_roll_history := WristRoll.wrist_roll_history self;
     WristRoll.prev_gripper_value := WristRoll.prev_gripper_value self;
     WristRoll.prev_wrist_roll_value := WristRoll.prev_wrist_roll_value self |}.

(** A deadzone filter, a moving-average filter and a gripper-linked filter
    applied one after the other, each with the parameters and the state of
    [self]; the result keeps the history of the second and the previous
    values of the third. *)
Definition pipeline {F} `{PyFloat F} (self : WristRoll.WristRollFilter F)
    (action : dict F) : WristRoll.outcome F :=
  match WristRoll.apply_filter (with_type self WristRoll.DEADZONE) action with
  | WristRoll.Raises _ e => WristRoll.Raises self e
  | WristRoll.Returns _ action1 =>
      match WristRoll.apply_filter (with_type self WristRoll.MOVING_AVERAGE) action1 with
      | WristRoll.Raises averaging e =>
          WristRoll.Raises
            (WristRoll.set_history self (WristRoll.wrist_roll_history averaging)) e
      | WristRoll.Returns averaging action2 =>
          let self := WristRoll.set_history self (WristRoll.wrist_roll_history averaging) in
          match WristRoll.apply_filter (with_type self WristRoll.GRIPPER_LINKED) action2 with
          | WristRoll.Raises _ e => WristRoll.Raises self e
          | WristRoll.Returns linked action3 =>
              WristRoll.Returns
                (WristRoll.set_prev self (WristRoll.prev_gripper_value linked)
                   (WristRoll.prev_wrist_roll_value linked))
                action3
          end
      end
  end.

(** A printed line. *)
Definition is_print {F} (ev : event F) : Prop :=
  match ev with EPrint _ => True | _ => False end.

Definition is_disconnect {F} (ev : event F) : bool :=
  match ev with EDisconnect _ => true | _ => false end.

(** The actions [teleop.get_action()] returns, up to the first call that
    raises. *)
Fixpoint leader_actions {F} (ticks : list (Teleop.tick F)) : list (dict F) :=
  match ticks with
  | [] => []
  | t :: rest =>
      match Teleop.get_action t with
      | inl a => a :: leader_actions rest
      | inr _ => []
      end
  end.

(** What a treatment makes of a sequence of actions, up to the first one it
    rejects, and the state it is left in. *)
Fixpoint treated {F S} (treat : S -> dict F -> S * list (event F) * (dict F + exn))
    (self : S) (actions : list (dict F)) : list (dict F) :=
  match actions with
  | [] => []
  | a :: rest =>
      match treat self a with
      | (self', _, inl a') => a' :: treated treat self' rest
      | (_, _, inr _) => []
      end
  end.

Fixpoint treated_state {F S} (treat : S -> dict F -> S * list (event F) * (dict F + exn))
    (self : S) (actions : list (dict F)) : S :=
  match actions with
  | [] => self
  | a :: rest =>
      match treat self a with
      | (self', _, inl _) => treated_state treat self' rest
      | (self', _, inr _) => self'
      end
  end.

(** An action whose wrist roll, when present, is zero. *)
Definition wrist_roll_zero {F} `{PyFloat F} (a : dict F) : Prop :=
  dict_get "wrist_roll.pos" a = None \/ dict_get "wrist_roll.pos" a = Some (f_lit 0).

(** The devices a trace disconnected, in order. *)
Definition disconnected {F} (evs : list (event F)) : list string :=
  flat_map (fun ev => match ev with EDisconnect d => [d] | _ => [] end) evs.

(** What the statistic lines of the elbow script raise: the threshold is
    asked for in adaptive mode, and it is missing while no frame was
    counted. *)
Definition statistics_error {F} (self : ElbowFlex.ElbowFlexFilter F) : option exn :=
  if ElbowFlex.adaptive_threshold self && (ElbowFlex.total_frames self =? 0)%nat
  then Some (OtherException "KeyError") else None.

(** Equality of sort keys. *)
Definition sort_key_eqb (a b : sort_key_t) : bool :=
  match a, b with
  | KConf n, KConf m => (n =? m)%N
  | KAnx n, KAnx m => (n =? m)%N
  | KOther s, KOther t => pystr_eqb s t
  | _, _ => false
  end.

(** A follower arm that accepts every action, with nobody interrupting. *)
Definition calm_cycle : ReplayMotion.cycle :=
  {| ReplayMotion.steps := []; ReplayMotion.sleep_raises := None |}.

Definition calm_follower : ReplayMotion.session :=
  {| ReplayMotion.connect_raises := None;
     ReplayMotion.first_cycle := calm_cycle;
     ReplayMotion.later_cycles := [];
     ReplayMotion.is_connected := true;
     ReplayMotion.disconnect_raises := None |}.

(** [replay_motion.py input], without [--loop]. *)
Definition replay_once (input : pystr) : ReplayMotion.Args :=
  {| ReplayMotion.args_input := input; ReplayMotion.args_loop := false |}.

(** A session of [record_with_teleop.py]: one frame is sent and captured,
    then the user interrupts. *)
Definition teleop_interrupted : RecordWithTeleop.session float :=
  {| RecordWithTeleop.leader_connect_raises := None;
     RecordWithTeleop.follower_connect_raises := None;
     RecordWithTeleop.ticks :=
       [RecordWithTeleop.TickOk (f_lit 0) shoulder_12;
        RecordWithTeleop.TickGetActionRaises KeyboardInterrupt];
     RecordWithTeleop.leader_is_connected := true;
     RecordWithTeleop.follower_is_connected := true;
     RecordWithTeleop.leader_disconnect_raises := None;
     RecordWithTeleop.follower_disconnect_raises := None;
     RecordWithTeleop.save_fault := None |}.

Definition teleop_record_args : RecordWithTeleop.Args :=
  {| RecordWithTeleop.args_output := str "recorded_motion.pkl";
     RecordWithTeleop.args_fps := 10 |}.

(** [record_motion.py --fps 0] *)
Definition record_args_fps_0 : RecordMotion.Args :=
  {| RecordMotion.args_output := str "recorded_motion.pkl"; RecordMotion.args_fps := 0 |}.

(** A recording made with [--fps 0]. *)
Definition recording_fps_0 : recording float :=
  [("fps", PInt 0); ("frames", PFrames [one_frame; one_frame]); ("num_frames", PInt 2)].

(** A batch over two files in which the follower rejects the first action
    of the second file. *)
Definition device_error_scripts : list ReplayAll.file_script :=
  [ ReplayAll.undisturbed;
    {| ReplayAll.steps := [SendRaises (OtherException "DeviceError")];
       ReplayAll.sleep_raises := None |} ].

Definition batch_world : world float :=
  {| w_files := [(str "conf1.pkl", Pickled good_recording);
                 (str "conf2.pkl", Pickled good_recording)];
     w_trace := [] |}.

Definition calm_batch : ReplayAll.session :=
  {| ReplayAll.connect_raises := None;
     ReplayAll.first_cycle := [];
     ReplayAll.later_cycles := [];
     ReplayAll.is_connected := true;
     ReplayAll.disconnect_raises := None |}.

(** Two names with the same sort key. *)
Definition tied_directory : files float :=
  [ (str "conf1_b.pkl", NotAPickle); (str "anx2.pkl", NotAPickle);
    (str "conf01.pkl", NotAPickle) ].

(** Stand-ins for [str.strip], [str.lower] and [int] on the inputs of the
    examples. *)
Definition demo_int (s : string) : option Z :=
  if String.eqb s "2" then Some 2%Z
  else if String.eqb s "7" then Some 7%Z
  else None.

Definition demo_menu_session : SelectAndReplay.session :=
  {| SelectAndReplay.inputs :=
       [SelectAndReplay.Line "x"; SelectAndReplay.Line "7"; SelectAndReplay.Line "2"];
     SelectAndReplay.connect_raises := None;
     SelectAndReplay.first_cycle := calm_cycle;
     SelectAndReplay.later_cycles := [];
     SelectAndReplay.is_connected := true;
     SelectAndReplay.disconnect_raises := None |}.

(** Three frames during which the gripper keeps closing: the pairs (0,10),
    (8,12), (16,20). *)
Definition gripper_closing : list (dict float) :=
  [gripper_frame 0 10; gripper_frame 8 12; gripper_frame 16 20].

(** Combined(deadzone=5.0, window=3, change_threshold=5.0) *)
Definition combined_filter : WristRoll.WristRollFilter float :=
  WristRoll.init (wrist_config WristRoll.COMBINED 5 3 5).

(** MovingAverage(window=0) *)
Definition moving_average_0 : WristRoll.TeleoperateFilteredConfig float :=
  wrist_config WristRoll.MOVING_AVERAGE 20 0 5.

(** The default loop configuration of the teleoperation scripts. *)
Definition teleop_cfg : Teleop.Config :=
  {| Teleop.cfg_fps := 60; Teleop.cfg_display_data := false |}.

Definition calm_tick (action : dict float) (last : bool) : Teleop.tick float :=
  {| Teleop.get_action := inl action;
     Teleop.display_raises := None;
     Teleop.send_action_raises := None;
     Teleop.busy_wait_raises := None;
     Teleop.duration_reached := last |}.

(** A teleoperation session with the given ticks, in which no device call
    raises. *)
Definition teleop_session_of (ticks : list (Teleop.tick float)) : Teleop.session float :=
  {| Teleop.teleop_connect_raises := None;
     Teleop.robot_connect_raises := None;
     Teleop.action_features := ["gripper.pos"; "wrist_roll.pos"];
     Teleop.ticks := ticks;
     Teleop.rerun_shutdown_raises := None;
     Teleop.teleop_disconnect_raises := None;
     Teleop.robot_disconnect_raises := None |}.

(** The user interrupts while the first action is being read. *)
Definition interrupted_at_once : Teleop.session float :=
  teleop_session_of
    [ {| Teleop.get_action := inr KeyboardInterrupt;
         Teleop.display_raises := None;
         Teleop.send_action_raises := None;
         Teleop.busy_wait_raises := None;
         Teleop.duration_reached := false |} ].

(** Two frames are read and sent, then the time is up. *)
Definition two_ticks : Teleop.session float :=
  teleop_session_of [calm_tick (gripper_frame 0 3) false; calm_tick (gripper_frame 8 12) true].

(** * Proofs *)

(** ** The comparison law holds in both instances *)

Lemma SFleb_not_SFltb (a b : spec_float) : SFleb a b = true -> SFltb b a = false.
Proof.
  unfold SFleb, SFltb.
  destruct a as [sa|sa| |sa ma ea], b as [sb|sb| |sb mb eb]; simpl;
    try destruct sa; try destruct sb; simpl; try congruence.
  - rewrite (Z.compare_antisym ea eb).
    destruct (ea ?= eb)%Z; simpl; try congruence.
    change (PosDef.Pos.compare_cont Eq mb ma) with (Pos.compare mb ma).
    change (PosDef.Pos.compare_cont Eq ma mb) with (Pos.compare ma mb).
    rewrite (Pos.compare_antisym ma mb).
    destruct (ma ?= mb)%positive; simpl; congruence.
  - rewrite (Z.compare_antisym ea eb).
    destruct (ea ?= eb)%Z; simpl; try congruence.
    change (PosDef.Pos.compare_cont Eq mb ma) with (Pos.compare mb ma).
    change (PosDef.Pos.compare_cont Eq ma mb) with (Pos.compare ma mb).
    rewrite (Pos.compare_antisym ma mb).
    destruct (ma ?= mb)%positive; simpl; congruence.
Qed.

#[export] Instance binary64_order : PyFloatOrder float.
Proof.
  intros a b. simpl.
  rewrite FloatAxioms.leb_spec, FloatAxioms.ltb_spec.
  apply SFleb_not_SFltb.
Qed.

#[export] Instance exact_order : PyFloatOrder Qc.
Proof.
  intros a b. simpl. unfold Qc_leb, Qc_ltb, Qccompare.
  rewrite <- (Qcompare_antisym b a).
  destruct (b ?= a)%Q; simpl; congruence.
Qed.

Lemma Qc_ltb_lt (a b : Qc) : Qc_ltb a b = true <-> (a < b)%Qc.
Proof.
  unfold Qc_ltb, Qccompare, Qclt. rewrite Qlt_alt.
  destruct (a ?= b)%Q; split; congruence.
Qed.

Lemma Qc_leb_le (a b : Qc) : Qc_leb a b = true <-> (a <= b)%Qc.
Proof.
  unfold Qc_leb, Qccompare, Qcle. rewrite Qle_alt.
  destruct (a ?= b)%Q; split; congruence.
Qed.

(** ** Dicts *)

Section DictFacts.
Context {V : Type}.

Lemma dict_get_set_same (k : string) (v : V) (d : dict V) :
  dict_get k (dict_set k v d) = Some v.
Proof.
  induction d as [|[k' v'] d IH]; simpl.
  - now rewrite String.eqb_refl.
  - destruct (String.eqb k k') eqn:E; simpl; rewrite ?String.eqb_refl, ?E; auto.
Qed.

Lemma dict_get_set_other (k k' : string) (v : V) (d : dict V) :
  k' <> k -> dict_get k' (dict_set k v d) = dict_get k' d.
Proof.
  intros Hne. induction d as [|[k0 v0] d IH]; simpl.
  - destruct (String.eqb k' k) eqn:E; auto. apply String.eqb_eq in E. contradiction.
  - destruct (String.eqb k k0) eqn:E; simpl.
    + apply String.eqb_eq in E. subst k0.
      destruct (String.eqb k' k) eqn:E'; auto. apply String.eqb_eq in E'. contradiction.
    + now rewrite IH.
Qed.

Lemma dict_keys_set (k : string) (v : V) (d : dict V) :
  dict_get k d <> None -> dict_keys (dict_set k v d) = dict_keys d.
Proof.
  unfold dict_keys. induction d as [|[k0 v0] d IH]; simpl; intros Hin.
  - congruence.
  - destruct (String.eqb k k0) eqn:E; simpl.
    + apply String.eqb_eq in E. now subst.
    + now rewrite IH.
Qed.

Lemma dict_set_same (k : string) (v : V) (d : dict V) :
  dict_get k d = Some v -> dict_set k v d = d.
Proof.
  induction d as [|[k0 v0] d IH]; simpl; intros Hget.
  - discriminate.
  - destruct (String.eqb k k0) eqn:E.
    + apply String.eqb_eq in E. congruence.
    + now rewrite IH.
Qed.
End DictFacts.

(** ** The wrist-roll filter *)
Module WristRollFacts.
Import WristRoll.

Section Generic.
Context {F : Type} {ops : PyFloat F}.

Lemma finish_returns (self : WristRollFilter F) (action : dict F) (v : F) :
  exists g v',
    finish self action v = Returns (set_prev self g (Some v')) (dict_set wrist_roll_key v' action).
Proof.
  unfold finish. destruct (gripper_stage self action v) as [g v']. eauto.
Qed.

(** Whatever [apply_filter] returns differs from the action it was given
    at most in the value stored under [wrist_roll.pos]. *)
Lemma apply_filter_frame (self self' : WristRollFilter F) (action action' : dict F) :
  apply_filter self action = Returns self' action' ->
  dict_keys action' = dict_keys action /\
  forall k, k <> wrist_roll_key -> dict_get k action' = dict_get k action.
Proof.
  unfold apply_filter.
  destruct (dict_get wrist_roll_key action) as [x|] eqn:Hw.
  2:{ intros [= <- <-]. auto. }
  destruct (FilterType_eqb (filter_type self) NONE).
  { intros [= <- <-]. auto. }
  assert (Hfin : forall s v, finish s action v = Returns self' action' ->
            dict_keys action' = dict_keys action /\
            forall k, k <> wrist_roll_key -> dict_get k action' = dict_get k action).
  { intros s v Hf. destruct (finish_returns s action v) as (g & v' & E).
    rewrite E in Hf. injection Hf as _ <-. split.
    - apply dict_keys_set. congruence.
    - intros k Hk. now apply dict_get_set_other. }
  destruct (FilterType_in (filter_type self) [MOVING_AVERAGE; COMBINED]).
  - destruct (mean _); [apply Hfin | discriminate].
  - apply Hfin.
Qed.

Lemma apply_filter_absent (self : WristRollFilter F) (action : dict F) :
  dict_get wrist_roll_key action = None -> apply_filter self action = Returns self action.
Proof. unfold apply_filter. now intros ->. Qed.

End Generic.

(** C6.  The deadzone block, for a filter of type [DEADZONE] or [COMBINED]:
    a value whose absolute value is below the threshold becomes [0.0], a
    value whose absolute value is at least the threshold is left as it is;
    and for the type [DEADZONE] this is the value [apply_filter] stores under
    [wrist_roll.pos]. *)
Theorem deadzone_stage_correct :
  forall (F : Type) (ops : PyFloat F) (ord : PyFloatOrder F)
         (self : WristRollFilter F) (x : F),
    FilterType_in (filter_type self) [DEADZONE; COMBINED] = true ->
    (f_ltb (f_abs x) (deadzone_threshold self) = true ->
       deadzone_stage self x = f_lit 0) /\
    (f_geb (f_abs x) (deadzone_threshold self) = true ->
       deadzone_stage self x = x) /\
    (filter_type self = DEADZONE ->
       forall action, dict_get wrist_roll_key action = Some x ->
         apply_filter self action =
           Returns (set_prev self (prev_gripper_value self) (Some (deadzone_stage self x)))
                   (dict_set wrist_roll_key (deadzone_stage self x) action)).
Proof.
  intros F ops ord self x Hin. unfold deadzone_stage. rewrite Hin.
  split; [|split].
  - now intros ->.
  - unfold f_geb. intros Hge. now rewrite (f_leb_not_ltb _ _ Hge).
  - intros Hty action Hget. unfold apply_filter, finish, gripper_stage, deadzone_stage.
    rewrite Hget, Hty. reflexivity.
Qed.

Lemma deadzone_stage_correct_witness :
  deadzone_stage deadzone_5 (f_lit (32 # 10)) = f_lit 0 /\
  deadzone_stage deadzone_5 (f_lit 7) = f_lit 7.
Proof.
  split.
  - apply (@deadzone_stage_correct float binary64 binary64_order deadzone_5 (f_lit (32 # 10)) eq_refl).
    vm_compute. reflexivity.
  - apply (@deadzone_stage_correct float binary64 binary64_order deadzone_5 (f_lit 7) eq_refl).
    vm_compute. reflexivity.
Defined.

Section Gripper.
Context {F : Type} {ops : PyFloat F}.

Lemma gripper_first_tick (self : WristRollFilter F) (action : dict F) (g w : F) :
  filter_type self = GRIPPER_LINKED ->
  prev_gripper_value self = None ->
  dict_get gripper_key action = Some g ->
  dict_get wrist_roll_key action = Some w ->
  apply_filter self action = Returns (set_prev self (Some g) (Some w)) action.
Proof.
  intros Hty Hprev Hg Hw.
  unfold apply_filter, finish, gripper_stage, deadzone_stage.
  rewrite Hw, Hty, Hg, Hprev. simpl. now rewrite (dict_set_same _ _ Hw).
Qed.

Lemma gripper_tick (self : WristRollFilter F) (action : dict F) (g w : F) :
  filter_type self = GRIPPER_LINKED ->
  dict_get gripper_key action = Some g ->
  dict_get wrist_roll_key action = Some w ->
  exists out,
    apply_filter self action = Returns (set_prev self (Some g) (Some out))
                                       (dict_set wrist_roll_key out action) /\
    out = match prev_gripper_value self, prev_wrist_roll_value self with
          | Some pg, Some pw =>
              if f_gtb (f_abs (f_sub g pg)) (gripper_change_threshold self) then pw else w
          | _, _ => w
          end.
Proof.
  intros Hty Hg Hw.
  unfold apply_filter, finish, gripper_stage, deadzone_stage.
  rewrite Hw, Hty, Hg. simpl. eexists. split; reflexivity.
Qed.

End Gripper.

(** C2.  The gripper-linked filter.  On the first tick the wrist roll passes
    through and the gripper value is remembered.  On every later tick, if the
    gripper moved by more than the threshold since the tick before, the
    output is the output of the tick before; otherwise the wrist roll passes
    through; the gripper value is remembered either way.  With threshold 5.0
    the pairs (0,10), (8,12), (8,20) give the outputs 10, 10, 20. *)
Theorem gripper_linked_correct :
  (forall (F : Type) (ops : PyFloat F) (self : WristRollFilter F) (action : dict F) (g w : F),
     filter_type self = GRIPPER_LINKED ->
     prev_gripper_value self = None ->
     dict_get gripper_key action = Some g ->
     dict_get wrist_roll_key action = Some w ->
     exists self',
       apply_filter self action = Returns self' action /\
       prev_gripper_value self' = Some g /\ prev_wrist_roll_value self' = Some w) /\
  (forall (F : Type) (ops : PyFloat F) (self : WristRollFilter F)
          (a1 a2 : dict F) (g1 w1 g2 w2 : F),
     filter_type self = GRIPPER_LINKED ->
     dict_get gripper_key a1 = Some g1 -> dict_get wrist_roll_key a1 = Some w1 ->
     dict_get gripper_key a2 = Some g2 -> dict_get wrist_roll_key a2 = Some w2 ->
     exists self1 out1 self2 out2,
       apply_filter self a1 = Returns self1 out1 /\
       apply_filter self1 a2 = Returns self2 out2 /\
       dict_get wrist_roll_key out2 =
         (if f_gtb (f_abs (f_sub g2 g1)) (gripper_change_threshold self)
          then dict_get wrist_roll_key out1 else Some w2) /\
       prev_gripper_value self2 = Some g2) /\
  map (dict_get wrist_roll_key) (snd (teleop_loop gripper_linked_5 scenario_C))
    = [Some (f_lit 10); Some (f_lit 10); Some (f_lit 20)].
Proof.
  split; [|split].
  - intros F ops self action g w Hty Hprev Hg Hw.
    eexists. split; [apply (gripper_first_tick _ _ Hty Hprev Hg Hw)|]. split; reflexivity.
  - intros F ops self a1 a2 g1 w1 g2 w2 Hty Hg1 Hw1 Hg2 Hw2.
    destruct (gripper_tick self a1 Hty Hg1 Hw1) as (o1 & E1 & _).
    assert (Hty1 : filter_type (set_prev self (Some g1) (Some o1)) = GRIPPER_LINKED) by exact Hty.
    destruct (gripper_tick _ a2 Hty1 Hg2 Hw2) as (o2 & E2 & Ho2).
    do 4 eexists. split; [exact E1|]. split; [exact E2|]. split; [|reflexivity].
    rewrite !dict_get_set_same. simpl in Ho2. rewrite Ho2.
    now destruct (f_gtb _ _).
  - vm_compute. reflexivity.
Qed.

Lemma gripper_linked_correct_witness :
  exists self',
    apply_filter gripper_linked_5 [(gripper_key, f_lit 0); (wrist_roll_key, f_lit 10)]
      = Returns self' [(gripper_key, f_lit 0); (wrist_roll_key, f_lit 10)] /\
    prev_gripper_value self' = Some (f_lit 0) /\
    prev_wrist_roll_value self' = Some (f_lit 10).
Proof.
  apply (proj1 gripper_linked_correct float binary64 gripper_linked_5
           [(gripper_key, f_lit 0); (wrist_roll_key, f_lit 10)] (f_lit 0) (f_lit 10));
    reflexivity.
Defined.

Section Fifo.
Context {A : Type}.

Lemma lastn_all (n : nat) (l : list A) : length l <= n -> lastn n l = l.
Proof. intros Hle. unfold lastn. now replace (length l - n) with 0 by lia. Qed.

Lemma lastn_length (n : nat) (l : list A) : length (lastn n l) = Nat.min n (length l).
Proof. unfold lastn. rewrite length_skipn. lia. Qed.

Lemma lastn_snoc (n : nat) (l : list A) (x : A) :
  1 <= n -> lastn n (lastn n l ++ [x]) = lastn n (l ++ [x]).
Proof.
  intros Hn. destruct (Nat.le_gt_cases (length l) n) as [Hle|Hgt].
  - now rewrite (lastn_all l Hle).
  - unfold lastn. rewrite !length_app, length_skipn. simpl.
    replace (length l - (length l - n) + 1 - n) with 1 by lia.
    rewrite !skipn_app, skipn_skipn, length_skipn.
    replace (1 - (length l - (length l - n))) with 0 by lia.
    replace (length l + 1 - n - length l) with 0 by lia.
    replace (1 + (length l - n)) with (length l + 1 - n) by lia.
    reflexivity.
Qed.

Lemma lastn_repeat (n m : nat) (v : A) : n <= m -> lastn n (repeat v m) = repeat v n.
Proof.
  intros Hle. unfold lastn. rewrite repeat_length.
  replace m with ((m - n) + n) at 2 by lia.
  rewrite repeat_app, skipn_app, repeat_length, Nat.sub_diag. simpl.
  rewrite skipn_all2; [reflexivity | rewrite repeat_length; lia].
Qed.

End Fifo.

Section MovingAverage.
Context {F : Type} {ops : PyFloat F}.

Lemma push_history_fifo (self : WristRollFilter F) (x : F) :
  push_history self x =
    if (Z.of_nat (length (wrist_roll_history self)) <? moving_average_window self)%Z
    then wrist_roll_history self ++ [x]
    else tl (wrist_roll_history self ++ [x]).
Proof.
  unfold push_history. rewrite length_app. simpl.
  destruct (Z.ltb_spec (Z.of_nat (length (wrist_roll_history self)))
                       (moving_average_window self));
    destruct (Z.gtb_spec (Z.of_nat (length (wrist_roll_history self) + 1))
                         (moving_average_window self)); try reflexivity; lia.
Qed.

Lemma push_history_lastn (self : WristRollFilter F) (x : F) (w : nat) :
  moving_average_window self = Z.of_nat w ->
  length (wrist_roll_history self) <= w ->
  push_history self x = lastn w (wrist_roll_history self ++ [x]).
Proof.
  intros Hw Hlen. rewrite push_history_fifo, Hw. unfold lastn.
  rewrite length_app. simpl.
  destruct (Z.ltb_spec (Z.of_nat (length (wrist_roll_history self))) (Z.of_nat w)).
  - now replace (length (wrist_roll_history self) + 1 - w) with 0 by lia.
  - now replace (length (wrist_roll_history self) + 1 - w) with 1 by lia.
Qed.

Lemma push_history_nonempty (self : WristRollFilter F) (x : F) :
  (1 <= moving_average_window self)%Z -> push_history self x <> [].
Proof.
  intros Hw. rewrite push_history_fifo.
  destruct (Z.ltb_spec (Z.of_nat (length (wrist_roll_history self)))
                       (moving_average_window self)) as [Hlt|Hge].
  - destruct (wrist_roll_history self); discriminate.
  - destruct (wrist_roll_history self) as [|y h]; simpl in *; [lia|].
    destruct h; discriminate.
Qed.

Lemma push_history_bounded (self : WristRollFilter F) (x : F) :
  (Z.of_nat (length (wrist_roll_history self)) <= moving_average_window self)%Z ->
  (Z.of_nat (length (push_history self x)) <= moving_average_window self)%Z.
Proof.
  intros Hle. rewrite push_history_fifo.
  destruct (Z.ltb_spec (Z.of_nat (length (wrist_roll_history self)))
                       (moving_average_window self)).
  - rewrite length_app. simpl. lia.
  - destruct (wrist_roll_history self) as [|y h]; simpl in *; [lia|].
    rewrite length_app. simpl. lia.
Qed.

Lemma mean_nonempty (h : list F) :
  h <> [] -> mean h = Some (f_div (py_sum h) (f_of_nat (length h))).
Proof. destruct h; [congruence | reflexivity]. Qed.

(** One tick of the moving-average filter. *)
Lemma moving_average_tick (self : WristRollFilter F) (action : dict F) (x : F) :
  filter_type self = MOVING_AVERAGE ->
  (1 <= moving_average_window self)%Z ->
  dict_get wrist_roll_key action = Some x ->
  let h := push_history self x in
  let m := f_div (py_sum h) (f_of_nat (length h)) in
  apply_filter self action =
    Returns (set_prev (set_history self h) (prev_gripper_value self) (Some m))
            (dict_set wrist_roll_key m action).
Proof.
  intros Hty Hw Hget h m.
  unfold apply_filter, deadzone_stage.
  rewrite Hget, Hty. simpl.
  rewrite (mean_nonempty (push_history_nonempty self x Hw)).
  unfold finish, gripper_stage. simpl. rewrite Hty. reflexivity.
Qed.

(** The state the loop reaches after a prefix of ticks. *)
Lemma teleop_loop_history (w : nat) (xs : list F) :
  1 <= w ->
  forall (pre : list (dict F)) (self : WristRollFilter F) (seen : list F),
    filter_type self = MOVING_AVERAGE ->
    moving_average_window self = Z.of_nat w ->
    wrist_roll_history self = lastn w seen ->
    map (dict_get wrist_roll_key) pre = map Some xs ->
    let self' := fst (teleop_loop self pre) in
    filter_type self' = MOVING_AVERAGE /\
    moving_average_window self' = Z.of_nat w /\
    wrist_roll_history self' = lastn w (seen ++ xs).
Proof.
  intros Hw. induction xs as [|x xs IH]; intros pre self seen Hty Hwin Hh Hmap.
  - destruct pre; [|discriminate]. simpl. now rewrite app_nil_r.
  - destruct pre as [|a pre]; [discriminate|]. simpl in Hmap.
    injection Hmap as Ha Hmap. simpl.
    rewrite (moving_average_tick self a Hty ltac:(lia) Ha).
    set (self1 := set_prev _ _ _).
    specialize (IH pre self1 (seen ++ [x]) Hty Hwin).
    destruct (teleop_loop self1 pre) as [self2 sent] eqn:E. simpl in *.
    rewrite <- app_assoc in IH. apply IH; [|exact Hmap].
    subst self1. simpl.
    rewrite (@push_history_lastn self x w Hwin).
    + rewrite Hh. now apply lastn_snoc.
    + rewrite Hh, lastn_length. lia.
Qed.

End MovingAverage.

(** In exact arithmetic the mean of [n >= 1] copies of [v] is [v]. *)
Lemma Qc_of_nat_S (n : nat) :
  f_of_nat (F:=Qc) (S n) = (f_of_nat n + 1)%Qc.
Proof.
  change (Q2Qc (inject_Z (Z.of_nat (S n))) = Q2Qc (inject_Z (Z.of_nat n)) + Q2Qc 1)%Qc.
  unfold Qcplus. apply Q2Qc_eq_iff.
  change (inject_Z (Z.of_nat (S n)) == Qred (inject_Z (Z.of_nat n)) + Qred 1)%Q.
  rewrite !Qred_correct, Nat2Z.inj_succ. unfold Z.succ.
  now rewrite inject_Z_plus.
Qed.

Lemma Qc_sum_repeat (v : Qc) (n : nat) (a : Qc) :
  fold_left Qcplus (repeat v n) a = (a + f_of_nat n * v)%Qc.
Proof.
  revert a. induction n as [|n IH]; intros a.
  - change (f_of_nat (F:=Qc) 0) with (Q2Qc 0). simpl. ring.
  - cbn [repeat fold_left]. rewrite IH, Qc_of_nat_S. ring.
Qed.

Lemma Qc_of_nat_nonzero (n : nat) : 1 <= n -> f_of_nat (F:=Qc) n <> Q2Qc 0.
Proof.
  intros Hn E.
  change (Q2Qc (inject_Z (Z.of_nat n)) = Q2Qc 0) in E.
  apply Q2Qc_eq_iff in E. unfold Qeq in E. simpl in E. lia.
Qed.

Lemma Qc_mean_repeat (v : Qc) (n : nat) :
  1 <= n -> f_div (py_sum (repeat v n)) (f_of_nat n) = v.
Proof.
  intros Hn. unfold py_sum.
  change (f_add (F:=Qc)) with Qcplus. change (f_div (F:=Qc)) with Qcdiv.
  change (f_lit (F:=Qc) 0) with (Q2Qc 0).
  rewrite Qc_sum_repeat. pose proof (Qc_of_nat_nonzero Hn) as Hnz.
  field. exact Hnz.
Qed.

(** C5, as amended.  The moving-average filter with a window of at least 1.
    Each tick appends the input to the history, drops the oldest entry when
    the history was full, and outputs [sum(history) / len(history)].  From a
    fresh filter, after [k <= window] values the output is the mean of
    exactly these [k] values.  After a constant [v] was fed for [window] or
    more ticks the history holds [window] copies of [v] and the output is
    their mean, which is [v] itself when the arithmetic is exact. *)
Theorem moving_average_correct :
  (forall (F : Type) (ops : PyFloat F) (self : WristRollFilter F) (action : dict F) (x : F),
     filter_type self = MOVING_AVERAGE ->
     (1 <= moving_average_window self)%Z ->
     dict_get wrist_roll_key action = Some x ->
     let h := wrist_roll_history self in
     let h' := if (Z.of_nat (length h) <? moving_average_window self)%Z
               then h ++ [x] else tl (h ++ [x]) in
     exists self',
       apply_filter self action =
         Returns self' (dict_set wrist_roll_key
                          (f_div (py_sum h') (f_of_nat (length h'))) action) /\
       wrist_roll_history self' = h' /\
       ((Z.of_nat (length h) <= moving_average_window self)%Z ->
        (Z.of_nat (length h') <= moving_average_window self)%Z)) /\
  (forall (F : Type) (ops : PyFloat F) (config : TeleoperateFilteredConfig F)
          (pre : list (dict F)) (a : dict F) (xs : list F) (x : F),
     cfg_filter_type config = MOVING_AVERAGE ->
     map (dict_get wrist_roll_key) pre = map Some xs ->
     dict_get wrist_roll_key a = Some x ->
     (Z.of_nat (length (xs ++ [x])) <= cfg_moving_average_window config)%Z ->
     exists self',
       apply_filter (fst (teleop_loop (init config) pre)) a =
         Returns self' (dict_set wrist_roll_key
                          (f_div (py_sum (xs ++ [x])) (f_of_nat (length (xs ++ [x])))) a)) /\
  (forall (F : Type) (ops : PyFloat F) (config : TeleoperateFilteredConfig F)
          (pre : list (dict F)) (a : dict F) (v : F) (n w : nat),
     cfg_filter_type config = MOVING_AVERAGE ->
     cfg_moving_average_window config = Z.of_nat w ->
     1 <= w <= n + 1 ->
     map (dict_get wrist_roll_key) pre = repeat (Some v) n ->
     dict_get wrist_roll_key a = Some v ->
     exists self',
       apply_filter (fst (teleop_loop (init config) pre)) a =
         Returns self' (dict_set wrist_roll_key
                          (f_div (py_sum (repeat v w)) (f_of_nat w)) a) /\
       wrist_roll_history self' = repeat v w) /\
  (forall (v : Qc) (w : nat),
     1 <= w -> f_div (py_sum (repeat v w)) (f_of_nat w) = v).
Proof.
  split; [|split; [|split]].
  - intros F ops self action x Hty Hw Hget h h'.
    eexists. rewrite (moving_average_tick self action Hty Hw Hget).
    rewrite push_history_fifo. fold h h'. split; [reflexivity|]. split; [reflexivity|].
    intros Hle. pose proof (push_history_bounded self x Hle) as Hb.
    rewrite push_history_fifo in Hb. exact Hb.
  - intros F ops config pre a xs x Hty Hmap Hget Hlen.
    rewrite length_app in Hlen. simpl in Hlen.
    remember (Z.to_nat (cfg_moving_average_window config)) as w eqn:Ew.
    assert (Hwin : moving_average_window (init config) = Z.of_nat w) by (simpl; lia).
    assert (Hw1 : 1 <= w) by lia.
    assert (Hxs : length xs <= w) by lia.
    destruct (@teleop_loop_history F ops w xs Hw1 pre (init config) []
                Hty Hwin eq_refl Hmap) as (Hty' & Hwin' & Hh').
    simpl in Hh'. rewrite (lastn_all xs Hxs) in Hh'.
    assert (Hw' : (1 <= moving_average_window (fst (teleop_loop (init config) pre)))%Z)
      by lia.
    eexists. rewrite (moving_average_tick _ a Hty' Hw' Hget).
    rewrite (@push_history_lastn F _ x w Hwin') by (rewrite Hh'; lia).
    rewrite Hh', lastn_all by (rewrite length_app; simpl; lia).
    reflexivity.
  - intros F ops config pre a v n w Hty Hwin Hw Hmap Hget.
    rewrite <- map_repeat in Hmap.
    assert (Hw1 : 1 <= w) by lia.
    destruct (@teleop_loop_history F ops w (repeat v n) Hw1 pre (init config) []
                Hty Hwin eq_refl Hmap) as (Hty' & Hwin' & Hh').
    simpl in Hh'.
    assert (Hw' : (1 <= moving_average_window (fst (teleop_loop (init config) pre)))%Z)
      by lia.
    assert (Hpush : push_history (fst (teleop_loop (init config) pre)) v = repeat v w).
    { rewrite (@push_history_lastn F _ v w Hwin') by (rewrite Hh', lastn_length; lia).
      rewrite Hh', lastn_snoc by lia.
      change [v] with (repeat v 1). rewrite <- repeat_app.
      apply lastn_repeat. lia. }
    eexists. rewrite (moving_average_tick _ a Hty' Hw' Hget).
    rewrite Hpush, repeat_length. split; reflexivity.
  - intros v w Hw. now apply Qc_mean_repeat.
Qed.

Lemma moving_average_correct_witness :
  f_div (py_sum (repeat (Q2Qc (1 # 10)) 3)) (f_of_nat 3) = Q2Qc (1 # 10).
Proof.
  apply (proj2 (proj2 (proj2 moving_average_correct)) (Q2Qc (1 # 10)) 3). lia.
Defined.

(** C5 as stated fails on binary64, and by more than any tolerance: two
    ticks of the constant [2.0 ** 1023], a finite float, through a window of
    2 leave two copies of it in the history, whose sum overflows; the
    output is [inf]. *)
Lemma moving_average_constant_binary64 :
  exists self' out,
    apply_filter (fst (teleop_loop moving_average_2 [huge])) huge = Returns self' out /\
    wrist_roll_history self' = [two_to_1023; two_to_1023] /\
    dict_get wrist_roll_key out = Some PrimFloat.infinity /\
    PrimFloat.ltb two_to_1023 PrimFloat.infinity = true.
Proof.
  do 2 eexists. split; [vm_compute; reflexivity|].
  split; [vm_compute; reflexivity|]. split; vm_compute; reflexivity.
Qed.

(** Short of overflow the output is the constant up to rounding only: three
    ticks of 0.1 through a window of 3 give an output that is not 0.1. *)
Lemma moving_average_rounds_binary64 :
  exists self' out y,
    apply_filter (fst (teleop_loop moving_average_3 [tenth; tenth])) tenth
      = Returns self' out /\
    dict_get wrist_roll_key out = Some y /\
    y <> f_lit (1 # 10).
Proof.
  do 3 eexists. split; [vm_compute; reflexivity|]. split; [vm_compute; reflexivity|].
  intros E. apply (f_equal (fun z => PrimFloat.eqb z (f_lit (1 # 10)))) in E.
  vm_compute in E. discriminate E.
Qed.

End WristRollFacts.

(** ** The elbow-linked filter *)
Module ElbowFlexFacts.

Import ElbowFlex.

Section Elbow.
Context {F : Type} {ops : PyFloat F}.
Variables np_mean np_std : list F -> F.

Local Abbreviation update := (update_adaptive_threshold np_mean np_std).
Local Abbreviation apply := (apply_filter np_mean np_std).
Local Abbreviation loop := (teleop_loop np_mean np_std).

Lemma update_disabled (self : ElbowFlexFilter F) (d : F) :
  adaptive_threshold self = false -> update self d = self.
Proof. unfold update_adaptive_threshold. now intros ->. Qed.

Lemma update_enabled (self : ElbowFlexFilter F) (d : F) :
  adaptive_threshold self = true ->
  let h := push_history self d in
  update self d =
    set_adaptive self
      (if (10 <=? length h)%nat then smoothed np_mean np_std (elbow_threshold self) h
       else elbow_threshold self) h.
Proof.
  intros Ha h. unfold update_adaptive_threshold, smoothed. rewrite Ha. cbn [negb].
  fold h. now destruct (10 <=? length h)%nat.
Qed.

(** Fields [update_adaptive_threshold] leaves alone. *)
Lemma update_fields (self : ElbowFlexFilter F) (d : F) :
  let self' := update self d in
  wrist_deadzone self' = wrist_deadzone self /\
  filter_strength self' = filter_strength self /\
  adaptive_threshold self' = adaptive_threshold self /\
  prev_elbow_value self' = prev_elbow_value self /\
  prev_wrist_value self' = prev_wrist_value self /\
  max_history_size self' = max_history_size self.
Proof.
  unfold update_adaptive_threshold.
  destruct (adaptive_threshold self) eqn:E; cbn [negb]; [|now rewrite E].
  destruct (10 <=? length (push_history self d))%nat; simpl; now rewrite E.
Qed.

Lemma push_history_length (self : ElbowFlexFilter F) (d : F) :
  length (elbow_changes_history self) <= length (push_history self d).
Proof.
  unfold push_history. rewrite length_app. simpl.
  destruct (_ >? _)%Z.
  - destruct (elbow_changes_history self); simpl; [lia|]. rewrite length_app. simpl. lia.
  - rewrite length_app. simpl. lia.
Qed.

Lemma update_history_length (self : ElbowFlexFilter F) (d : F) :
  length (elbow_changes_history self) <= length (elbow_changes_history (update self d)).
Proof.
  destruct (adaptive_threshold self) eqn:E.
  - rewrite (update_enabled self d E).
    cbn [elbow_changes_history set_adaptive]. apply push_history_length.
  - now rewrite (update_disabled self d E).
Qed.

(** While fewer than 10 changes are stored the threshold stays. *)
Lemma update_short (self : ElbowFlexFilter F) (d : F) :
  length (elbow_changes_history (update self d)) < 10 ->
  elbow_threshold (update self d) = elbow_threshold self.
Proof.
  destruct (adaptive_threshold self) eqn:E.
  - rewrite (update_enabled self d E).
    cbn [elbow_threshold elbow_changes_history set_adaptive]. intros Hlt.
    destruct (Nat.leb_spec 10 (length (push_history self d))); [lia | reflexivity].
  - now rewrite (update_disabled self d E).
Qed.

(** What one call does to the threshold and to the history. *)
Lemma apply_adaptive (self : ElbowFlexFilter F) (action : dict F) :
  let self' := fst (apply self action) in
  (self' = self \/
   (exists e pe,
      dict_get elbow_key action = Some e /\ prev_elbow_value self = Some pe /\
      elbow_threshold self' =
        elbow_threshold (update self (f_abs (f_sub e pe))) /\
      elbow_changes_history self' =
        elbow_changes_history (update self (f_abs (f_sub e pe))) /\
      adaptive_threshold self' = adaptive_threshold self) \/
   (elbow_threshold self' = elbow_threshold self /\
    elbow_changes_history self' = elbow_changes_history self /\
    adaptive_threshold self' = adaptive_threshold self)).
Proof.
  unfold apply_filter.
  destruct (dict_get elbow_key action) as [e|]; [|now left].
  destruct (dict_get wrist_key action) as [w|]; [|now left].
  cbn [prev_elbow_value set_counters].
  destruct (prev_elbow_value self) as [pe|] eqn:Hpe.
  2:{ right; right. simpl. auto. }
  right; left. exists e, pe. split; [reflexivity|]. split; [reflexivity|].
  set (self0 := set_counters self _ _).
  assert (Hu : elbow_threshold (update self0 (f_abs (f_sub e pe)))
               = elbow_threshold (update self (f_abs (f_sub e pe))) /\
               elbow_changes_history (update self0 (f_abs (f_sub e pe)))
               = elbow_changes_history (update self (f_abs (f_sub e pe))) /\
               adaptive_threshold (update self0 (f_abs (f_sub e pe)))
               = adaptive_threshold self).
  { unfold update_adaptive_threshold, push_history. subst self0.
    cbn [adaptive_threshold set_counters elbow_changes_history max_history_size].
    destruct (adaptive_threshold self) eqn:E; cbn [negb]; [|auto].
    destruct (10 <=? _)%nat; simpl; auto. }
  destruct Hu as (Ht & Hh & Ha).
  destruct (f_gtb _ _); [|destruct (f_ltb _ _)]; simpl; auto.
Qed.

Lemma apply_history_length (self : ElbowFlexFilter F) (action : dict F) :
  length (elbow_changes_history self)
  <= length (elbow_changes_history (fst (apply self action))).
Proof.
  destruct (apply_adaptive self action) as [E|[(e & pe & _ & _ & _ & E & _)|(_ & E & _)]].
  - now rewrite E.
  - rewrite E. apply update_history_length.
  - now rewrite E.
Qed.

Lemma loop_cons (self : ElbowFlexFilter F) (a : dict F) (rest : list (dict F)) :
  fst (loop self (a :: rest)) = fst (loop (fst (apply self a)) rest).
Proof.
  simpl. destruct (apply self a) as [s1 o1]. simpl.
  now destruct (loop s1 rest).
Qed.

Lemma loop_history_length (actions : list (dict F)) (self : ElbowFlexFilter F) :
  length (elbow_changes_history self)
  <= length (elbow_changes_history (fst (loop self actions))).
Proof.
  revert self. induction actions as [|a rest IH]; intros self; [simpl; lia|].
  rewrite loop_cons. etransitivity; [apply apply_history_length | apply IH].
Qed.

Lemma loop_disabled (actions : list (dict F)) (self : ElbowFlexFilter F) :
  adaptive_threshold self = false ->
  elbow_threshold (fst (loop self actions)) = elbow_threshold self /\
  elbow_changes_history (fst (loop self actions)) = elbow_changes_history self.
Proof.
  revert self. induction actions as [|a rest IH]; intros self Hoff; [now simpl|].
  rewrite loop_cons.
  assert (H1 : elbow_threshold (fst (apply self a)) = elbow_threshold self /\
               elbow_changes_history (fst (apply self a)) = elbow_changes_history self /\
               adaptive_threshold (fst (apply self a)) = false).
  { destruct (apply_adaptive self a) as [E|[(e & pe & _ & _ & Et & Eh & Ea)|(Et & Eh & Ea)]].
    - now rewrite E.
    - rewrite Et, Eh, Ea, (update_disabled self _ Hoff). auto.
    - rewrite Et, Eh, Ea. auto. }
  destruct H1 as (Et & Eh & Ea).
  destruct (IH _ Ea) as (IHt & IHh). rewrite IHt, IHh. auto.
Qed.

Lemma loop_short (actions : list (dict F)) (self : ElbowFlexFilter F) :
  length (elbow_changes_history (fst (loop self actions))) < 10 ->
  elbow_threshold (fst (loop self actions)) = elbow_threshold self.
Proof.
  revert self. induction actions as [|a rest IH]; intros self Hlt; [reflexivity|].
  rewrite loop_cons in *. rewrite (IH _ Hlt).
  pose proof (loop_history_length rest (fst (apply self a))) as Hmono.
  destruct (apply_adaptive self a) as [E|[(e & pe & _ & _ & Et & Eh & _)|(Et & _)]].
  - now rewrite E.
  - rewrite Et. apply update_short. rewrite <- Eh. lia.
  - exact Et.
Qed.

End Elbow.

Section ElbowTicks.
Context {F : Type} {ops : PyFloat F}.
Variables np_mean np_std : list F -> F.

Local Abbreviation update := (update_adaptive_threshold np_mean np_std).
Local Abbreviation apply := (apply_filter np_mean np_std).

Lemma apply_first_tick (self : ElbowFlexFilter F) (action : dict F) (e w : F) :
  dict_get elbow_key action = Some e ->
  dict_get wrist_key action = Some w ->
  prev_elbow_value self = None ->
  exists self',
    apply self action = (self', action) /\
    prev_elbow_value self' = Some e /\ prev_wrist_value self' = Some w /\
    elbow_threshold self' = elbow_threshold self /\
    filter_strength self' = filter_strength self /\
    wrist_deadzone self' = wrist_deadzone self.
Proof.
  intros He Hw Hpe. unfold apply_filter. rewrite He, Hw.
  cbn [prev_elbow_value set_counters]. rewrite Hpe.
  eexists. split; [reflexivity|]. simpl. auto.
Qed.

Lemma update_set_counters (self : ElbowFlexFilter F) (total filtered : nat) (d : F) :
  update (set_counters self total filtered) d = set_counters (update self d) total filtered.
Proof.
  unfold update_adaptive_threshold, push_history.
  cbn [adaptive_threshold set_counters elbow_changes_history max_history_size
       elbow_threshold].
  destruct (adaptive_threshold self) eqn:E; cbn [negb]; [|reflexivity].
  destruct (10 <=? _)%nat; reflexivity.
Qed.

Lemma apply_later_tick (self : ElbowFlexFilter F) (action : dict F) (e w pe : F) :
  dict_get elbow_key action = Some e ->
  dict_get wrist_key action = Some w ->
  prev_elbow_value self = Some pe ->
  let elbow_change := f_abs (f_sub e pe) in
  let threshold := elbow_threshold (update self elbow_change) in
  let out := tick_output self elbow_change threshold w in
  exists self',
    apply self action = (self', dict_set wrist_key out action) /\
    prev_elbow_value self' = Some e /\ prev_wrist_value self' = Some out /\
    elbow_threshold self' = threshold /\
    elbow_changes_history self' = elbow_changes_history (update self elbow_change) /\
    filter_strength self' = filter_strength self /\
    wrist_deadzone self' = wrist_deadzone self.
Proof.
  intros He Hw Hpe elbow_change threshold out.
  unfold apply_filter. rewrite He, Hw.
  cbn [prev_elbow_value set_counters]. rewrite Hpe. fold elbow_change.
  rewrite update_set_counters.
  destruct (update_fields np_mean np_std self elbow_change) as (Hd & Hs & _ & _ & Hpw & _).
  cbn [elbow_threshold set_counters wrist_deadzone]. fold threshold.
  subst out. unfold tick_output. rewrite Hd.
  destruct (f_gtb elbow_change threshold).
  - unfold blend. cbn [prev_wrist_value set_counters filter_strength total_frames
                       filtered_frames]. rewrite Hpw, Hs.
    eexists. split; [reflexivity|].
    cbn [prev_elbow_value prev_wrist_value set_prev set_counters elbow_threshold
         elbow_changes_history filter_strength wrist_deadzone].
    rewrite dict_get_set_same. repeat split; auto.
  - destruct (f_ltb (f_abs w) (wrist_deadzone self)).
    + eexists. split; [reflexivity|].
      cbn [prev_elbow_value prev_wrist_value set_prev set_counters elbow_threshold
           elbow_changes_history filter_strength wrist_deadzone].
      rewrite dict_get_set_same. repeat split; auto.
    + rewrite (dict_set_same _ _ Hw).
      eexists. split; [reflexivity|].
      cbn [prev_elbow_value prev_wrist_value set_prev set_counters elbow_threshold
           elbow_changes_history filter_strength wrist_deadzone].
      rewrite Hw. repeat split; auto.
Qed.

(** Every call on a frame holding both keys leaves both previous values
    set, the previous wrist value being the one it returned. *)
Lemma apply_sets_prev (self : ElbowFlexFilter F) (action : dict F) (e w : F) :
  dict_get elbow_key action = Some e ->
  dict_get wrist_key action = Some w ->
  exists self' out o,
    apply self action = (self', out) /\
    dict_get wrist_key out = Some o /\
    prev_elbow_value self' = Some e /\ prev_wrist_value self' = Some o /\
    filter_strength self' = filter_strength self /\
    wrist_deadzone self' = wrist_deadzone self.
Proof.
  intros He Hw. destruct (prev_elbow_value self) as [pe|] eqn:Hpe.
  - destruct (apply_later_tick self action He Hw Hpe)
      as (self' & E & H1 & H2 & _ & _ & H3 & H4).
    do 3 eexists. split; [exact E|]. rewrite dict_get_set_same.
    split; [reflexivity|]. repeat split; assumption.
  - destruct (apply_first_tick self action He Hw Hpe)
      as (self' & E & H1 & H2 & _ & H3 & H4).
    do 3 eexists. split; [exact E|]. split; [exact Hw|]. repeat split; assumption.
Qed.

Lemma apply_frame (self : ElbowFlexFilter F) (action : dict F) :
  dict_keys (snd (apply self action)) = dict_keys action /\
  forall k, k <> wrist_key -> dict_get k (snd (apply self action)) = dict_get k action.
Proof.
  destruct (dict_get elbow_key action) as [e|] eqn:He.
  2:{ unfold apply_filter. rewrite He. auto. }
  destruct (dict_get wrist_key action) as [w|] eqn:Hw.
  2:{ unfold apply_filter. rewrite He, Hw. auto. }
  destruct (prev_elbow_value self) as [pe|] eqn:Hpe.
  - destruct (apply_later_tick self action He Hw Hpe) as (self' & E & _).
    rewrite E. simpl. split.
    + apply dict_keys_set. congruence.
    + intros k Hk. now apply dict_get_set_other.
  - destruct (apply_first_tick self action He Hw Hpe) as (self' & E & _).
    rewrite E. auto.
Qed.

Lemma apply_absent (self : ElbowFlexFilter F) (action : dict F) :
  dict_get elbow_key action = None \/ dict_get wrist_key action = None ->
  apply self action = (self, action).
Proof.
  unfold apply_filter. intros [E|E]; rewrite E; [reflexivity|].
  now destruct (dict_get elbow_key action).
Qed.

End ElbowTicks.

(** C3.  The adaptive threshold of the elbow filter.  With
    [adaptive_threshold] off the threshold is the same after any sequence of
    ticks.  After any sequence of ticks that leaves fewer than 10 entries in
    the history the threshold is the same.  On a tick after the first, with
    the adaptation on, once the history (the new change included) holds 10
    entries or more, the threshold becomes
    [0.9 * threshold + 0.1 * (mean(history) + 1.5 * std(history))].  The same
    three facts for [update_adaptive_threshold] alone. *)
Theorem adaptive_threshold_correct :
  forall (F : Type) (ops : PyFloat F) (np_mean np_std : list F -> F),
    (forall (self : ElbowFlexFilter F) (actions : list (dict F)),
       adaptive_threshold self = false ->
       elbow_threshold (fst (teleop_loop np_mean np_std self actions))
       = elbow_threshold self) /\
    (forall (self : ElbowFlexFilter F) (actions : list (dict F)),
       let self' := fst (teleop_loop np_mean np_std self actions) in
       length (elbow_changes_history self') < 10 ->
       elbow_threshold self' = elbow_threshold self) /\
    (forall (self : ElbowFlexFilter F) (action : dict F) (e w pe : F),
       adaptive_threshold self = true ->
       dict_get elbow_key action = Some e ->
       dict_get wrist_key action = Some w ->
       prev_elbow_value self = Some pe ->
       let self' := fst (apply_filter np_mean np_std self action) in
       let history := elbow_changes_history self' in
       history = push_history self (f_abs (f_sub e pe)) /\
       (10 <= length history ->
        elbow_threshold self' =
          f_add (f_mul (f_lit (9 # 10)) (elbow_threshold self))
                (f_mul (f_lit (1 # 10))
                       (f_add (np_mean history)
                              (f_mul (f_lit (15 # 10)) (np_std history)))))) /\
    (forall (self : ElbowFlexFilter F) (elbow_change : F),
       let self' := update_adaptive_threshold np_mean np_std self elbow_change in
       let history := elbow_changes_history self' in
       (adaptive_threshold self = false -> self' = self) /\
       (length history < 10 -> elbow_threshold self' = elbow_threshold self) /\
       (adaptive_threshold self = true -> 10 <= length history ->
        elbow_threshold self' =
          f_add (f_mul (f_lit (9 # 10)) (elbow_threshold self))
                (f_mul (f_lit (1 # 10))
                       (f_add (np_mean history)
                              (f_mul (f_lit (15 # 10)) (np_std history)))))).
Proof.
  intros F ops np_mean np_std.
  assert (Hupd : forall (self : ElbowFlexFilter F) (d : F),
            adaptive_threshold self = true ->
            let self' := update_adaptive_threshold np_mean np_std self d in
            elbow_changes_history self' = push_history self d /\
            (10 <= length (elbow_changes_history self') ->
             elbow_threshold self' =
               smoothed np_mean np_std (elbow_threshold self) (elbow_changes_history self'))).
  { intros self d Hon. cbv zeta. rewrite (update_enabled np_mean np_std self d Hon).
    cbn [elbow_changes_history elbow_threshold set_adaptive]. split; [reflexivity|].
    intros Hlen. now destruct (Nat.leb_spec 10 (length (push_history self d))); [|lia]. }
  split; [|split; [|split]].
  - intros self actions Hoff. now apply loop_disabled.
  - intros self actions. cbv zeta. intros Hlt. now apply loop_short.
  - intros self action e w pe Hon He Hw Hpe. cbv zeta.
    destruct (apply_later_tick np_mean np_std self action He Hw Hpe)
      as (s & E & _ & _ & Ht & Hh & _).
    rewrite E. cbn [fst]. rewrite Hh, Ht.
    destruct (Hupd self (f_abs (f_sub e pe)) Hon) as (H1 & H2). split; [exact H1|].
    intros Hlen. rewrite (H2 Hlen). reflexivity.
  - intros self d. cbv zeta. split; [|split].
    + intros Hoff. now apply update_disabled.
    + intros Hlt. now apply update_short.
    + intros Hon Hlen. destruct (Hupd self d Hon) as (_ & H2). now rewrite (H2 Hlen).
Qed.

Lemma adaptive_threshold_correct_witness :
  elbow_threshold
    (fst (teleop_loop ref_mean ref_std (init (elbow_config false))
            [elbow_frame 0 10; elbow_frame 8 12; elbow_frame 8 20]))
  = f_lit 2.
Proof.
  apply (proj1 (@adaptive_threshold_correct float binary64 ref_mean ref_std)
           (init (elbow_config false))).
  reflexivity.
Defined.

(** C4.  Two consecutive ticks of the elbow filter on frames that hold both
    keys.  The first leaves the elbow value and the wrist value it returned
    as the previous values.  The second outputs the blend
    [(1 - strength) * value + strength * prev_output] when the elbow moved
    by more than the threshold (the threshold as updated on this tick),
    else [0.0] when the absolute wrist value is below the deadzone, else the
    value itself; it then records the elbow value and its output as the
    previous values. *)
Theorem elbow_tick_correct :
  forall (F : Type) (ops : PyFloat F) (np_mean np_std : list F -> F)
         (self : ElbowFlexFilter F) (a1 a2 : dict F) (e1 w1 e2 w2 : F),
    dict_get elbow_key a1 = Some e1 -> dict_get wrist_key a1 = Some w1 ->
    dict_get elbow_key a2 = Some e2 -> dict_get wrist_key a2 = Some w2 ->
    exists self1 out1 prev_output self2 out2,
      apply_filter np_mean np_std self a1 = (self1, out1) /\
      dict_get wrist_key out1 = Some prev_output /\
      prev_elbow_value self1 = Some e1 /\
      prev_wrist_value self1 = Some prev_output /\
      apply_filter np_mean np_std self1 a2 = (self2, out2) /\
      let elbow_delta := f_abs (f_sub e2 e1) in
      let threshold := elbow_threshold self2 in
      let strength := filter_strength self in
      let deadzone := wrist_deadzone self in
      let output :=
        if f_gtb elbow_delta threshold then
          f_add (f_mul (f_sub (f_lit 1) strength) w2) (f_mul strength prev_output)
        else if f_ltb (f_abs w2) deadzone then f_lit 0
        else w2 in
      threshold = elbow_threshold (update_adaptive_threshold np_mean np_std self1 elbow_delta) /\
      dict_get wrist_key out2 = Some output /\
      prev_elbow_value self2 = Some e2 /\
      prev_wrist_value self2 = Some output.
Proof.
  intros F ops np_mean np_std self a1 a2 e1 w1 e2 w2 He1 Hw1 He2 Hw2.
  destruct (apply_sets_prev np_mean np_std self a1 He1 Hw1)
    as (self1 & out1 & o1 & E1 & Ho1 & Hpe1 & Hpw1 & Hs1 & Hd1).
  destruct (apply_later_tick np_mean np_std self1 a2 He2 Hw2 Hpe1)
    as (self2 & E2 & Hpe2 & Hpw2 & Ht2 & _ & Hs2 & Hd2).
  exists self1, out1, o1, self2. eexists. split; [exact E1|]. split; [exact Ho1|].
  split; [exact Hpe1|]. split; [exact Hpw1|]. split; [exact E2|].
  cbv zeta. rewrite dict_get_set_same, Hpe2, Hpw2, Ht2.
  unfold tick_output. rewrite Hpw1, Hs1, Hd1. repeat split; reflexivity.
Qed.

Lemma elbow_tick_correct_witness :
  exists self1 out1 self2 out2,
    apply_filter ref_mean ref_std (init (elbow_config true)) (elbow_frame 0 10) = (self1, out1) /\
    apply_filter ref_mean ref_std self1 (elbow_frame 8 20) = (self2, out2) /\
    dict_get wrist_key out2 = Some (f_lit 12) /\
    prev_elbow_value self2 = Some (f_lit 8) /\
    prev_wrist_value self2 = Some (f_lit 12).
Proof.
  destruct (@elbow_tick_correct float binary64 ref_mean ref_std (init (elbow_config true))
              (elbow_frame 0 10) (elbow_frame 8 20) (f_lit 0) (f_lit 10) (f_lit 8) (f_lit 20)
              eq_refl eq_refl eq_refl eq_refl)
    as (self1 & out1 & o1 & self2 & out2 & E1 & Ho1 & _ & _ & E2 & _ & Hout & Hpe & Hpw).
  exists self1, out1, self2, out2.
  assert (Es : (self1, out1) = apply_filter ref_mean ref_std (init (elbow_config true)) (elbow_frame 0 10))
    by (symmetry; exact E1).
  vm_compute in Es. injection Es as -> ->.
  assert (Eo : o1 = f_lit 10).
  { vm_compute in Ho1. injection Ho1 as <-. vm_compute. reflexivity. }
  subst o1.
  assert (Es2 : (self2, out2) = apply_filter ref_mean ref_std
             (fst (apply_filter ref_mean ref_std (init (elbow_config true)) (elbow_frame 0 10)))
             (elbow_frame 8 20)).
  { vm_compute. vm_compute in E2. symmetry. exact E2. }
  vm_compute in Es2. injection Es2 as -> ->.
  repeat split; vm_compute; reflexivity.
Defined.

End ElbowFlexFacts.

(** ** Sorting the recordings *)

Section SortFacts.
Variables (A K : Type) (key : A -> K) (ltb : K -> K -> bool).
Hypothesis ltb_asym : forall a b, ltb a b = true -> ltb b a = false.
Hypothesis ltb_trans : forall a b c, ltb a b = true -> ltb b c = true -> ltb a c = true.

Lemma insert_by_key_perm (x : A) (l : list A) :
  Permutation (insert_by_key key ltb x l) (x :: l).
Proof.
  induction l as [|y l IH]; simpl; [reflexivity|].
  destruct (ltb (key x) (key y)); [reflexivity|].
  rewrite IH. apply perm_swap.
Qed.

Lemma insert_by_key_sorted (x : A) (l : list A) :
  StronglySorted (not_after key ltb) l -> StronglySorted (not_after key ltb) (insert_by_key key ltb x l).
Proof.
  induction 1 as [|y l Hs IH Hy]; simpl.
  - repeat constructor.
  - destruct (ltb (key x) (key y)) eqn:E.
    + constructor; [now constructor|].
      constructor; [exact (ltb_asym E)|].
      rewrite Forall_forall in *. intros z Hz. specialize (Hy z Hz).
      unfold not_after in *.
      destruct (ltb (key z) (key x)) eqn:Ez; [|reflexivity].
      rewrite (ltb_trans Ez E) in Hy. discriminate.
    + constructor; [exact IH|].
      rewrite Forall_forall in *. intros z Hz.
      apply (Permutation_in _ (insert_by_key_perm x l)) in Hz.
      destruct Hz as [<-|Hz]; [exact E | now apply Hy].
Qed.

Lemma fold_insert_perm (l acc : list A) :
  Permutation (fold_left (fun sorted x => insert_by_key key ltb x sorted) l acc) (acc ++ l).
Proof.
  revert acc. induction l as [|x l IH]; intros acc; simpl.
  - now rewrite app_nil_r.
  - rewrite IH, insert_by_key_perm. apply Permutation_middle.
Qed.

Lemma fold_insert_sorted (l acc : list A) :
  StronglySorted (not_after key ltb) acc ->
  StronglySorted (not_after key ltb) (fold_left (fun sorted x => insert_by_key key ltb x sorted) l acc).
Proof.
  revert acc. induction l as [|x l IH]; intros acc Hs; simpl; [exact Hs|].
  apply IH. now apply insert_by_key_sorted.
Qed.

Lemma sort_by_key_perm (l : list A) : Permutation (sort_by_key key ltb l) l.
Proof. unfold sort_by_key. apply (fold_insert_perm l []). Qed.

Lemma sort_by_key_sorted (l : list A) : StronglySorted (not_after key ltb) (sort_by_key key ltb l).
Proof. unfold sort_by_key. apply fold_insert_sorted. constructor. Qed.

End SortFacts.

(** *** Python strings *)

Lemma pystr_eqb_eq (s t : pystr) : pystr_eqb s t = true <-> s = t.
Proof.
  revert t. induction s as [|a s IH]; intros [|b t]; simpl;
    try (split; [discriminate | discriminate]); [tauto|].
  rewrite andb_true_iff, N.eqb_eq, IH. split.
  - now intros [-> ->].
  - intros [= -> ->]. auto.
Qed.

Lemma pystr_eqb_refl (s : pystr) : pystr_eqb s s = true.
Proof. now apply pystr_eqb_eq. Qed.

Lemma pystr_eqb_neq (s t : pystr) : pystr_eqb s t = false <-> s <> t.
Proof.
  rewrite <- pystr_eqb_eq. destruct (pystr_eqb s t); split; congruence.
Qed.

Lemma pystr_ltb_irrefl (s : pystr) : pystr_ltb s s = false.
Proof.
  induction s as [|a s IH]; simpl; [reflexivity|].
  now rewrite N.ltb_irrefl, N.eqb_refl, IH.
Qed.

Lemma pystr_ltb_asym (s t : pystr) : pystr_ltb s t = true -> pystr_ltb t s = false.
Proof.
  revert t. induction s as [|a s IH]; intros [|b t]; simpl; try discriminate; auto.
  intros H. apply orb_true_iff in H. apply orb_false_iff.
  destruct H as [H|H].
  - apply N.ltb_lt in H. split; [apply N.ltb_ge; lia|].
    apply andb_false_iff. left. apply N.eqb_neq. lia.
  - apply andb_true_iff in H as [Hab Hlt]. apply N.eqb_eq in Hab. subst b.
    split; [apply N.ltb_irrefl|]. rewrite N.eqb_refl. simpl. now apply IH.
Qed.

Lemma pystr_ltb_trans (s t u : pystr) :
  pystr_ltb s t = true -> pystr_ltb t u = true -> pystr_ltb s u = true.
Proof.
  revert t u. induction s as [|a s IH]; intros [|b t] [|c u]; simpl;
    try discriminate; auto.
  intros H1 H2. apply orb_true_iff in H1, H2. apply orb_true_iff.
  destruct H1 as [H1|H1], H2 as [H2|H2].
  - left. apply N.ltb_lt in H1, H2. apply N.ltb_lt. lia.
  - apply andb_true_iff in H2 as [Hbc _]. apply N.eqb_eq in Hbc. subst c. now left.
  - apply andb_true_iff in H1 as [Hab _]. apply N.eqb_eq in Hab. subst b. now left.
  - apply andb_true_iff in H1 as [Hab H1]. apply andb_true_iff in H2 as [Hbc H2].
    apply N.eqb_eq in Hab, Hbc. subst b c. right. rewrite N.eqb_refl. simpl.
    now apply (IH t u).
Qed.

(** A [str] that is not smaller stands after in lexical order. *)
Lemma pystr_not_ltb_lex_le (s t : pystr) : pystr_ltb t s = false -> lex_le s t.
Proof.
  revert t. induction s as [|a s IH]; intros t H.
  - left. now exists t.
  - destruct t as [|b t]; [discriminate H|]. simpl in H.
    apply orb_false_iff in H as [Hba H].
    apply N.ltb_ge in Hba.
    destruct (N.eq_dec a b) as [->|Hne].
    + rewrite N.eqb_refl in H. simpl in H.
      destruct (IH t H) as [(rest & ->)|(common & x & y & s' & t' & -> & -> & Hxy)].
      * left. now exists rest.
      * right. now exists (b :: common), x, y, s', t'.
    + right. exists [], a, b, s, t. repeat split; auto. lia.
Qed.

(** *** The sort keys *)

Lemma key_ltb_asym (a b : sort_key_t) : key_ltb a b = true -> key_ltb b a = false.
Proof.
  destruct a, b; simpl; intros Hlt;
    try (apply N.ltb_lt in Hlt; apply N.ltb_nlt; lia);
    try discriminate; try reflexivity.
  now apply pystr_ltb_asym.
Qed.

Lemma key_ltb_trans (a b c : sort_key_t) :
  key_ltb a b = true -> key_ltb b c = true -> key_ltb a c = true.
Proof.
  destruct a, b, c; simpl; intros H1 H2;
    try discriminate; try reflexivity;
    try (apply N.ltb_lt in H1; apply N.ltb_lt in H2; apply N.ltb_lt; lia).
  eapply pystr_ltb_trans; eassumption.
Qed.

Lemma key_not_after_precedes (a b : sort_key_t) :
  key_ltb b a = false -> key_precedes a b.
Proof.
  destruct a, b; simpl; intros H;
    try (apply N.ltb_ge in H; lia); try discriminate; try lia.
  now apply pystr_not_ltb_lex_le.
Qed.

Lemma sorted_by_key_precedes {A} (key : A -> sort_key_t) (l : list A) :
  StronglySorted (fun x y => key_precedes (key x) (key y)) (sort_by_key key key_ltb l).
Proof.
  pose proof (@sort_by_key_sorted _ _ key key_ltb key_ltb_asym key_ltb_trans l) as Hs.
  induction Hs as [|x l' Hs IH Hx]; constructor; [exact IH|].
  eapply Forall_impl; [|exact Hx]. intros y Hy. now apply key_not_after_precedes.
Qed.

(** *** What the regular expressions match *)

Lemma drop_prefix_app (p s rest : pystr) : drop_prefix p s = Some rest <-> s = p ++ rest.
Proof.
  revert s. induction p as [|a p IH]; intros s; simpl.
  - destruct s; split; congruence.
  - destruct s as [|b s]; [split; discriminate|].
    destruct (N.eqb_spec a b) as [->|Hne].
    + rewrite IH. split; [now intros -> | now intros [= ->]].
    + split; [discriminate | intros [= ? ?]; congruence].
Qed.

Section DigitFacts.
Context {U : Unicode}.

Lemma is_digit_value (c : N) : is_digit c = true <-> exists d, digit_value c = Some d.
Proof.
  unfold is_digit. destruct (digit_value c) as [d|]; split; eauto; try discriminate.
  intros (d & [=]).
Qed.

Lemma spells_digits (ds : pystr) (n : N) : spells ds n -> Forall (fun c => is_digit c = true) ds.
Proof.
  intros (digits & Hmap & _). revert digits Hmap.
  induction ds as [|c ds IH]; intros digits Hmap; constructor.
  - destruct digits as [|d digits]; [discriminate Hmap|]. injection Hmap as Hc _.
    apply is_digit_value. eauto.
  - destruct digits as [|d digits]; [discriminate Hmap|]. injection Hmap as _ Hrest.
    eauto.
Qed.

Lemma digits_spell (ds : pystr) :
  Forall (fun c => is_digit c = true) ds -> exists digits, map digit_value ds = map Some digits.
Proof.
  induction 1 as [|c ds Hc _ (digits & IH)]; [now exists []|].
  apply is_digit_value in Hc as (d & Hd). exists (d :: digits). simpl. now rewrite Hd, IH.
Qed.

Lemma take_digits_spec (s ds tail : pystr) :
  take_digits s = (ds, tail) ->
  s = ds ++ tail /\ Forall (fun c => is_digit c = true) ds /\ stops tail.
Proof.
  revert ds tail. induction s as [|c s IH]; intros ds tail; simpl.
  - intros [= <- <-]. repeat split; constructor.
  - destruct (is_digit c) eqn:Hc.
    + destruct (take_digits s) as [ds' tail'] eqn:Ht. intros [= <- <-].
      destruct (IH _ _ eq_refl) as (-> & Hds & Hstop).
      repeat split; [now constructor | exact Hstop].
    + intros [= <- <-]. repeat split; [constructor|].
      unfold is_digit in Hc. simpl. now destruct (digit_value c).
Qed.

Lemma take_digits_app (ds tail : pystr) :
  Forall (fun c => is_digit c = true) ds -> stops tail ->
  take_digits (ds ++ tail) = (ds, tail).
Proof.
  intros Hds Hstop. induction Hds as [|c ds Hc _ IH]; simpl.
  - destruct tail as [|c tail]; [reflexivity|]. simpl in Hstop.
    cbn [take_digits]. unfold is_digit. now rewrite Hstop.
  - now rewrite Hc, IH.
Qed.

(** [int] reads a number from left to right. *)
Lemma int_of_digits_from (ds : pystr) (digits : list N) (acc : N) :
  map digit_value ds = map Some digits ->
  fold_left (fun n c => (10 * n + match digit_value c with
                                  | Some d => d
                                  | None => 0
                                  end)%N) ds acc
  = (acc * 10 ^ N.of_nat (length digits) + number_of digits)%N.
Proof.
  revert digits acc. induction ds as [|c ds IH]; intros [|d digits] acc Hmap;
    try discriminate Hmap.
  - simpl. lia.
  - injection Hmap as Hc Hrest. cbn [fold_left]. rewrite Hc, (IH _ _ Hrest).
    cbn [number_of length]. rewrite Nat2N.inj_succ, N.pow_succ_r'. lia.
Qed.

Lemma int_of_digits_spells (ds : pystr) (n : N) : spells ds n -> int_of_digits ds = n.
Proof.
  intros (digits & Hmap & ->). unfold int_of_digits.
  rewrite (@int_of_digits_from ds digits 0%N Hmap). lia.
Qed.

Lemma spells_int_of_digits (ds : pystr) :
  Forall (fun c => is_digit c = true) ds -> spells ds (int_of_digits ds).
Proof.
  intros Hds. destruct (digits_spell Hds) as (digits & Hmap).
  exists digits. split; [exact Hmap|].
  apply int_of_digits_spells. now exists digits.
Qed.

(** [re.match] finds the digits of a numbered name, and only of such a
    name. *)
Lemma re_match_digits_some (p : string) (s ds tail : pystr) :
  re_match_digits p s = Some (ds, tail) ->
  s = str p ++ ds ++ tail /\ ds <> [] /\ spells ds (int_of_digits ds) /\ stops tail.
Proof.
  unfold re_match_digits. destruct (drop_prefix (str p) s) as [rest|] eqn:Hp; [|discriminate].
  apply drop_prefix_app in Hp. subst s.
  destruct (take_digits rest) as [ds' tail'] eqn:Ht.
  destruct (take_digits_spec _ Ht) as (-> & Hds & Hstop).
  destruct ds' as [|c ds']; [discriminate|]. intros [= <- <-].
  repeat split; [discriminate | now apply spells_int_of_digits | exact Hstop].
Qed.

Lemma re_match_digits_numbered (p : string) (s : pystr) (n : N) :
  numbered p n s ->
  exists ds tail, re_match_digits p s = Some (ds, tail) /\ int_of_digits ds = n.
Proof.
  intros (ds & tail & -> & Hne & Hsp & Hstop). exists ds, tail.
  unfold re_match_digits.
  rewrite (proj2 (drop_prefix_app (str p) _ (ds ++ tail)) eq_refl).
  rewrite (@take_digits_app ds tail (spells_digits Hsp) Hstop).
  destruct ds; [congruence|]. split; [reflexivity | now apply int_of_digits_spells].
Qed.

Lemma re_match_digits_none (p : string) (s : pystr) :
  re_match_digits p s = None -> ~ in_family p s.
Proof.
  intros Hnone (n & Hn). destruct (re_match_digits_numbered Hn) as (ds & tail & Hsome & _).
  congruence.
Qed.

Lemma numbered_match (p : string) (s ds tail : pystr) :
  re_match_digits p s = Some (ds, tail) -> numbered p (int_of_digits ds) s.
Proof.
  intros Hm. destruct (re_match_digits_some _ _ Hm) as (Hs & Hne & Hsp & Hstop).
  exists ds, tail. auto.
Qed.

(** What [sort_key] makes of a name. *)
Lemma conf_anx_key_spec (name : pystr) :
  match conf_anx_key name with
  | KConf n => numbered "conf" n name
  | KAnx n => numbered "anx" n name /\ ~ in_family "conf" name
  | KOther s => s = name /\ ~ in_family "conf" name /\ ~ in_family "anx" name
  end.
Proof.
  unfold conf_anx_key.
  destruct (re_match_digits "conf" name) as [[ds tail]|] eqn:Hconf.
  - now apply numbered_match with tail.
  - apply re_match_digits_none in Hconf.
    destruct (re_match_digits "anx" name) as [[ds tail]|] eqn:Hanx.
    + split; [now apply numbered_match with tail | exact Hconf].
    + apply re_match_digits_none in Hanx. auto.
Qed.

Lemma key_precedes_names (a b : pystr) :
  key_precedes (conf_anx_key a) (conf_anx_key b) -> name_precedes a b.
Proof.
  pose proof (conf_anx_key_spec a) as Ha. pose proof (conf_anx_key_spec b) as Hb.
  destruct (conf_anx_key a) as [n|n|s], (conf_anx_key b) as [m|m|t]; simpl; intros H;
    try lia.
  - left. now exists n, m.
  - right. left. split; [now exists n | tauto].
  - right. left. split; [now exists n | tauto].
  - right. right. left. exists n, m. tauto.
  - right. right. right. left. split; [exists n; tauto | tauto].
  - right. right. right. right.
    destruct Ha as (-> & Ha1 & Ha2), Hb as (-> & Hb1 & Hb2). auto.
Qed.

End DigitFacts.

(** *** Stems and suffixes *)

Lemma rsplit_dot_pkl (b : pystr) : rsplit_dot (b ++ str ".pkl") = Some (b, str ".pkl").
Proof.
  induction b as [|c b IH]; [reflexivity|].
  change ((c :: b) ++ str ".pkl") with (c :: (b ++ str ".pkl")).
  cbn [rsplit_dot]. now rewrite IH.
Qed.

Lemma py_stem_pkl (b : pystr) : b <> [] -> py_stem (b ++ str ".pkl") = b.
Proof.
  intros Hb. unfold py_stem. rewrite rsplit_dot_pkl.
  destruct b; [congruence | reflexivity].
Qed.

Lemma py_suffix_pkl (b : pystr) : b <> [] -> py_suffix (b ++ str ".pkl") = str ".pkl".
Proof.
  intros Hb. unfold py_suffix. rewrite rsplit_dot_pkl.
  destruct b; [congruence | reflexivity].
Qed.

Lemma rsplit_dot_app (name before from_dot : pystr) :
  rsplit_dot name = Some (before, from_dot) -> name = before ++ from_dot.
Proof.
  revert before from_dot. induction name as [|c name IH]; intros before from_dot; simpl;
    [discriminate|].
  destruct (rsplit_dot name) as [[b f]|].
  - intros [= <- <-]. simpl. f_equal. now apply IH.
  - destruct (c =? dot)%N; [|discriminate]. now intros [= <- <-].
Qed.

Lemma py_suffix_is_pkl (name : pystr) :
  pystr_eqb (py_suffix name) (str ".pkl") = true <->
  exists b, b <> [] /\ name = b ++ str ".pkl".
Proof.
  split.
  - intros H. apply pystr_eqb_eq in H. unfold py_suffix in H.
    destruct (rsplit_dot name) as [[before from_dot]|] eqn:Hsplit; [|discriminate H].
    destruct (pystr_eqb before []) eqn:Hb; [discriminate H|].
    destruct (2 <=? length from_dot)%nat; [|discriminate H]. simpl in H. subst from_dot.
    exists before. split; [now apply pystr_eqb_neq | now apply rsplit_dot_app].
  - intros (b & Hb & ->). rewrite (py_suffix_pkl Hb). apply pystr_eqb_refl.
Qed.

Lemma ends_with_app (suffix s : pystr) :
  ends_with suffix s = true <-> exists b, s = b ++ suffix.
Proof.
  induction s as [|c s IH]; simpl.
  - rewrite orb_false_r, pystr_eqb_eq. split.
    + intros ->. now exists [].
    + intros (b & Hb). symmetry in Hb. now apply app_eq_nil in Hb as [_ ->].
  - rewrite orb_true_iff, pystr_eqb_eq, IH. split.
    + intros [->|(b & ->)]; [now exists [] | now exists (c :: b)].
    + intros ([|c' b] & Hb); [left; now rewrite Hb|].
      injection Hb as <- ->. right. now exists b.
Qed.

(** The name by which [replay_all.py] orders a file it found. *)
Lemma replay_all_bare_name (name : pystr) :
  ends_with (str ".pkl") name = true -> bare_name name (py_stem name).
Proof.
  intros H. apply ends_with_app in H as ([|c b] & ->).
  - right. split; [|reflexivity]. intros b Hb Heq.
    apply (f_equal (@length N)) in Heq. rewrite !length_app in Heq.
    destruct b; [congruence | cbn [length] in Heq; lia].
  - left. rewrite py_stem_pkl by discriminate. split; [discriminate | reflexivity].
Qed.

(** The name by which [select_and_replay.py] orders a file. *)
Lemma select_bare_name (name : pystr) :
  bare_name name (if pystr_eqb (py_suffix name) (str ".pkl") then py_stem name else name).
Proof.
  destruct (pystr_eqb (py_suffix name) (str ".pkl")) eqn:Hs.
  - apply py_suffix_is_pkl in Hs as (b & Hb & ->). left.
    rewrite (py_stem_pkl Hb). auto.
  - right. split; [|reflexivity]. intros b Hb ->.
    rewrite (proj2 (py_suffix_is_pkl (b ++ str ".pkl"))) in Hs; [discriminate|eauto].
Qed.

Lemma StronglySorted_impl {A} (R R' : A -> A -> Prop) (l : list A) :
  (forall x y, In x l -> In y l -> R x y -> R' x y) ->
  StronglySorted R l -> StronglySorted R' l.
Proof.
  intros Himp Hs. induction Hs as [|x l Hs IH Hx]; constructor.
  - apply IH. intros a b Ha Hb. apply Himp; now right.
  - rewrite Forall_forall in *. intros y Hy. apply Himp; [now left | now right | auto].
Qed.

Section SelectionFacts.
Context {U : Unicode}.

Lemma re_match_recording_name_spec (name : pystr) :
  SelectAndReplay.re_match_recording_name name = true ->
  exists prefix ds tail,
    (prefix = "anx" \/ prefix = "conf") /\ name = str prefix ++ ds ++ tail /\
    ds <> [] /\ Forall (fun c => digit_value c <> None) ds /\
    (tail = [] \/ tail = [newline]).
Proof.
  unfold SelectAndReplay.re_match_recording_name.
  assert (Hend : forall tail : pystr,
            pystr_eqb tail [] || pystr_eqb tail [newline] = true ->
            tail = [] \/ tail = [newline]).
  { intros tail H. apply orb_true_iff in H. now rewrite !pystr_eqb_eq in H. }
  assert (Hdigits : forall ds n, spells ds n -> Forall (fun c => digit_value c <> None) ds).
  { intros ds n Hsp. eapply Forall_impl; [|exact (spells_digits Hsp)].
    intros c Hc. apply is_digit_value in Hc as (d & ->). discriminate. }
  destruct (re_match_digits "anx" name) as [[ds tail]|] eqn:Hanx.
  - intros H. destruct (re_match_digits_some _ _ Hanx) as (-> & Hne & Hsp & _).
    exists "anx", ds, tail. eauto 8.
  - destruct (re_match_digits "conf" name) as [[ds tail]|] eqn:Hconf; [|discriminate].
    intros H. destruct (re_match_digits_some _ _ Hconf) as (-> & Hne & Hsp & _).
    exists "conf", ds, tail. eauto 8.
Qed.

Lemma re_match_recording_name_complete (prefix : string) (ds tail : pystr) :
  prefix = "anx" \/ prefix = "conf" -> ds <> [] ->
  Forall (fun c => digit_value c <> None) ds -> tail = [] \/ tail = [newline] ->
  digit_value newline = None ->
  SelectAndReplay.re_match_recording_name (str prefix ++ ds ++ tail) = true.
Proof.
  intros Hp Hne Hds Htail Hnl.
  assert (Hds' : Forall (fun c => is_digit c = true) ds).
  { eapply Forall_impl; [|exact Hds]. intros c Hc. cbv beta in Hc. unfold is_digit.
    destruct (digit_value c); [reflexivity | congruence]. }
  assert (Hstop : stops tail) by (destruct Htail as [->| ->]; [exact I | exact Hnl]).
  assert (Hm : re_match_digits prefix (str prefix ++ ds ++ tail) = Some (ds, tail)).
  { unfold re_match_digits.
    rewrite (proj2 (drop_prefix_app (str prefix) _ (ds ++ tail)) eq_refl).
    rewrite (@take_digits_app U ds tail Hds' Hstop). destruct ds; [congruence | reflexivity]. }
  assert (Hend : pystr_eqb tail [] || pystr_eqb tail [newline] = true)
    by (destruct Htail as [->| ->]; reflexivity).
  unfold SelectAndReplay.re_match_recording_name.
  destruct Hp as [->| ->].
  - rewrite Hm. exact Hend.
  - replace (re_match_digits "anx" (str "conf" ++ ds ++ tail)) with (@None (pystr * pystr))
      by reflexivity.
    rewrite Hm. exact Hend.
Qed.

End SelectionFacts.

(** C8.  [find_pkl_files] of [replay_all.py] and of [select_and_replay.py]
    return the recordings of the directory (in [replay_all.py] the entries
    whose name ends in [.pkl]; in [select_and_replay.py] the files whose
    name has the extension [.pkl] or is the name of a recording), each once,
    in this order of their names less the extension: the [conf] names come
    first, by the number their digits spell; the [anx] names come next, by
    their number; the other names come last, in lexical order.  This holds
    whichever characters the interpreter takes for decimal digits.  The
    files conf2, anx1, conf1, zeta, anx3 come out as conf1, conf2, anx1,
    anx3, zeta; and conf12 comes after conf2 and after conf followed by an
    Arabic-Indic three, anx10 after anx9, and take-2 after take. *)
Theorem find_pkl_files_order :
  (forall (U : Unicode) (F : Type) (directory : files F),
     let out := ReplayAll.find_pkl_files directory in
     Permutation out (filter (ends_with (str ".pkl")) (file_names directory)) /\
     (forall name, In name out <->
                   In name (file_names directory) /\ exists b, name = b ++ str ".pkl") /\
     StronglySorted file_precedes out) /\
  (forall (U : Unicode) (F : Type) (directory : files F),
     let out := SelectAndReplay.find_pkl_files directory in
     Permutation out
       (map fst
          (filter (fun entry : pystr * file F =>
                     match snd entry with
                     | Directory => false
                     | _ => pystr_eqb (py_suffix (fst entry)) (str ".pkl")
                            || SelectAndReplay.re_match_recording_name (fst entry)
                     end) directory)) /\
     (forall name, In name out ->
                   recording_name name /\
                   exists f, In (name, f) directory /\ f <> Directory) /\
     (digit_value newline = None ->
      forall name f, In (name, f) directory -> f <> Directory -> recording_name name ->
                     In name out) /\
     StronglySorted file_precedes out) /\
  ReplayAll.find_pkl_files example_directory
    = map str ["conf1.pkl"; "conf2.pkl"; "anx1.pkl"; "anx3.pkl"; "zeta.pkl"] /\
  SelectAndReplay.find_pkl_files example_directory
    = map str ["conf1.pkl"; "conf2.pkl"; "anx1.pkl"; "anx3.pkl"; "zeta.pkl"] /\
  ReplayAll.find_pkl_files telling_directory
    = [ str "conf2.pkl"; str "conf" ++ [0x663%N] ++ str ".pkl"; str "conf12.pkl";
        str "anx9.pkl"; str "anx10.pkl"; str "abc.pkl"; str "take.pkl";
        str "take-2.pkl"; str "zeta.pkl" ] /\
  SelectAndReplay.find_pkl_files telling_directory
    = ReplayAll.find_pkl_files telling_directory.
Proof.
  split; [|split; [|split; [|split; [|split]]]].
  - intros U F directory. cbv zeta. unfold ReplayAll.find_pkl_files.
    pose proof (sort_by_key_perm ReplayAll.sort_key key_ltb
                  (filter (ends_with (str ".pkl")) (file_names directory))) as Hperm.
    assert (Hin : forall name,
              In name (sort_by_key ReplayAll.sort_key key_ltb
                         (filter (ends_with (str ".pkl")) (file_names directory))) <->
              In name (file_names directory) /\ ends_with (str ".pkl") name = true).
    { intros name. rewrite <- filter_In. split; apply Permutation_in;
        [exact Hperm | exact (Permutation_sym Hperm)]. }
    split; [exact Hperm|]. split.
    + intros name. rewrite Hin, ends_with_app. reflexivity.
    + eapply StronglySorted_impl; [|apply sorted_by_key_precedes].
      intros x y Hx Hy Hxy. apply Hin in Hx as [_ Hx]. apply Hin in Hy as [_ Hy].
      exists (py_stem x), (py_stem y).
      split; [now apply replay_all_bare_name|].
      split; [now apply replay_all_bare_name|].
      now apply key_precedes_names.
  - intros U F directory. cbv zeta. unfold SelectAndReplay.find_pkl_files.
    set (keep := fun entry : pystr * file F =>
                   match snd entry with
                   | Directory => false
                   | _ => pystr_eqb (py_suffix (fst entry)) (str ".pkl")
                          || SelectAndReplay.re_match_recording_name (fst entry)
                   end).
    pose proof (sort_by_key_perm SelectAndReplay.sort_key key_ltb
                  (map fst (filter keep directory))) as Hperm.
    assert (Hin : forall name,
              In name (sort_by_key SelectAndReplay.sort_key key_ltb
                         (map fst (filter keep directory))) <->
              exists f, In (name, f) directory /\ keep (name, f) = true).
    { intros name. split.
      - intros H. apply (Permutation_in _ Hperm) in H.
        apply in_map_iff in H as ([n f] & <- & H). apply filter_In in H. now exists f.
      - intros (f & Hf & Hk). apply (Permutation_in _ (Permutation_sym Hperm)).
        apply in_map_iff. exists (name, f). split; [reflexivity|].
        apply filter_In. auto. }
    split; [exact Hperm|]. split; [|split].
    + intros name H. apply Hin in H as (f & Hf & Hk). unfold keep in Hk. simpl in Hk.
      assert (Hname : pystr_eqb (py_suffix name) (str ".pkl")
                      || SelectAndReplay.re_match_recording_name name = true)
        by (destruct f; [exact Hk | exact Hk | discriminate Hk]).
      split.
      * apply orb_true_iff in Hname as [Hs|Hr].
        -- left. now apply py_suffix_is_pkl.
        -- right. now apply re_match_recording_name_spec.
      * exists f. split; [exact Hf|]. intros ->. discriminate Hk.
    + intros Hnl name f Hf Hdir Hname. apply Hin. exists f. split; [exact Hf|].
      unfold keep. simpl.
      assert (Hk : pystr_eqb (py_suffix name) (str ".pkl")
                   || SelectAndReplay.re_match_recording_name name = true).
      { apply orb_true_iff. destruct Hname as [Hs|(prefix & ds & tail & Hp & -> & Hne & Hds & Ht)].
        - left. now apply py_suffix_is_pkl.
        - right. now apply re_match_recording_name_complete. }
      destruct f; [exact Hk | exact Hk | congruence].
    + eapply StronglySorted_impl; [|apply sorted_by_key_precedes].
      intros x y _ _ Hxy. unfold SelectAndReplay.sort_key in Hxy.
      exists (if pystr_eqb (py_suffix x) (str ".pkl") then py_stem x else x),
             (if pystr_eqb (py_suffix y) (str ".pkl") then py_stem y else y).
      split; [apply select_bare_name|]. split; [apply select_bare_name|].
      now apply key_precedes_names.
  - vm_compute. reflexivity.
  - vm_compute. reflexivity.
  - vm_compute. reflexivity.
  - vm_compute. reflexivity.
Qed.

(** ** The recorders *)

Section WorldFacts.
Context {F : Type}.

Lemma py_last_snoc {A} (l : list A) (x : A) : py_last (l ++ [x]) = Some x.
Proof. unfold py_last. now rewrite rev_app_distr. Qed.

Lemma file_at_write_same (path : pystr) (f : file F) (fs : files F) :
  file_at path (write_file path f fs) = Some f.
Proof.
  induction fs as [|[p f'] fs IH]; simpl.
  - now rewrite pystr_eqb_refl.
  - destruct (pystr_eqb path p) eqn:E; simpl; rewrite ?pystr_eqb_refl, ?E; auto.
Qed.

Lemma extends_refl (w : world F) : extends w w [].
Proof. split; [reflexivity | now rewrite app_nil_r]. Qed.

Lemma extends_emit (w w' : world F) (evs evs' : list (event F)) :
  extends w w' evs -> extends w (emit w' evs') (evs ++ evs').
Proof. intros [Hf Ht]. split; simpl; [exact Hf | now rewrite Ht, app_assoc]. Qed.

Lemma extends_emit0 (w : world F) (evs : list (event F)) : extends w (emit w evs) evs.
Proof. apply (extends_emit evs (extends_refl w)). Qed.

(** [dump] returns normally exactly when nothing stands in the way of the
    write. *)
Lemma dump_returns (fault : option write_fault) (w : world F) (path : pystr)
    (data : recording F) :
  snd (dump fault w path data) = None <-> writable fault path w.
Proof.
  unfold dump, writable.
  destruct fault as [[e|e|e]|]; destruct (file_at path (w_files w)) as [[d| |]|]; simpl;
    split; try discriminate; try (intros [H1 H2]; congruence);
    intros _; split; congruence.
Qed.

Lemma dump_writes (w : world F) (path : pystr) (data : recording F) :
  file_at path (w_files w) <> Some Directory ->
  dump None w path data
  = ({| w_files := write_file path (Pickled data) (w_files w);
        w_trace := w_trace w ++ [EDump path data] |}, None).
Proof.
  intros Hdir. unfold dump.
  destruct (file_at path (w_files w)) as [[d| |]|]; congruence.
Qed.

(** A [dump] that raises leaves no [EDump] behind. *)
Lemma dump_raises (fault : option write_fault) (w w' : world F) (path : pystr)
    (data : recording F) (e : exn) :
  dump fault w path data = (w', Some e) -> w_trace w' = w_trace w.
Proof.
  unfold dump.
  destruct fault as [[e0|e0|e0]|]; destruct (file_at path (w_files w)) as [[d| |]|];
    intros [= <- _]; reflexivity.
Qed.

End WorldFacts.

Section RecordMotionLoop.
Context {F : Type}.
Import RecordMotion.

Lemma record_loop_world (fps : Z) (ticks : list (tick F)) :
  forall (frames : list (frame F)) (w : world F) frames' w' e,
    record_loop fps ticks frames w = Some (frames', w', e) ->
    exists evs, extends w w' evs /\ Forall quiet evs.
Proof.
  induction ticks as [|t ticks IH]; intros frames w frames' w' e; simpl; [discriminate|].
  destruct t as [ts a|e0|ts a e0|ts a e0].
  - destruct (fps =? 0)%Z.
    + intros [= <- <- <-]. exists []. split; [apply extends_refl | constructor].
    + destruct (_ =? 0)%Z; intros Hl; apply IH in Hl as (evs & Hx & Hq).
      * exists ([EPrint "Recorded"] ++ evs). split.
        -- destruct Hx as [Hf Ht]. split; [exact Hf|]. rewrite Ht. simpl.
           now rewrite <- app_assoc.
        -- constructor; [exact I | exact Hq].
      * eauto.
  - intros [= <- <- <-]. exists []. split; [apply extends_refl | constructor].
  - intros [= <- <- <-]. exists []. split; [apply extends_refl | constructor].
  - destruct (fps =? 0)%Z.
    + intros [= <- <- <-]. exists []. split; [apply extends_refl | constructor].
    + destruct (_ =? 0)%Z; intros [= <- <- <-].
      * exists [EPrint "Recorded"]. split; [apply extends_emit0 | repeat constructor].
      * exists []. split; [apply extends_refl | constructor].
Qed.

Lemma try_block_world (args : Args) (env : session F) (w : world F) frames w' e :
  try_block args env w = Some (frames, w', e) ->
  exists evs, extends w w' evs /\ Forall quiet evs.
Proof.
  unfold try_block. destruct (connect_raises env).
  - intros [= <- <- <-]. eexists. split; [apply extends_emit0 | repeat constructor].
  - intros Hl. apply record_loop_world in Hl as (evs & Hx & Hq).
    eexists. split.
    + destruct Hx as [Hf Ht]. split; [exact Hf|]. rewrite Ht. simpl.
      rewrite <- !app_assoc. reflexivity.
    + repeat (apply Forall_app; split); try exact Hq; repeat constructor.
Qed.

Lemma record_loop_exits (fps : Z) (ticks : list (tick F)) :
  existsb tick_raises ticks = true ->
  forall frames w, record_loop fps ticks frames w <> None.
Proof.
  induction ticks as [|t ticks IH]; simpl; [discriminate|].
  intros Hex frames w. destruct t as [ts a|e0|ts a e0|ts a e0]; simpl in Hex.
  - destruct (fps =? 0)%Z; [discriminate|]. now apply IH.
  - discriminate.
  - discriminate.
  - destruct (fps =? 0)%Z; discriminate.
Qed.

Lemma main_exits (args : Args) (env : session F) (w : world F) :
  connect_raises env <> None \/ existsb tick_raises (ticks env) = true ->
  main args env w <> None.
Proof.
  intros Hex. unfold main.
  assert (Htry : try_block args env w <> None).
  { unfold try_block. destruct (connect_raises env); [discriminate|].
    destruct Hex as [Hex|Hex]; [congruence|]. now apply record_loop_exits. }
  destruct (try_block args env w) as [[[frames w0] e]|]; [|congruence].
  now destruct (is_Exception e).
Qed.

End RecordMotionLoop.

Section Finalization.
Context {F : Type}.

Lemma quiet_no_dump (evs : list (event F)) : Forall quiet evs -> Forall no_dump evs.
Proof. apply Forall_impl. now intros []. Qed.

Lemma no_dump_not_in (evs : list (event F)) :
  Forall no_dump evs -> forall p d, ~ In (EDump p d) evs.
Proof. intros H p d Hin. rewrite Forall_forall in H. exact (H _ Hin). Qed.

Lemma finish_no_frames (w w1 : world F) (evs : list (event F)) :
  extends w w1 evs -> Forall no_dump evs ->
  nothing_written w (emit w1 [EPrint "No frames recorded."]).
Proof.
  intros Hx Hq. destruct (extends_emit [EPrint "No frames recorded."] Hx) as [Hf Ht].
  split; [exact Hf|]. eexists. split; [exact Ht|]. split.
  - apply no_dump_not_in, Forall_app. split; [exact Hq | repeat constructor].
  - apply in_or_app. right. now left.
Qed.

(** What is needed of a world left by [save_recording] to conclude. *)
Lemma finish_saved (path : pystr) (frames : list (frame F)) (data : recording F)
    (after : list (event F)) (w w1 w2 : world F) (evs : list (event F))
    (devices : list string) :
  w_files w2 = write_file path (Pickled data) (w_files w1) ->
  w_trace w2 = w_trace w1 ++ EDump path data :: after ->
  dict_get "frames" data = Some (PFrames frames) ->
  extends w w1 evs -> Forall no_dump evs ->
  (forall device, In device devices -> In (EDisconnect device) evs) ->
  persisted_after_disconnect w w2 path frames devices.
Proof.
  intros Hsf Hst Hframes [Hf Ht] Hq Hdev.
  exists data, evs, after. split; [rewrite Hsf; apply file_at_write_same|].
  split; [exact Hframes|].
  split; [rewrite Hst, Ht, <- (app_assoc (w_trace w)); reflexivity|].
  split; [exact Hdev | now apply no_dump_not_in].
Qed.

End Finalization.

Section RecordMotionMain.
Context {F : Type}.
Import RecordMotion.

Lemma save_recording_saves (frames : list (frame F)) (path : pystr) (fps : Z)
    (w1 : world F) :
  file_at path (w_files w1) <> Some Directory ->
  exists data after w2,
    save_recording None frames path fps w1 = (w2, None) /\
    w_files w2 = write_file path (Pickled data) (w_files w1) /\
    w_trace w2 = w_trace w1 ++ EDump path data :: after /\
    dict_get "frames" data = Some (PFrames frames).
Proof.
  intros Hdir. unfold save_recording. rewrite dump_writes by exact Hdir.
  do 3 eexists. split; [reflexivity|]. split; [reflexivity|]. split; [|reflexivity].
  cbn [w_trace emit]. rewrite <- app_assoc. reflexivity.
Qed.

Lemma main_finalization (args : Args) (env : session F) (w w' : world F) (exc : option exn) :
  main args env w = Some (w', exc) ->
  (is_connected env = true -> disconnect_raises env = None) ->
  writable (save_fault env) (args_output args) w ->
  exists frames w0 e,
    try_block args env w = Some (frames, w0, e) /\
    exc = (if is_Exception e then Some e else None) /\
    (frames <> [] ->
       persisted_after_disconnect w w' (args_output args) frames
         (if is_connected env then ["leader"] else [])) /\
    (frames = [] -> nothing_written w w').
Proof.
  unfold main. destruct (try_block args env w) as [[[frames w0] e]|] eqn:Etry; [|discriminate].
  intros Hmain Hdisc [Hfault Hdir]. exists frames, w0, e. split; [reflexivity|].
  destruct (try_block_world _ _ _ Etry) as (evs & Hx & Hq).
  apply quiet_no_dump in Hq.
  set (handler := (if is_Exception e then EPrint "Error during recording"
                   else EPrint "Recording stopped by user.") : event F).
  assert (Hh : exists w1, extends w w1 (evs ++ [handler]) /\
             finally_block args env frames (if is_Exception e then Some e else None) w1
             = (w', exc)).
  { subst handler. destruct (is_Exception e); injection Hmain as Hmain;
      (eexists; split; [|exact Hmain]); apply (extends_emit _ Hx). }
  clear Hmain. destruct Hh as (w1 & Hx1 & Hfin).
  assert (Hq1 : Forall no_dump (evs ++ [handler])).
  { apply Forall_app. split; [exact Hq|]. subst handler.
    destruct (is_Exception e); repeat constructor. }
  unfold finally_block in Hfin. rewrite Hfault in Hfin.
  set (evd := if is_connected env
              then [EPrint "Disconnecting leader arm..."; EDisconnect "leader"]
              else [] : list (event F)).
  assert (Hend : exists w2, extends w w2 ((evs ++ [handler]) ++ evd) /\
            match frames with
            | [] => (emit w2 [EPrint "No frames recorded."],
                     if is_Exception e then Some e else None)
            | _ :: _ =>
                match save_recording None frames (args_output args) (args_fps args) w2 with
                | (w3, Some e') => (w3, Some e')
                | (w3, None) => (w3, if is_Exception e then Some e else None)
                end
            end = (w', exc)).
  { subst evd. destruct (is_connected env) eqn:Hconn.
    - rewrite (Hdisc eq_refl) in Hfin. eexists. split; [|exact Hfin].
      apply (extends_emit _ Hx1).
    - exists w1. rewrite app_nil_r. auto. }
  clear Hfin. destruct Hend as (w2 & Hx2 & Hfin).
  assert (Hq2 : Forall no_dump ((evs ++ [handler]) ++ evd)).
  { apply Forall_app. split; [exact Hq1|]. subst evd.
    destruct (is_connected env); repeat constructor. }
  destruct frames as [|f frames].
  - injection Hfin as <- <-.
    split; [reflexivity|]. split; [congruence|]. intros _.
    exact (finish_no_frames Hx2 Hq2).
  - assert (Hdir2 : file_at (args_output args) (w_files w2) <> Some Directory)
      by (destruct Hx2 as [-> _]; exact Hdir).
    destruct (@save_recording_saves (f :: frames) (args_output args) (args_fps args) w2 Hdir2)
      as (data & after & w3 & Hsave & Hsf & Hst & Hframes).
    rewrite Hsave in Hfin. injection Hfin as <- <-.
    split; [reflexivity|]. split; [|discriminate]. intros _.
    eapply finish_saved; [exact Hsf | exact Hst | exact Hframes | exact Hx2 | exact Hq2 |].
    intros device Hin. subst evd. destruct (is_connected env); [|contradiction].
    destruct Hin as [<-|[]]. apply in_or_app. right. simpl. auto.
Qed.

End RecordMotionMain.

Section RecordWithTeleopMain.
Context {F : Type}.
Import RecordWithTeleop.

Lemma teleop_record_loop_world (fps : Z) (ticks : list (tick F)) :
  forall (frames : list (frame F)) (w : world F) frames' w' e,
    record_loop fps ticks frames w = Some (frames', w', e) ->
    exists evs, extends w w' evs /\ Forall quiet evs.
Proof.
  induction ticks as [|t ticks IH]; intros frames w frames' w' e; simpl; [discriminate|].
  destruct t as [ts a|e0|a e0|a e0|ts a e0|ts a e0].
  - destruct (fps =? 0)%Z.
    + intros [= <- <- <-]. exists [ESendAction a].
      split; [apply extends_emit0 | repeat constructor].
    + destruct (_ =? 0)%Z; intros Hl; apply IH in Hl as (evs & [Hf Ht] & Hq).
      * exists ([ESendAction a; EPrint "Recorded"] ++ evs). split.
        -- split; [exact Hf|]. rewrite Ht. simpl. now rewrite <- !app_assoc.
        -- repeat constructor. exact Hq.
      * exists ([ESendAction a] ++ evs). split.
        -- split; [exact Hf|]. rewrite Ht. simpl. now rewrite <- !app_assoc.
        -- repeat constructor. exact Hq.
  - intros [= <- <- <-]. exists []. split; [apply extends_refl | constructor].
  - intros [= <- <- <-]. exists []. split; [apply extends_refl | constructor].
  - intros [= <- <- <-]. exists [ESendAction a].
    split; [apply extends_emit0 | repeat constructor].
  - intros [= <- <- <-]. exists [ESendAction a].
    split; [apply extends_emit0 | repeat constructor].
  - destruct (fps =? 0)%Z.
    + intros [= <- <- <-]. exists [ESendAction a].
      split; [apply extends_emit0 | repeat constructor].
    + destruct (_ =? 0)%Z; intros [= <- <- <-].
      * exists ([ESendAction a] ++ [EPrint "Recorded"]).
        split; [apply extends_emit, extends_emit0 | repeat constructor].
      * exists [ESendAction a]. split; [apply extends_emit0 | repeat constructor].
Qed.

Lemma teleop_try_block_world (args : Args) (env : session F) (w : world F) frames w' e :
  try_block args env w = Some (frames, w', e) ->
  exists evs, extends w w' evs /\ Forall quiet evs.
Proof.
  unfold try_block. destruct (leader_connect_raises env).
  { intros [= <- <- <-]. eexists. split; [apply extends_emit0 | repeat constructor]. }
  destruct (follower_connect_raises env).
  { intros [= <- <- <-]. eexists.
    split; [apply extends_emit, extends_emit0 | repeat constructor]. }
  intros Hl. apply teleop_record_loop_world in Hl as (evs & [Hf Ht] & Hq).
  eexists. split.
  - split; [exact Hf|]. rewrite Ht. simpl. rewrite <- !app_assoc. reflexivity.
  - repeat (apply Forall_app; split); try exact Hq; repeat constructor.
Qed.

Lemma teleop_record_loop_exits (fps : Z) (ticks : list (tick F)) :
  existsb teleop_tick_raises ticks = true ->
  forall frames w, record_loop fps ticks frames w <> None.
Proof.
  induction ticks as [|t ticks IH]; simpl; [discriminate|].
  intros Hex frames w. destruct t as [ts a|e0|a e0|a e0|ts a e0|ts a e0]; simpl in Hex;
    try discriminate.
  - destruct (fps =? 0)%Z; [discriminate|]. now apply IH.
  - destruct (fps =? 0)%Z; discriminate.
Qed.

Lemma teleop_main_exits (args : Args) (env : session F) (w : world F) :
  leader_connect_raises env <> None \/ follower_connect_raises env <> None \/
  existsb teleop_tick_raises (ticks env) = true ->
  main args env w <> None.
Proof.
  intros Hex. unfold main.
  assert (Htry : try_block args env w <> None).
  { unfold try_block. destruct (leader_connect_raises env); [discriminate|].
    destruct (follower_connect_raises env); [discriminate|].
    destruct Hex as [Hex|[Hex|Hex]]; [congruence | congruence |].
    now apply teleop_record_loop_exits. }
  destruct (try_block args env w) as [[[frames w0] e]|]; [|congruence].
  now destruct (is_Exception e).
Qed.

Lemma teleop_save_recording_saves (frames : list (frame F)) (path : pystr) (fps : Z)
    (w1 : world F) :
  file_at path (w_files w1) <> Some Directory ->
  exists data after w2,
    save_recording None frames path fps w1 = (w2, None) /\
    w_files w2 = write_file path (Pickled data) (w_files w1) /\
    w_trace w2 = w_trace w1 ++ EDump path data :: after /\
    dict_get "frames" data = Some (PFrames frames).
Proof.
  intros Hdir. unfold save_recording. rewrite dump_writes by exact Hdir.
  do 3 eexists. split; [reflexivity|]. split; [reflexivity|]. split; [|reflexivity].
  cbn [w_trace emit]. rewrite <- app_assoc. reflexivity.
Qed.

Lemma teleop_finally_block (args : Args) (env : session F) (frames : list (frame F))
    (pending : option exn) (w w1 w' : world F) (exc : option exn) (evs : list (event F)) :
  extends w w1 evs -> Forall no_dump evs ->
  (leader_is_connected env = true -> leader_disconnect_raises env = None) ->
  (follower_is_connected env = true -> follower_disconnect_raises env = None) ->
  writable (save_fault env) (args_output args) w ->
  finally_block args env frames pending w1 = (w', exc) ->
  exc = pending /\
  (frames <> [] ->
     persisted_after_disconnect w w' (args_output args) frames (teleop_devices env)) /\
  (frames = [] -> nothing_written w w').
Proof.
  intros Hx Hq Hl Hf [Hfault Hdir]. unfold finally_block, teleop_devices. rewrite Hfault.
  set (evl := if leader_is_connected env
              then [EPrint "Disconnecting leader arm..."; EDisconnect "leader"]
              else [] : list (event F)).
  set (evf := if follower_is_connected env
              then [EPrint "Disconnecting follower arm..."; EDisconnect "follower"]
              else [] : list (event F)).
  assert (Hfin : forall w2, extends w w2 ((evs ++ evl) ++ evf) ->
            (match frames with
             | [] => (emit w2 [EPrint "No frames recorded."], pending)
             | _ :: _ =>
                 match save_recording None frames (args_output args) (args_fps args) w2 with
                 | (w3, Some e') => (w3, Some e')
                 | (w3, None) => (w3, pending)
                 end
             end) = (w', exc) ->
            exc = pending /\
            (frames <> [] ->
               persisted_after_disconnect w w' (args_output args) frames
                 ((if leader_is_connected env then ["leader"] else []) ++
                  (if follower_is_connected env then ["follower"] else []))) /\
            (frames = [] -> nothing_written w w')).
  { intros w2 Hx2 Hend.
    assert (Hq2 : Forall no_dump ((evs ++ evl) ++ evf)).
    { repeat (apply Forall_app; split); [exact Hq | |]; subst evl evf.
      - destruct (leader_is_connected env); repeat constructor.
      - destruct (follower_is_connected env); repeat constructor. }
    destruct frames as [|f frames].
    - injection Hend as <- <-.
      split; [reflexivity|]. split; [congruence|]. intros _.
      exact (finish_no_frames Hx2 Hq2).
    - assert (Hdir2 : file_at (args_output args) (w_files w2) <> Some Directory)
        by (destruct Hx2 as [-> _]; exact Hdir).
      destruct (@teleop_save_recording_saves (f :: frames) (args_output args)
                  (args_fps args) w2 Hdir2)
        as (data & after & w3 & Hsave & Hsf & Hst & Hframes).
      rewrite Hsave in Hend. injection Hend as <- <-.
      split; [reflexivity|]. split; [|discriminate]. intros _.
      eapply finish_saved; [exact Hsf | exact Hst | exact Hframes | exact Hx2 | exact Hq2 |].
      intros device Hin. subst evl evf. apply in_app_or in Hin.
      destruct Hin as [Hin|Hin].
      + destruct (leader_is_connected env); [|contradiction].
        destruct Hin as [<-|[]]. apply in_or_app. left. apply in_or_app. right. simpl. auto.
      + destruct (follower_is_connected env); [|contradiction].
        destruct Hin as [<-|[]]. apply in_or_app. right. simpl. auto. }
  destruct (leader_is_connected env) eqn:El.
  - rewrite (Hl eq_refl).
    destruct (follower_is_connected env) eqn:Ef.
    + rewrite (Hf eq_refl). apply Hfin. subst evl evf.
      apply extends_emit, extends_emit. exact Hx.
    + apply Hfin. subst evl evf. rewrite app_nil_r. apply extends_emit. exact Hx.
  - destruct (follower_is_connected env) eqn:Ef.
    + rewrite (Hf eq_refl). apply Hfin. subst evl evf. rewrite app_nil_r.
      apply extends_emit. exact Hx.
    + apply Hfin. subst evl evf. rewrite !app_nil_r. exact Hx.
Qed.

Lemma teleop_main_finalization (args : Args) (env : session F) (w w' : world F)
    (exc : option exn) :
  main args env w = Some (w', exc) ->
  (leader_is_connected env = true -> leader_disconnect_raises env = None) ->
  (follower_is_connected env = true -> follower_disconnect_raises env = None) ->
  writable (save_fault env) (args_output args) w ->
  exists frames w0 e,
    try_block args env w = Some (frames, w0, e) /\
    exc = (if is_Exception e then Some e else None) /\
    (frames <> [] ->
       persisted_after_disconnect w w' (args_output args) frames (teleop_devices env)) /\
    (frames = [] -> nothing_written w w').
Proof.
  unfold main. destruct (try_block args env w) as [[[frames w0] e]|] eqn:Etry; [|discriminate].
  intros Hmain Hl Hf Hw. exists frames, w0, e. split; [reflexivity|].
  destruct (teleop_try_block_world _ _ _ Etry) as (evs & Hx & Hq).
  apply quiet_no_dump in Hq.
  set (handler := (if is_Exception e then EPrint "Error during recording"
                   else EPrint "Recording stopped by user.") : event F).
  assert (Hh : exists w1, extends w w1 (evs ++ [handler]) /\
             finally_block args env frames (if is_Exception e then Some e else None) w1
             = (w', exc)).
  { subst handler. destruct (is_Exception e); injection Hmain as Hmain;
      (eexists; split; [|exact Hmain]); apply (extends_emit _ Hx). }
  clear Hmain. destruct Hh as (w1 & Hx1 & Hfin).
  assert (Hq1 : Forall no_dump (evs ++ [handler])).
  { apply Forall_app. split; [exact Hq|]. subst handler.
    destruct (is_Exception e); repeat constructor. }
  exact (teleop_finally_block _ _ _ _ Hx1 Hq1 Hl Hf Hw Hfin).
Qed.

End RecordWithTeleopMain.

(** ** Both filters leave the rest of the frame alone *)

(** C10.  Both filters change at most the entry [wrist_roll.pos] of the frame
    they are given: the returned frame has the same keys, in the same order,
    and the same value under every other key; and a frame that lacks
    [wrist_roll.pos] (for the elbow filter: [wrist_roll.pos] or
    [elbow_flex.pos]) is returned as it is, with the filter unchanged. *)
Theorem filters_touch_only_wrist_roll :
  (forall (F : Type) (ops : PyFloat F) (self : WristRoll.WristRollFilter F)
          (action : dict F),
     (dict_get "wrist_roll.pos" action = None ->
        WristRoll.apply_filter self action = WristRoll.Returns self action) /\
     (forall self' action',
        WristRoll.apply_filter self action = WristRoll.Returns self' action' ->
        dict_keys action' = dict_keys action /\
        forall k, k <> "wrist_roll.pos" -> dict_get k action' = dict_get k action)) /\
  (forall (F : Type) (ops : PyFloat F) (np_mean np_std : list F -> F)
          (self : ElbowFlex.ElbowFlexFilter F) (action : dict F),
     (dict_get "elbow_flex.pos" action = None \/ dict_get "wrist_roll.pos" action = None ->
        ElbowFlex.apply_filter np_mean np_std self action = (self, action)) /\
     (let action' := snd (ElbowFlex.apply_filter np_mean np_std self action) in
      dict_keys action' = dict_keys action /\
      forall k, k <> "wrist_roll.pos" -> dict_get k action' = dict_get k action)).
Proof.
  split.
  - intros F ops self action. split.
    + apply WristRollFacts.apply_filter_absent.
    + intros self' action'. apply WristRollFacts.apply_filter_frame.
  - intros F ops np_mean np_std self action. split.
    + apply ElbowFlexFacts.apply_absent.
    + apply ElbowFlexFacts.apply_frame.
Qed.

Lemma filters_touch_only_wrist_roll_witness :
  WristRoll.apply_filter deadzone_5 shoulder_12 = WristRoll.Returns deadzone_5 shoulder_12 /\
  ElbowFlex.apply_filter ref_mean ref_std (ElbowFlex.init (elbow_config true)) shoulder_12
    = (ElbowFlex.init (elbow_config true), shoulder_12).
Proof.
  split.
  - apply (proj1 filters_touch_only_wrist_roll float binary64 deadzone_5 shoulder_12).
    reflexivity.
  - apply (proj2 filters_touch_only_wrist_roll float binary64 ref_mean ref_std
             (ElbowFlex.init (elbow_config true)) shoulder_12).
    left. reflexivity.
Defined.

(** ** What the recorders persist *)

Lemma recording_of_built {F} (frames : list (frame F)) (fps : Z) :
  recording_of frames
    [ ("fps", PInt fps);
      ("frames", PFrames frames);
      ("num_frames", PInt (Z.of_nat (length frames)));
      ("duration", match py_last frames with
                   | Some f => PFloat (timestamp f)
                   | None => PInt 0
                   end);
      ("motor_names", PStrList match frames with
                               | f :: _ => dict_keys (action f)
                               | [] => []
                               end) ].
Proof.
  split; [reflexivity|]. split; [reflexivity|]. split; [|split].
  - now intros ->.
  - intros earlier f ->. now rewrite py_last_snoc.
  - now intros f later ->.
Qed.

(** What a call of [save_recording] that hands [data] to [dump] leaves. *)
Lemma save_outcome {F} (fault : option write_fault) (w : world F) (path : pystr)
    (data : recording F) (said : list (event F)) :
  let (w', raised) :=
    match dump fault w path data with
    | (w1, Some e) => (w1, Some e)
    | (w1, None) => (emit w1 said, None)
    end in
  (raised = None <-> writable fault path w) /\
  (raised = None ->
     file_at path (w_files w') = Some (Pickled data) /\
     In (EDump path data) (w_trace w')) /\
  (forall p d, In (EDump p d) (w_trace w') ->
               In (EDump p d) (w_trace w) \/
               (p = path /\ d = data /\ raised = None) \/ In (EDump p d) said).
Proof.
  pose proof (dump_returns fault w path data) as Hret.
  destruct (dump fault w path data) as [w1 [e|]] eqn:Hdump; simpl in Hret.
  - split; [exact Hret|]. split; [discriminate|].
    intros p d Hin. left. now rewrite (dump_raises _ _ _ _ Hdump) in Hin.
  - assert (Hw : writable fault path w) by now apply Hret.
    destruct Hw as [-> Hdir]. rewrite dump_writes in Hdump by exact Hdir.
    injection Hdump as <-. split; [exact Hret|]. split.
    + intros _. cbn [w_files w_trace emit]. split; [apply file_at_write_same|].
      rewrite !in_app_iff. left. right. now left.
    + intros p d Hin. cbn [w_trace emit] in Hin. rewrite !in_app_iff in Hin.
      destruct Hin as [[Hin|[[= <- <-]|[]]]|Hin]; auto.
Qed.

(** C1.  The record that [save_recording] hands to [pickle.dump] is built
    from the frames it was given: ["num_frames"] is their number,
    ["duration"] the timestamp of the last frame ([0] when there is none),
    ["motor_names"] the keys of the first frame's action (the empty list
    when there is none).  Whenever [save_recording] returns, which it does
    exactly when nothing stands in the way of the write, this record is what
    the output path holds, and no other record is ever written; in
    [record_motion.py] and in [record_with_teleop.py]. *)
Theorem save_recording_invariant :
  forall (F : Type) (frames : list (frame F)) (output_path : pystr) (fps : Z),
    exists data : recording F,
      dict_get "fps" data = Some (PInt fps) /\
      recording_of frames data /\
      forall (fault : option write_fault) (w : world F),
        (let (w', raised) := RecordMotion.save_recording fault frames output_path fps w in
         (raised = None <-> writable fault output_path w) /\
         (raised = None ->
            file_at output_path (w_files w') = Some (Pickled data) /\
            In (EDump output_path data) (w_trace w')) /\
         (forall p d, In (EDump p d) (w_trace w') ->
                      In (EDump p d) (w_trace w) \/
                      (p = output_path /\ d = data /\ raised = None))) /\
        (let (w', raised) :=
           RecordWithTeleop.save_recording fault frames output_path fps w in
         (raised = None <-> writable fault output_path w) /\
         (raised = None ->
            file_at output_path (w_files w') = Some (Pickled data) /\
            In (EDump output_path data) (w_trace w')) /\
         (forall p d, In (EDump p d) (w_trace w') ->
                      In (EDump p d) (w_trace w) \/
                      (p = output_path /\ d = data /\ raised = None))).
Proof.
  intros F frames output_path fps. eexists.
  split; [|split; [apply (recording_of_built frames fps)|]]; [reflexivity|].
  intros fault w.
  split; unfold RecordMotion.save_recording, RecordWithTeleop.save_recording.
  - match goal with
    | |- context [dump fault w output_path ?data] =>
        pose proof (save_outcome fault w output_path data
                      [EPrint "Recording saved to"; EPrint "Total frames";
                       EPrint "Duration"; EPrint "Motors"]) as Hout
    end.
    destruct (match dump fault w output_path _ with
              | (w1, Some e) => (w1, Some e)
              | (w1, None) => (emit w1 _, None)
              end) as [w' raised].
    destruct Hout as (H1 & H2 & H3). split; [exact H1|]. split; [exact H2|].
    intros p d Hin. destruct (H3 p d Hin) as [H|[H|H]]; auto.
    simpl in H. repeat (destruct H as [H|H]; [discriminate H|]). contradiction.
  - match goal with
    | |- context [dump fault w output_path ?data] =>
        pose proof (save_outcome fault w output_path data
                      [EPrint "Recording saved to"; EPrint "Total frames";
                       EPrint "Duration"; EPrint "Motors"]) as Hout
    end.
    destruct (match dump fault w output_path _ with
              | (w1, Some e) => (w1, Some e)
              | (w1, None) => (emit w1 _, None)
              end) as [w' raised].
    destruct Hout as (H1 & H2 & H3). split; [exact H1|]. split; [exact H2|].
    intros p d Hin. destruct (H3 p d Hin) as [H|[H|H]]; auto.
    simpl in H. repeat (destruct H as [H|H]; [discriminate H|]). contradiction.
Qed.

(** C9, as amended.  [main] is left as soon as a connect or a tick raises
    (a user interrupt or an error).  Whenever it is left, the calls of
    [disconnect] that the [finally] block makes return normally, and nothing
    stands in the way of the write (the output path is not a directory and
    no step of the write raises): if at least one frame was captured the
    captured frames are stored under the output path, after every connected
    device was disconnected; if none was captured no file is written and
    "No frames recorded." is printed.  An exception is re-raised, an
    interrupt is not.  In [record_motion.py] and in
    [record_with_teleop.py]. *)
Theorem recording_persisted_on_exit :
  (forall (F : Type) (args : RecordMotion.Args) (env : RecordMotion.session F)
          (w : world F),
     (RecordMotion.connect_raises env <> None \/
      existsb tick_raises (RecordMotion.ticks env) = true ->
      RecordMotion.main args env w <> None) /\
     forall (w' : world F) (exc : option exn),
       RecordMotion.main args env w = Some (w', exc) ->
       (RecordMotion.is_connected env = true -> RecordMotion.disconnect_raises env = None) ->
       writable (RecordMotion.save_fault env) (RecordMotion.args_output args) w ->
       exists frames w0 e,
         RecordMotion.try_block args env w = Some (frames, w0, e) /\
         exc = (if is_Exception e then Some e else None) /\
         (frames <> [] ->
            persisted_after_disconnect w w' (RecordMotion.args_output args) frames
              (if RecordMotion.is_connected env then ["leader"] else [])) /\
         (frames = [] -> nothing_written w w')) /\
  (forall (F : Type) (args : RecordWithTeleop.Args) (env : RecordWithTeleop.session F)
          (w : world F),
     (RecordWithTeleop.leader_connect_raises env <> None \/
      RecordWithTeleop.follower_connect_raises env <> None \/
      existsb teleop_tick_raises (RecordWithTeleop.ticks env) = true ->
      RecordWithTeleop.main args env w <> None) /\
     forall (w' : world F) (exc : option exn),
       RecordWithTeleop.main args env w = Some (w', exc) ->
       (RecordWithTeleop.leader_is_connected env = true ->
        RecordWithTeleop.leader_disconnect_raises env = None) ->
       (RecordWithTeleop.follower_is_connected env = true ->
        RecordWithTeleop.follower_disconnect_raises env = None) ->
       writable (RecordWithTeleop.save_fault env) (RecordWithTeleop.args_output args) w ->
       exists frames w0 e,
         RecordWithTeleop.try_block args env w = Some (frames, w0, e) /\
         exc = (if is_Exception e then Some e else None) /\
         (frames <> [] ->
            persisted_after_disconnect w w' (RecordWithTeleop.args_output args) frames
              (teleop_devices env)) /\
         (frames = [] -> nothing_written w w')).
Proof.
  split.
  - intros F args env w. split.
    + apply main_exits.
    + intros w' exc. apply main_finalization.
  - intros F args env w. split.
    + apply teleop_main_exits.
    + intros w' exc. apply teleop_main_finalization.
Qed.

Lemma recording_persisted_on_exit_witness :
  exists w',
    RecordMotion.main record_args (interrupted_session None) empty_world = Some (w', None) /\
    persisted_after_disconnect empty_world w' (str "recorded_motion.pkl") [one_frame]
      ["leader"].
Proof.
  eexists. split; [vm_compute; reflexivity|].
  assert (Hw : writable (RecordMotion.save_fault (interrupted_session None))
                 (RecordMotion.args_output record_args) empty_world)
    by (split; [reflexivity | discriminate]).
  destruct (proj2 (proj1 recording_persisted_on_exit float record_args
                     (interrupted_session None) empty_world)
              _ None eq_refl (fun _ => eq_refl) Hw)
    as (frames & w0 & e & Etry & _ & Hsaved & _).
  vm_compute in Etry. injection Etry as <- _ _.
  apply Hsaved. discriminate.
Defined.

(** C9 as stated fails when [leader.disconnect()] raises inside the
    [finally] block: one frame was captured, the user interrupts, and [main]
    is left without any file written. *)
Lemma recording_lost_when_disconnect_raises :
  exists frames w0 e w',
    RecordMotion.try_block record_args
      (interrupted_session (Some (OtherException "DeviceConnectionError"))) empty_world
      = Some (frames, w0, e) /\
    frames = [one_frame] /\
    RecordMotion.main record_args
      (interrupted_session (Some (OtherException "DeviceConnectionError"))) empty_world
      = Some (w', Some (OtherException "DeviceConnectionError")) /\
    w_files w' = [] /\
    (forall p d, ~ In (EDump p d) (w_trace w')).
Proof.
  do 4 eexists. split; [vm_compute; reflexivity|]. split; [vm_compute; reflexivity|].
  split; [vm_compute; reflexivity|]. split; [reflexivity|].
  intros p d Hin. simpl in Hin.
  repeat (destruct Hin as [Hin|Hin]; [discriminate Hin|]). exact Hin.
Qed.

(** The frames are lost as well when the output path is a directory: the
    leader is disconnected, [open] raises, and [IsADirectoryError] leaves
    [main] although the user had only interrupted. *)
Lemma recording_lost_when_path_is_directory :
  exists w',
    RecordMotion.main record_args (interrupted_session None)
      {| w_files := [(str "recorded_motion.pkl", Directory)]; w_trace := [] |}
    = Some (w', Some (OtherException "IsADirectoryError")) /\
    w_files w' = [(str "recorded_motion.pkl", Directory)] /\
    In (EDisconnect "leader") (w_trace w') /\
    (forall p d, ~ In (EDump p d) (w_trace w')).
Proof.
  eexists. split; [vm_compute; reflexivity|]. split; [reflexivity|]. split.
  - simpl. auto 10.
  - intros p d Hin. simpl in Hin.
    repeat (destruct Hin as [Hin|Hin]; [discriminate Hin|]). exact Hin.
Qed.

(** ** Loading a recording *)

Lemma first_missing_some {V} (keys : list string) (data : dict V) :
  (exists key, first_missing keys data = Some key) <->
  (exists key, In key keys /\ dict_mem key data = false).
Proof.
  unfold first_missing. split.
  - intros (key & Hfind). apply find_some in Hfind as [Hin Hneg].
    exists key. split; [exact Hin|]. now apply negb_true_iff.
  - intros (key & Hin & Hmem).
    destruct (find (fun k => negb (dict_mem k data)) keys) as [k|] eqn:Hfind; [eauto|].
    pose proof (find_none _ _ Hfind key Hin) as Hn. cbv beta in Hn.
    rewrite Hmem in Hn. discriminate.
Qed.

Section LoadFacts.
Context {F : Type}.

(** The exception that ends a sequence of printed lines is that of one of
    the lines. *)
Lemma print_lines_raises (lines : list (option exn * string)) :
  forall (w : world F) (e : exn),
    snd (print_lines lines w) = Some e -> In (Some e) (map fst lines).
Proof.
  induction lines as [|[[e0|] msg] lines IH]; intros w e; simpl.
  - discriminate.
  - intros [= ->]. now left.
  - intros H. right. eauto.
Qed.

Lemma missing_key_error_not_int_str (key : string) : missing_key_error key <> int_str_error.
Proof. discriminate. Qed.

(** The exceptions that the summary lines of a loaded recording raise are
    no complaints about a missing key. *)
Lemma field_error_not_missing (check : pyval F -> option exn) (k key : string)
    (data : recording F) :
  (forall v, check v = Some (missing_key_error key) -> False) ->
  field_error check k data <> Some (missing_key_error key).
Proof.
  intros Hcheck. unfold field_error. destruct (dict_get k data); [|discriminate].
  intros H. eauto.
Qed.

Lemma str_error_not_missing (v : pyval F) (key : string) :
  str_error v = Some (missing_key_error key) -> False.
Proof. destruct v; simpl; try discriminate. destruct (_ <=? _)%Z; discriminate. Qed.

Lemma format_f_error_not_missing (v : pyval F) (key : string) :
  format_f_error v = Some (missing_key_error key) -> False.
Proof. destruct v; simpl; try discriminate. destruct (_ <=? _)%Z; discriminate. Qed.

Lemma join_error_not_missing (v : pyval F) (key : string) :
  join_error v = Some (missing_key_error key) -> False.
Proof. destruct v as [| | |[|]]; simpl; discriminate. Qed.

Lemma replay_motion_load_value_error (path : pystr) (w : world F) :
  (exists key, snd (ReplayMotion.load_recording path w) = inr (missing_key_error key)) <->
  (exists data key,
     file_at path (w_files w) = Some (Pickled data) /\
     In key required_keys /\ dict_mem key data = false).
Proof.
  unfold ReplayMotion.load_recording.
  destruct (file_at path (w_files w)) as [[data| |]|] eqn:Hfile.
  - destruct (first_missing required_keys data) as [key|] eqn:Hmiss.
    + split; [|simpl; eauto]. intros _.
      destruct (proj1 (first_missing_some required_keys data) (ex_intro _ key Hmiss))
        as (k & Hin & Hmem).
      exists data, k. auto.
    + split.
      * intros (key & Hraise).
        destruct (print_lines _ w) as [w1 [e|]] eqn:Hprint; [|discriminate Hraise].
        simpl in Hraise. injection Hraise as ->.
        pose proof (print_lines_raises _ w (f_equal snd Hprint)) as Hin. simpl in Hin.
        destruct Hin as [Hin|[Hin|[Hin|[Hin|[Hin|[]]]]]]; try discriminate Hin;
          exfalso; (eapply field_error_not_missing; [|exact Hin]); intros v Hv;
          first [ exact (@str_error_not_missing v key Hv)
                | exact (@format_f_error_not_missing v key Hv)
                | exact (@join_error_not_missing v key Hv) ].
      * intros (data' & key & [= <-] & Hin & Hmem).
        destruct (proj2 (first_missing_some required_keys data)
                    (ex_intro _ key (conj Hin Hmem))) as (k & Hk).
        congruence.
  - split; [intros (key & [=]) | intros (data & key & [=] & _)].
  - split; [intros (key & [=]) | intros (data & key & [=] & _)].
  - split; [intros (key & [=]) | intros (data & key & [=] & _)].
Qed.

(** A [ValueError] of [load_recording] complains about a missing key or is
    the refusal to write out an [int] of more than 4300 digits. *)
Lemma replay_motion_load_value_errors (path : pystr) (w : world F) (msg : string) :
  snd (ReplayMotion.load_recording path w) = inr (ValueError msg) ->
  (exists key, ValueError msg = missing_key_error key) \/ ValueError msg = int_str_error.
Proof.
  unfold ReplayMotion.load_recording.
  destruct (file_at path (w_files w)) as [[data| |]|]; try discriminate.
  destruct (first_missing required_keys data) as [key|].
  - intros [= <-]. left. now exists key.
  - destruct (print_lines _ w) as [w1 [e|]] eqn:Hprint; [|discriminate].
    intros [= ->]. right.
    pose proof (print_lines_raises _ w (f_equal snd Hprint)) as Hin. simpl in Hin.
    assert (Hstr : forall k, field_error str_error k data = Some (ValueError msg) ->
                             ValueError msg = int_str_error).
    { intros k. unfold field_error. destruct (dict_get k data) as [[z| | |]|]; simpl;
        try discriminate. destruct (_ <=? _)%Z; [|discriminate]. now intros [= <-]. }
    destruct Hin as [Hin|[Hin|[Hin|[Hin|[Hin|[]]]]]]; try discriminate Hin; eauto.
    + exfalso. revert Hin. unfold field_error.
      destruct (dict_get "duration" data) as [[z| | |]|]; simpl; try discriminate.
      destruct (_ <=? _)%Z; discriminate.
    + exfalso. revert Hin. unfold field_error.
      destruct (dict_get "motor_names" data) as [[z| | |[|]]|]; simpl; discriminate.
Qed.

Lemma replay_all_load_none {U : Unicode} (path : pystr) (w : world F) (data : recording F) :
  file_at path (w_files w) = Some (Pickled data) ->
  (snd (ReplayAll.load_recording path w) = None <->
   exists key, In key required_keys /\ dict_mem key data = false).
Proof.
  intros Hfile. unfold ReplayAll.load_recording. rewrite Hfile.
  rewrite <- first_missing_some.
  destruct (first_missing required_keys data) as [key|]; simpl.
  - split; eauto.
  - split; [discriminate | intros (key & [=])].
Qed.

Lemma replay_all_load_world {U : Unicode} (path : pystr) (w : world F) (data : recording F) :
  file_at path (w_files w) = Some (Pickled data) ->
  fst (ReplayAll.load_recording path w) = w.
Proof.
  intros Hfile. unfold ReplayAll.load_recording. rewrite Hfile.
  now destruct (first_missing required_keys data).
Qed.

End LoadFacts.

(** C7.  [load_recording] of [replay_motion.py] raises the [ValueError]
    "Invalid recording file: missing ..." exactly when the file holds a
    record that lacks one of ["fps"], ["frames"], ["num_frames"] (the only
    other [ValueError] it raises is the refusal to write out an [int] of
    more than 4300 digits); [load_recording] of [replay_all.py] returns
    [None] for a loaded record exactly in that case.  In [replay_motion.py]
    the failure ends [main] before the follower is touched; in
    [replay_all.py] the file is skipped and the loop goes on with the next
    file. *)
Theorem load_recording_validation :
  (forall (F : Type) (path : pystr) (w : world F),
     ((exists key,
         snd (ReplayMotion.load_recording path w)
         = inr (ValueError ("Invalid recording file: missing '" ++ key ++ "'"))) <->
      (exists data key,
         file_at path (w_files w) = Some (Pickled data) /\
         In key ["fps"; "frames"; "num_frames"] /\ dict_mem key data = false)) /\
     (forall msg,
        snd (ReplayMotion.load_recording path w) = inr (ValueError msg) ->
        (exists key, msg = ("Invalid recording file: missing '" ++ key ++ "'")%string) \/
        msg = "Exceeds the limit (4300 digits) for integer string conversion")) /\
  (forall (U : Unicode) (F : Type) (path : pystr) (w : world F) (data : recording F),
     file_at path (w_files w) = Some (Pickled data) ->
     (snd (ReplayAll.load_recording path w) = None <->
      exists key, In key ["fps"; "frames"; "num_frames"] /\ dict_mem key data = false)) /\
  (forall (F : Type) (ops : PyFloat F) (args : ReplayMotion.Args)
          (env : ReplayMotion.session) (w : world F) (key : string),
     snd (ReplayMotion.load_recording (ReplayMotion.args_input args) w)
       = inr (ValueError ("Invalid recording file: missing '" ++ key ++ "'")) ->
     ReplayMotion.main args env w
       = Some (emit w [EPrint "Error loading recording"], None)) /\
  (forall (U : Unicode) (F : Type) (ops : PyFloat F) (loop : bool) (total idx : nat)
          (pkl_file : pystr) (rest : list pystr)
          (scripts : list ReplayAll.file_script) (w : world F)
          (data : recording F) (key : string),
     file_at pkl_file (w_files w) = Some (Pickled data) ->
     In key ["fps"; "frames"; "num_frames"] -> dict_mem key data = false ->
     ReplayAll.replay_files loop total idx (pkl_file :: rest) scripts w
     = ReplayAll.replay_files loop total (S idx) rest (tl scripts)
         (emit (emit w [EPrint "replaying file"]) [EPrint "skip"])).
Proof.
  split; [|split; [|split]].
  - intros F path w. split.
    + apply replay_motion_load_value_error.
    + intros msg Hload.
      destruct (replay_motion_load_value_errors _ _ Hload) as [(key & Hk)|Hk].
      * left. exists key. unfold missing_key_error in Hk. now injection Hk.
      * right. unfold int_str_error in Hk. now injection Hk.
  - intros U F path w data. apply replay_all_load_none.
  - intros F ops args env w key Hload. unfold ReplayMotion.main.
    assert (Hw : fst (ReplayMotion.load_recording (ReplayMotion.args_input args) w) = w).
    { pose proof (proj1 (replay_motion_load_value_error (ReplayMotion.args_input args) w)
                    (ex_intro _ key Hload)) as (data & k & Hfile & Hin & Hmem).
      unfold ReplayMotion.load_recording. rewrite Hfile.
      destruct (proj2 (first_missing_some required_keys data)
                  (ex_intro _ k (conj Hin Hmem))) as (k' & ->).
      reflexivity. }
    destruct (ReplayMotion.load_recording (ReplayMotion.args_input args) w) as [w1 r].
    simpl in Hload, Hw. subst w1 r. reflexivity.
  - intros U F ops loop total idx pkl_file rest scripts w data key Hfile Hin Hmem.
    cbn [ReplayAll.replay_files].
    assert (Hfile' : file_at pkl_file (w_files (emit w [EPrint "replaying file"]))
                     = Some (Pickled data)) by exact Hfile.
    pose proof (proj2 (replay_all_load_none pkl_file _ Hfile')
                  (ex_intro _ key (conj Hin Hmem))) as Hnone.
    pose proof (replay_all_load_world pkl_file _ Hfile') as Hworld.
    destruct (ReplayAll.load_recording pkl_file (emit w [EPrint "replaying file"]))
      as [w1 r].
    simpl in Hnone, Hworld. subst w1 r. reflexivity.
Qed.

Lemma load_recording_validation_witness :
  snd (ReplayAll.load_recording (str "conf1.pkl") replay_world) = None /\
  ReplayAll.replay_files false 2 1 [str "conf1.pkl"; str "conf2.pkl"] [] replay_world
  = ReplayAll.replay_files false 2 2 [str "conf2.pkl"] []
      (emit (emit replay_world [EPrint "replaying file"]) [EPrint "skip"]).
Proof.
  split.
  - apply (proj1 (proj2 load_recording_validation) unicode_14_0 float (str "conf1.pkl")
             replay_world broken_recording eq_refl).
    exists "fps". split; [now left | reflexivity].
  - apply (proj2 (proj2 (proj2 load_recording_validation)) unicode_14_0 float binary64
             false 2 1 (str "conf1.pkl") [str "conf2.pkl"] [] replay_world
             broken_recording "fps" eq_refl).
    + now left.
    + reflexivity.
Defined.

Section ReplayFacts.
Context {F : Type} {ops : PyFloat F}.

Lemma emit_nil (w : world F) : emit w [] = w.
Proof. destruct w; unfold emit; simpl; now rewrite app_nil_r. Qed.

Lemma emit_emit (w : world F) (e1 e2 : list (event F)) :
  emit (emit w e1) e2 = emit w (e1 ++ e2).
Proof. unfold emit; simpl; now rewrite app_assoc. Qed.

Lemma sent_actions_app (e1 e2 : list (event F)) :
  sent_actions (e1 ++ e2) = sent_actions e1 ++ sent_actions e2.
Proof. unfold sent_actions; apply flat_map_app. Qed.

(** The events of the [for] loop are the sends of a prefix of the frames:
    the whole list when the loop ends normally, at most one frame when
    [fps] cannot be divided by. *)
Lemma replay_frames_prefix (fps : pyval F) (frames : list (frame F)) :
  forall (steps : list step) (w w' : world F) (r : option exn),
    replay_frames fps frames steps w = (w', r) ->
    exists k,
      k <= length frames /\
      w' = emit w (map send_of (firstn k frames)) /\
      (r = None -> k = length frames) /\
      (fps_error fps <> None -> k <= 1).
Proof.
  induction frames as [|f rest IH]; intros steps w w' r Hrun; simpl in Hrun.
  - inversion Hrun; subst. exists 0. simpl. rewrite emit_nil.
    repeat split; auto.
  - destruct (hd StepOk steps) eqn:Hst.
    + destruct (fps_error fps) eqn:Hfps.
      * inversion Hrun; subst. exists 1. simpl.
        repeat split; auto with arith; try discriminate; try lia.
      * apply IH in Hrun. destruct Hrun as (k & Hk & Hw & Hr & Hf).
        exists (S k). simpl. rewrite Hw, emit_emit. simpl.
        split; [lia|]. split; [reflexivity|]. split.
        -- intros Hn. f_equal. auto.
        -- intros Hc. congruence.
    + inversion Hrun; subst. exists 0. simpl. rewrite emit_nil.
      repeat split; auto with arith; try discriminate; try lia.
    + inversion Hrun; subst. exists 1. simpl.
      repeat split; auto with arith; try discriminate; try lia.
    + destruct (fps_error fps) eqn:Hfps.
      * inversion Hrun; subst. exists 1. simpl.
        repeat split; auto with arith; try discriminate; try lia.
      * inversion Hrun; subst. exists 1. simpl.
        repeat split; auto with arith; try discriminate; try lia.
Qed.

(** Without disturbance and with a usable [fps], every frame is sent. *)
Lemma replay_frames_undisturbed (fps : pyval F) (frames : list (frame F)) :
  fps_error fps = None ->
  forall (steps : list step) (w : world F),
    Forall (eq StepOk) steps ->
    replay_frames fps frames steps w = (emit w (map send_of frames), None).
Proof.
  intros Hfps. induction frames as [|f rest IH]; intros steps w Hsteps; simpl.
  - now rewrite emit_nil.
  - assert (Hhd : hd StepOk steps = StepOk).
    { destruct Hsteps; simpl; auto. }
    rewrite Hhd, Hfps. rewrite IH.
    + now rewrite emit_emit.
    + destruct Hsteps; simpl; auto.
Qed.

Lemma sent_actions_send_of (l : list (frame F)) :
  sent_actions (map send_of l) = map (@action F) l.
Proof. induction l as [|f l IH]; simpl; [reflexivity | now rewrite IH]. Qed.

Lemma sent_actions_nil : sent_actions (@nil (event F)) = [].
Proof. reflexivity. Qed.

Lemma sent_actions_cons (ev : event F) (evs : list (event F)) :
  sent_actions (ev :: evs) = sent_actions [ev] ++ sent_actions evs.
Proof. unfold sent_actions; simpl; now rewrite app_nil_r. Qed.

Lemma sent_actions_print (msg : string) (evs : list (event F)) :
  sent_actions (EPrint msg :: evs) = sent_actions evs.
Proof. reflexivity. Qed.

Lemma sent_actions_sleep (evs : list (event F)) :
  sent_actions (ESleep :: evs) = sent_actions evs.
Proof. reflexivity. Qed.

Lemma sent_actions_connect (d : string) (evs : list (event F)) :
  sent_actions (EConnect d :: evs) = sent_actions evs.
Proof. reflexivity. Qed.

Lemma sent_actions_disconnect (d : string) (evs : list (event F)) :
  sent_actions (EDisconnect d :: evs) = sent_actions evs.
Proof. reflexivity. Qed.

Lemma sent_actions_send (a : dict F) (evs : list (event F)) :
  sent_actions (ESendAction a :: evs) = a :: sent_actions evs.
Proof. reflexivity. Qed.

Lemma plain_send_of (l : list (frame F)) : Forall plain (map send_of l).
Proof. induction l; simpl; constructor; simpl; auto. Qed.

Lemma plain_no_dump (evs : list (event F)) : Forall plain evs -> Forall no_dump evs.
Proof. apply Forall_impl. intros [ | | | | | ]; simpl; auto. Qed.

Lemma plain_no_connect (evs : list (event F)) :
  Forall plain evs -> existsb is_connect evs = false.
Proof.
  induction 1 as [|ev evs Hev _ IH]; simpl; [reflexivity|].
  rewrite IH. destruct ev; simpl in *; auto; contradiction.
Qed.

Lemma frames_of_iterated (v : pyval F) (l : list (frame F)) :
  frames_of v = Some l -> iterated v = l.
Proof.
  destruct v as [z|x|[|s ss]|fr]; simpl; intros Heq; inversion Heq; subst; auto.
Qed.

(** The loop over [recording["frames"]]: sends of a prefix of the frames. *)
Lemma replay_value_prefix (fps frames : pyval F) (steps : list step)
    (w w' : world F) (r : option exn) :
  replay_value fps frames steps w = (w', r) ->
  exists k,
    k <= length (iterated frames) /\
    w' = emit w (map send_of (firstn k (iterated frames))) /\
    (r = None -> k = length (iterated frames)) /\
    (fps_error fps <> None -> k <= 1).
Proof.
  unfold replay_value. destruct (frames_of frames) as [l|] eqn:Hl.
  - rewrite (frames_of_iterated _ Hl). apply replay_frames_prefix.
  - intros Heq. inversion Heq; subst. exists 0. simpl. rewrite emit_nil.
    repeat split; auto with arith; try discriminate; try lia.
Qed.

(** The summary lines are printed up to the first that cannot be built. *)
Lemma print_lines_trace (lines : list (option exn * string)) :
  forall w : world F,
    exists evs,
      print_lines lines w = (emit w evs, first_error (map fst lines)) /\
      Forall plain evs /\ sent_actions evs = [].
Proof.
  induction lines as [|[[e|] msg] lines IH]; intros w; simpl.
  - exists []. rewrite emit_nil. repeat split; constructor.
  - exists []. rewrite emit_nil. repeat split; constructor.
  - destruct (IH (emit w [EPrint msg])) as (evs & Heq & Hp & Hs).
    exists (EPrint msg :: evs). rewrite Heq, emit_emit.
    repeat split; [now constructor | exact Hs].
Qed.

Lemma first_error_none (errors : list (option exn)) :
  first_error errors = None <-> Forall (eq None) errors.
Proof.
  unfold first_error. induction errors as [|[e|] errors IH]; simpl.
  - split; [constructor | reflexivity].
  - split; [discriminate | intros H; inversion H; discriminate].
  - rewrite IH. split; [now constructor | now inversion 1].
Qed.

Lemma first_error_cons (r : option exn) (errors : list (option exn)) :
  first_error (r :: errors) = None <-> r = None /\ first_error errors = None.
Proof.
  rewrite !first_error_none. split.
  - intros H. inversion H; subst. auto.
  - intros [-> H]. now constructor.
Qed.

(** What can be formatted, in the terms of the specification. *)
Lemma guard_none (a b : Z) (e : exn) :
  (if (a <=? b)%Z then Some e else None) = None <-> (b <? a)%Z = true.
Proof.
  destruct (Z.leb_spec a b), (Z.ltb_spec b a); split; try discriminate; auto; lia.
Qed.

Lemma str_error_none (v : pyval F) : str_error v = None <-> writes_out v = true.
Proof.
  destruct v; unfold str_error, writes_out; try tauto. apply guard_none.
Qed.

Lemma format_f_error_none (v : pyval F) :
  format_f_error v = None <-> writes_as_float v = true.
Proof.
  destruct v; unfold format_f_error, writes_as_float;
    try tauto; try (split; discriminate). apply guard_none.
Qed.

Lemma join_error_none (v : pyval F) : join_error v = None <-> joins v = true.
Proof.
  destruct v as [| | |[|]]; unfold join_error, joins; try tauto; split; discriminate.
Qed.

Lemma field_error_none (check : pyval F -> option exn) (p : pyval F -> bool)
    (key : string) (data : recording F) :
  (forall v, check v = None <-> p v = true) ->
  (field_error check key data = None <-> where_present key p data = true).
Proof.
  intros Hcheck. unfold field_error, where_present.
  destruct (dict_get key data); [apply Hcheck | tauto].
Qed.

Lemma first_missing_none (data : recording F) :
  first_missing required_keys data = None <->
  dict_mem "fps" data && dict_mem "frames" data && dict_mem "num_frames" data = true.
Proof.
  unfold first_missing, required_keys. cbn [find].
  destruct (dict_mem "fps" data), (dict_mem "frames" data), (dict_mem "num_frames" data);
    simpl; split; congruence.
Qed.

(** The summary that every player prints can be printed exactly for a
    summarizable recording. *)
Lemma summary_errors_none (data : recording F) :
  first_error [ field_error str_error "num_frames" data;
                field_error format_f_error "duration" data;
                field_error str_error "fps" data ] = None <->
  summarizable data = true.
Proof.
  rewrite !first_error_cons. unfold summarizable. rewrite !andb_true_iff.
  rewrite (@field_error_none str_error writes_out "num_frames" data str_error_none).
  rewrite (@field_error_none format_f_error writes_as_float "duration" data
             format_f_error_none).
  rewrite (@field_error_none str_error writes_out "fps" data str_error_none).
  unfold first_error. simpl. tauto.
Qed.

End ReplayFacts.

Create Rewrite HintDb sent.

#[export] Hint Rewrite @sent_actions_app @sent_actions_send_of @sent_actions_nil
  @sent_actions_print @sent_actions_sleep @sent_actions_connect
  @sent_actions_disconnect @sent_actions_send @app_nil_r @app_nil_l : sent.

Ltac solve_plain :=
  repeat first
    [ apply Forall_app; split
    | apply plain_send_of
    | apply Forall_nil
    | apply Forall_cons; [exact I|]
    | assumption ].


Section ReplayMotionFacts.
Context {F : Type} {ops : PyFloat F}.
Import ReplayMotion.

Lemma replay_loop_eq (loop : bool) (fps frames : pyval F) (c : cycle)
    (later : list cycle) (w : world F) :
  replay_loop loop fps frames c later w =
    let w := emit w [EPrint "Replaying motion"] in
    match replay_value fps frames (steps c) w with
    | (w, Some e) => Some (w, Some e)
    | (w, None) =>
        let w := emit w [EPrint "Replay complete!"] in
        if negb loop then Some (w, None)
        else
          let w := emit w [EPrint "Pausing 2 seconds before next loop..."; ESleep] in
          match sleep_raises c with
          | Some e => Some (w, Some e)
          | None =>
              match later with
              | [] => None
              | c' :: later' => replay_loop loop fps frames c' later' w
              end
          end
    end.
Proof. destruct later; reflexivity. Qed.

Lemma passes_full {A} (l : list A) (n : nat) :
  passes l n (length l) = passes l (S n) 0.
Proof.
  unfold passes. rewrite firstn_all. simpl. rewrite app_nil_r.
  induction n as [|n IH]; simpl.
  - now rewrite app_nil_r.
  - now rewrite <- app_assoc, IH.
Qed.

Lemma passes_cons {A} (l : list A) (n k : nat) :
  l ++ passes l n k = passes l (S n) k.
Proof. unfold passes. simpl. now rewrite app_assoc. Qed.

(** The replay loop sends whole passes over the frames and then a prefix
    of them; it touches no file and no connection. *)
Lemma replay_loop_passes (loop : bool) (fps frames : pyval F) (later : list cycle) :
  forall (c : cycle) (w w' : world F) (r : option exn),
    replay_loop loop fps frames c later w = Some (w', r) ->
    exists evs n k,
      w' = emit w evs /\ Forall plain evs /\
      k <= length (iterated frames) /\
      sent_actions evs = passes (map (@action F) (iterated frames)) n k /\
      (loop = false -> n = 0).
Proof.
  induction later as [|c' later' IH]; intros c w w' r Hrun;
    rewrite replay_loop_eq in Hrun; cbv zeta in Hrun;
    destruct (replay_value fps frames (steps c) (emit w [EPrint "Replaying motion"]))
      as [w1 [e|]] eqn:Hv;
    apply replay_value_prefix in Hv; destruct Hv as (k & Hk & Hw1 & Hfull & _).
  all: try (inversion Hrun; subst; rewrite emit_emit;
            eexists _, 0, k; split; [reflexivity|]; split; [solve_plain|];
            split; [exact Hk|]; split; [|reflexivity];
            autorewrite with sent; unfold passes; simpl; now rewrite firstn_map).
  all: specialize (Hfull eq_refl); subst k; rewrite firstn_all in Hw1.
  all: destruct loop; simpl in Hrun.
  all: try (inversion Hrun; subst; rewrite !emit_emit;
            eexists _, 0, (length (iterated frames));
            split; [reflexivity|]; split; [solve_plain|];
            split; [lia|]; split; [|reflexivity];
            autorewrite with sent; unfold passes; simpl;
            now rewrite firstn_all2 by (rewrite length_map; lia)).
  all: destruct (sleep_raises c) as [e|]; try discriminate Hrun.
  all: try (inversion Hrun; subst; rewrite !emit_emit;
            eexists _, 0, (length (iterated frames));
            split; [reflexivity|]; split; [solve_plain|];
            split; [lia|]; split; [|discriminate];
            autorewrite with sent; unfold passes; simpl;
            now rewrite firstn_all2 by (rewrite length_map; lia)).
  apply IH in Hrun. destruct Hrun as (evs & n & k & Hw' & Hplain & Hk' & Hsent & _).
  subst w' w1. rewrite !emit_emit.
  eexists _, (S n), k.
  split; [reflexivity|]. split; [solve_plain|].
  split; [exact Hk'|]. split; [|discriminate].
  autorewrite with sent. rewrite Hsent. apply passes_cons.
Qed.

Lemma required_keys_present (data : recording F) :
  first_missing required_keys data = None ->
  exists fps frames num_frames,
    dict_get "fps" data = Some fps /\ dict_get "frames" data = Some frames /\
    dict_get "num_frames" data = Some num_frames.
Proof.
  unfold first_missing, required_keys, dict_mem. simpl.
  destruct (dict_get "fps" data) as [fps|]; simpl; [|discriminate].
  destruct (dict_get "frames" data) as [frames|]; simpl; [|discriminate].
  destruct (dict_get "num_frames" data) as [nf|]; simpl; [|discriminate].
  intros _. now exists fps, frames, nf.
Qed.

(** The lines of [load_recording] can be printed exactly for a loadable
    recording, given that no key is missing. *)
Lemma loadable_lines (data : recording F) :
  loadable data = true <->
  first_missing required_keys data = None /\
  first_error [ None;
                field_error str_error "num_frames" data;
                field_error format_f_error "duration" data;
                field_error str_error "fps" data;
                field_error join_error "motor_names" data ] = None.
Proof.
  unfold loadable. rewrite !andb_true_iff, <- summary_errors_none.
  rewrite <- (@field_error_none F join_error joins "motor_names" data (@join_error_none F)).
  rewrite first_missing_none, !andb_true_iff, !first_error_cons.
  unfold first_error. simpl. tauto.
Qed.

(** [load_recording] only prints; it returns the dict stored at the path
    exactly when that dict is loadable. *)
Lemma load_recording_trace (path : pystr) (w : world F) :
  exists evs,
    fst (load_recording path w) = emit w evs /\ Forall plain evs /\
    sent_actions evs = [] /\
    match snd (load_recording path w) with
    | inl data => file_at path (w_files w) = Some (Pickled data) /\ loadable data = true
    | inr _ => file_loadable path (w_files w) = false
    end.
Proof.
  unfold load_recording, file_loadable.
  destruct (file_at path (w_files w)) as [[data| |]|] eqn:Hfile; cbn [fst snd].
  2-4: exists []; rewrite emit_nil; repeat split; constructor.
  pose proof (loadable_lines data) as Hl.
  destruct (first_missing required_keys data) as [key|] eqn:Hmiss; cbn [fst snd].
  { exists []; rewrite emit_nil; repeat split; try constructor.
    destruct (loadable data); [|reflexivity].
    destruct (proj1 Hl eq_refl) as [Hk _]. discriminate Hk. }
  match goal with
  | |- context [print_lines ?lines w] =>
      destruct (print_lines_trace lines w) as (evs & Heq & Hp & Hs); rewrite Heq
  end.
  cbn [map fst] in *.
  destruct (first_error _) as [e|] eqn:Herr; cbn [fst snd]; exists evs;
    repeat split; auto.
  - destruct (loadable data); [|reflexivity].
    destruct (proj1 Hl eq_refl) as [_ He]. discriminate He.
  - apply Hl. auto.
Qed.

Lemma frames_in_file_iterated (path : pystr) (fs : files F) (data : recording F)
    (frames : pyval F) :
  file_at path fs = Some (Pickled data) ->
  dict_get "frames" data = Some frames ->
  frames_in_file path fs = iterated frames.
Proof.
  intros Hfile Hframes. unfold frames_in_file, frames_in_recording.
  now rewrite Hfile, Hframes.
Qed.

Lemma replay_motion_body (env : session) (loop : bool) (fps frames : pyval F)
    (w0 w2 : world F) (raised : option exn) :
  match connect_raises env with
  | Some e => Some (w0, Some e)
  | None =>
      replay_loop loop fps frames (first_cycle env) (later_cycles env)
        (emit w0 [EPrint "Connected successfully!"])
  end = Some (w2, raised) ->
  exists evs n k,
    w2 = emit w0 evs /\ Forall plain evs /\
    sent_actions evs = passes (map (@action F) (iterated frames)) n k /\
    (loop = false -> n = 0).
Proof.
  destruct (connect_raises env) as [e|].
  - intros Heq; inversion Heq; subst. exists [], 0, 0.
    rewrite emit_nil. repeat split; constructor.
  - intros Hloop. apply replay_loop_passes in Hloop.
    destruct Hloop as (evs & n & k & Hw2 & Hplain & _ & Hsent & Hn).
    subst w2. rewrite !emit_emit. eexists _, n, k.
    split; [reflexivity|]. split; [solve_plain|]. split; [|exact Hn].
    autorewrite with sent. exact Hsent.
Qed.

Lemma replay_motion_finally (env : session) (w2 w' : world F) (raised exc : option exn) :
  (let '(w1, pending) :=
     match raised with
     | None => (w2, None)
     | Some e =>
         if is_Exception e
         then (emit w2 [EPrint "Error during replay"], Some e)
         else (emit w2 [EPrint "Replay stopped by user."], None)
     end in
   if is_connected env then
     let w1 := emit w1 [EPrint "Disconnecting follower arm..."; EDisconnect "follower"] in
     match disconnect_raises env with
     | Some e => Some (w1, Some e)
     | None => Some (w1, pending)
     end
   else Some (w1, pending)) = Some (w', exc) ->
  exists evs,
    w' = emit w2 evs /\ Forall no_dump evs /\ sent_actions evs = [] /\
    existsb is_connect evs = false.
Proof.
  destruct raised as [e|]; [destruct (is_Exception e)|];
    destruct (is_connected env); [destruct (disconnect_raises env)| |
                                  destruct (disconnect_raises env)| |
                                  destruct (disconnect_raises env)| ];
    cbv zeta; intros Heq; inversion Heq; subst; rewrite ?emit_emit;
    try (eexists; split; [reflexivity|]; repeat split; repeat constructor).
  all: exists []; rewrite emit_nil; repeat split; constructor.
Qed.

(** Everything [main] does: it writes no file; it connects exactly when the
    input file is loadable; what it sends are passes over the recorded
    frames. *)
Lemma replay_motion_main_trace (args : Args) (env : session) (w w' : world F)
    (exc : option exn) :
  main args env w = Some (w', exc) ->
  exists evs n k,
    w' = emit w evs /\ Forall no_dump evs /\
    sent_actions evs
      = passes (map (@action F) (frames_in_file (args_input args) (w_files w))) n k /\
    (args_loop args = false -> n = 0) /\
    existsb is_connect evs = file_loadable (args_input args) (w_files w) /\
    (file_loadable (args_input args) (w_files w) = false ->
     exc = None /\ sent_actions evs = []).
Proof.
  unfold main.
  destruct (load_recording_trace (args_input args) w) as (lev & Hw1 & Hlplain & Hlsent & Hres).
  destruct (load_recording (args_input args) w) as [w1 [data|e]]; simpl in Hw1, Hres.
  2: { intros Heq. inversion Heq; subst. rewrite emit_emit.
       eexists _, 0, 0. split; [reflexivity|]. split.
       { apply plain_no_dump. solve_plain. }
       split. { autorewrite with sent. now rewrite Hlsent. }
       split; [reflexivity|]. split.
       - rewrite Hres, existsb_app, (plain_no_connect Hlplain). reflexivity.
       - intros _. split; [reflexivity|]. autorewrite with sent. now rewrite Hlsent. }
  destruct Hres as [Hfile Hload].
  assert (Hfl : file_loadable (args_input args) (w_files w) = true).
  { unfold file_loadable. now rewrite Hfile. }
  rewrite Hfl.
  assert (Hkeys : first_missing required_keys data = None).
  { now apply loadable_lines. }
  destruct (required_keys_present _ Hkeys) as (fps & frames & nf & Hfps & Hframes & _).
  rewrite Hfps, Hframes, (frames_in_file_iterated _ _ Hfile Hframes).
  cbv zeta.
  destruct (match connect_raises env with
            | Some e => _
            | None => _ end) as [[w2 raised]|] eqn:Hb; [|intros Hd; discriminate Hd].
  apply replay_motion_body in Hb.
  destruct Hb as (evs & n & k & Hw2 & Hplain & Hsent & Hn).
  intros Hfin. apply replay_motion_finally in Hfin.
  destruct Hfin as (fev & Hw' & Hfdump & Hfsent & Hfconn).
  subst w' w2 w1. rewrite !emit_emit. eexists _, n, k.
  split; [reflexivity|]. split.
  { repeat (apply Forall_app; split); auto using plain_no_dump. repeat constructor. }
  split. { autorewrite with sent. now rewrite Hlsent, Hsent, Hfsent, app_nil_r. }
  split; [exact Hn|]. split; [|discriminate].
  rewrite !existsb_app. simpl. now rewrite !orb_true_r.
Qed.

Lemma load_recording_loadable (path : pystr) (w : world F) (data : recording F) :
  file_at path (w_files w) = Some (Pickled data) ->
  loadable data = true ->
  exists evs,
    load_recording path w = (emit w evs, inl data) /\ Forall plain evs /\
    sent_actions evs = [].
Proof.
  intros Hfile Hload.
  destruct (load_recording_trace path w) as (evs & Hfst & Hplain & Hsent & Hres).
  exists evs. split; [|now split].
  destruct (load_recording path w) as [w1 [data'|e]]; simpl in *.
  - destruct Hres as [Hfile' _]. rewrite Hfile in Hfile'. inversion Hfile'; subst.
    reflexivity.
  - unfold file_loadable in Hres. rewrite Hfile, Hload in Hres. discriminate.
Qed.

(** A loadable recording replayed once, on a follower that accepts every
    action and with nobody interrupting: every frame is sent, in order. *)
Lemma replay_motion_main_undisturbed (path : pystr) (env : session) (w : world F)
    (data : recording F) (fps : pyval F) (frames : list (frame F)) :
  file_at path (w_files w) = Some (Pickled data) ->
  loadable data = true ->
  dict_get "fps" data = Some fps ->
  dict_get "frames" data = Some (PFrames frames) ->
  fps_error fps = None ->
  connect_raises env = None ->
  Forall (eq StepOk) (steps (first_cycle env)) ->
  exists evs,
    main {| args_input := path; args_loop := false |} env w
      = Some (emit w evs, if is_connected env then disconnect_raises env else None) /\
    sent_actions evs = map (@action F) frames.
Proof.
  intros Hfile Hload Hfps Hframes Hok Hconn Hsteps.
  destruct (load_recording_loadable _ _ Hfile Hload) as (lev & Hl & Hlplain & Hlsent).
  unfold main. cbn [args_input args_loop]. rewrite Hl, Hconn, Hfps, Hframes.
  cbv zeta. rewrite replay_loop_eq. cbv zeta.
  unfold replay_value. cbn [frames_of].
  rewrite (replay_frames_undisturbed _ frames Hok _ Hsteps).
  cbn [negb]. rewrite !emit_emit.
  destruct (is_connected env).
  - rewrite ?emit_emit. eexists. split.
    + destruct (disconnect_raises env); reflexivity.
    + autorewrite with sent. now rewrite Hlsent.
  - eexists. split; [reflexivity|]. autorewrite with sent. now rewrite Hlsent.
Qed.

End ReplayMotionFacts.

Section ReplayAllFacts.
Context {F : Type} {ops : PyFloat F} {U : Unicode}.
Import ReplayAll.

Lemma replay_all_load_trace (pkl_file : pystr) (w : world F) :
  exists evs,
    fst (load_recording pkl_file w) = emit w evs /\ Forall plain evs /\
    sent_actions evs = [] /\
    forall data, snd (load_recording pkl_file w) = Some data ->
      file_at pkl_file (w_files w) = Some (Pickled data) /\
      first_missing required_keys data = None.
Proof.
  unfold load_recording.
  destruct (file_at pkl_file (w_files w)) as [[data| |]|] eqn:Hfile; cbn [fst snd].
  2-4: eexists; split; [reflexivity|]; repeat split; try solve_plain; discriminate.
  destruct (first_missing required_keys data) eqn:Hmiss; cbn [fst snd];
    exists []; rewrite emit_nil; repeat split; try constructor; try discriminate.
  - inversion H; subst; reflexivity.
  - inversion H; subst; assumption.
Qed.

(** One file: the sends are a prefix of the actions it holds. *)
Lemma replay_recording_prefix (data : recording F) (steps : list step)
    (w w' : world F) (res : bool + exn) :
  replay_recording data steps w = (w', res) ->
  exists evs k,
    w' = emit w evs /\ Forall plain evs /\
    sent_actions evs = firstn k (map (@action F) (frames_in_recording data)).
Proof.
  unfold replay_recording, frames_in_recording.
  destruct (dict_get "fps" data) as [fps|];
    [|intros Heq; inversion Heq; subst; exists [], 0; rewrite emit_nil;
      repeat split; constructor].
  destruct (dict_get "frames" data) as [frames|];
    [|intros Heq; inversion Heq; subst; exists [], 0; rewrite emit_nil;
      repeat split; constructor].
  destruct (dict_get "num_frames" data) as [nf|];
    [|intros Heq; inversion Heq; subst; exists [], 0; rewrite emit_nil;
      repeat split; constructor].
  destruct (first_error _);
    [intros Heq; inversion Heq; subst; exists [], 0; rewrite emit_nil;
     repeat split; constructor|].
  cbv zeta.
  destruct (replay_value fps frames steps (emit w [EPrint "frames, duration, rate"]))
    as [w1 [e|]] eqn:Hv;
    apply replay_value_prefix in Hv; destruct Hv as (k & _ & Hw1 & _ & _); subst w1.
  - destruct (is_Exception e); intros Heq; inversion Heq; subst; rewrite ?emit_emit;
      eexists _, k; (split; [reflexivity|]); (split; [solve_plain|]);
      autorewrite with sent; now rewrite firstn_map.
  - intros Heq; inversion Heq; subst; rewrite ?emit_emit.
    eexists _, k; (split; [reflexivity|]); (split; [solve_plain|]).
    autorewrite with sent; now rewrite firstn_map.
Qed.

Lemma visits_actions_cons (fs : files F) (file : pystr) (k : nat)
    (visits : list (pystr * nat)) :
  visits_actions fs ((file, k) :: visits)
  = firstn k (recorded_actions file fs) ++ visits_actions fs visits.
Proof. reflexivity. Qed.

Lemma visits_actions_app (fs : files F) (v1 v2 : list (pystr * nat)) :
  visits_actions fs (v1 ++ v2) = visits_actions fs v1 ++ visits_actions fs v2.
Proof. unfold visits_actions. apply flat_map_app. Qed.

(** One pass over the files: they are visited in list order, and of each
    one a prefix of its actions is sent. *)
Lemma replay_files_visits (loop : bool) (total : nat) (pkl_files : list pystr) :
  forall (idx : nat) (scripts : list file_script) (w w' : world F) (r : option exn),
    replay_files loop total idx pkl_files scripts w = (w', r) ->
    exists evs visits m,
      w' = emit w evs /\ Forall plain evs /\
      sent_actions evs = visits_actions (w_files w) visits /\
      map fst visits = firstn m pkl_files /\
      m <= length pkl_files /\
      (r = None -> m = length pkl_files).
Proof.
  induction pkl_files as [|file rest IH]; intros idx scripts w w' r Hrun; simpl in Hrun.
  - inversion Hrun; subst. exists [], [], 0. rewrite emit_nil.
    repeat split; try constructor.
  - destruct (replay_all_load_trace file (emit w [EPrint "replaying file"]))
      as (lev & Hw1 & Hlplain & Hlsent & Hdata).
    destruct (load_recording file (emit w [EPrint "replaying file"])) as [w1 [data|]];
      cbn [fst snd] in Hw1, Hdata; subst w1.
    + destruct (Hdata _ eq_refl) as [Hfile _]. cbn [w_files emit] in Hfile.
      destruct (replay_recording data (steps (hd undisturbed scripts))
                  (emit (emit w [EPrint "replaying file"]) lev)) as [w2 res] eqn:Hrec.
      apply replay_recording_prefix in Hrec.
      destruct Hrec as (rev & k & Hw2 & Hrplain & Hrsent). subst w2.
      assert (Hk : firstn k (map (@action F) (frames_in_recording data))
                   = firstn k (recorded_actions file (w_files w))).
      { unfold recorded_actions, frames_in_file. now rewrite Hfile. }
      assert (Hstop : forall evs0 e, Forall plain evs0 -> sent_actions evs0 = [] ->
        (emit (emit (emit (emit w [EPrint "replaying file"]) lev) rev) evs0, Some e) = (w', r) ->
        exists evs visits m,
          w' = emit w evs /\ Forall plain evs /\
          sent_actions evs = visits_actions (w_files w) visits /\
          map fst visits = firstn m (file :: rest) /\
          m <= length (file :: rest) /\
          (r = None -> m = length (file :: rest))).
      { intros evs0 e Hp0 Hs0 Heq. inversion Heq; subst. rewrite !emit_emit.
        eexists _, [(file, k)], 1. split; [reflexivity|]. split; [solve_plain|].
        split.
        { autorewrite with sent. rewrite Hlsent, Hrsent, Hs0, visits_actions_cons, Hk.
          simpl. now rewrite !app_nil_r. }
        split; [reflexivity|]. split; [simpl; lia|discriminate]. }
      assert (Hgo : forall evs0 w0, Forall plain evs0 -> sent_actions evs0 = [] ->
        w0 = emit (emit (emit (emit w [EPrint "replaying file"]) lev) rev) evs0 ->
        replay_files loop total (S idx) rest (tl scripts) w0 = (w', r) ->
        exists evs visits m,
          w' = emit w evs /\ Forall plain evs /\
          sent_actions evs = visits_actions (w_files w) visits /\
          map fst visits = firstn m (file :: rest) /\
          m <= length (file :: rest) /\
          (r = None -> m = length (file :: rest))).
      { intros evs0 w0 Hp0 Hs0 Hw0 Hrest. apply IH in Hrest.
        destruct Hrest as (evs & visits & m & Hw' & Hplain & Hsent & Hvis & Hm & Hnone).
        subst w' w0. rewrite !emit_emit.
        eexists _, ((file, k) :: visits), (S m). split; [reflexivity|].
        split; [solve_plain|]. split.
        { autorewrite with sent. cbn [w_files emit] in Hsent.
          rewrite Hlsent, Hrsent, Hs0, Hsent, visits_actions_cons, Hk. reflexivity. }
        split; [simpl; now rewrite Hvis|]. split; [simpl; lia|].
        intros Hr. simpl. f_equal. auto. }
      destruct res as [success|e].
      * destruct ((idx <? total)%nat || loop).
        -- cbv zeta in Hrun. destruct (sleep_raises (hd undisturbed scripts)) as [e|].
           ++ rewrite <- (emit_nil (emit _ rev)) in Hrun at 1.
              rewrite emit_emit in Hrun.
              eapply (Hstop ([] ++ [EPrint "waiting"; ESleep]) e);
                [solve_plain | reflexivity |].
              rewrite <- emit_emit, emit_nil. exact Hrun.
           ++ eapply (Hgo [EPrint "waiting"; ESleep]); [solve_plain | reflexivity | reflexivity |].
              exact Hrun.
        -- eapply (Hgo []); [solve_plain | reflexivity | now rewrite emit_nil |].
           exact Hrun.
      * eapply (Hstop [] e); [solve_plain | reflexivity |]. rewrite emit_nil. exact Hrun.
    + apply IH in Hrun.
      destruct Hrun as (evs & visits & m & Hw' & Hplain & Hsent & Hvis & Hm & Hnone).
      subst w'. rewrite !emit_emit.
      eexists _, ((file, 0) :: visits), (S m). split; [reflexivity|].
      split; [solve_plain|]. split.
      { autorewrite with sent. cbn [w_files emit] in Hsent.
        rewrite Hlsent, Hsent, visits_actions_cons. reflexivity. }
      split; [simpl; now rewrite Hvis|]. split; [simpl; lia|].
      intros Hr. simpl. f_equal. auto.
Qed.

Lemma replay_cycles_eq (loop : bool) (pkl_files : list pystr)
    (c : list file_script) (later : list (list file_script)) (w : world F) :
  replay_cycles loop pkl_files c later w =
    let w := if loop then emit w [EPrint "cycle"] else w in
    match replay_files loop (length pkl_files) 1 pkl_files c w with
    | (w, Some e) => Some (w, Some e)
    | (w, None) =>
        if negb loop then Some (w, None)
        else
          let w := emit w [EPrint "cycle complete"] in
          match later with
          | [] => None
          | c' :: later' => replay_cycles loop pkl_files c' later' w
          end
    end.
Proof. destruct later; reflexivity. Qed.

(** All cycles: whole passes over the files, then a prefix of them. *)
Lemma replay_cycles_visits (loop : bool) (pkl_files : list pystr)
    (later : list (list file_script)) :
  forall (c : list file_script) (w w' : world F) (r : option exn),
    replay_cycles loop pkl_files c later w = Some (w', r) ->
    exists evs visits n m,
      w' = emit w evs /\ Forall plain evs /\
      sent_actions evs = visits_actions (w_files w) visits /\
      map fst visits = passes pkl_files n m /\
      (loop = false -> n = 0).
Proof.
  induction later as [|c' later' IH]; intros c w w' r Hrun;
    rewrite replay_cycles_eq in Hrun; cbv zeta in Hrun.
  all: destruct (replay_files loop (length pkl_files) 1 pkl_files c
                   (if loop then emit w [EPrint "cycle"] else w)) as [w1 r1] eqn:Hfiles;
    apply replay_files_visits in Hfiles;
    destruct Hfiles as (evs & visits & m & Hw1 & Hplain & Hsent & Hvis & Hm & Hnone).
  all: assert (Hfs : w_files (if loop then emit w [EPrint "cycle"] else w) = w_files w)
         by (destruct loop; reflexivity);
       rewrite Hfs in Hsent; clear Hfs.
  all: assert (Hpre : exists pre, (if loop then emit w [EPrint "cycle"] else w) = emit w pre
                       /\ Forall plain pre /\ sent_actions pre = [])
         by (destruct loop; [exists [EPrint "cycle"] | exists []];
             rewrite ?emit_nil; repeat split; solve_plain);
       destruct Hpre as (pre & Hpre & Hpplain & Hpsent); rewrite Hpre in Hw1; clear Hpre;
       subst w1.
  all: destruct r1 as [e|];
    [inversion Hrun; subst; rewrite !emit_emit; eexists _, visits, 0, m;
     split; [reflexivity|]; split; [solve_plain|]; split;
     [autorewrite with sent; now rewrite Hpsent, Hsent|]; split; [exact Hvis|reflexivity]|].
  all: specialize (Hnone eq_refl); subst m; rewrite firstn_all in Hvis.
  all: destruct loop; cbn [negb] in Hrun;
    try (injection Hrun as <- <-; rewrite !emit_emit;
         eexists _, visits, 0, (length pkl_files);
         split; [reflexivity|]; split; [solve_plain|]; split;
         [autorewrite with sent; now rewrite Hpsent, Hsent|]; split; [|reflexivity];
         rewrite Hvis; unfold passes; simpl; now rewrite firstn_all).
  - discriminate Hrun.
  - apply IH in Hrun.
    destruct Hrun as (evs' & visits' & n & m & Hw' & Hplain' & Hsent' & Hvis' & _).
    subst w'. rewrite !emit_emit. eexists _, (visits ++ visits'), (S n), m.
    split; [reflexivity|]. split; [solve_plain|]. split.
    { autorewrite with sent. cbn [w_files emit] in Hsent'.
      now rewrite Hpsent, Hsent, Hsent', visits_actions_app. }
    split; [|discriminate].
    rewrite map_app, Hvis, Hvis'. apply passes_cons.
Qed.

Lemma replay_all_body (env : session) (loop : bool) (pkl_files : list pystr)
    (w0 w2 : world F) (raised : option exn) :
  match connect_raises env with
  | Some e => Some (w0, Some e)
  | None =>
      match replay_cycles loop pkl_files (first_cycle env)
              (later_cycles env) (emit w0 [EPrint "connected"]) with
      | None => None
      | Some (w, Some KeyboardInterrupt) =>
          Some (emit w [EPrint "replay stopped"; EPrint "all replays done"], None)
      | Some (w, Some e) => Some (w, Some e)
      | Some (w, None) => Some (emit w [EPrint "all replays done"], None)
      end
  end = Some (w2, raised) ->
  exists evs visits n m,
    w2 = emit w0 evs /\ Forall plain evs /\
    sent_actions evs = visits_actions (w_files w0) visits /\
    map fst visits = passes pkl_files n m /\
    (loop = false -> n = 0).
Proof.
  destruct (connect_raises env) as [e|].
  - intros Heq; inversion Heq; subst. exists [], [], 0, 0. rewrite emit_nil.
    repeat split; constructor.
  - destruct (replay_cycles loop pkl_files (first_cycle env)
                (later_cycles env) (emit w0 [EPrint "connected"]))
      as [[w3 r3]|] eqn:Hcycles; [|discriminate].
    apply replay_cycles_visits in Hcycles.
    destruct Hcycles as (evs & visits & n & m & Hw3 & Hplain & Hsent & Hvis & Hn).
    cbn [w_files emit] in Hsent. subst w3.
    intros Heq.
    assert (Hcases : exists tail, w2 = emit (emit (emit w0 [EPrint "connected"]) evs) tail
                       /\ Forall plain tail /\ sent_actions tail = []).
    { destruct r3 as [[| | | |]|]; inversion Heq; subst;
        first [ solve [exists []; rewrite emit_nil; repeat split; solve_plain]
              | eexists; split; [reflexivity|]; split; [solve_plain|reflexivity] ]. }
    destruct Hcases as (tail & Hw2 & Htplain & Htsent). subst w2.
    rewrite !emit_emit. eexists _, visits, n, m.
    split; [reflexivity|]. split; [solve_plain|]. split.
    { autorewrite with sent. now rewrite Hsent, Htsent, app_nil_r. }
    split; [exact Hvis|exact Hn].
Qed.

Lemma replay_all_finally (env : session) (w2 w' : world F) (raised exc : option exn) :
  (let '(w, pending) :=
     match raised with
     | None => (w2, None)
     | Some e =>
         if is_Exception e then (emit w2 [EPrint "error"], Some e)
         else (w2, Some e)
     end in
   if is_connected env then
     let w := emit w [EPrint "disconnecting"; EDisconnect "follower"] in
     match disconnect_raises env with
     | Some e => Some (w, Some e)
     | None => Some (emit w [EPrint "disconnected"], pending)
     end
   else Some (w, pending)) = Some (w', exc) ->
  exists tail, w' = emit w2 tail /\ Forall no_dump tail /\ sent_actions tail = [].
Proof.
  intros Hfin.
  destruct raised as [e|]; [destruct (is_Exception e)|];
    destruct (is_connected env); try destruct (disconnect_raises env);
    inversion Hfin; subst; rewrite ?emit_emit;
    first [ solve [exists []; rewrite emit_nil; repeat split; constructor]
          | eexists; (split; [reflexivity|]); split; [repeat constructor|reflexivity] ].
Qed.

(** Everything [main] does: it writes no file, and what it sends are the
    actions of the files found, file after file in sorted order. *)
Lemma replay_all_main_trace (args : Args) (env : session) (w w' : world F)
    (exc : option exn) :
  main args env w = Some (w', exc) ->
  exists evs visits n m,
    w' = emit w evs /\ Forall no_dump evs /\
    sent_actions evs = visits_actions (w_files w) visits /\
    map fst visits = passes (find_pkl_files (w_files w)) n m /\
    (args_loop args = false -> n = 0).
Proof.
  unfold main. cbv zeta.
  destruct (find_pkl_files (w_files w)) as [|file files'] eqn:Hfound.
  { intros Heq; inversion Heq; subst. exists [EPrint "no .pkl files found"], [], 0, 0.
    repeat split; repeat constructor. }
  remember (file :: files') as pkl_files eqn:Hpkl.
  set (listing := EPrint "files found" :: map (fun _ => EPrint "file") pkl_files).
  assert (Hlisting : Forall plain listing /\ sent_actions listing = []).
  { unfold listing. split.
    - constructor; [exact I|]. clear. induction pkl_files; simpl; constructor; simpl; auto.
    - simpl. clear. induction pkl_files; simpl; auto. }
  destruct Hlisting as [Hlplain Hlsent].
  destruct (match connect_raises env with
            | Some e => _
            | None => _ end) as [[w2 raised]|] eqn:Hb; [|intros Hd; discriminate Hd].
  apply replay_all_body in Hb.
  destruct Hb as (evs & visits & n & m & Hw2 & Hplain & Hsent & Hvis & Hn).
  cbn [w_files emit] in Hsent.
  intros Hfin. apply replay_all_finally in Hfin.
  destruct Hfin as (tail & Hw' & Htdump & Htsent). subst w' w2.
  rewrite !emit_emit. eexists _, visits, n, m.
  split; [reflexivity|]. split.
  { repeat (apply Forall_app; split); auto using plain_no_dump. repeat constructor. }
  split. { autorewrite with sent. now rewrite Hlsent, Hsent, Htsent, app_nil_r. }
  split; [exact Hvis|exact Hn].
Qed.

End ReplayAllFacts.

Section RecorderFacts.
Context {F : Type}.

Lemma kept_cons {A} (fps : Z) (x : A) (l : list A) :
  fps <> 0%Z -> kept fps (x :: l) = x :: kept fps l.
Proof. unfold kept. destruct (Z.eqb_spec fps 0); [contradiction|reflexivity]. Qed.

Lemma kept_nonzero {A} (fps : Z) (l : list A) : fps <> 0%Z -> kept fps l = l.
Proof. unfold kept. destruct (Z.eqb_spec fps 0); [contradiction|reflexivity]. Qed.

(** The loop of [record_motion.py] appends the frames of its ticks, in tick
    order. *)
Lemma record_loop_captured (fps : Z) (ticks : list (RecordMotion.tick F)) :
  forall (frames frames' : list (frame F)) (w w' : world F) (e : exn),
    RecordMotion.record_loop fps ticks frames w = Some (frames', w', e) ->
    frames' = frames ++ kept fps (captured ticks).
Proof.
  unfold kept.
  induction ticks as [|t rest IH]; intros frames frames' w w' e Hrun; simpl in Hrun.
  - discriminate.
  - destruct t as [ts a|e0|ts a e0|ts a e0]; simpl.
    + destruct (fps =? 0)%Z eqn:Hfps.
      * inversion Hrun; subst. reflexivity.
      * apply IH in Hrun. rewrite Hrun, <- app_assoc. reflexivity.
    + inversion Hrun; subst. destruct (fps =? 0)%Z; now rewrite app_nil_r.
    + inversion Hrun; subst. destruct (fps =? 0)%Z; reflexivity.
    + destruct (fps =? 0)%Z; inversion Hrun; subst; reflexivity.
Qed.

Lemma try_block_captured (args : RecordMotion.Args) (env : RecordMotion.session F)
    (w w0 : world F) (frames : list (frame F)) (e : exn) :
  RecordMotion.try_block args env w = Some (frames, w0, e) ->
  frames = match RecordMotion.connect_raises env with
           | Some _ => []
           | None => kept (RecordMotion.args_fps args) (captured (RecordMotion.ticks env))
           end.
Proof.
  unfold RecordMotion.try_block. destruct (RecordMotion.connect_raises env).
  - intros Heq; inversion Heq; reflexivity.
  - intros Hloop. apply record_loop_captured in Hloop. exact Hloop.
Qed.

(** The loop of [record_with_teleop.py]: what it sent to the follower are
    the actions of the frames it appended, and after them the action of a
    tick that was interrupted between the two. *)
Lemma teleop_record_loop_captured (fps : Z) (ticks : list (RecordWithTeleop.tick F)) :
  forall (frames frames' : list (frame F)) (w w' : world F) (e : exn),
    RecordWithTeleop.record_loop fps ticks frames w = Some (frames', w', e) ->
    frames' = frames ++ kept fps (teleop_captured ticks) /\
    exists evs,
      w' = emit w evs /\ Forall plain evs /\
      sent_actions evs = map (@action F) (kept fps (teleop_captured ticks))
                         ++ sent_unrecorded (kept fps ticks).
Proof.
  unfold kept.
  induction ticks as [|t rest IH]; intros frames frames' w w' e Hrun; simpl in Hrun.
  - discriminate.
  - destruct t as [ts a|e0|a e0|a e0|ts a e0|ts a e0]; simpl.
    + destruct (fps =? 0)%Z eqn:Hfps.
      * inversion Hrun; subst. split; [reflexivity|].
        eexists; split; [reflexivity|]. split; [solve_plain|reflexivity].
      * apply IH in Hrun. destruct Hrun as (Hfr & evs & Hw' & Hplain & Hsent).
        split; [rewrite Hfr, <- app_assoc; reflexivity|].
        subst w'.
        destruct (Z.of_nat (length (frames ++ [{| timestamp := ts; action := a |}]))
                    mod fps =? 0)%Z;
          rewrite !emit_emit; (eexists; split; [reflexivity|]); (split; [solve_plain|]);
          autorewrite with sent; rewrite Hsent; reflexivity.
    + inversion Hrun; subst.
      split; [destruct (fps =? 0)%Z; now rewrite app_nil_r|].
      exists []. rewrite emit_nil. destruct (fps =? 0)%Z; repeat split; constructor.
    + inversion Hrun; subst.
      split; [destruct (fps =? 0)%Z; now rewrite app_nil_r|].
      exists []. rewrite emit_nil. destruct (fps =? 0)%Z; repeat split; constructor.
    + inversion Hrun; subst.
      split; [destruct (fps =? 0)%Z; now rewrite app_nil_r|].
      eexists; split; [reflexivity|].
      destruct (fps =? 0)%Z; (split; [solve_plain|reflexivity]).
    + inversion Hrun; subst.
      split; [destruct (fps =? 0)%Z; reflexivity|].
      eexists; split; [reflexivity|].
      destruct (fps =? 0)%Z; (split; [solve_plain|reflexivity]).
    + destruct (fps =? 0)%Z; [|destruct (_ =? 0)%Z]; inversion Hrun; subst;
        (split; [reflexivity|]); rewrite ?emit_emit;
        (eexists; split; [reflexivity|]); (split; [solve_plain|reflexivity]).
Qed.

(** At most one action is sent without being recorded. *)
Lemma sent_unrecorded_length (ticks : list (RecordWithTeleop.tick F)) :
  length (sent_unrecorded ticks) <= 1.
Proof.
  induction ticks as [|[ts a|e0|a e0|a e0|ts a e0|ts a e0] rest IH]; simpl; auto.
Qed.

Lemma sent_unrecorded_none (ticks : list (RecordWithTeleop.tick F)) :
  (forall a e, ~ In (RecordWithTeleop.TickSentRaises a e) ticks) ->
  sent_unrecorded ticks = [].
Proof.
  induction ticks as [|[ts a|e0|a e0|a e0|ts a e0|ts a e0] rest IH]; simpl; auto.
  - intros H. apply IH. intros a' e' Hin. apply (H a' e'). now right.
  - intros H. exfalso. apply (H a e0). now left.
Qed.

Lemma kept_incl {A} (fps : Z) (l : list A) (x : A) : In x (kept fps l) -> In x l.
Proof.
  unfold kept. destruct (fps =? 0)%Z; [|auto]. destruct l; simpl; [auto|].
  intros [<-|[]]. now left.
Qed.

End RecorderFacts.

Section SaveFacts.
Context {F : Type} {ops : PyFloat F}.

(** What [save_recording] does when nothing stands in the way. *)
Lemma saved_recording (frames : list (frame F)) (path : pystr) (fps : Z) (w : world F) :
  file_at path (w_files w) <> Some Directory ->
  exists data w',
    RecordMotion.save_recording None frames path fps w = (w', None) /\
    file_at path (w_files w') = Some (Pickled data) /\
    recording_of frames data /\
    dict_get "fps" data = Some (PInt fps) /\
    dict_get "frames" data = Some (PFrames frames) /\
    first_missing required_keys data = None /\
    (summarizable data = true <->
     writes_out (PInt fps : pyval F) = true /\
     writes_out (PInt (Z.of_nat (length frames)) : pyval F) = true) /\
    (loadable data = true <->
     writes_out (PInt fps : pyval F) = true /\
     writes_out (PInt (Z.of_nat (length frames)) : pyval F) = true).
Proof.
  intros Hdir. unfold RecordMotion.save_recording. rewrite dump_writes by exact Hdir.
  do 2 eexists. split; [reflexivity|].
  split; [cbn [w_files emit]; apply file_at_write_same|].
  split; [apply (recording_of_built frames fps)|].
  split; [reflexivity|]. split; [reflexivity|]. split; [reflexivity|].
  unfold loadable, summarizable, where_present, dict_mem.
  cbn [dict_get String.eqb Ascii.eqb Bool.eqb andb].
  assert (Hdur : writes_as_float
                   (match py_last frames with
                    | Some f => PFloat (timestamp f)
                    | None => PInt 0
                    end : pyval F) = true)
    by (destruct (py_last frames); reflexivity).
  rewrite Hdur. cbn [joins andb]. rewrite !andb_true_r, andb_true_iff. tauto.
Qed.

(** The two recorders have one and the same [save_recording]. *)
Lemma teleop_save_recording_eq (fault : option write_fault) (frames : list (frame F))
    (path : pystr) (fps : Z) (w : world F) :
  RecordWithTeleop.save_recording fault frames path fps w
  = RecordMotion.save_recording fault frames path fps w.
Proof. reflexivity. Qed.

(** [save_recording] sends nothing, whatever comes of the write. *)
Lemma save_recording_trace (fault : option write_fault) (frames : list (frame F))
    (path : pystr) (fps : Z) (w w' : world F) (r : option exn) :
  RecordMotion.save_recording fault frames path fps w = (w', r) ->
  (r = None <-> writable fault path w) /\
  exists evs, w_trace w' = w_trace w ++ evs /\ sent_actions evs = [] /\
              (r <> None -> evs = []).
Proof.
  unfold RecordMotion.save_recording.
  match goal with
  | |- context [dump fault w path ?data] =>
      pose proof (dump_returns fault w path data) as Hret;
      destruct (dump fault w path data) as [w1 [e|]] eqn:Hdump
  end; simpl in Hret; intros [= <- <-].
  - split; [exact Hret|]. exists []. rewrite app_nil_r.
    split; [exact (dump_raises _ _ _ _ Hdump)|]. auto.
  - split; [exact Hret|].
    assert (Hw : writable fault path w) by now apply Hret.
    destruct Hw as [-> Hdir]. rewrite dump_writes in Hdump by exact Hdir.
    injection Hdump as <-. cbn [w_trace emit]. rewrite <- app_assoc.
    eexists. split; [reflexivity|]. split; [reflexivity | congruence].
Qed.

(** A write that fails leaves no recording under the output path, unless
    one was there that the write did not reach. *)
Lemma save_recording_fails (fault : option write_fault) (frames : list (frame F))
    (path : pystr) (fps : Z) (w w' : world F) (e : exn) :
  RecordMotion.save_recording fault frames path fps w = (w', Some e) ->
  w_files w' = w_files w \/ file_at path (w_files w') = Some NotAPickle.
Proof.
  unfold RecordMotion.save_recording, dump.
  destruct fault as [[e0|e0|e0]|]; destruct (file_at path (w_files w)) as [[d| |]|];
    intros [= <- _]; auto; right; cbn [w_files]; apply file_at_write_same.
Qed.

End SaveFacts.

Section RecordReplay.
Context {F : Type} {ops : PyFloat F}.

(** [main] of [record_motion.py], when disconnecting does not raise: the
    frames captured, the exception that ended the loop, and the call of
    [save_recording] that ends the [finally] block if there are frames. *)
Lemma record_motion_main_outcome (args : RecordMotion.Args) (env : RecordMotion.session F)
    (w w' : world F) (exc : option exn) :
  RecordMotion.main args env w = Some (w', exc) ->
  (RecordMotion.is_connected env = true -> RecordMotion.disconnect_raises env = None) ->
  exists frames w0 e w1,
    RecordMotion.try_block args env w = Some (frames, w0, e) /\
    frames = match RecordMotion.connect_raises env with
             | Some _ => []
             | None => kept (RecordMotion.args_fps args) (captured (RecordMotion.ticks env))
             end /\
    w_files w1 = w_files w /\
    match frames with
    | [] => w_files w' = w_files w /\ exc = (if is_Exception e then Some e else None)
    | _ :: _ =>
        exists r,
          RecordMotion.save_recording (RecordMotion.save_fault env) frames
            (RecordMotion.args_output args) (RecordMotion.args_fps args) w1 = (w', r) /\
          exc = match r with
                | Some e' => Some e'
                | None => if is_Exception e then Some e else None
                end
    end.
Proof.
  unfold RecordMotion.main. intros Hmain Hdis.
  destruct (RecordMotion.try_block args env w) as [[[frames w0] e]|] eqn:Htry;
    [|discriminate].
  pose proof (try_block_captured _ _ _ Htry) as Hframes.
  pose proof (try_block_world _ _ _ Htry) as (evs & [Hfiles _] & _).
  unfold RecordMotion.finally_block in Hmain.
  assert (Hfin : exists w1 pending,
            w_files w1 = w_files w /\
            pending = (if is_Exception e then Some e else None) /\
            match frames with
            | [] => (emit w1 [EPrint "No frames recorded."], pending)
            | _ :: _ =>
                match RecordMotion.save_recording (RecordMotion.save_fault env) frames
                        (RecordMotion.args_output args) (RecordMotion.args_fps args) w1 with
                | (w2, Some e') => (w2, Some e')
                | (w2, None) => (w2, pending)
                end
            end = (w', exc)).
  { destruct (is_Exception e); cbv zeta in Hmain;
      (destruct (RecordMotion.is_connected env);
       [rewrite (Hdis eq_refl) in Hmain|]); injection Hmain as Hmain;
      (eexists _, _; split; [|split; [reflexivity | exact Hmain]]); exact Hfiles. }
  destruct Hfin as (w1 & pending & Hw1 & -> & Hfin).
  exists frames, w0, e, w1. split; [reflexivity|]. split; [exact Hframes|].
  split; [exact Hw1|].
  destruct frames as [|f frames].
  - injection Hfin as <- <-. split; [exact Hw1 | reflexivity].
  - destruct (RecordMotion.save_recording _ _ _ _ w1) as [w2 [e'|]];
      injection Hfin as <- <-; eexists; split; reflexivity.
Qed.

Lemma teleop_try_block_captured (args : RecordWithTeleop.Args)
    (env : RecordWithTeleop.session F) (w w0 : world F) (frames : list (frame F)) (e : exn) :
  RecordWithTeleop.try_block args env w = Some (frames, w0, e) ->
  let expected :=
    match RecordWithTeleop.leader_connect_raises env,
          RecordWithTeleop.follower_connect_raises env with
    | None, None =>
        kept (RecordWithTeleop.args_fps args) (teleop_captured (RecordWithTeleop.ticks env))
    | _, _ => []
    end in
  let extra :=
    match RecordWithTeleop.leader_connect_raises env,
          RecordWithTeleop.follower_connect_raises env with
    | None, None =>
        sent_unrecorded (kept (RecordWithTeleop.args_fps args) (RecordWithTeleop.ticks env))
    | _, _ => []
    end in
  frames = expected /\
  exists evs,
    w0 = emit w evs /\ Forall quiet evs /\
    sent_actions evs = map (@action F) expected ++ extra.
Proof.
  unfold RecordWithTeleop.try_block.
  destruct (RecordWithTeleop.leader_connect_raises env).
  { intros Heq; inversion Heq; subst. split; [reflexivity|].
    eexists; split; [reflexivity|]. split; [repeat constructor|reflexivity]. }
  destruct (RecordWithTeleop.follower_connect_raises env).
  { intros Heq; inversion Heq; subst. split; [reflexivity|].
    rewrite emit_emit. eexists; split; [reflexivity|].
    split; [repeat constructor|reflexivity]. }
  intros Hloop. apply teleop_record_loop_captured in Hloop.
  destruct Hloop as (Hfr & evs & Hw0 & Hplain & Hsent).
  split; [exact Hfr|]. subst w0. rewrite !emit_emit.
  eexists; split; [reflexivity|]. split.
  - repeat (apply Forall_app; split); repeat constructor.
    revert Hplain. apply Forall_impl. intros [ | | | | | ]; simpl; auto.
  - autorewrite with sent. exact Hsent.
Qed.

(** [main] of [record_with_teleop.py], when disconnecting does not raise. *)
Lemma teleop_main_outcome (args : RecordWithTeleop.Args) (env : RecordWithTeleop.session F)
    (w w' : world F) (exc : option exn) :
  RecordWithTeleop.main args env w = Some (w', exc) ->
  (RecordWithTeleop.leader_is_connected env = true ->
   RecordWithTeleop.leader_disconnect_raises env = None) ->
  (RecordWithTeleop.follower_is_connected env = true ->
   RecordWithTeleop.follower_disconnect_raises env = None) ->
  let frames :=
    match RecordWithTeleop.leader_connect_raises env,
          RecordWithTeleop.follower_connect_raises env with
    | None, None =>
        kept (RecordWithTeleop.args_fps args) (teleop_captured (RecordWithTeleop.ticks env))
    | _, _ => []
    end in
  let extra :=
    match RecordWithTeleop.leader_connect_raises env,
          RecordWithTeleop.follower_connect_raises env with
    | None, None =>
        sent_unrecorded (kept (RecordWithTeleop.args_fps args) (RecordWithTeleop.ticks env))
    | _, _ => []
    end in
  exists w1 evs,
    w1 = emit w evs /\ sent_actions evs = map (@action F) frames ++ extra /\
    match frames with
    | [] => w' = emit w1 [EPrint "No frames recorded."]
    | _ :: _ =>
        exists r,
          RecordWithTeleop.save_recording (RecordWithTeleop.save_fault env) frames
            (RecordWithTeleop.args_output args) (RecordWithTeleop.args_fps args) w1
          = (w', r)
    end.
Proof.
  unfold RecordWithTeleop.main. intros Hmain Hl Hf.
  destruct (RecordWithTeleop.try_block args env w) as [[[frames w0] e]|] eqn:Htry;
    [|discriminate].
  apply teleop_try_block_captured in Htry. cbv zeta in Htry.
  destruct Htry as (Hframes & evs & Hw0 & Hquiet & Hsent).
  cbv zeta. rewrite <- Hframes in *. clear Hframes. subst w0.
  unfold RecordWithTeleop.finally_block in Hmain.
  assert (Hfin : exists w1 evs1 pending,
            w1 = emit w evs1 /\ sent_actions evs1 = sent_actions evs /\
            match frames with
            | [] => (emit w1 [EPrint "No frames recorded."], pending)
            | _ :: _ =>
                match RecordWithTeleop.save_recording (RecordWithTeleop.save_fault env)
                        frames (RecordWithTeleop.args_output args)
                        (RecordWithTeleop.args_fps args) w1 with
                | (w2, Some e') => (w2, Some e')
                | (w2, None) => (w2, pending)
                end
            end = (w', exc)).
  { destruct (is_Exception e); cbv zeta in Hmain;
      (destruct (RecordWithTeleop.leader_is_connected env);
       [rewrite (Hl eq_refl) in Hmain|]);
      (destruct (RecordWithTeleop.follower_is_connected env);
       [rewrite (Hf eq_refl) in Hmain|]); injection Hmain as Hmain;
      ((eexists _, _, _; split; [|split; [|exact Hmain]]);
       [rewrite ?emit_emit; reflexivity | autorewrite with sent; reflexivity]). }
  destruct Hfin as (w1 & evs1 & pending & Hw1 & Hs1 & Hfin).
  exists w1, evs1. split; [exact Hw1|]. split; [now rewrite Hs1|].
  destruct frames as [|f frames].
  - now injection Hfin as <- _.
  - destruct (RecordWithTeleop.save_recording _ _ _ _ w1) as [w2 [e'|]];
      injection Hfin as <- _; eexists; reflexivity.
Qed.

Lemma fps_error_int (fps : Z) : fps <> 0%Z -> fps_error (PInt fps : pyval F) = None.
Proof. intros Hfps. simpl. destruct (Z.eqb_spec fps 0); [contradiction|reflexivity]. Qed.

End RecordReplay.

Section RecorderExits.
Context {F : Type}.

(** With [--fps 0] the division ends the first iteration that reaches it. *)
Lemma record_loop_fps_zero (ticks : list (RecordMotion.tick F)) (frames frames' : list (frame F))
    (w w' : world F) (e : exn) :
  RecordMotion.record_loop 0 ticks frames w = Some (frames', w', e) ->
  captured ticks <> [] ->
  (forall ts a e0 rest, ticks <> RecordMotion.TickAppendedRaises ts a e0 :: rest) ->
  e = ZeroDivisionError.
Proof.
  destruct ticks as [|[ts a|e0|ts a e0|ts a e0] rest]; simpl; intros Hrun Hne Hreach;
    try discriminate; try congruence.
  exfalso. now apply (Hreach ts a e0 rest).
Qed.

End RecorderExits.

(** ** Counters and history of the elbow-linked filter *)
Module ElbowFlexRuns.
Import ElbowFlex.

Section Counters.
Context {F : Type} {ops : PyFloat F}.
Variables np_mean np_std : list F -> F.

Local Abbreviation update := (update_adaptive_threshold np_mean np_std).
Local Abbreviation apply := (apply_filter np_mean np_std).
Local Abbreviation loop := (teleop_loop np_mean np_std).

Lemma both_keys_some (a : dict F) :
  both_keys a = true <->
  exists e w, dict_get elbow_key a = Some e /\ dict_get wrist_key a = Some w.
Proof.
  unfold both_keys, dict_mem.
  destruct (dict_get elbow_key a) as [e|], (dict_get wrist_key a) as [w|]; simpl;
    split; try discriminate; try (intros (e' & w' & He & Hw); discriminate);
    intros _; eauto.
Qed.

Lemma both_keys_none (a : dict F) :
  both_keys a = false ->
  dict_get elbow_key a = None \/ dict_get wrist_key a = None.
Proof.
  unfold both_keys, dict_mem.
  destruct (dict_get elbow_key a), (dict_get wrist_key a); simpl; auto; discriminate.
Qed.

(** The adaptive update touches the threshold and the history only. *)
Lemma update_keeps (self : ElbowFlexFilter F) (d : F) :
  total_frames (update self d) = total_frames self /\
  filtered_frames (update self d) = filtered_frames self /\
  prev_elbow_value (update self d) = prev_elbow_value self /\
  adaptive_threshold (update self d) = adaptive_threshold self /\
  max_history_size (update self d) = max_history_size self /\
  elbow_changes_history (update self d) =
    (if adaptive_threshold self then push_history self d else elbow_changes_history self).
Proof.
  unfold update_adaptive_threshold.
  destruct (adaptive_threshold self) eqn:Had; cbn [negb].
  - destruct (10 <=? length (push_history self d))%nat; cbn; rewrite ?Had; repeat split.
  - rewrite Had. repeat split.
Qed.

(** One call on a frame that holds both keys. *)
Lemma apply_counted (self : ElbowFlexFilter F) (a : dict F) (e w : F) :
  dict_get elbow_key a = Some e ->
  dict_get wrist_key a = Some w ->
  let self' := fst (apply self a) in
  total_frames self' = total_frames self + 1 /\
  prev_elbow_value self' = Some e /\
  adaptive_threshold self' = adaptive_threshold self /\
  max_history_size self' = max_history_size self /\
  match prev_elbow_value self with
  | None =>
      filtered_frames self' = filtered_frames self /\
      elbow_changes_history self' = elbow_changes_history self
  | Some pe =>
      filtered_frames self <= filtered_frames self' <= filtered_frames self + 1 /\
      elbow_changes_history self' =
        (if adaptive_threshold self then push_history self (f_abs (f_sub e pe))
         else elbow_changes_history self)
  end.
Proof.
  intros He Hw. unfold apply_filter. rewrite He, Hw. cbv zeta.
  cbn [prev_elbow_value set_counters].
  destruct (prev_elbow_value self) as [pe|] eqn:Hprev.
  - rewrite (@ElbowFlexFacts.update_set_counters F ops np_mean np_std).
    destruct (update_keeps self (f_abs (f_sub e pe))) as (Ht & Hf & Hp & Ha & Hm & Hh).
    set (u := update self (f_abs (f_sub e pe))) in *.
    cbn [elbow_threshold set_counters].
    destruct (f_gtb (f_abs (f_sub e pe)) (elbow_threshold u)).
    + cbn. rewrite ?Ha, ?Hm, ?Hh, ?Hf. repeat split; lia.
    + cbn [wrist_deadzone set_counters].
      destruct (f_ltb (f_abs w) (wrist_deadzone u)); cbn; rewrite ?Ha, ?Hm, ?Hh, ?Hf;
        repeat split; lia.
  - cbn. repeat split.
Qed.

Lemma apply_uncounted (self : ElbowFlexFilter F) (a : dict F) :
  both_keys a = false -> fst (apply self a) = self.
Proof.
  intros Hb. apply both_keys_none in Hb.
  now rewrite (@ElbowFlexFacts.apply_absent F ops np_mean np_std self a Hb).
Qed.

Lemma loop_step (self : ElbowFlexFilter F) (a : dict F) (rest : list (dict F)) :
  fst (loop self (a :: rest)) = fst (loop (fst (apply self a)) rest).
Proof. exact (@ElbowFlexFacts.loop_cons F ops np_mean np_std self a rest). Qed.

(** [total_frames] counts the frames that hold both keys. *)
Lemma loop_total_frames (actions : list (dict F)) :
  forall self : ElbowFlexFilter F,
    total_frames (fst (loop self actions)) = total_frames self + counted actions.
Proof.
  unfold counted.
  induction actions as [|a rest IH]; intros self.
  - simpl. lia.
  - rewrite loop_step, IH. simpl.
    destruct (both_keys a) eqn:Hb.
    + apply both_keys_some in Hb. destruct Hb as (e & w & He & Hw).
      destruct (apply_counted self a He Hw) as (Ht & _). rewrite Ht. simpl. lia.
    + now rewrite apply_uncounted.
Qed.

Lemma apply_counters_ok (self : ElbowFlexFilter F) (a : dict F) :
  counters_ok self -> counters_ok (fst (apply self a)).
Proof.
  intros Hok. destruct (both_keys a) eqn:Hb.
  - apply both_keys_some in Hb. destruct Hb as (e & w & He & Hw).
    destruct (apply_counted self a He Hw) as (Ht & Hp & _ & _ & Hcase).
    unfold counters_ok in *. rewrite Hp.
    destruct (prev_elbow_value self).
    + destruct Hcase as [Hf _]. lia.
    + destruct Hcase as [Hf _]. destruct Hok as [H0 H1]. lia.
  - now rewrite apply_uncounted.
Qed.

Lemma loop_counters_ok (actions : list (dict F)) :
  forall self : ElbowFlexFilter F,
    counters_ok self -> counters_ok (fst (loop self actions)).
Proof.
  induction actions as [|a rest IH]; intros self Hok; [exact Hok|].
  rewrite loop_step. apply IH. now apply apply_counters_ok.
Qed.

Lemma push_history_capacity (self : ElbowFlexFilter F) (d : F) :
  max_history_size self = 100%Z ->
  length (elbow_changes_history self) <= 100 ->
  length (push_history self d) = Nat.min 100 (length (elbow_changes_history self) + 1).
Proof.
  intros Hmax Hlen. unfold push_history. rewrite Hmax, length_app. cbn [length].
  destruct (Z.gtb_spec (Z.of_nat (length (elbow_changes_history self) + 1)) 100).
  - destruct (elbow_changes_history self) as [|x h]; [cbn [length] in *; lia|].
    cbn [app tl]. rewrite length_app. cbn [length] in *. lia.
  - rewrite length_app. cbn [length]. lia.
Qed.

Lemma apply_history_ok (self : ElbowFlexFilter F) (a : dict F) :
  counters_ok self -> history_ok self -> history_ok (fst (apply self a)).
Proof.
  intros Hc [Hmax Hlen]. destruct (both_keys a) eqn:Hb.
  2: { rewrite apply_uncounted by exact Hb. now split. }
  apply both_keys_some in Hb. destruct Hb as (e & w & He & Hw).
  destruct (apply_counted self a He Hw) as (Ht & _ & Ha & Hm & Hcase).
  unfold history_ok. rewrite Ht, Ha, Hm. split; [exact Hmax|].
  unfold counters_ok in Hc.
  destruct (prev_elbow_value self) as [pe|].
  - destruct Hcase as [_ Hh]. rewrite Hh.
    destruct (adaptive_threshold self); [|exact Hlen].
    rewrite push_history_capacity by (try exact Hmax; rewrite Hlen; lia).
    rewrite Hlen. lia.
  - destruct Hcase as [_ Hh]. rewrite Hh, Hlen. destruct Hc as [H0 _]. rewrite H0.
    destruct (adaptive_threshold self); reflexivity.
Qed.

Lemma loop_history_ok (actions : list (dict F)) :
  forall self : ElbowFlexFilter F,
    counters_ok self -> history_ok self ->
    history_ok (fst (loop self actions)).
Proof.
  induction actions as [|a rest IH]; intros self Hc Hh; [exact Hh|].
  rewrite loop_step. apply IH; [now apply apply_counters_ok | now apply apply_history_ok].
Qed.

Lemma init_counters_ok (config : TeleoperateElbowFilterConfig F) : counters_ok (init config).
Proof. split; reflexivity. Qed.

Lemma init_history_ok (config : TeleoperateElbowFilterConfig F) : history_ok (init config).
Proof. split; [reflexivity|]. simpl. now destruct (cfg_adaptive_threshold config). Qed.

Lemma loop_keeps_adaptive (actions : list (dict F)) :
  forall self : ElbowFlexFilter F,
    adaptive_threshold (fst (loop self actions)) = adaptive_threshold self.
Proof.
  induction actions as [|a rest IH]; intros self; [reflexivity|].
  rewrite loop_step, IH. destruct (both_keys a) eqn:Hb.
  - apply both_keys_some in Hb. destruct Hb as (e & w & He & Hw).
    now destruct (apply_counted self a He Hw) as (_ & _ & Ha & _).
  - now rewrite apply_uncounted.
Qed.

End Counters.
End ElbowFlexRuns.

Lemma counted_firstn {F} (j : nat) (actions : list (dict F)) :
  counted (firstn j actions) <= counted actions.
Proof.
  unfold counted. revert j. induction actions as [|a rest IH]; intros [|j]; simpl;
    try lia.
  specialize (IH j). destruct (both_keys a); simpl; lia.
Qed.

(** ** Runs of the wrist-roll filter *)
Module WristRollRuns.
Import WristRoll.

Section Runs.
Context {F : Type} {ops : PyFloat F}.

Lemma dict_set_set {V} (k : string) (v v' : V) (d : dict V) :
  dict_set k v (dict_set k v' d) = dict_set k v d.
Proof.
  induction d as [|[k0 v0] d IH]; simpl.
  - now rewrite String.eqb_refl.
  - destruct (String.eqb k k0) eqn:Hk; simpl.
    + now rewrite String.eqb_refl.
    + now rewrite Hk, IH.
Qed.

Lemma finish_state (self : WristRollFilter F) (action : dict F) (v : F) :
  exists g v',
    finish self action v
      = Returns (set_prev self g (Some v')) (dict_set wrist_roll_key v' action).
Proof.
  unfold finish. destruct (gripper_stage self action v) as [g v']. now exists g, v'.
Qed.

(** A call changes the history and the previous values only. *)
Lemma apply_filter_config (self : WristRollFilter F) (action : dict F) :
  let self' := outcome_state (apply_filter self action) in
  filter_type self' = filter_type self /\
  deadzone_threshold self' = deadzone_threshold self /\
  moving_average_window self' = moving_average_window self /\
  gripper_change_threshold self' = gripper_change_threshold self.
Proof.
  unfold apply_filter.
  destruct (dict_get wrist_roll_key action) as [x|]; [|repeat split].
  destruct (FilterType_eqb (filter_type self) NONE); [repeat split|].
  destruct (FilterType_in (filter_type self) [MOVING_AVERAGE; COMBINED]).
  - cbv zeta. destruct (mean _) as [m|]; [|repeat split].
    destruct (finish_state (set_history self (push_history self (deadzone_stage self x)))
                action m) as (g & v' & ->).
    repeat split.
  - destruct (finish_state self action (deadzone_stage self x)) as (g & v' & ->).
    repeat split.
Qed.

Lemma push_history_capped (self : WristRollFilter F) (x : F) :
  (Z.of_nat (length (wrist_roll_history self)) <= Z.max 0 (moving_average_window self))%Z ->
  (Z.of_nat (length (push_history self x)) <= Z.max 0 (moving_average_window self))%Z.
Proof.
  intros Hle. rewrite WristRollFacts.push_history_fifo.
  destruct (Z.ltb_spec (Z.of_nat (length (wrist_roll_history self)))
                       (moving_average_window self)).
  - rewrite length_app. cbn [length]. lia.
  - destruct (wrist_roll_history self) as [|y h]; [cbn; lia|].
    cbn [app tl]. rewrite length_app. cbn [length] in *. lia.
Qed.

(** The history never holds more values than the window allows. *)
Lemma apply_filter_history_capped (self : WristRollFilter F) (action : dict F) :
  (Z.of_nat (length (wrist_roll_history self)) <= Z.max 0 (moving_average_window self))%Z ->
  let self' := outcome_state (apply_filter self action) in
  (Z.of_nat (length (wrist_roll_history self')) <= Z.max 0 (moving_average_window self'))%Z.
Proof.
  intros Hle. unfold apply_filter.
  destruct (dict_get wrist_roll_key action) as [x|]; [|exact Hle].
  destruct (FilterType_eqb (filter_type self) NONE); [exact Hle|].
  destruct (FilterType_in (filter_type self) [MOVING_AVERAGE; COMBINED]).
  - cbv zeta. pose proof (push_history_capped self (deadzone_stage self x) Hle) as Hpush.
    destruct (mean _) as [m|]; [|exact Hpush].
    destruct (finish_state (set_history self (push_history self (deadzone_stage self x)))
                action m) as (g & v' & ->).
    exact Hpush.
  - destruct (finish_state self action (deadzone_stage self x)) as (g & v' & ->).
    exact Hle.
Qed.

Lemma teleop_loop_state (P : WristRollFilter F -> Prop) :
  (forall self action, P self -> P (outcome_state (apply_filter self action))) ->
  forall (actions : list (dict F)) (self : WristRollFilter F),
    P self -> P (fst (teleop_loop self actions)).
Proof.
  intros Hstep. induction actions as [|a rest IH]; intros self HP; [exact HP|].
  simpl. pose proof (Hstep self a HP) as Hnext.
  destruct (apply_filter self a) as [self' a'|self' e]; simpl in Hnext.
  - specialize (IH self' Hnext). destruct (teleop_loop self' rest). exact IH.
  - exact Hnext.
Qed.

Lemma teleop_loop_history_capped (actions : list (dict F)) (self : WristRollFilter F) :
  (Z.of_nat (length (wrist_roll_history self)) <= Z.max 0 (moving_average_window self))%Z ->
  let self' := fst (teleop_loop self actions) in
  (Z.of_nat (length (wrist_roll_history self')) <= Z.max 0 (moving_average_window self'))%Z.
Proof.
  intros Hle.
  apply (teleop_loop_state
           (fun s => (Z.of_nat (length (wrist_roll_history s))
                      <= Z.max 0 (moving_average_window s))%Z)); [|exact Hle].
  intros s a. apply apply_filter_history_capped.
Qed.

Lemma teleop_loop_config (actions : list (dict F)) (self : WristRollFilter F) :
  let self' := fst (teleop_loop self actions) in
  filter_type self' = filter_type self /\
  moving_average_window self' = moving_average_window self.
Proof.
  apply (teleop_loop_state
           (fun s => filter_type s = filter_type self /\
                     moving_average_window s = moving_average_window self));
    [|split; reflexivity].
  intros s a [Ht Hw]. destruct (apply_filter_config s a) as (Ht' & _ & Hw' & _).
  split; congruence.
Qed.

(** [apply_filter] raises exactly when a moving average is asked for over
    a window that holds nothing. *)
Lemma apply_filter_raises (self : WristRollFilter F) (action : dict F) :
  (Z.of_nat (length (wrist_roll_history self)) <= Z.max 0 (moving_average_window self))%Z ->
  match apply_filter self action with
  | Raises self' e =>
      e = ZeroDivisionError /\ wrist_roll_history self' = [] /\
      FilterType_in (filter_type self) [MOVING_AVERAGE; COMBINED] = true /\
      dict_mem wrist_roll_key action = true /\
      (moving_average_window self <= 0)%Z
  | Returns _ _ =>
      FilterType_in (filter_type self) [MOVING_AVERAGE; COMBINED] = false \/
      dict_mem wrist_roll_key action = false \/
      (1 <= moving_average_window self)%Z
  end.
Proof.
  intros Hle. unfold apply_filter, dict_mem.
  destruct (dict_get wrist_roll_key action) as [x|]; [|auto].
  destruct (FilterType_eqb (filter_type self) NONE) eqn:Hnone.
  { left. destruct (filter_type self); simpl in *; congruence. }
  destruct (FilterType_in (filter_type self) [MOVING_AVERAGE; COMBINED]) eqn:Hin.
  2: { destruct (finish_state self action (deadzone_stage self x)) as (g & v' & ->). auto. }
  cbv zeta. cbn [wrist_roll_history set_history].
  destruct (Z.le_gt_cases (moving_average_window self) 0) as [Hw|Hw].
  - assert (Hh : wrist_roll_history self = []).
    { destruct (wrist_roll_history self); [reflexivity|]. cbn [length] in Hle. lia. }
    assert (Hpush : push_history self (deadzone_stage self x) = []).
    { unfold push_history. rewrite Hh. cbn [app length].
      destruct (Z.gtb_spec (Z.of_nat 1) (moving_average_window self)); [reflexivity|lia]. }
    rewrite Hpush. cbn [mean]. repeat split; auto.
  - pose proof (@WristRollFacts.push_history_nonempty F self (deadzone_stage self x)
                  ltac:(lia)) as Hne.
    destruct (push_history self (deadzone_stage self x)) as [|y h] eqn:Hpush;
      [congruence|].
    cbn [mean].
    match goal with
    | |- context [finish ?s ?a ?m] =>
        destruct (finish_state s a m) as (g & v' & ->)
    end.
    right. right. lia.
Qed.

(** With a window of zero or less, the run ends at the first frame that
    holds [wrist_roll.pos]; the frames before it pass unchanged. *)
Lemma teleop_loop_empty_window (actions : list (dict F)) (self : WristRollFilter F) :
  FilterType_in (filter_type self) [MOVING_AVERAGE; COMBINED] = true ->
  (moving_average_window self <= 0)%Z ->
  wrist_roll_history self = [] ->
  snd (teleop_loop self actions) = before_wrist_roll actions.
Proof.
  intros Hin Hw Hh. induction actions as [|a rest IH]; [reflexivity|].
  cbn [teleop_loop before_wrist_roll]. unfold dict_mem.
  destruct (dict_get wrist_roll_key a) as [x|] eqn:Hkey.
  - pose proof (apply_filter_raises self a) as Hr.
    rewrite Hh in Hr. specialize (Hr ltac:(cbn; lia)).
    destruct (apply_filter self a) as [self' a'|self' e]; [|reflexivity].
    unfold dict_mem in Hr. rewrite Hkey, Hin in Hr.
    destruct Hr as [Hr|[Hr|Hr]]; try discriminate. lia.
  - rewrite (WristRollFacts.apply_filter_absent self a Hkey).
    destruct (teleop_loop self rest) as [self'' sent]. simpl in *. now rewrite IH.
Qed.

(** While the gripper keeps moving, the wrist roll stays where it was. *)
Lemma teleop_loop_frozen (actions : list (dict F)) :
  forall (self : WristRollFilter F) (g0 w0 : F),
    filter_type self = GRIPPER_LINKED ->
    prev_gripper_value self = Some g0 ->
    prev_wrist_roll_value self = Some w0 ->
    gripper_moving (gripper_change_threshold self) g0 actions = true ->
    snd (teleop_loop self actions) = map (dict_set wrist_roll_key w0) actions.
Proof.
  induction actions as [|a rest IH]; intros self g0 w0 Ht Hg Hw Hmov; [reflexivity|].
  cbn [gripper_moving] in Hmov.
  destruct (dict_get gripper_key a) as [g|] eqn:Hga; [|discriminate].
  destruct (dict_get wrist_roll_key a) as [w|] eqn:Hwa; [|discriminate].
  apply andb_true_iff in Hmov. destruct Hmov as [Hgt Hrest].
  destruct (WristRollFacts.gripper_tick self a Ht Hga Hwa) as (out & Happly & Hout).
  rewrite Hg, Hw, Hgt in Hout. subst out.
  cbn [teleop_loop map]. rewrite Happly.
  specialize (IH (set_prev self (Some g) (Some w0)) g w0 Ht eq_refl eq_refl Hrest).
  destruct (teleop_loop (set_prev self (Some g) (Some w0)) rest) as [self'' sent].
  simpl in *. now rewrite IH.
Qed.

Lemma set_same (self : WristRollFilter F) :
  set_prev (set_history self (wrist_roll_history self))
           (prev_gripper_value self) (prev_wrist_roll_value self) = self.
Proof. destruct self; reflexivity. Qed.

Lemma gripper_key_other {V} (v : V) (d : dict V) :
  dict_get gripper_key (dict_set wrist_roll_key v d) = dict_get gripper_key d.
Proof. apply dict_get_set_other. discriminate. Qed.

Lemma deadzone_only (self : WristRollFilter F) (action : dict F) (x : F) :
  filter_type self = DEADZONE ->
  dict_get wrist_roll_key action = Some x ->
  apply_filter self action =
    Returns (set_prev self (prev_gripper_value self) (Some (deadzone_stage self x)))
            (dict_set wrist_roll_key (deadzone_stage self x) action).
Proof.
  intros Ht Hkey. unfold apply_filter, finish, gripper_stage. rewrite Hkey, Ht.
  reflexivity.
Qed.

Lemma average_only (self : WristRollFilter F) (action : dict F) (x : F) :
  filter_type self = MOVING_AVERAGE ->
  dict_get wrist_roll_key action = Some x ->
  apply_filter self action =
    match mean (push_history self x) with
    | None => Raises (set_history self (push_history self x)) ZeroDivisionError
    | Some m =>
        Returns (set_prev (set_history self (push_history self x))
                          (prev_gripper_value self) (Some m))
                (dict_set wrist_roll_key m action)
    end.
Proof.
  intros Ht Hkey. unfold apply_filter, finish, gripper_stage, deadzone_stage.
  rewrite Hkey, Ht. cbn [FilterType_eqb FilterType_in existsb orb]. cbv zeta.
  cbn [wrist_roll_history set_history filter_type].
  destruct (mean (push_history self x)); [|reflexivity].
  rewrite Ht. reflexivity.
Qed.

Lemma linked_only (self : WristRollFilter F) (action : dict F) (x : F) :
  filter_type self = GRIPPER_LINKED ->
  dict_get wrist_roll_key action = Some x ->
  apply_filter self action = finish self action x.
Proof.
  intros Ht Hkey. unfold apply_filter, deadzone_stage. rewrite Hkey, Ht. reflexivity.
Qed.

Lemma combined_only (self : WristRollFilter F) (action : dict F) (x : F) :
  filter_type self = COMBINED ->
  dict_get wrist_roll_key action = Some x ->
  apply_filter self action =
    match mean (push_history self (deadzone_stage self x)) with
    | None =>
        Raises (set_history self (push_history self (deadzone_stage self x)))
               ZeroDivisionError
    | Some m =>
        finish (set_history self (push_history self (deadzone_stage self x))) action m
    end.
Proof.
  intros Ht Hkey. unfold apply_filter. rewrite Hkey, Ht. reflexivity.
Qed.

Lemma finish_linked (self : WristRollFilter F) (h : list F) (action : dict F) (m m' : F) :
  filter_type self = COMBINED ->
  match finish (with_type (set_history self h) GRIPPER_LINKED)
               (dict_set wrist_roll_key m' action) m with
  | Raises _ e => Raises (set_history self h) e
  | Returns linked action3 =>
      Returns (set_prev (set_history self h) (prev_gripper_value linked)
                        (prev_wrist_roll_value linked)) action3
  end = finish (set_history self h) action m.
Proof.
  intros Ht. unfold finish, gripper_stage.
  cbn [filter_type with_type set_history FilterType_in FilterType_eqb existsb orb
       prev_gripper_value prev_wrist_roll_value gripper_change_threshold].
  rewrite Ht. cbn [FilterType_in FilterType_eqb existsb orb].
  rewrite gripper_key_other.
  destruct (dict_get gripper_key action) as [g|];
    [|cbn; now rewrite dict_set_set].
  destruct (prev_gripper_value self) as [pg|], (prev_wrist_roll_value self) as [pw|];
    cbn; now rewrite dict_set_set.
Qed.

(** The combined filter is the deadzone, then the moving average, then the
    gripper link. *)
Lemma combined_pipeline (self : WristRollFilter F) (action : dict F) :
  filter_type self = COMBINED ->
  apply_filter self action = pipeline self action.
Proof.
  intros Ht. unfold pipeline.
  destruct (dict_get wrist_roll_key action) as [x|] eqn:Hkey.
  2: { repeat (rewrite WristRollFacts.apply_filter_absent by exact Hkey; cbv beta iota).
       now destruct self. }
  rewrite (combined_only self action Ht Hkey).
  rewrite (@deadzone_only (with_type self DEADZONE) action x eq_refl Hkey).
  assert (Hd : deadzone_stage (with_type self DEADZONE) x = deadzone_stage self x).
  { unfold deadzone_stage. cbn [filter_type with_type deadzone_threshold].
    now rewrite Ht. }
  rewrite Hd. set (d := deadzone_stage self x).
  rewrite (@average_only (with_type self MOVING_AVERAGE)
             (dict_set wrist_roll_key d action) d eq_refl
             (dict_get_set_same _ _ _)).
  change (push_history (with_type self MOVING_AVERAGE) d) with (push_history self d).
  destruct (mean (push_history self d)) as [m|]; [|reflexivity].
  cbn [wrist_roll_history set_prev set_history with_type].
  rewrite (@linked_only
             (with_type (set_history self (push_history self d)) GRIPPER_LINKED)
             (dict_set wrist_roll_key m (dict_set wrist_roll_key d action)) m eq_refl
             (dict_get_set_same _ _ _)).
  rewrite dict_set_set.
  symmetry. apply (finish_linked self (push_history self d) action m m Ht).
Qed.

(** The deadzone written into the loop of [teleoperate_logging.py] is the
    deadzone filter with threshold 5.0. *)
Lemma logging_deadzone_filter (self : WristRollFilter F) (action : dict F) :
  filter_type self = DEADZONE ->
  deadzone_threshold self = f_lit 5 ->
  exists self',
    apply_filter self action = Returns self' (TeleoperateLogging.deadzone action).
Proof.
  intros Ht Hthr. unfold TeleoperateLogging.deadzone, apply_filter.
  change TeleoperateLogging.wrist_roll_key with wrist_roll_key.
  destruct (dict_get wrist_roll_key action) as [x|] eqn:Hkey; [|now exists self].
  rewrite Ht. cbn [FilterType_eqb FilterType_in existsb orb].
  unfold finish, gripper_stage, deadzone_stage. rewrite Ht, Hthr.
  cbn [FilterType_eqb FilterType_in existsb orb].
  destruct (f_ltb (f_abs x) (f_lit 5)).
  - eexists. reflexivity.
  - rewrite (dict_set_same _ _ Hkey). eexists. reflexivity.
Qed.

End Runs.
End WristRollRuns.

(** ** The teleoperation loop *)

Section PrintFacts.
Context {F : Type}.

Lemma is_print_plain (evs : list (event F)) : Forall is_print evs -> Forall plain evs.
Proof. apply Forall_impl. intros [ | | | | | ]; simpl; auto. Qed.

Lemma is_print_sent (evs : list (event F)) : Forall is_print evs -> sent_actions evs = [].
Proof.
  induction 1 as [|ev evs Hev _ IH]; [reflexivity|].
  destruct ev; simpl in Hev; try contradiction. exact IH.
Qed.

Lemma is_print_no_disconnect (evs : list (event F)) :
  Forall is_print evs -> existsb is_disconnect evs = false.
Proof.
  induction 1 as [|ev evs Hev _ IH]; [reflexivity|].
  destruct ev; simpl in Hev; try contradiction. exact IH.
Qed.

Lemma plain_no_disconnect (evs : list (event F)) :
  Forall plain evs -> existsb is_disconnect evs = false.
Proof.
  induction 1 as [|ev evs Hev _ IH]; [reflexivity|].
  destruct ev; simpl in Hev; try contradiction; exact IH.
Qed.

Lemma table_prints {A} (l : list A) (msg : string) :
  Forall (@is_print F) (map (fun _ => EPrint msg) l).
Proof. induction l; simpl; constructor; simpl; auto. Qed.

End PrintFacts.

Module TeleopFacts.
Import Teleop.

Section Loop.
Context {F S : Type}.
Variable treat : S -> dict F -> S * list (event F) * (dict F + exn).
Variable report : S -> world F -> world F * option exn.
Variable final_report : S -> world F -> world F * option exn.

Hypothesis treat_prints : forall s a, Forall is_print (snd (fst (treat s a))).
Hypothesis report_prints :
  forall s w, exists evs, fst (report s w) = emit w evs /\ Forall is_print evs.
Hypothesis final_report_prints :
  forall s w, exists evs, fst (final_report s w) = emit w evs /\ Forall is_print evs.

(** What a run of the loop leaves behind: the state reached by treating the
    first [j] actions read, and the first [k] treated actions sent. *)
Lemma while_true_run (cfg : Config) (ticks : list (tick F)) :
  forall (self self' : S) (w w' : world F) (r : option exn),
    while_true treat report cfg ticks self w = Some (self', w', r) ->
    exists evs j k,
      w' = emit w evs /\ Forall plain evs /\ k <= j /\
      self' = treated_state treat self (firstn j (leader_actions ticks)) /\
      sent_actions evs = firstn k (treated treat self (leader_actions ticks)).
Proof.
  induction ticks as [|t rest IH]; intros self self' w w' r Hrun; simpl in Hrun.
  - discriminate.
  - cbn [leader_actions].
    destruct (get_action t) as [a|e].
    2: { inversion Hrun; subst. exists [], 0, 0. rewrite emit_nil.
         repeat split; constructor. }
    pose proof (treat_prints self a) as Hlines.
    assert (Hstate1 : forall l,
      treated_state treat self (firstn 1 (a :: l)) = fst (fst (treat self a))).
    { intros l. cbn [firstn treated_state]. now destruct (treat self a) as [[s1 ls] [x|x]]. }
    assert (Hstop0 : forall x, snd (treat self a) = inr x ->
      treated treat self (a :: leader_actions rest) = []).
    { intros x Hx. cbn [treated]. destruct (treat self a) as [[s1 ls] [y|y]];
        simpl in Hx; [discriminate|reflexivity]. }
    assert (Hgo : forall a', snd (treat self a) = inl a' ->
      treated treat self (a :: leader_actions rest)
        = a' :: treated treat (fst (fst (treat self a))) (leader_actions rest) /\
      forall j, treated_state treat self (firstn (Datatypes.S j) (a :: leader_actions rest))
        = treated_state treat (fst (fst (treat self a))) (firstn j (leader_actions rest))).
    { intros a' Ha'. cbn [treated firstn treated_state].
      destruct (treat self a) as [[s1 ls] [y|y]]; simpl in Ha'; [|discriminate].
      inversion Ha'; subst. split; reflexivity. }
    destruct (treat self a) as [[s1 lines] [a'|e]]; cbn [fst snd] in *.
    2: { inversion Hrun; subst. exists lines, 1, 0. rewrite Hstate1.
         split; [reflexivity|]. split; [now apply is_print_plain|].
         split; [lia|]. split; [reflexivity|].
         rewrite (is_print_sent Hlines). reflexivity. }
    destruct (Hgo a' eq_refl) as [Htreated Hstate]. clear Hgo Hstop0.
    rewrite Htreated.
    (* everything that ends the iteration after the treatment *)
    assert (Hend : forall evs0 k0, Forall plain evs0 -> k0 <= 1 ->
      sent_actions evs0 = firstn k0 [a'] ->
      exists evs j k,
        emit (emit w lines) evs0 = emit w evs /\ Forall plain evs /\ k <= j /\
        s1 = treated_state treat self (firstn j (a :: leader_actions rest)) /\
        sent_actions evs
          = firstn k (a' :: treated treat s1 (leader_actions rest))).
    { intros evs0 k0 Hp0 Hk0 Hs0. rewrite emit_emit. exists (lines ++ evs0), 1, k0.
      split; [reflexivity|]. split; [apply Forall_app; auto using is_print_plain|].
      split; [exact Hk0|]. split; [now rewrite Hstate1|].
      rewrite sent_actions_app, (is_print_sent Hlines), Hs0.
      destruct k0 as [|[|k0]]; try reflexivity. lia. }
    destruct (if cfg_display_data cfg then display_raises t else None) as [e|].
    { inversion Hrun; subst. rewrite <- (emit_nil (emit w lines)).
      apply (Hend [] 0); [constructor | lia | reflexivity]. }
    destruct (send_action_raises t) as [e|].
    { inversion Hrun; subst. rewrite <- (emit_nil (emit w lines)).
      apply (Hend [] 0); [constructor | lia | reflexivity]. }
    destruct (cfg_fps cfg =? 0)%Z.
    { inversion Hrun; subst.
      apply (Hend [ESendAction a'] 1); [repeat constructor | lia | reflexivity]. }
    destruct (busy_wait_raises t) as [e|].
    { inversion Hrun; subst.
      apply (Hend [ESendAction a'] 1); [repeat constructor | lia | reflexivity]. }
    set (table := EPrint "rule" :: EPrint "NAME | NORM"
                  :: map (fun _ => EPrint "motor") a' ++ [EPrint "time"]) in Hrun.
    assert (Htable : Forall (@is_print F) table).
    { unfold table. repeat constructor. apply Forall_app. split;
        [apply table_prints | repeat constructor]. }
    destruct (report_prints s1 (emit (emit (emit w lines) [ESendAction a']) table))
      as (revs & Hrep & Hrprints).
    destruct (report s1 (emit (emit (emit w lines) [ESendAction a']) table))
      as [w2 [e|]]; cbn [fst] in Hrep; subst w2.
    { inversion Hrun; subst. rewrite !emit_emit, <- emit_emit.
      apply (Hend ([ESendAction a'] ++ table ++ revs) 1); [|lia|].
      - constructor; [exact I|]. apply Forall_app; split; now apply is_print_plain.
      - rewrite sent_actions_app, sent_actions_app, (is_print_sent Htable),
          (is_print_sent Hrprints). reflexivity. }
    destruct (duration_reached t).
    { inversion Hrun; subst. rewrite !emit_emit, <- emit_emit.
      apply (Hend ([ESendAction a'] ++ table ++ revs) 1); [|lia|].
      - constructor; [exact I|]. apply Forall_app; split; now apply is_print_plain.
      - rewrite sent_actions_app, sent_actions_app, (is_print_sent Htable),
          (is_print_sent Hrprints). reflexivity. }
    apply IH in Hrun. destruct Hrun as (evs & j & k & Hw' & Hplain & Hkj & Hself & Hsent).
    subst w'. rewrite !emit_emit.
    eexists _, (Datatypes.S j), (Datatypes.S k). split; [reflexivity|]. split.
    { repeat (apply Forall_app; split); auto using is_print_plain.
      repeat constructor. }
    split; [lia|]. split; [now rewrite Hstate|].
    rewrite !sent_actions_app, (is_print_sent Hlines), (is_print_sent Htable),
      (is_print_sent Hrprints), Hsent. reflexivity.
Qed.

(** [teleop_loop]: the same, whatever the action features are. *)
Lemma teleop_loop_run (banner : list (event F)) (cfg : Config) (env : session F)
    (self self' : S) (w w' : world F) (r : option exn) :
  Forall is_print banner ->
  teleop_loop treat report banner cfg env self w = Some (self', w', r) ->
  exists evs j k,
    w' = emit w evs /\ Forall plain evs /\ k <= j /\
    self' = treated_state treat self (firstn j (leader_actions (ticks env))) /\
    sent_actions evs = firstn k (treated treat self (leader_actions (ticks env))).
Proof.
  intros Hbanner. unfold teleop_loop. destruct (action_features env).
  - intros Heq. inversion Heq; subst. exists [], 0, 0. rewrite emit_nil.
    repeat split; constructor.
  - intros Hrun. apply while_true_run in Hrun.
    destruct Hrun as (evs & j & k & Hw' & Hplain & Hkj & Hself & Hsent).
    subst w'. rewrite emit_emit. exists (banner ++ evs), j, k.
    split; [reflexivity|]. split; [apply Forall_app; auto using is_print_plain|].
    split; [exact Hkj|]. split; [exact Hself|].
    now rewrite sent_actions_app, (is_print_sent Hbanner).
Qed.

Variable final_raises : S -> option exn.
Hypothesis final_report_raises : forall s w, snd (final_report s w) = final_raises s.

Lemma disconnected_app (e1 e2 : list (event F)) :
  disconnected (e1 ++ e2) = disconnected e1 ++ disconnected e2.
Proof. unfold disconnected. apply flat_map_app. Qed.

Lemma plain_disconnected (evs : list (event F)) : Forall plain evs -> disconnected evs = [].
Proof.
  induction 1 as [|ev evs Hev _ IH]; [reflexivity|].
  destruct ev; simpl in Hev; try contradiction; exact IH.
Qed.

(** The main function: what it sends are treated actions, in the order
    read; it writes no file. *)
Lemma teleoperate_run (banner : list (event F)) (cfg : Config) (env : session F)
    (self : S) (w w' : world F) (exc : option exn) :
  Forall is_print banner ->
  teleoperate treat report final_report banner cfg env self w = Some (w', exc) ->
  exists evs k,
    w' = emit w evs /\ Forall no_dump evs /\
    sent_actions evs = firstn k (treated treat self (leader_actions (ticks env))).
Proof.
  intros Hbanner. unfold teleoperate. cbv zeta.
  destruct (teleop_connect_raises env).
  { intros Heq; inversion Heq; subst. exists [EConnect "teleop"], 0.
    repeat split; repeat constructor. }
  destruct (robot_connect_raises env).
  { intros Heq; inversion Heq; subst. rewrite emit_emit. eexists _, 0.
    split; [reflexivity|]. repeat split; repeat constructor. }
  destruct (teleop_loop treat report banner cfg env self
              (emit (emit w [EConnect "teleop"]) [EConnect "robot"]))
    as [[[self' w1] raised]|] eqn:Hloop; [|discriminate].
  apply (teleop_loop_run _ _ _ _ Hbanner) in Hloop.
  destruct Hloop as (evs & j & k & Hw1 & Hplain & _ & _ & Hsent). subst w1.
  destruct (final_report_prints self'
              (emit (emit (emit w [EConnect "teleop"]) [EConnect "robot"]) evs))
    as (fevs & Hfin & Hfprints).
  destruct (final_report self' _) as [w2 [e|]]; cbn [fst] in Hfin; subst w2.
  { intros Heq; inversion Heq; subst. rewrite !emit_emit. eexists _, k.
    split; [reflexivity|]. split.
    - repeat (apply Forall_app; split); auto using plain_no_dump, is_print_plain;
        repeat constructor.
    - rewrite !sent_actions_app, (is_print_sent Hfprints), Hsent. simpl.
      now rewrite app_nil_r. }
  assert (Hdone : forall tail,
    Forall no_dump tail -> sent_actions tail = [] ->
    exists evs0 k0,
      emit (emit (emit (emit (emit w [EConnect "teleop"]) [EConnect "robot"]) evs) fevs) tail
        = emit w evs0 /\ Forall no_dump evs0 /\
      sent_actions evs0 = firstn k0 (treated treat self (leader_actions (ticks env)))).
  { intros tail Htail Hts. rewrite !emit_emit. eexists _, k.
    split; [reflexivity|]. split.
    - repeat (apply Forall_app; split); auto using plain_no_dump, is_print_plain;
        repeat constructor.
    - rewrite !sent_actions_app, (is_print_sent Hfprints), Hsent, Hts. simpl.
      now rewrite !app_nil_r. }
  destruct (if cfg_display_data cfg then rerun_shutdown_raises env else None).
  { intros Heq; inversion Heq; subst. rewrite <- (emit_nil (emit _ fevs)).
    apply Hdone; [constructor|reflexivity]. }
  destruct (teleop_disconnect_raises env).
  { intros Heq; inversion Heq; subst. apply Hdone; [repeat constructor|reflexivity]. }
  destruct (robot_disconnect_raises env);
    intros Heq; inversion Heq; subst; rewrite emit_emit;
    apply Hdone; try reflexivity; repeat constructor.
Qed.

(** The [finally] block: when the report raises, nothing is disconnected;
    when it does not and no call of the block raises, the teleoperator and
    then the robot are disconnected, and only [KeyboardInterrupt] is
    passed over. *)
Lemma teleoperate_finally (banner : list (event F)) (cfg : Config) (env : session F)
    (self : S) (w w' : world F) (exc : option exn) :
  Forall is_print banner ->
  teleop_connect_raises env = None ->
  robot_connect_raises env = None ->
  teleoperate treat report final_report banner cfg env self w = Some (w', exc) ->
  exists evs j self',
    w' = emit w evs /\
    self' = treated_state treat self (firstn j (leader_actions (ticks env))) /\
    (forall e, final_raises self' = Some e -> exc = Some e /\ disconnected evs = []) /\
    (final_raises self' = None ->
     (if cfg_display_data cfg then rerun_shutdown_raises env else None) = None ->
     teleop_disconnect_raises env = None ->
     robot_disconnect_raises env = None ->
     disconnected evs = ["teleop"; "robot"] /\ exc <> Some KeyboardInterrupt).
Proof.
  intros Hbanner Hct Hcr. unfold teleoperate. cbv zeta. rewrite Hct, Hcr.
  destruct (teleop_loop treat report banner cfg env self
              (emit (emit w [EConnect "teleop"]) [EConnect "robot"]))
    as [[[self' w1] raised]|] eqn:Hloop; [|discriminate].
  apply (teleop_loop_run _ _ _ _ Hbanner) in Hloop.
  destruct Hloop as (evs & j & k & Hw1 & Hplain & _ & Hself & _). subst w1.
  destruct (final_report_prints self'
              (emit (emit (emit w [EConnect "teleop"]) [EConnect "robot"]) evs))
    as (fevs & Hfin & Hfprints).
  pose proof (final_report_raises self'
                (emit (emit (emit w [EConnect "teleop"]) [EConnect "robot"]) evs)) as Hfr.
  destruct (final_report self' _) as [w2 fr]; cbn [fst snd] in Hfin, Hfr; subst w2 fr.
  set (pending := match raised with Some KeyboardInterrupt => None | _ => raised end).
  assert (Hpending : pending <> Some KeyboardInterrupt).
  { unfold pending. destruct raised as [[| | | |]|]; discriminate. }
  pose proof (plain_disconnected Hplain) as Hd1.
  pose proof (plain_disconnected (is_print_plain Hfprints)) as Hd2.
  destruct (final_raises self') as [e|] eqn:Hfinal.
  - intros Heq; inversion Heq; subst. rewrite !emit_emit.
    eexists _, j, _. split; [reflexivity|]. split; [reflexivity|].
    rewrite Hfinal. split; [|discriminate].
    intros e0 He0. inversion He0; subst. split; [reflexivity|].
    rewrite !disconnected_app, Hd1, Hd2. reflexivity.
  - destruct (if cfg_display_data cfg then rerun_shutdown_raises env else None) as [e|].
    { intros Heq; inversion Heq; subst. rewrite !emit_emit.
      eexists _, j, _. rewrite Hfinal. repeat split; discriminate. }
    destruct (teleop_disconnect_raises env) as [e|].
    { intros Heq; inversion Heq; subst. rewrite !emit_emit.
      eexists _, j, _. rewrite Hfinal. repeat split; discriminate. }
    destruct (robot_disconnect_raises env) as [e|].
    { intros Heq; inversion Heq; subst. rewrite !emit_emit.
      eexists _, j, _. rewrite Hfinal. repeat split; discriminate. }
    intros Heq; inversion Heq; subst. rewrite !emit_emit.
    eexists _, j, _. split; [reflexivity|]. split; [reflexivity|].
    rewrite Hfinal. split; [discriminate|].
    intros _ _ _ _. split; [|exact Hpending].
    rewrite !disconnected_app, Hd1, Hd2. reflexivity.
Qed.

End Loop.
End TeleopFacts.

(** ** The teleoperation scripts *)

Section FilteredScript.
Context {F : Type} {ops : PyFloat F}.
Import TeleoperateFiltered.

Lemma filtered_treat_prints (s : WristRoll.WristRollFilter F) (a : dict F) :
  Forall is_print (snd (fst (treat s a))).
Proof. unfold treat. destruct (WristRoll.apply_filter s a); constructor. Qed.

Lemma no_report_prints (s : WristRoll.WristRollFilter F) (w : world F) :
  exists evs, fst (no_report s w) = emit w evs /\ Forall is_print evs.
Proof. exists []. rewrite emit_nil. split; [reflexivity|constructor]. Qed.

(** The treatment of the script is the filter: the loop of the script and
    the filter-only loop agree on what is sent and on the filter left. *)
Lemma filtered_treated (actions : list (dict F)) :
  forall self : WristRoll.WristRollFilter F,
    treated treat self actions = snd (WristRoll.teleop_loop self actions) /\
    treated_state treat self actions = fst (WristRoll.teleop_loop self actions).
Proof.
  induction actions as [|a rest IH]; intros self; [split; reflexivity|].
  cbn [treated treated_state WristRoll.teleop_loop]. unfold treat at 1 3.
  destruct (WristRoll.apply_filter self a) as [self' a'|self' e]; [|split; reflexivity].
  destruct (IH self') as [Ht Hs]. rewrite Ht, Hs.
  destruct (WristRoll.teleop_loop self' rest). split; reflexivity.
Qed.

End FilteredScript.

Section ElbowScript.
Context {F : Type} {ops : PyFloat F}.
Variables np_mean np_std : list F -> F.
Import TeleoperateElbowFilter.

Lemma elbow_treat_prints (s : ElbowFlex.ElbowFlexFilter F) (a : dict F) :
  Forall is_print (snd (fst (treat np_mean np_std s a))).
Proof. unfold treat. destruct (ElbowFlex.apply_filter np_mean np_std s a); constructor. Qed.

Lemma elbow_treated (actions : list (dict F)) :
  forall self : ElbowFlex.ElbowFlexFilter F,
    treated (treat np_mean np_std) self actions
      = snd (ElbowFlex.teleop_loop np_mean np_std self actions) /\
    treated_state (treat np_mean np_std) self actions
      = fst (ElbowFlex.teleop_loop np_mean np_std self actions).
Proof.
  induction actions as [|a rest IH]; intros self; [split; reflexivity|].
  cbn [treated treated_state ElbowFlex.teleop_loop]. unfold treat at 1 3.
  destruct (ElbowFlex.apply_filter np_mean np_std self a) as [self' a'].
  destruct (IH self') as [Ht Hs]. rewrite Ht, Hs.
  destruct (ElbowFlex.teleop_loop np_mean np_std self' rest). split; reflexivity.
Qed.

(** [get_statistics] leaves the threshold out exactly while no frame was
    counted; the other three keys are always there. *)
Lemma get_statistics_keys (self : ElbowFlex.ElbowFlexFilter F) :
  dict_keys (get_statistics self) =
    if (ElbowFlex.total_frames self =? 0)%nat
    then ["filter_rate"; "total_frames"; "filtered_frames"]
    else ["filter_rate"; "total_frames"; "filtered_frames"; "current_threshold"].
Proof. unfold get_statistics. now destruct (ElbowFlex.total_frames self =? 0)%nat. Qed.

Lemma elbow_report_raises (self : ElbowFlex.ElbowFlexFilter F) (w : world F) :
  snd (report self w) = statistics_error self /\
  exists evs, fst (report self w) = emit w evs /\ Forall is_print evs.
Proof.
  unfold report, statistics_error, get_statistics, subscript.
  destruct (ElbowFlex.total_frames self =? 0)%nat; cbn;
    destruct (ElbowFlex.adaptive_threshold self); cbn; rewrite ?emit_emit;
    (split; [reflexivity|]); (eexists; split; [reflexivity|]); repeat constructor.
Qed.

Lemma elbow_final_report_raises (self : ElbowFlex.ElbowFlexFilter F) (w : world F) :
  snd (final_report self w) = statistics_error self /\
  exists evs, fst (final_report self w) = emit w evs /\ Forall is_print evs.
Proof.
  unfold final_report, statistics_error, get_statistics, subscript.
  destruct (ElbowFlex.total_frames self =? 0)%nat; cbn;
    destruct (ElbowFlex.adaptive_threshold self); cbn; rewrite ?emit_emit;
    (split; [reflexivity|]); (eexists; split; [reflexivity|]); repeat constructor.
Qed.

End ElbowScript.

Lemma in_firstn {A} (x : A) (k : nat) (l : list A) : In x (firstn k l) -> In x l.
Proof.
  intros Hin. rewrite <- (firstn_skipn k l). apply in_or_app. now left.
Qed.

Section WristDisabledScript.
Context {F : Type} {ops : PyFloat F}.
Import TeleoperateWristDisabled.

(** The block changes the value under [wrist_roll.pos] and nothing else. *)
Lemma disable_wrist_roll_frame (action : dict F) :
  let action' := snd (disable_wrist_roll action) in
  dict_keys action' = dict_keys action /\
  (forall k, k <> wrist_roll_key -> dict_get k action' = dict_get k action) /\
  dict_get wrist_roll_key action' =
    match dict_get wrist_roll_key action with
    | Some _ => Some (f_lit 0)
    | None => None
    end /\
  Forall is_print (fst (disable_wrist_roll action)).
Proof.
  unfold disable_wrist_roll.
  destruct (dict_get wrist_roll_key action) as [x|] eqn:Hkey; cbn [fst snd].
  - split; [apply dict_keys_set; congruence|].
    split; [intros k Hk; now apply dict_get_set_other|].
    split; [apply dict_get_set_same|].
    destruct (f_gtb _ _); repeat constructor.
  - rewrite Hkey. repeat split. constructor.
Qed.

Lemma disabled_treat_prints (s : unit) (a : dict F) :
  Forall is_print (snd (fst (treat s a))).
Proof.
  unfold treat. destruct (disable_wrist_roll_frame a) as (_ & _ & _ & Hp).
  destruct (disable_wrist_roll a). exact Hp.
Qed.

Lemma disabled_no_report_prints (s : unit) (w : world F) :
  exists evs, fst (no_report s w) = emit w evs /\ Forall is_print evs.
Proof. exists []. rewrite emit_nil. split; [reflexivity|constructor]. Qed.

Lemma disabled_treated (actions : list (dict F)) (s : unit) :
  treated treat s actions = map (fun a => snd (disable_wrist_roll a)) actions.
Proof.
  induction actions as [|a rest IH]; [reflexivity|].
  cbn [treated map]. unfold treat at 1. destruct (disable_wrist_roll a) as [lines a'].
  now rewrite IH.
Qed.

Lemma disabled_zero (action : dict F) : wrist_roll_zero (snd (disable_wrist_roll action)).
Proof.
  destruct (disable_wrist_roll_frame action) as (_ & _ & Hz & _).
  unfold wrist_roll_zero. change "wrist_roll.pos" with wrist_roll_key. rewrite Hz.
  destruct (dict_get wrist_roll_key action); auto.
Qed.

End WristDisabledScript.

(** ** The sort is stable *)

Section StableSort.
Variables (A K : Type) (key : A -> K) (ltb : K -> K -> bool).
Variable p : A -> bool.

(** The elements [p] selects are not ordered by their keys, and a key
    smaller than another is smaller than a third or the third is smaller
    than the other. *)
Hypothesis p_ties : forall x y, p x = true -> p y = true -> ltb (key x) (key y) = false.
Hypothesis ltb_split :
  forall a b c, ltb a c = true -> ltb a b = true \/ ltb b c = true.

Lemma insert_by_key_filter (x : A) (sorted : list A) :
  StronglySorted (not_after key ltb) sorted ->
  filter p (insert_by_key key ltb x sorted)
  = filter p sorted ++ (if p x then [x] else []).
Proof.
  induction 1 as [|y rest Hrest IH Hy]; simpl.
  - destruct (p x); reflexivity.
  - destruct (ltb (key x) (key y)) eqn:Hxy.
    + destruct (p x) eqn:Hpx; [|simpl; rewrite Hpx; now rewrite app_nil_r].
      assert (Hnone : filter p (y :: rest) = []).
      { assert (Hall : Forall (fun z => p z = false) (y :: rest)).
        { constructor.
          - destruct (p y) eqn:Hpy; [|reflexivity].
            rewrite (@p_ties x y Hpx Hpy) in Hxy. discriminate.
          - rewrite Forall_forall in Hy |- *. intros z Hz.
            destruct (p z) eqn:Hpz; [|reflexivity].
            specialize (Hy z Hz). unfold not_after in Hy.
            destruct (@ltb_split (key x) (key z) (key y) Hxy) as [Hxz|Hzy].
            + rewrite (@p_ties x z Hpx Hpz) in Hxz. discriminate.
            + rewrite Hy in Hzy. discriminate. }
        clear - Hall. induction Hall as [|z l Hz _ IHl]; [reflexivity|].
        simpl. now rewrite Hz. }
      simpl filter at 1. rewrite Hpx.
      change (filter p (y :: rest)) with (filter p (y :: rest)) in Hnone.
      simpl in Hnone. simpl. rewrite Hnone. reflexivity.
    + simpl. rewrite IH. destruct (p y); reflexivity.
Qed.

Hypothesis ltb_asym : forall a b, ltb a b = true -> ltb b a = false.
Hypothesis ltb_trans : forall a b c, ltb a b = true -> ltb b c = true -> ltb a c = true.

Lemma fold_insert_filter (l : list A) :
  forall acc : list A,
    StronglySorted (not_after key ltb) acc ->
    filter p (fold_left (fun sorted x => insert_by_key key ltb x sorted) l acc)
    = filter p acc ++ filter p l.
Proof.
  induction l as [|x l IH]; intros acc Hacc; simpl.
  - now rewrite app_nil_r.
  - rewrite IH by (apply insert_by_key_sorted; assumption).
    rewrite insert_by_key_filter by exact Hacc.
    rewrite <- app_assoc. destruct (p x); reflexivity.
Qed.

(** Sorting keeps the elements [p] selects in the order they had. *)
Lemma sort_by_key_filter (l : list A) :
  filter p (sort_by_key key ltb l) = filter p l.
Proof. unfold sort_by_key. rewrite fold_insert_filter; [reflexivity|constructor]. Qed.

End StableSort.

Lemma sort_key_eqb_eq (a b : sort_key_t) : sort_key_eqb a b = true <-> a = b.
Proof.
  destruct a, b; simpl; split; intros Heq; try discriminate;
    try (apply N.eqb_eq in Heq; now subst);
    try (apply pystr_eqb_eq in Heq; now subst);
    inversion Heq; subst; try apply N.eqb_refl; apply pystr_eqb_refl.
Qed.

Lemma key_ltb_irrefl (a : sort_key_t) : key_ltb a a = false.
Proof.
  destruct (key_ltb a a) eqn:Hlt; [|reflexivity].
  pose proof (key_ltb_asym _ _ Hlt). congruence.
Qed.

Lemma pystr_ltb_split (a b c : pystr) :
  pystr_ltb a c = true -> pystr_ltb a b = true \/ pystr_ltb b c = true.
Proof.
  intros Hac. destruct (pystr_ltb a b) eqn:Hab; [now left|]. right.
  destruct (pystr_ltb b c) eqn:Hbc; [reflexivity|]. exfalso.
  revert b c Hac Hab Hbc. induction a as [|x a IH]; intros [|y b] [|z c]; simpl;
    try discriminate.
  intros Hac Hab Hbc.
  apply orb_true_iff in Hac. apply orb_false_iff in Hab as [Hxy Hab].
  apply orb_false_iff in Hbc as [Hyz Hbc].
  apply N.ltb_ge in Hxy, Hyz.
  destruct Hac as [Hac|Hac].
  - apply N.ltb_lt in Hac. lia.
  - apply andb_true_iff in Hac as [Hxz Hac]. apply N.eqb_eq in Hxz. subst z.
    assert (x = y) by lia. subst y. rewrite N.eqb_refl in Hab, Hbc. simpl in Hab, Hbc.
    eauto.
Qed.

Lemma key_ltb_split (a b c : sort_key_t) :
  key_ltb a c = true -> key_ltb a b = true \/ key_ltb b c = true.
Proof.
  destruct a as [n|n|s], b as [m|m|t], c as [k|k|u]; simpl; intros Hac;
    try discriminate; auto;
    try (apply N.ltb_lt in Hac;
         destruct (N.ltb_spec n m); [now left|right; apply N.ltb_lt; lia]).
  now apply pystr_ltb_split.
Qed.

(** ** A recording that cannot be timed *)

Section FpsError.
Context {F : Type} {ops : PyFloat F}.

(** When [fps] cannot be divided by, the first frame is sent and the loop
    ends. *)
Lemma replay_frames_fps_error (fps : pyval F) (e : exn) (f : frame F)
    (rest : list (frame F)) (steps : list step) (w : world F) :
  fps_error fps = Some e ->
  reaches_division (hd StepOk steps) = true ->
  replay_frames fps (f :: rest) steps w = (emit w [send_of f], Some e).
Proof.
  intros Hfps Hsend. simpl. rewrite Hfps.
  destruct (hd StepOk steps) as [|e'|e'|e']; try reflexivity; discriminate.
Qed.

(** A rate that is zero or no number cannot be divided by. *)
Lemma unusable_rate_error (fps : pyval F) :
  unusable_rate fps -> fps_error fps = Some (rate_error fps).
Proof.
  destruct fps as [z|x|l|l]; simpl; try reflexivity.
  - intros ->. reflexivity.
  - intros [-> ->]. reflexivity.
Qed.

Lemma fps_error_unusable (fps : pyval F) (e : exn) :
  fps_error fps = Some e -> unusable_rate fps.
Proof.
  destruct fps as [z|x|l|l]; simpl; auto.
  - destruct (Z.eqb_spec z 0); [auto | discriminate].
  - destruct (f_leb x (f_lit 0)), (f_leb (f_lit 0) x); simpl; try discriminate; auto.
Qed.

Lemma fps_error_exception (fps : pyval F) (e : exn) :
  fps_error fps = Some e -> is_Exception e = true.
Proof.
  destruct fps as [z|x|l|l]; simpl.
  - destruct (z =? 0)%Z; intros Heq; inversion Heq; reflexivity.
  - destruct (f_leb x (f_lit 0) && f_leb (f_lit 0) x); intros Heq; inversion Heq;
      reflexivity.
  - intros Heq; inversion Heq; reflexivity.
  - intros Heq; inversion Heq; reflexivity.
Qed.

(** What a survivable script lets the frame loop raise is caught by
    [except Exception]. *)
Lemma replay_frames_survivable (fps : pyval F) (frames : list (frame F)) :
  forall (steps : list step) (w w' : world F) (e : exn),
    forallb step_survivable steps = true ->
    replay_frames fps frames steps w = (w', Some e) ->
    is_Exception e = true.
Proof.
  induction frames as [|f rest IH]; intros steps w w' e Hsteps Hrun; simpl in Hrun.
  - discriminate.
  - assert (Hhd : step_survivable (hd StepOk steps) = true).
    { destruct steps; [reflexivity|]. simpl in Hsteps.
      now apply andb_true_iff in Hsteps. }
    assert (Htl : forallb step_survivable (tl steps) = true).
    { destruct steps; [reflexivity|]. simpl in Hsteps.
      now apply andb_true_iff in Hsteps. }
    destruct (hd StepOk steps) as [|e'|e'|e']; simpl in Hhd.
    + destruct (fps_error fps) as [e0|] eqn:Hfps.
      * inversion Hrun; subst. eapply fps_error_exception; eassumption.
      * eapply IH; eassumption.
    + inversion Hrun; subst. exact Hhd.
    + inversion Hrun; subst. exact Hhd.
    + destruct (fps_error fps) as [e0|] eqn:Hfps; inversion Hrun; subst.
      * eapply fps_error_exception; eassumption.
      * exact Hhd.
Qed.

Lemma replay_value_survivable (fps frames : pyval F) (steps : list step)
    (w w' : world F) (e : exn) :
  forallb step_survivable steps = true ->
  replay_value fps frames steps w = (w', Some e) ->
  is_Exception e = true.
Proof.
  intros Hsteps. unfold replay_value. destruct (frames_of frames).
  - now apply replay_frames_survivable.
  - intros Heq; inversion Heq; reflexivity.
Qed.

End FpsError.

(** ** A batch goes on after a file that fails *)

Section BatchFacts.
Context {F : Type} {ops : PyFloat F} {U : Unicode}.
Import ReplayAll.

(** The header of [replay_recording] can be printed exactly for a
    summarizable recording. *)
Lemma header_errors_none (data : recording F) (fps num_frames : pyval F) :
  dict_get "fps" data = Some fps -> dict_get "num_frames" data = Some num_frames ->
  (first_error [ str_error num_frames;
                 field_error format_f_error "duration" data;
                 str_error fps ] = None <-> summarizable data = true).
Proof.
  intros Hfps Hnum. rewrite <- summary_errors_none. unfold field_error at 2 4.
  now rewrite Hfps, Hnum.
Qed.

Lemma replay_recording_survives (data : recording F) (steps : list step) (w : world F) :
  first_missing required_keys data = None ->
  summarizable data = true ->
  forallb step_survivable steps = true ->
  exists success, snd (replay_recording data steps w) = inl success.
Proof.
  intros Hkeys Hdur Hsteps. unfold replay_recording.
  destruct (required_keys_present _ Hkeys) as (fps & frames & nf & Hfps & Hframes & Hnum).
  rewrite Hfps, Hframes, Hnum.
  rewrite (proj2 (header_errors_none data Hfps Hnum) Hdur). cbv zeta.
  destruct (replay_value fps frames steps (emit w [EPrint "frames, duration, rate"]))
    as [w1 [e|]] eqn:Hv.
  - rewrite (replay_value_survivable _ _ _ _ Hsteps Hv). now exists false.
  - now exists true.
Qed.

(** One pass over the files ends without an exception when nothing but
    device errors happen and every duration can be printed. *)
Lemma replay_files_survives (loop : bool) (total : nat) (pkl_files : list pystr) :
  forall (idx : nat) (scripts : list file_script) (w : world F),
    Forall (fun sc => forallb step_survivable (steps sc) = true /\ sleep_raises sc = None)
           scripts ->
    (forall file data,
       In file pkl_files -> file_at file (w_files w) = Some (Pickled data) ->
       summarizable data = true) ->
    snd (replay_files loop total idx pkl_files scripts w) = None.
Proof.
  induction pkl_files as [|file rest IH]; intros idx scripts w Hscripts Hdur;
    [reflexivity|].
  cbn [replay_files].
  assert (Hsc : forallb step_survivable (steps (hd undisturbed scripts)) = true /\
                sleep_raises (hd undisturbed scripts) = None).
  { destruct Hscripts as [|sc l Hsc _]; [split; reflexivity|exact Hsc]. }
  assert (Htl : Forall (fun sc => forallb step_survivable (steps sc) = true /\
                                  sleep_raises sc = None) (tl scripts)).
  { destruct Hscripts; [constructor|assumption]. }
  destruct Hsc as [Hsteps Hsleep].
  assert (Hrest : forall evs, 
    snd (replay_files loop total (Datatypes.S idx) rest (tl scripts) (emit w evs)) = None).
  { intros evs. apply IH; [exact Htl|]. intros f d Hin. cbn [w_files emit].
    apply Hdur. now right. }
  destruct (replay_all_load_trace file (emit w [EPrint "replaying file"]))
    as (lev & Hw1 & _ & _ & Hdata).
  destruct (load_recording file (emit w [EPrint "replaying file"])) as [w1 [data|]];
    cbn [fst snd] in Hw1, Hdata; subst w1.
  - destruct (Hdata _ eq_refl) as [Hfile Hkeys]. cbn [w_files emit] in Hfile.
    pose proof (Hdur file data (or_introl eq_refl) Hfile) as Hd.
    destruct (@replay_recording_survives data (steps (hd undisturbed scripts))
                (emit (emit w [EPrint "replaying file"]) lev) Hkeys Hd Hsteps)
      as (success & Hres).
    destruct (replay_recording data (steps (hd undisturbed scripts))
                (emit (emit w [EPrint "replaying file"]) lev)) as [w2 res] eqn:Hrec.
    cbn [snd] in Hres. subst res.
    apply replay_recording_prefix in Hrec. destruct Hrec as (rev & k & Hw2 & _). subst w2.
    rewrite Hsleep. rewrite !emit_emit.
    destruct ((idx <? total)%nat || loop); rewrite ?emit_emit; apply Hrest.
  - rewrite !emit_emit. apply Hrest.
Qed.

End BatchFacts.

(** ** The menu of [select_and_replay.py] *)

Section MenuFacts.
Context {F : Type} {ops : PyFloat F} {U : Unicode}.
Variables py_strip py_lower : string -> string.
Variable py_int : string -> option Z.
Import SelectAndReplay.

Local Abbreviation prompt := (SelectAndReplay.prompt (F:=F) py_strip py_lower py_int).
Local Abbreviation display_menu :=
  (SelectAndReplay.display_menu (F:=F) py_strip py_lower py_int).
Local Abbreviation main := (SelectAndReplay.main py_strip py_lower py_int).

(** The prompt loop only prints, and an index it returns is in range. *)
Lemma prompt_in_range (n : nat) (inputs : list input) :
  forall (w w' : world F) (res : option nat + exn),
    prompt n inputs w = Some (w', res) ->
    (exists evs, w' = emit w evs /\ Forall is_print evs) /\
    (forall idx, res = inl (Some idx) -> idx < n).
Proof.
  induction inputs as [|i rest IH]; intros w w' res Hrun; simpl in Hrun.
  - discriminate.
  - assert (Hnext : forall evs0, Forall is_print evs0 ->
      prompt n rest (emit (emit w [EPrint "select a file"]) evs0) = Some (w', res) ->
      (exists evs, w' = emit w evs /\ Forall is_print evs) /\
      (forall idx, res = inl (Some idx) -> idx < n)).
    { intros evs0 Hp0 Hrest. apply IH in Hrest.
      destruct Hrest as [(evs & Hw' & Hp) Hidx]. split; [|exact Hidx].
      subst w'. rewrite !emit_emit. eexists. split; [reflexivity|].
      repeat (apply Forall_app; split); auto. repeat constructor. }
    assert (Hstop : forall evs0 r, Forall is_print evs0 ->
      (forall idx, r = inl (Some idx) -> idx < n) ->
      Some (emit (emit w [EPrint "select a file"]) evs0, r) = Some (w', res) ->
      (exists evs, w' = emit w evs /\ Forall is_print evs) /\
      (forall idx, res = inl (Some idx) -> idx < n)).
    { intros evs0 r Hp0 Hr Heq. inversion Heq; subst. split; [|exact Hr].
      rewrite emit_emit. eexists. split; [reflexivity|].
      apply Forall_app; split; auto. repeat constructor. }
    destruct i as [text|e].
    + destruct (String.eqb (py_lower (py_strip text)) "q").
      { rewrite <- (emit_nil (emit w _)) in Hrun.
        apply (Hstop [] (inl None)); [constructor|discriminate|exact Hrun]. }
      destruct (py_int (py_strip text)) as [choice_num|].
      2: { apply (Hnext [EPrint "enter a valid number"]); [repeat constructor|exact Hrun]. }
      destruct ((1 <=? choice_num)%Z && (choice_num <=? Z.of_nat n)%Z) eqn:Hrange.
      * rewrite <- (emit_nil (emit w _)) in Hrun.
        apply (Hstop [] (inl (Some (Z.to_nat (choice_num - 1)))));
          [constructor| |exact Hrun].
        intros idx Heq. inversion Heq; subst.
        apply andb_true_iff in Hrange. destruct Hrange as [Hlo Hhi].
        apply Z.leb_le in Hlo, Hhi. lia.
      * apply (Hnext [EPrint "enter a number in range"]); [repeat constructor|exact Hrun].
    + destruct e as [| | |msg|msg].
      * apply (Hstop [EPrint "bye"] (inl None)); [repeat constructor|discriminate|exact Hrun].
      * rewrite <- (emit_nil (emit w _)) in Hrun.
        apply (Hstop [] (inr ZeroDivisionError)); [constructor|discriminate|exact Hrun].
      * rewrite <- (emit_nil (emit w _)) in Hrun.
        apply (Hstop [] (inr FileNotFoundError)); [constructor|discriminate|exact Hrun].
      * apply (Hnext [EPrint "enter a valid number"]); [repeat constructor|exact Hrun].
      * rewrite <- (emit_nil (emit w _)) in Hrun.
        apply (Hstop [] (inr (OtherException msg))); [constructor|discriminate|exact Hrun].
Qed.

Lemma print_lines_prints (lines : list (option exn * string)) :
  forall w : world F,
    exists evs, fst (print_lines lines w) = emit w evs /\ Forall is_print evs.
Proof.
  induction lines as [|[[e|] msg] lines IH]; intros w; simpl.
  - exists []. rewrite emit_nil. split; [reflexivity|constructor].
  - exists []. rewrite emit_nil. split; [reflexivity|constructor].
  - destruct (IH (emit w [EPrint msg])) as (evs & Heq & Hp).
    exists (EPrint msg :: evs). rewrite Heq, emit_emit.
    split; [reflexivity|]. constructor; [exact I | exact Hp].
Qed.

Lemma list_entries_prints (pkl_files : list pystr) :
  forall w : world F,
    exists evs, fst (list_entries pkl_files w) = emit w evs /\ Forall is_print evs.
Proof.
  induction pkl_files as [|f rest IH]; intros w; simpl.
  - exists []. rewrite emit_nil. split; [reflexivity|constructor].
  - destruct (load_recording_info f w) as [info|].
    + destruct (first_error _).
      * cbn [fst]. eexists. split; [reflexivity|]. repeat constructor.
      * destruct (IH (emit (emit w [EPrint "entry"])
                        [EPrint "frames, duration, rate"; EPrint ""])) as (evs & Hw & Hp).
        rewrite Hw, !emit_emit. eexists. split; [reflexivity|].
        repeat (apply Forall_app; split); auto; repeat constructor.
    + destruct (IH (emit w [EPrint "entry (load error)"; EPrint ""])) as (evs & Hw & Hp).
      rewrite Hw, !emit_emit. eexists. split; [reflexivity|].
      repeat (apply Forall_app; split); auto; repeat constructor.
Qed.

(** [display_menu] only prints, and an index it returns is an index of the
    list it was given. *)
Lemma display_menu_in_range (pkl_files : list pystr) (inputs : list input)
    (w w' : world F) (res : option nat + exn) :
  display_menu pkl_files inputs w = Some (w', res) ->
  (exists evs, w' = emit w evs /\ Forall is_print evs) /\
  (forall idx, res = inl (Some idx) -> exists file, nth_error pkl_files idx = Some file).
Proof.
  unfold SelectAndReplay.display_menu. cbv zeta.
  destruct (list_entries_prints pkl_files
              (emit w [EPrint "rule"; EPrint "available recordings"; EPrint "rule"]))
    as (levs & Hl & Hlp).
  destruct (list_entries pkl_files _) as [w1 [e|]]; cbn [fst] in Hl; subst w1.
  - intros Heq; inversion Heq; subst. split; [|discriminate].
    rewrite emit_emit. eexists. split; [reflexivity|].
    apply Forall_app; split; auto. repeat constructor.
  - intros Hrun. apply prompt_in_range in Hrun. destruct Hrun as [(evs & Hw' & Hp) Hidx].
    split.
    + subst w'. rewrite !emit_emit. eexists. split; [reflexivity|].
      repeat (apply Forall_app; split); auto; repeat constructor.
    + intros idx Hres. specialize (Hidx idx Hres).
      destruct (nth_error pkl_files idx) as [file|] eqn:Hnth; [now exists file|].
      apply nth_error_None in Hnth. lia.
Qed.

Lemma select_load_trace (pkl_file : pystr) (w : world F) :
  exists evs,
    fst (load_recording pkl_file w) = emit w evs /\ Forall is_print evs /\
    forall data, snd (load_recording pkl_file w) = inl data ->
      file_at pkl_file (w_files w) = Some (Pickled data) /\
      first_missing required_keys data = None.
Proof.
  unfold load_recording.
  destruct (file_at pkl_file (w_files w)) as [[data| |]|] eqn:Hfile; cbn [fst snd].
  2-4: exists []; rewrite emit_nil; repeat split; try constructor; discriminate.
  destruct (first_missing required_keys data) eqn:Hmiss; cbn [fst snd].
  { exists []; rewrite emit_nil; repeat split; try constructor; discriminate. }
  match goal with
  | |- context [print_lines ?lines w] =>
      destruct (print_lines_prints lines w) as (evs & Heq & Hp);
      destruct (print_lines lines w) as [w1 [e|]]
  end; cbn [fst snd] in *; subst w1; exists evs; (split; [reflexivity|]);
    (split; [exact Hp|]); intros d Hd; inversion Hd; subst; auto.
Qed.


Lemma select_replay_loop_eq (loop : bool) (fps frames : pyval F) (c : ReplayMotion.cycle)
    (later : list ReplayMotion.cycle) (w : world F) :
  replay_loop loop fps frames c later w =
    let w := emit w [EPrint "replaying"] in
    match replay_value fps frames (ReplayMotion.steps c) w with
    | (w, Some e) => Some (w, Some e)
    | (w, None) =>
        let w := emit w [EPrint "replay complete"] in
        if negb loop then Some (w, None)
        else
          let w := emit w [EPrint "next loop in 2 seconds"; ESleep] in
          match ReplayMotion.sleep_raises c with
          | Some e => Some (w, Some e)
          | None =>
              match later with
              | [] => None
              | c' :: later' => replay_loop loop fps frames c' later' w
              end
          end
    end.
Proof. destruct later; reflexivity. Qed.

Lemma select_replay_loop_passes (loop : bool) (fps frames : pyval F)
    (later : list ReplayMotion.cycle) :
  forall (c : ReplayMotion.cycle) (w w' : world F) (r : option exn),
    replay_loop loop fps frames c later w = Some (w', r) ->
    exists evs n k,
      w' = emit w evs /\ Forall plain evs /\
      sent_actions evs = passes (map (@action F) (iterated frames)) n k /\
      (loop = false -> n = 0).
Proof.
  induction later as [|c' later' IH]; intros c w w' r Hrun;
    rewrite select_replay_loop_eq in Hrun; cbv zeta in Hrun;
    destruct (replay_value fps frames (ReplayMotion.steps c) (emit w [EPrint "replaying"]))
      as [w1 [e|]] eqn:Hv;
    apply replay_value_prefix in Hv; destruct Hv as (k & Hk & Hw1 & Hfull & _).
  all: try (inversion Hrun; subst; rewrite emit_emit;
            eexists _, 0, k; split; [reflexivity|]; split; [solve_plain|];
            split; [|reflexivity];
            autorewrite with sent; unfold passes; simpl; now rewrite firstn_map).
  all: specialize (Hfull eq_refl); subst k; rewrite firstn_all in Hw1.
  all: destruct loop; simpl in Hrun.
  all: try (inversion Hrun; subst; rewrite !emit_emit;
            eexists _, 0, (length (iterated frames));
            split; [reflexivity|]; split; [solve_plain|];
            split; [|reflexivity];
            autorewrite with sent; unfold passes; simpl;
            now rewrite firstn_all2 by (rewrite length_map; lia)).
  all: destruct (ReplayMotion.sleep_raises c) as [e|]; try discriminate Hrun.
  all: try (inversion Hrun; subst; rewrite !emit_emit;
            eexists _, 0, (length (iterated frames));
            split; [reflexivity|]; split; [solve_plain|];
            split; [|discriminate];
            autorewrite with sent; unfold passes; simpl;
            now rewrite firstn_all2 by (rewrite length_map; lia)).
  apply IH in Hrun. destruct Hrun as (evs & n & k & Hw' & Hplain & Hsent & _).
  subst w' w1. rewrite !emit_emit.
  eexists _, (Datatypes.S n), k.
  split; [reflexivity|]. split; [solve_plain|]. split; [|discriminate].
  autorewrite with sent. rewrite Hsent. apply passes_cons.
Qed.

Lemma select_replay_recording_passes (data : recording F) (loop : bool)
    (c : ReplayMotion.cycle) (later : list ReplayMotion.cycle) (w w' : world F)
    (r : option exn) :
  replay_recording data loop c later w = Some (w', r) ->
  exists evs n k,
    w' = emit w evs /\ Forall plain evs /\
    sent_actions evs = passes (map (@action F) (frames_in_recording data)) n k /\
    (loop = false -> n = 0) /\
    r <> Some KeyboardInterrupt.
Proof.
  unfold replay_recording, frames_in_recording.
  destruct (dict_get "fps" data) as [fps|].
  2: { intros Heq; inversion Heq; subst. exists [], 0, 0. rewrite emit_nil.
       repeat split; try constructor; discriminate. }
  destruct (dict_get "frames" data) as [frames|].
  2: { intros Heq; inversion Heq; subst. exists [], 0, 0. rewrite emit_nil.
       repeat split; try constructor; discriminate. }
  destruct (replay_loop loop fps frames c later w) as [[w1 r1]|] eqn:Hloop; [|discriminate].
  apply select_replay_loop_passes in Hloop.
  destruct Hloop as (evs & n & k & Hw1 & Hplain & Hsent & Hn). subst w1.
  destruct r1 as [[| | | |]|]; intros Heq; inversion Heq; subst; rewrite ?emit_emit;
    try (exists evs, n, k; repeat split; auto; discriminate).
  eexists _, n, k. split; [reflexivity|]. split; [solve_plain|].
  split; [autorewrite with sent; exact Hsent|]. split; [exact Hn|discriminate].
Qed.

Lemma select_body (env : session) (data : recording F) (loop : bool)
    (w0 w2 : world F) (raised : option exn) :
  match connect_raises env with
  | Some e => Some (w0, Some e)
  | None =>
      replay_recording data loop (first_cycle env) (later_cycles env)
        (emit w0 [EPrint "connected"])
  end = Some (w2, raised) ->
  exists evs n k,
    w2 = emit w0 evs /\ Forall plain evs /\
    sent_actions evs = passes (map (@action F) (frames_in_recording data)) n k /\
    (loop = false -> n = 0).
Proof.
  destruct (connect_raises env) as [e|].
  - intros Heq; inversion Heq; subst. exists [], 0, 0. rewrite emit_nil.
    repeat split; constructor.
  - intros Hrun. apply select_replay_recording_passes in Hrun.
    destruct Hrun as (evs & n & k & Hw2 & Hplain & Hsent & Hn & _).
    subst w2. rewrite emit_emit. eexists _, n, k.
    split; [reflexivity|]. split; [solve_plain|]. split; [|exact Hn].
    autorewrite with sent. exact Hsent.
Qed.

Lemma select_finally (env : session) (w2 w' : world F) (raised exc : option exn) :
  (let w :=
     match raised with
     | Some e => if is_Exception e then emit w2 [EPrint "replay error"] else w2
     | None => w2
     end in
   if is_connected env then
     let w := emit w [EPrint "disconnecting"; EDisconnect "follower"] in
     match disconnect_raises env with
     | Some e => Some (w, Some e)
     | None => Some (emit w [EPrint "disconnected"], raised)
     end
   else Some (w, raised)) = Some (w', exc) ->
  exists tail, w' = emit w2 tail /\ Forall no_dump tail /\ sent_actions tail = [].
Proof.
  intros Hfin.
  destruct raised as [e|]; [destruct (is_Exception e)|];
    destruct (is_connected env); try destruct (disconnect_raises env);
    inversion Hfin; subst; rewrite ?emit_emit;
    first [ solve [exists []; rewrite emit_nil; repeat split; constructor]
          | eexists; (split; [reflexivity|]); split; [repeat constructor|reflexivity] ].
Qed.

(** Everything [main] does: it writes no file, and what it sends are passes
    over the frames of one of the files of the menu. *)
Lemma select_main_trace (args : Args) (env : session) (w w' : world F)
    (exc : option exn) :
  main args env w = Some (w', exc) ->
  exists evs,
    w' = emit w evs /\ Forall no_dump evs /\
    (sent_actions evs = [] \/
     exists file n k,
       In file (find_pkl_files (w_files w)) /\
       sent_actions evs = passes (recorded_actions file (w_files w)) n k /\
       (args_loop args = false -> n = 0)).
Proof.
  unfold SelectAndReplay.main. cbv zeta.
  destruct (find_pkl_files (w_files w)) as [|file0 files'] eqn:Hfound.
  { intros Heq; inversion Heq; subst. eexists. split; [reflexivity|].
    split; [repeat constructor|now left]. }
  remember (file0 :: files') as pkl_files eqn:Hpkl.
  destruct (SelectAndReplay.display_menu py_strip py_lower py_int pkl_files (inputs env) w)
    as [[w1 res]|] eqn:Hmenu; [|discriminate].
  apply display_menu_in_range in Hmenu.
  destruct Hmenu as [(mevs & Hw1 & Hmp) Hidx]. subst w1.
  pose proof (is_print_plain Hmp) as Hmplain.
  pose proof (is_print_sent Hmp) as Hmsent.
  destruct res as [[idx|]|e].
  3: { intros Heq; inversion Heq; subst. exists mevs.
       split; [reflexivity|]. split; [now apply plain_no_dump|now left]. }
  2: { intros Heq; inversion Heq; subst. rewrite emit_emit. eexists.
       split; [reflexivity|]. split; [apply plain_no_dump; solve_plain|].
       left. autorewrite with sent. now rewrite Hmsent. }
  destruct (Hidx idx eq_refl) as (file & Hnth). rewrite Hnth.
  destruct (select_load_trace file (emit w mevs)) as (levs & Hl & Hlp & Hdata).
  destruct (load_recording file (emit w mevs)) as [w1 [data|e]];
    cbn [fst snd] in Hl, Hdata; subst w1.
  2: { destruct (is_Exception e); intros Heq; inversion Heq; subst; rewrite !emit_emit;
         (eexists; split; [reflexivity|]);
         (split; [apply plain_no_dump; repeat (apply Forall_app; split);
                  auto using is_print_plain; repeat constructor|]);
         left; rewrite ?sent_actions_app, Hmsent, (is_print_sent Hlp); reflexivity. }
  destruct (Hdata data eq_refl) as [Hfile _]. cbn [w_files emit] in Hfile.
  destruct (match connect_raises env with
            | Some e => _
            | None => _ end) as [[w2 raised]|] eqn:Hb; [|intros Hd; discriminate Hd].
  apply select_body in Hb.
  destruct Hb as (evs & n & k & Hw2 & Hplain & Hsent & Hn).
  intros Hfin. apply select_finally in Hfin.
  destruct Hfin as (tail & Hw' & Htdump & Htsent). subst w' w2.
  rewrite !emit_emit. eexists. split; [reflexivity|]. split.
  { repeat (apply Forall_app; split); auto using plain_no_dump, is_print_plain.
    repeat constructor. }
  right. exists file, n, k. split.
  { apply nth_error_In in Hnth. exact Hnth. }
  split; [|exact Hn].
  rewrite !sent_actions_app, Hmsent, (is_print_sent Hlp), Hsent, Htsent.
  unfold recorded_actions, frames_in_file. rewrite Hfile. simpl.
  now rewrite app_nil_r.
Qed.

End MenuFacts.

(** * Further properties of the scripts *)

(** ** Recording, then replaying *)



(** X2. Whatever the follower arm and the user do, what [replay_motion.py]
    sends to the arm are the recorded actions in recorded order: whole
    passes over the frames of the input file and then a prefix of them, and
    no whole pass before the prefix without [--loop]. *)
Theorem replay_motion_sends_recorded :
  forall (F : Type) (ops : PyFloat F) (args : ReplayMotion.Args)
         (env : ReplayMotion.session) (w w' : world F) (exc : option exn),
    ReplayMotion.main args env w = Some (w', exc) ->
    exists evs n k,
      w' = emit w evs /\
      sent_actions evs
        = passes (recorded_actions (ReplayMotion.args_input args) (w_files w)) n k /\
      (ReplayMotion.args_loop args = false -> n = 0).
Proof.
  intros F ops args env w w' exc Hmain.
  destruct (replay_motion_main_trace _ _ _ Hmain)
    as (evs & n & k & Hw' & _ & Hsent & Hn & _).
  now exists evs, n, k.
Qed.

Lemma replay_motion_sends_recorded_witness :
  exists w' evs n k,
    ReplayMotion.main (replay_once (str "conf2.pkl")) calm_follower replay_world
      = Some (w', None) /\
    w' = emit replay_world evs /\
    sent_actions evs = passes [shoulder_12] n k /\
    n = 0.
Proof.
  destruct (@replay_motion_sends_recorded float binary64 (replay_once (str "conf2.pkl"))
              calm_follower replay_world _ _ eq_refl)
    as (evs & n & k & Hw' & Hsent & Hn).
  eexists _, evs, n, k. split; [reflexivity|]. split; [exact Hw'|].
  split; [exact Hsent|]. now apply Hn.
Defined.

(** X3. None of the three players writes a file: whatever happens, the files
    are after [main] what they were before, and nothing was dumped. *)
Theorem players_write_nothing :
  (forall (F : Type) (ops : PyFloat F) (args : ReplayMotion.Args)
          (env : ReplayMotion.session) (w w' : world F) (exc : option exn),
     ReplayMotion.main args env w = Some (w', exc) ->
     w_files w' = w_files w /\
     exists evs, w_trace w' = w_trace w ++ evs /\ forall p d, ~ In (EDump p d) evs) /\
  (forall (F : Type) (ops : PyFloat F) (U : Unicode) (args : ReplayAll.Args)
          (env : ReplayAll.session) (w w' : world F) (exc : option exn),
     ReplayAll.main args env w = Some (w', exc) ->
     w_files w' = w_files w /\
     exists evs, w_trace w' = w_trace w ++ evs /\ forall p d, ~ In (EDump p d) evs) /\
  (forall (F : Type) (ops : PyFloat F) (U : Unicode) (py_strip py_lower : string -> string)
          (py_int : string -> option Z) (args : SelectAndReplay.Args)
          (env : SelectAndReplay.session) (w w' : world F) (exc : option exn),
     SelectAndReplay.main py_strip py_lower py_int args env w = Some (w', exc) ->
     w_files w' = w_files w /\
     exists evs, w_trace w' = w_trace w ++ evs /\ forall p d, ~ In (EDump p d) evs).
Proof.
  split; [|split].
  - intros F ops args env w w' exc Hmain.
    destruct (replay_motion_main_trace _ _ _ Hmain) as (evs & _ & _ & Hw' & Hdump & _).
    subst w'. split; [reflexivity|]. exists evs. split; [reflexivity|].
    now apply no_dump_not_in.
  - intros F ops U args env w w' exc Hmain.
    destruct (replay_all_main_trace _ _ _ Hmain) as (evs & _ & _ & _ & Hw' & Hdump & _).
    subst w'. split; [reflexivity|]. exists evs. split; [reflexivity|].
    now apply no_dump_not_in.
  - intros F ops U py_strip py_lower py_int args env w w' exc Hmain.
    destruct (select_main_trace _ _ _ _ _ _ Hmain) as (evs & Hw' & Hdump & _).
    subst w'. split; [reflexivity|]. exists evs. split; [reflexivity|].
    now apply no_dump_not_in.
Qed.

Lemma players_write_nothing_witness :
  exists w',
    ReplayMotion.main (replay_once (str "conf2.pkl")) calm_follower replay_world
      = Some (w', None) /\
    w_files w' = w_files replay_world.
Proof.
  eexists. split; [reflexivity|].
  apply (proj1 players_write_nothing float binary64 (replay_once (str "conf2.pkl"))
           calm_follower replay_world _ None eq_refl).
Defined.

(** X4. [replay_motion.py] connects to the follower arm exactly when the
    input file holds a dict that has the three required keys, whose number
    of frames and rate can be written out in decimal, whose duration, if
    given, can be written as a float, and whose motor names, if given, are
    a list of strings; otherwise it returns normally, having sent
    nothing. *)
Theorem replay_motion_connects_iff_loadable :
  forall (F : Type) (ops : PyFloat F) (args : ReplayMotion.Args)
         (env : ReplayMotion.session) (w w' : world F) (exc : option exn),
    ReplayMotion.main args env w = Some (w', exc) ->
    exists evs,
      w' = emit w evs /\
      existsb is_connect evs = file_loadable (ReplayMotion.args_input args) (w_files w) /\
      (file_loadable (ReplayMotion.args_input args) (w_files w) = false ->
       exc = None /\ sent_actions evs = []).
Proof.
  intros F ops args env w w' exc Hmain.
  destruct (replay_motion_main_trace _ _ _ Hmain)
    as (evs & n & k & Hw' & _ & _ & _ & Hconn & Hnot).
  now exists evs.
Qed.

Lemma replay_motion_connects_iff_loadable_witness :
  exists w' evs,
    ReplayMotion.main (replay_once (str "conf1.pkl")) calm_follower replay_world
      = Some (w', None) /\
    w' = emit replay_world evs /\
    existsb is_connect evs = false /\
    sent_actions evs = [].
Proof.
  destruct (@replay_motion_connects_iff_loadable float binary64
              (replay_once (str "conf1.pkl")) calm_follower replay_world _ _ eq_refl)
    as (evs & Hw' & Hconn & Hnot).
  eexists _, evs. split; [reflexivity|]. split; [exact Hw'|].
  split; [exact Hconn|]. now apply Hnot.
Defined.

(** X5. [record_motion.py] keeps the frames in the order the leader arm
    delivered them.  Once connected, and if disconnecting does not raise,
    the frames held at the end are one for every tick up to the one that
    ended the loop.  When there is none, no file is touched.  When there
    are some and nothing stands in the way of the write, the file written
    holds them; when something does, an exception leaves [main] and no
    recording was written.  With [--fps 0] the first division ends the
    loop: one frame is kept and, unless that tick was interrupted before
    the division, [ZeroDivisionError] leaves [main]. *)
Theorem recorder_keeps_ticks_in_order :
  forall (F : Type) (args : RecordMotion.Args) (env : RecordMotion.session F)
         (w w' : world F) (exc : option exn),
    RecordMotion.main args env w = Some (w', exc) ->
    RecordMotion.connect_raises env = None ->
    (RecordMotion.is_connected env = true -> RecordMotion.disconnect_raises env = None) ->
    let frames := kept (RecordMotion.args_fps args) (captured (RecordMotion.ticks env)) in
    let output := RecordMotion.args_output args in
    (frames = [] -> w_files w' = w_files w) /\
    (frames <> [] -> writable (RecordMotion.save_fault env) output w ->
     exists data,
       file_at output (w_files w') = Some (Pickled data) /\
       recording_of frames data /\
       dict_get "fps" data = Some (PInt (RecordMotion.args_fps args))) /\
    (frames <> [] -> ~ writable (RecordMotion.save_fault env) output w ->
     (exists e, exc = Some e) /\
     (w_files w' = w_files w \/ file_at output (w_files w') = Some NotAPickle)) /\
    (RecordMotion.args_fps args = 0%Z -> frames <> [] ->
     writable (RecordMotion.save_fault env) output w ->
     (forall ts a e rest,
        RecordMotion.ticks env <> RecordMotion.TickAppendedRaises ts a e :: rest) ->
     length frames = 1 /\ exc = Some ZeroDivisionError).
Proof.
  intros F args env w w' exc Hmain Hconn Hdis. cbv zeta.
  destruct (record_motion_main_outcome _ _ _ Hmain Hdis)
    as (frames & w0 & e & w1 & Htry & Hframes & Hw1 & Hout).
  rewrite Hconn in Hframes. rewrite <- Hframes.
  assert (Hwr : writable (RecordMotion.save_fault env) (RecordMotion.args_output args) w1
                <-> writable (RecordMotion.save_fault env) (RecordMotion.args_output args) w)
    by (unfold writable; rewrite Hw1; tauto).
  split; [|split; [|split]].
  - intros Hnil. rewrite Hnil in Hout. apply Hout.
  - intros Hne Hw. destruct frames as [|f fs]; [congruence|].
    destruct Hout as (r & Hsave & _).
    apply Hwr in Hw. destruct Hw as [Hfault Hdir]. rewrite Hfault in Hsave.
    destruct (saved_recording (f :: fs) (RecordMotion.args_output args) (RecordMotion.args_fps args) w1 Hdir)
      as (data & w2 & Hs & Hfile & Hrec & Hfps & _).
    rewrite Hs in Hsave. injection Hsave as <- _. now exists data.
  - intros Hne Hw. destruct frames as [|f fs]; [congruence|].
    destruct Hout as (r & Hsave & Hexc).
    destruct (save_recording_trace _ _ _ _ _ Hsave) as [Hiff _].
    destruct r as [e'|]; [|exfalso; apply Hw, Hwr, Hiff; reflexivity].
    split; [now exists e'|].
    rewrite <- Hw1. exact (save_recording_fails _ _ _ _ _ Hsave).
  - intros Hfps Hne Hw Hreach. destruct frames as [|f fs]; [congruence|].
    destruct Hout as (r & Hsave & Hexc).
    destruct (save_recording_trace _ _ _ _ _ Hsave) as [Hiff _].
    apply Hwr, Hiff in Hw. subst r.
    assert (Hcap : captured (RecordMotion.ticks env) <> []).
    { intros Hnil. rewrite Hnil in Hframes. unfold kept in Hframes.
      now destruct (_ =? 0)%Z. }
    unfold RecordMotion.try_block in Htry. rewrite Hconn, Hfps in Htry.
    apply record_loop_fps_zero in Htry; [|exact Hcap|exact Hreach].
    subst e. split; [|exact Hexc].
    rewrite Hframes, Hfps. unfold kept. cbn [Z.eqb].
    destruct (captured (RecordMotion.ticks env)); [congruence|reflexivity].
Qed.

Lemma recorder_keeps_ticks_in_order_witness :
  exists w' data,
    RecordMotion.main record_args_fps_0 (interrupted_session None) empty_world
      = Some (w', Some ZeroDivisionError) /\
    file_at (str "recorded_motion.pkl") (w_files w') = Some (Pickled data) /\
    recording_of [one_frame] data /\
    dict_get "fps" data = Some (PInt 0).
Proof.
  assert (Hw : writable (RecordMotion.save_fault (interrupted_session None))
                 (RecordMotion.args_output record_args_fps_0) empty_world)
    by (split; [reflexivity | discriminate]).
  assert (Hne : kept (RecordMotion.args_fps record_args_fps_0)
                  (captured (RecordMotion.ticks (interrupted_session None))) <> [])
    by discriminate.
  destruct (@recorder_keeps_ticks_in_order float record_args_fps_0 (interrupted_session None)
              empty_world _ _ eq_refl eq_refl (fun _ => eq_refl))
    as (_ & Hsaved & _).
  destruct (Hsaved Hne Hw) as (data & Hfile & Hrec & Hfps).
  eexists _, data. split; [reflexivity|]. split; [exact Hfile|]. split; assumption.
Defined.

(** X6. [record_with_teleop.py] records what the follower arm was sent: if
    disconnecting does not raise, the actions sent to the follower during
    the run are the actions of the frames kept, in the same order, followed
    by at most one action more, that of a tick interrupted between
    [send_action] and [frames.append]; there is none when no tick is
    interrupted there.  The frames kept are what the file written holds,
    when nothing stands in the way of the write. *)
Theorem teleop_recorder_mirrors_follower :
  forall (F : Type) (args : RecordWithTeleop.Args) (env : RecordWithTeleop.session F)
         (w w' : world F) (exc : option exn),
    RecordWithTeleop.main args env w = Some (w', exc) ->
    (RecordWithTeleop.leader_is_connected env = true ->
     RecordWithTeleop.leader_disconnect_raises env = None) ->
    (RecordWithTeleop.follower_is_connected env = true ->
     RecordWithTeleop.follower_disconnect_raises env = None) ->
    let frames :=
      match RecordWithTeleop.leader_connect_raises env,
            RecordWithTeleop.follower_connect_raises env with
      | None, None =>
          kept (RecordWithTeleop.args_fps args)
               (teleop_captured (RecordWithTeleop.ticks env))
      | _, _ => []
      end in
    let output := RecordWithTeleop.args_output args in
    (exists evs extra,
       w_trace w' = w_trace w ++ evs /\
       sent_actions evs = map (@action F) frames ++ extra /\
       length extra <= 1 /\
       ((forall a e, ~ In (RecordWithTeleop.TickSentRaises a e) (RecordWithTeleop.ticks env)) ->
        extra = [])) /\
    (frames = [] -> w_files w' = w_files w) /\
    (frames <> [] -> writable (RecordWithTeleop.save_fault env) output w ->
     exists data,
       file_at output (w_files w') = Some (Pickled data) /\
       recording_of frames data /\
       dict_get "fps" data = Some (PInt (RecordWithTeleop.args_fps args))).
Proof.
  intros F args env w w' exc Hmain Hl Hf. cbv zeta.
  destruct (teleop_main_outcome _ _ _ Hmain Hl Hf) as (w1 & evs & Hw1 & Hsent & Hout).
  cbv zeta in Hsent, Hout.
  set (frames := match RecordWithTeleop.leader_connect_raises env,
                       RecordWithTeleop.follower_connect_raises env with
                 | None, None => kept (RecordWithTeleop.args_fps args)
                                   (teleop_captured (RecordWithTeleop.ticks env))
                 | _, _ => []
                 end) in *.
  set (extra := match RecordWithTeleop.leader_connect_raises env,
                      RecordWithTeleop.follower_connect_raises env with
                | None, None => sent_unrecorded (kept (RecordWithTeleop.args_fps args)
                                                   (RecordWithTeleop.ticks env))
                | _, _ => []
                end) in *.
  assert (Hlen : length extra <= 1).
  { unfold extra. destruct (RecordWithTeleop.leader_connect_raises env);
      [simpl; lia|]. destruct (RecordWithTeleop.follower_connect_raises env);
      [simpl; lia|]. apply sent_unrecorded_length. }
  assert (Hnone : (forall a e, ~ In (RecordWithTeleop.TickSentRaises a e)
                                    (RecordWithTeleop.ticks env)) -> extra = []).
  { intros Hno. unfold extra. destruct (RecordWithTeleop.leader_connect_raises env);
      [reflexivity|]. destruct (RecordWithTeleop.follower_connect_raises env);
      [reflexivity|]. apply sent_unrecorded_none. intros a e Hin.
    apply (Hno a e). eapply kept_incl; eassumption. }
  assert (Hfiles1 : w_files w1 = w_files w) by now subst w1.
  assert (Htrace1 : w_trace w1 = w_trace w ++ evs) by now subst w1.
  split; [|split].
  - destruct frames as [|f fs].
    + subst w'. exists (evs ++ [EPrint "No frames recorded."]), extra.
      split; [cbn [w_trace emit]; now rewrite Htrace1, app_assoc|].
      split; [autorewrite with sent; exact Hsent|]. now split.
    + destruct Hout as (r & Hsave).
      destruct (save_recording_trace _ _ _ _ _ Hsave) as (_ & evs2 & Htr & Hs2 & _).
      exists (evs ++ evs2), extra.
      split; [now rewrite Htr, Htrace1, app_assoc|].
      split; [autorewrite with sent; rewrite Hs2, Hsent; now autorewrite with sent|].
      now split.
  - intros Hnil. rewrite Hnil in Hout. now subst w'.
  - intros Hne Hw. destruct frames as [|f fs]; [congruence|].
    destruct Hout as (r & Hsave).
    destruct Hw as [Hfault Hdir]. rewrite Hfault in Hsave. rewrite <- Hfiles1 in Hdir.
    destruct (saved_recording (f :: fs) (RecordWithTeleop.args_output args) (RecordWithTeleop.args_fps args) w1 Hdir)
      as (data & w2 & Hs & Hfile & Hrec & Hfps & _).
    rewrite teleop_save_recording_eq, Hs in Hsave. injection Hsave as <- _.
    now exists data.
Qed.

Lemma teleop_recorder_mirrors_follower_witness :
  exists w' evs,
    RecordWithTeleop.main teleop_record_args teleop_interrupted empty_world
      = Some (w', None) /\
    w_trace w' = w_trace empty_world ++ evs /\
    sent_actions evs = [shoulder_12].
Proof.
  destruct (@teleop_recorder_mirrors_follower float teleop_record_args teleop_interrupted
              empty_world _ _ eq_refl (fun _ => eq_refl) (fun _ => eq_refl))
    as ((evs & extra & Htrace & Hsent & _ & Hnone) & _).
  assert (Hno : forall a e, ~ In (RecordWithTeleop.TickSentRaises a e)
                              (RecordWithTeleop.ticks teleop_interrupted)).
  { intros a e [Hin|[Hin|[]]]; discriminate Hin. }
  rewrite (Hnone Hno) in Hsent.
  eexists _, evs. split; [reflexivity|]. split; [exact Htrace|exact Hsent].
Defined.

(** X7. Recording and replaying compose: a motion recorded by
    [record_motion.py] at a rate other than zero, once at least one frame
    was captured, the leader disconnected without error and nothing stood
    in the way of the write, is replayed by [replay_motion.py] in full,
    provided the rate and the number of frames can be written out in
    decimal: on a follower that accepts every action and with nobody
    interrupting, the actions sent are the actions read from the leader, in
    the order read. *)
Theorem record_then_replay :
  forall (F : Type) (ops : PyFloat F) (args : RecordMotion.Args)
         (env : RecordMotion.session F) (w w1 : world F) (exc : option exn)
         (player : ReplayMotion.session),
    RecordMotion.main args env w = Some (w1, exc) ->
    RecordMotion.connect_raises env = None ->
    (RecordMotion.is_connected env = true -> RecordMotion.disconnect_raises env = None) ->
    writable (RecordMotion.save_fault env) (RecordMotion.args_output args) w ->
    RecordMotion.args_fps args <> 0%Z ->
    writes_out (PInt (RecordMotion.args_fps args) : pyval F) = true ->
    writes_out (PInt (Z.of_nat (length (captured (RecordMotion.ticks env)))) : pyval F)
      = true ->
    captured (RecordMotion.ticks env) <> [] ->
    ReplayMotion.connect_raises player = None ->
    Forall (eq StepOk) (ReplayMotion.steps (ReplayMotion.first_cycle player)) ->
    exists evs,
      ReplayMotion.main (replay_once (RecordMotion.args_output args)) player w1
        = Some (emit w1 evs,
                if ReplayMotion.is_connected player
                then ReplayMotion.disconnect_raises player else None) /\
      sent_actions evs = map (@action F) (captured (RecordMotion.ticks env)).
Proof.
  intros F ops args env w w1 exc player Hmain Hconn Hdis Hw Hfps Hrate Hnum Hne Hpconn
    Hsteps.
  destruct (record_motion_main_outcome _ _ _ Hmain Hdis)
    as (frames & w0 & e & w2 & _ & Hframes & Hw2 & Hout).
  rewrite Hconn, (kept_nonzero _ Hfps) in Hframes. subst frames.
  destruct (captured (RecordMotion.ticks env)) as [|f frames] eqn:Hcap; [congruence|].
  destruct Hout as (r & Hsave & _).
  destruct Hw as [Hfault Hdir]. rewrite Hfault in Hsave. rewrite <- Hw2 in Hdir.
  destruct (saved_recording (f :: frames) (RecordMotion.args_output args) (RecordMotion.args_fps args) w2 Hdir)
    as (data & w3 & Hs & Hfile & _ & Hdfps & Hdframes & _ & _ & Hload).
  rewrite Hs in Hsave. injection Hsave as <- _.
  apply (replay_motion_main_undisturbed _ _ _ Hfile (proj2 Hload (conj Hrate Hnum))
           Hdfps Hdframes (fps_error_int Hfps) Hpconn Hsteps).
Qed.

Lemma record_then_replay_witness :
  exists w1 evs,
    RecordMotion.main record_args (interrupted_session None) empty_world = Some (w1, None) /\
    ReplayMotion.main (replay_once (str "recorded_motion.pkl")) calm_follower w1
      = Some (emit w1 evs, None) /\
    sent_actions evs = [shoulder_12].
Proof.
  assert (Hw : writable (RecordMotion.save_fault (interrupted_session None))
                 (RecordMotion.args_output record_args) empty_world)
    by (split; [reflexivity | discriminate]).
  assert (Hfps : RecordMotion.args_fps record_args <> 0%Z) by discriminate.
  assert (Hne : captured (RecordMotion.ticks (interrupted_session None)) <> [])
    by discriminate.
  assert (Hrate : writes_out (PInt (RecordMotion.args_fps record_args) : pyval float) = true)
    by (vm_compute; reflexivity).
  assert (Hnum : writes_out
                   (PInt (Z.of_nat (length (captured
                            (RecordMotion.ticks (interrupted_session None)))))
                    : pyval float) = true)
    by (vm_compute; reflexivity).
  destruct (@record_then_replay float binary64 record_args (interrupted_session None)
              empty_world _ _ calm_follower eq_refl eq_refl (fun _ => eq_refl)
              Hw Hfps Hrate Hnum Hne eq_refl (Forall_nil _))
    as (evs & Hreplay & Hsent).
  eexists _, evs. split; [reflexivity|]. split; [exact Hreplay|exact Hsent].
Defined.

(** X8. A replay reproduces what the follower arm did while the motion was
    recorded.  For a motion recorded by [record_with_teleop.py] at a rate
    other than zero, once at least one frame was captured, both arms
    disconnected without error and nothing stood in the way of the write,
    and provided the rate and the number of frames can be written out in
    decimal: the actions that were sent to the follower during the
    recording are the actions [replay_motion.py] sends to a follower that
    accepts every action, with nobody interrupting, in the same order,
    followed by the action of a tick that was interrupted between
    [send_action] and [frames.append], if the recording ended so. *)
Theorem teleop_record_then_replay :
  forall (F : Type) (ops : PyFloat F) (args : RecordWithTeleop.Args)
         (env : RecordWithTeleop.session F) (w w1 : world F) (exc : option exn)
         (player : ReplayMotion.session),
    RecordWithTeleop.main args env w = Some (w1, exc) ->
    RecordWithTeleop.leader_connect_raises env = None ->
    RecordWithTeleop.follower_connect_raises env = None ->
    (RecordWithTeleop.leader_is_connected env = true ->
     RecordWithTeleop.leader_disconnect_raises env = None) ->
    (RecordWithTeleop.follower_is_connected env = true ->
     RecordWithTeleop.follower_disconnect_raises env = None) ->
    writable (RecordWithTeleop.save_fault env) (RecordWithTeleop.args_output args) w ->
    RecordWithTeleop.args_fps args <> 0%Z ->
    writes_out (PInt (RecordWithTeleop.args_fps args) : pyval F) = true ->
    writes_out (PInt (Z.of_nat (length (teleop_captured (RecordWithTeleop.ticks env))))
                : pyval F) = true ->
    teleop_captured (RecordWithTeleop.ticks env) <> [] ->
    ReplayMotion.connect_raises player = None ->
    Forall (eq StepOk) (ReplayMotion.steps (ReplayMotion.first_cycle player)) ->
    exists recorded replayed,
      w_trace w1 = w_trace w ++ recorded /\
      ReplayMotion.main (replay_once (RecordWithTeleop.args_output args)) player w1
        = Some (emit w1 replayed,
                if ReplayMotion.is_connected player
                then ReplayMotion.disconnect_raises player else None) /\
      sent_actions recorded
        = sent_actions replayed ++ sent_unrecorded (RecordWithTeleop.ticks env) /\
      ((forall a e, ~ In (RecordWithTeleop.TickSentRaises a e) (RecordWithTeleop.ticks env)) ->
       sent_actions replayed = sent_actions recorded).
Proof.
  intros F ops args env w w1 exc player Hmain Hlc Hfc Hl Hf Hw Hfps Hrate Hnum Hne Hpconn
    Hsteps.
  destruct (teleop_main_outcome _ _ _ Hmain Hl Hf) as (w2 & evs & Hw2 & Hsent & Hout).
  cbv zeta in Hsent, Hout. rewrite Hlc, Hfc, (kept_nonzero _ Hfps) in Hsent, Hout.
  rewrite (kept_nonzero (RecordWithTeleop.ticks env) Hfps) in Hsent.
  destruct (teleop_captured (RecordWithTeleop.ticks env)) as [|f frames] eqn:Hcap;
    [congruence|].
  destruct Hout as (r & Hsave).
  destruct (save_recording_trace _ _ _ _ _ Hsave) as (_ & evs2 & Htr & Hs2 & _).
  destruct Hw as [Hfault Hdir]. rewrite Hfault in Hsave.
  assert (Hdir2 : file_at (RecordWithTeleop.args_output args) (w_files w2)
                  <> Some Directory) by now subst w2.
  destruct (saved_recording (f :: frames) (RecordWithTeleop.args_output args) (RecordWithTeleop.args_fps args) w2 Hdir2)
    as (data & w3 & Hs & Hfile & _ & Hdfps & Hdframes & _ & _ & Hload).
  rewrite teleop_save_recording_eq, Hs in Hsave. injection Hsave as <- _.
  destruct (replay_motion_main_undisturbed _ _ _ Hfile (proj2 Hload (conj Hrate Hnum))
              Hdfps Hdframes (fps_error_int Hfps) Hpconn Hsteps)
    as (replayed & Hreplay & Hrsent).
  assert (Hrec : sent_actions (evs ++ evs2)
                 = sent_actions replayed ++ sent_unrecorded (RecordWithTeleop.ticks env)).
  { autorewrite with sent. rewrite Hs2, Hsent, Hrsent. now autorewrite with sent. }
  exists (evs ++ evs2), replayed.
  split; [rewrite Htr; subst w2; cbn [w_trace emit]; now rewrite app_assoc|].
  split; [exact Hreplay|]. split; [exact Hrec|].
  intros Hno. rewrite Hrec, (sent_unrecorded_none _ Hno). now rewrite app_nil_r.
Qed.

Lemma teleop_record_then_replay_witness :
  exists w1 recorded replayed,
    RecordWithTeleop.main teleop_record_args teleop_interrupted empty_world
      = Some (w1, None) /\
    w_trace w1 = w_trace empty_world ++ recorded /\
    ReplayMotion.main (replay_once (str "recorded_motion.pkl")) calm_follower w1
      = Some (emit w1 replayed, None) /\
    sent_actions replayed = sent_actions recorded.
Proof.
  assert (Hw : writable (RecordWithTeleop.save_fault teleop_interrupted)
                 (RecordWithTeleop.args_output teleop_record_args) empty_world)
    by (split; [reflexivity | discriminate]).
  assert (Hfps : RecordWithTeleop.args_fps teleop_record_args <> 0%Z) by discriminate.
  assert (Hne : teleop_captured (RecordWithTeleop.ticks teleop_interrupted) <> [])
    by discriminate.
  assert (Hrate : writes_out (PInt (RecordWithTeleop.args_fps teleop_record_args)
                              : pyval float) = true)
    by (vm_compute; reflexivity).
  assert (Hnum : writes_out
                   (PInt (Z.of_nat (length (teleop_captured
                            (RecordWithTeleop.ticks teleop_interrupted))))
                    : pyval float) = true)
    by (vm_compute; reflexivity).
  assert (Hno : forall a e, ~ In (RecordWithTeleop.TickSentRaises a e)
                              (RecordWithTeleop.ticks teleop_interrupted)).
  { intros a e [Hin|[Hin|[]]]; discriminate Hin. }
  destruct (@teleop_record_then_replay float binary64 teleop_record_args teleop_interrupted
              empty_world _ _ calm_follower eq_refl eq_refl eq_refl (fun _ => eq_refl)
              (fun _ => eq_refl) Hw Hfps Hrate Hnum Hne eq_refl (Forall_nil _))
    as (recorded & replayed & Htrace & Hreplay & _ & Hsame).
  eexists _, recorded, replayed. split; [reflexivity|]. split; [exact Htrace|].
  split; [exact Hreplay|exact (Hsame Hno)].
Defined.

(** ** The players *)

(** X9. A recording whose rate is the integer zero, a float equal to zero,
    or no number at all cannot be timed: if the follower accepts the first
    action, that action is sent, the division by the rate raises
    ([ZeroDivisionError] for a number, [TypeError] otherwise), and nothing
    else is sent.  The error is one [except Exception] catches, so
    [replay_recording] of [replay_all.py] reports the file as failed and
    returns.  Every other rate can be divided by: on binary64, [0], [0.0],
    [-0.0] and a list are unusable, while [30], [0.5] and [nan] are not. *)
Theorem replay_stops_when_fps_unusable :
  (forall (F : Type) (ops : PyFloat F) (fps : pyval F) (f : frame F)
          (rest : list (frame F)) (steps : list step) (w : world F),
     unusable_rate fps ->
     reaches_division (hd StepOk steps) = true ->
     replay_frames fps (f :: rest) steps w
       = (emit w [ESendAction (action f)], Some (rate_error fps)) /\
     is_Exception (rate_error fps) = true /\
     forall data : recording F,
       dict_get "fps" data = Some fps ->
       dict_get "frames" data = Some (PFrames (f :: rest)) ->
       dict_get "num_frames" data <> None ->
       summarizable data = true ->
       exists evs,
         ReplayAll.replay_recording data steps w = (emit w evs, inl false) /\
         sent_actions evs = [action f]) /\
  (forall (F : Type) (ops : PyFloat F) (fps : pyval F),
     fps_error fps = None <-> ~ unusable_rate fps) /\
  fps_error (PInt 0 : pyval float) = Some ZeroDivisionError /\
  fps_error (PFloat (f_lit 0) : pyval float) = Some ZeroDivisionError /\
  fps_error (PFloat (PrimFloat.opp (f_lit 0)) : pyval float) = Some ZeroDivisionError /\
  fps_error (PStrList [] : pyval float) = Some (OtherException "TypeError") /\
  fps_error (PFrames [] : pyval float) = Some (OtherException "TypeError") /\
  fps_error (PInt 30 : pyval float) = None /\
  fps_error (PFloat (f_lit (1 # 2)) : pyval float) = None /\
  fps_error (PFloat PrimFloat.nan : pyval float) = None.
Proof.
  split; [|split; [|repeat split]].
  - intros F ops fps f rest steps w Hrate Hsend.
    pose proof (unusable_rate_error fps Hrate) as Hfps.
    split; [now apply replay_frames_fps_error|].
    split; [eapply fps_error_exception; eassumption|].
    intros data Hdfps Hdframes Hnum Hsum.
    unfold ReplayAll.replay_recording. rewrite Hdfps, Hdframes.
    destruct (dict_get "num_frames" data) as [nf|] eqn:Hnf; [|congruence].
    rewrite (proj2 (header_errors_none data Hdfps Hnf) Hsum).
    cbv zeta. unfold replay_value. cbn [frames_of].
    rewrite (@replay_frames_fps_error F ops fps _ f rest steps _ Hfps Hsend).
    rewrite (@fps_error_exception F ops fps _ Hfps), !emit_emit.
    eexists. split; [reflexivity|]. reflexivity.
  - intros F ops fps. split.
    + intros Hnone Hrate. rewrite (unusable_rate_error fps Hrate) in Hnone.
      discriminate Hnone.
    + intros Hrate. destruct (fps_error fps) as [e|] eqn:Hfps; [|reflexivity].
      exfalso. apply Hrate. eapply fps_error_unusable; eassumption.
Qed.

Lemma replay_stops_when_fps_unusable_witness :
  exists evs,
    ReplayAll.replay_recording recording_fps_0 [] empty_world
      = (emit empty_world evs, inl false) /\
    sent_actions evs = [shoulder_12].
Proof.
  assert (Hnum : dict_get "num_frames" recording_fps_0 <> None) by discriminate.
  assert (Hsum : summarizable recording_fps_0 = true) by (vm_compute; reflexivity).
  apply (proj2 (proj2 (proj1 replay_stops_when_fps_unusable float binary64 (PInt 0)
                         one_frame [one_frame] [] empty_world eq_refl eq_refl))
           recording_fps_0 eq_refl eq_refl Hnum Hsum).
Defined.

(** X10. A file that fails does not end a batch of [replay_all.py]: when
    what the follower raises is caught by [except Exception], the pauses
    are not interrupted and the summary of every file that holds a dict can
    be printed, the loop over the files ends without an exception, having
    visited every file in order and sent a prefix of the actions of each. *)
Theorem batch_survives_device_errors :
  forall (F : Type) (ops : PyFloat F) (loop : bool) (total idx : nat)
         (pkl_files : list pystr) (scripts : list ReplayAll.file_script) (w : world F),
    Forall (fun sc => forallb step_survivable (ReplayAll.steps sc) = true /\
                      ReplayAll.sleep_raises sc = None) scripts ->
    (forall file data,
       In file pkl_files -> file_at file (w_files w) = Some (Pickled data) ->
       summarizable data = true) ->
    exists evs visits,
      ReplayAll.replay_files loop total idx pkl_files scripts w = (emit w evs, None) /\
      map fst visits = pkl_files /\
      sent_actions evs = visits_actions (w_files w) visits.
Proof.
  intros F ops loop total idx pkl_files scripts w Hscripts Hdur.
  pose proof (@replay_files_survives F ops loop total pkl_files idx scripts w
                Hscripts Hdur) as Hnone.
  destruct (ReplayAll.replay_files loop total idx pkl_files scripts w) as [w' r] eqn:Hrun.
  cbn [snd] in Hnone. subst r.
  apply replay_files_visits in Hrun.
  destruct Hrun as (evs & visits & m & Hw' & _ & Hsent & Hvis & _ & Hm).
  rewrite (Hm eq_refl), firstn_all in Hvis. subst w'.
  now exists evs, visits.
Qed.

Lemma batch_survives_device_errors_witness :
  exists evs visits,
    ReplayAll.replay_files false 2 1 [str "conf1.pkl"; str "conf2.pkl"] device_error_scripts
      batch_world = (emit batch_world evs, None) /\
    map fst visits = [str "conf1.pkl"; str "conf2.pkl"] /\
    sent_actions evs = visits_actions (w_files batch_world) visits.
Proof.
  apply (@batch_survives_device_errors float binary64 false 2 1
           [str "conf1.pkl"; str "conf2.pkl"] device_error_scripts batch_world).
  - repeat constructor.
  - intros file data [<-|[<-|[]]] Hfile; vm_compute in Hfile;
      injection Hfile as <-; vm_compute; reflexivity.
Defined.

(** X11. What [replay_all.py] sends to the follower arm are the actions of
    the files it found, file after file in sorted order and, within a file,
    in recorded order: whole passes over the list of files and then a
    prefix of it, of each file visited a prefix of its actions, and no
    whole pass before the prefix without [--loop]. *)
Theorem replay_all_sends_files_in_order :
  forall (F : Type) (ops : PyFloat F) (U : Unicode) (args : ReplayAll.Args)
         (env : ReplayAll.session) (w w' : world F) (exc : option exn),
    ReplayAll.main args env w = Some (w', exc) ->
    exists evs visits n m,
      w' = emit w evs /\
      sent_actions evs = visits_actions (w_files w) visits /\
      map fst visits = passes (ReplayAll.find_pkl_files (w_files w)) n m /\
      (ReplayAll.args_loop args = false -> n = 0).
Proof.
  intros F ops U args env w w' exc Hmain.
  destruct (replay_all_main_trace _ _ _ Hmain)
    as (evs & visits & n & m & Hw' & _ & Hsent & Hvis & Hn).
  now exists evs, visits, n, m.
Qed.

Lemma replay_all_sends_files_in_order_witness :
  exists w' evs visits m,
    ReplayAll.main {| ReplayAll.args_loop := false |} calm_batch batch_world
      = Some (w', None) /\
    w' = emit batch_world evs /\
    sent_actions evs = visits_actions (w_files batch_world) visits /\
    map fst visits = passes [str "conf1.pkl"; str "conf2.pkl"] 0 m.
Proof.
  destruct (@replay_all_sends_files_in_order float binary64 unicode_14_0
              {| ReplayAll.args_loop := false |} calm_batch batch_world _ _ eq_refl)
    as (evs & visits & n & m & Hw' & Hsent & Hvis & Hn).
  rewrite (Hn eq_refl) in Hvis.
  eexists _, evs, visits, m. split; [reflexivity|]. split; [exact Hw'|].
  split; [exact Hsent|exact Hvis].
Defined.

(** X12. The order of [find_pkl_files] is stable, in [replay_all.py] and in
    [select_and_replay.py]: the files that have one and the same sort key,
    such as [conf1_b.pkl] and [conf01.pkl], come out in the order in which
    the directory lists them. *)
Theorem find_pkl_files_stable :
  (forall (F : Type) (U : Unicode) (directory : files F) (k : sort_key_t),
     filter (fun f => sort_key_eqb (ReplayAll.sort_key f) k)
            (ReplayAll.find_pkl_files directory)
     = filter (fun f => sort_key_eqb (ReplayAll.sort_key f) k)
              (filter (ends_with (str ".pkl")) (file_names directory))) /\
  (forall (F : Type) (U : Unicode) (directory : files F) (k : sort_key_t),
     filter (fun f => sort_key_eqb (SelectAndReplay.sort_key f) k)
            (SelectAndReplay.find_pkl_files directory)
     = filter (fun f => sort_key_eqb (SelectAndReplay.sort_key f) k)
              (map fst
                 (filter (fun entry : pystr * file F =>
                            match snd entry with
                            | Directory => false
                            | _ => pystr_eqb (py_suffix (fst entry)) (str ".pkl")
                                   || SelectAndReplay.re_match_recording_name (fst entry)
                            end) directory))) /\
  ReplayAll.find_pkl_files tied_directory
  = [str "conf1_b.pkl"; str "conf01.pkl"; str "anx2.pkl"].
Proof.
  split; [|split; [|vm_compute; reflexivity]]; intros F U directory k;
    unfold ReplayAll.find_pkl_files, SelectAndReplay.find_pkl_files;
    apply sort_by_key_filter.
  all: try exact key_ltb_split.
  all: try exact key_ltb_asym.
  all: try exact key_ltb_trans.
  all: intros x y Hx Hy; apply sort_key_eqb_eq in Hx, Hy; rewrite Hx, Hy;
    apply key_ltb_irrefl.
Qed.

(** X13. The menu of [select_and_replay.py] only prints, and the index it
    returns is an index of the list it displayed, whatever is typed and
    whatever [strip], [lower] and [int] make of it: [pkl_files[selected_idx]]
    in [main] cannot raise [IndexError]. *)
Theorem menu_index_in_range :
  forall (F : Type) (U : Unicode) (py_strip py_lower : string -> string)
         (py_int : string -> option Z)
         (pkl_files : list pystr) (inputs : list SelectAndReplay.input)
         (w w' : world F) (res : option nat + exn),
    SelectAndReplay.display_menu py_strip py_lower py_int pkl_files inputs w
      = Some (w', res) ->
    w_files w' = w_files w /\
    (exists evs, w_trace w' = w_trace w ++ evs /\ Forall is_print evs) /\
    (forall idx, res = inl (Some idx) ->
       exists file, nth_error pkl_files idx = Some file).
Proof.
  intros F U py_strip py_lower py_int pkl_files inputs w w' res Hmenu.
  apply display_menu_in_range in Hmenu. destruct Hmenu as [(evs & Hw' & Hprints) Hidx].
  subst w'. split; [reflexivity|]. split; [|exact Hidx].
  exists evs. split; [reflexivity|exact Hprints].
Qed.

Lemma menu_index_in_range_witness :
  exists w',
    SelectAndReplay.display_menu (fun s => s) (fun s => s) demo_int
      [str "conf1.pkl"; str "conf2.pkl"] (SelectAndReplay.inputs demo_menu_session)
      replay_world
      = Some (w', inl (Some 1)) /\
    exists file, nth_error [str "conf1.pkl"; str "conf2.pkl"] 1 = Some file.
Proof.
  eexists. split; [reflexivity|].
  apply (proj2 (proj2 (@menu_index_in_range float unicode_14_0 (fun s => s) (fun s => s)
                         demo_int [str "conf1.pkl"; str "conf2.pkl"]
                         (SelectAndReplay.inputs demo_menu_session) replay_world
                         _ _ eq_refl)) 1 eq_refl).
Defined.

(** X14. What [select_and_replay.py] sends to the follower arm are actions
    of one file of the menu, in recorded order: nothing at all, or whole
    passes over the frames of that file and then a prefix of them, with no
    whole pass before the prefix without [--loop]. *)
Theorem select_and_replay_sends_one_file :
  forall (F : Type) (ops : PyFloat F) (U : Unicode) (py_strip py_lower : string -> string)
         (py_int : string -> option Z) (args : SelectAndReplay.Args)
         (env : SelectAndReplay.session) (w w' : world F) (exc : option exn),
    SelectAndReplay.main py_strip py_lower py_int args env w = Some (w', exc) ->
    exists evs,
      w' = emit w evs /\
      (sent_actions evs = [] \/
       exists file n k,
         In file (SelectAndReplay.find_pkl_files (w_files w)) /\
         sent_actions evs = passes (recorded_actions file (w_files w)) n k /\
         (SelectAndReplay.args_loop args = false -> n = 0)).
Proof.
  intros F ops U py_strip py_lower py_int args env w w' exc Hmain.
  destruct (select_main_trace _ _ _ _ _ _ Hmain) as (evs & Hw' & _ & Hsent).
  now exists evs.
Qed.

Lemma select_and_replay_sends_one_file_witness :
  exists w' evs,
    SelectAndReplay.main (fun s => s) (fun s => s) demo_int
      {| SelectAndReplay.args_loop := false |} demo_menu_session replay_world
      = Some (w', None) /\
    w' = emit replay_world evs /\
    (sent_actions evs = [] \/
     exists file n k,
       In file (SelectAndReplay.find_pkl_files (w_files replay_world)) /\
       sent_actions evs = passes (recorded_actions file (w_files replay_world)) n k /\
       (false = false -> n = 0)).
Proof.
  destruct (@select_and_replay_sends_one_file float binary64 unicode_14_0 (fun s => s)
              (fun s => s) demo_int {| SelectAndReplay.args_loop := false |} demo_menu_session
              replay_world _ _ eq_refl)
    as (evs & Hw' & Hsent).
  eexists _, evs. split; [reflexivity|]. split; [exact Hw'|exact Hsent].
Defined.

(** ** The filters over a run *)

(** X15. The counters of the elbow filter: [total_frames] counts the frames
    that hold both [elbow_flex.pos] and [wrist_roll.pos], and the first
    frame counted is never counted as filtered, so that, from a new filter,
    [filtered_frames] stays below [total_frames] as soon as a frame was
    counted. *)
Theorem elbow_counters :
  forall (F : Type) (ops : PyFloat F) (np_mean np_std : list F -> F),
    (forall (self : ElbowFlex.ElbowFlexFilter F) (actions : list (dict F)),
       ElbowFlex.total_frames (fst (ElbowFlex.teleop_loop np_mean np_std self actions))
       = ElbowFlex.total_frames self + counted actions) /\
    (forall (config : ElbowFlex.TeleoperateElbowFilterConfig F) (actions : list (dict F)),
       let self' :=
         fst (ElbowFlex.teleop_loop np_mean np_std (ElbowFlex.init config) actions) in
       ElbowFlex.total_frames self' = counted actions /\
       (ElbowFlex.total_frames self' = 0 /\ ElbowFlex.filtered_frames self' = 0 \/
        ElbowFlex.filtered_frames self' < ElbowFlex.total_frames self')).
Proof.
  intros F ops np_mean np_std. split.
  - intros self actions. apply ElbowFlexRuns.loop_total_frames.
  - intros config actions. cbv zeta. split.
    + now rewrite ElbowFlexRuns.loop_total_frames.
    + pose proof (@ElbowFlexRuns.loop_counters_ok F ops np_mean np_std actions
                    (ElbowFlex.init config) (ElbowFlexRuns.init_counters_ok config)) as Hok.
      unfold counters_ok in Hok.
      destruct (ElbowFlex.prev_elbow_value _); [right|left]; exact Hok.
Qed.

(** X16. The history of elbow changes of a new filter: without adaptation it
    stays empty; with adaptation it gains one entry per counted frame after
    the first and never holds more than 100.  Hence the threshold is still
    the configured one after ten counted frames. *)
Theorem elbow_history_fills :
  forall (F : Type) (ops : PyFloat F) (np_mean np_std : list F -> F)
         (config : ElbowFlex.TeleoperateElbowFilterConfig F) (actions : list (dict F)),
    let self' :=
      fst (ElbowFlex.teleop_loop np_mean np_std (ElbowFlex.init config) actions) in
    length (ElbowFlex.elbow_changes_history self')
    = (if ElbowFlex.cfg_adaptive_threshold config
       then Nat.min 100 (counted actions - 1) else 0) /\
    (counted actions <= 10 ->
     ElbowFlex.elbow_threshold self' = ElbowFlex.cfg_elbow_threshold config).
Proof.
  intros F ops np_mean np_std config actions. cbv zeta.
  destruct (@ElbowFlexRuns.loop_history_ok F ops np_mean np_std actions
              (ElbowFlex.init config) (ElbowFlexRuns.init_counters_ok config)
              (ElbowFlexRuns.init_history_ok config)) as [_ Hlen].
  rewrite ElbowFlexRuns.loop_keeps_adaptive, ElbowFlexRuns.loop_total_frames in Hlen.
  cbn [ElbowFlex.init ElbowFlex.adaptive_threshold ElbowFlex.total_frames Nat.add] in Hlen.
  split; [exact Hlen|].
  intros Hten.
  rewrite (@ElbowFlexFacts.loop_short F ops np_mean np_std actions (ElbowFlex.init config));
    [reflexivity|].
  rewrite Hlen. destruct (ElbowFlex.cfg_adaptive_threshold config); lia.
Qed.

Lemma elbow_history_fills_witness :
  ElbowFlex.elbow_threshold
    (fst (ElbowFlex.teleop_loop ref_mean ref_std (ElbowFlex.init (elbow_config true))
            [elbow_frame 0 10; elbow_frame 8 12; elbow_frame 8 20]))
  = f_lit 2.
Proof.
  apply (proj2 (@elbow_history_fills float binary64 ref_mean ref_std (elbow_config true)
                  [elbow_frame 0 10; elbow_frame 8 12; elbow_frame 8 20])).
  vm_compute. repeat constructor.
Defined.

(** X17. The history of the wrist-roll filter never holds more values than
    the moving-average window allows, and none when the window is zero or
    negative. *)
Theorem wrist_history_capped :
  forall (F : Type) (ops : PyFloat F) (config : WristRoll.TeleoperateFilteredConfig F)
         (actions : list (dict F)),
    let self' := fst (WristRoll.teleop_loop (WristRoll.init config) actions) in
    (Z.of_nat (length (WristRoll.wrist_roll_history self'))
     <= Z.max 0 (WristRoll.cfg_moving_average_window config))%Z.
Proof.
  intros F ops config actions. cbv zeta.
  pose proof (@WristRollRuns.teleop_loop_history_capped F ops actions (WristRoll.init config))
    as Hcap.
  cbv zeta in Hcap.
  destruct (WristRollRuns.teleop_loop_config actions (WristRoll.init config)) as [_ Hw].
  rewrite Hw in Hcap. apply Hcap. cbn. lia.
Qed.

(** X18. [apply_filter] of the wrist-roll filter raises in one case only: a
    moving average (alone or combined) over a window of zero or less, on a
    frame that holds [wrist_roll.pos]; what it raises is
    [ZeroDivisionError].  A run with such a window sends the frames that
    precede the first frame holding the key, unchanged, and ends there. *)
Theorem moving_average_needs_window :
  forall (F : Type) (ops : PyFloat F),
    (forall (self self' : WristRoll.WristRollFilter F) (action : dict F) (e : exn),
       (Z.of_nat (length (WristRoll.wrist_roll_history self))
        <= Z.max 0 (WristRoll.moving_average_window self))%Z ->
       WristRoll.apply_filter self action = WristRoll.Raises self' e ->
       e = ZeroDivisionError /\
       WristRoll.FilterType_in (WristRoll.filter_type self)
         [WristRoll.MOVING_AVERAGE; WristRoll.COMBINED] = true /\
       dict_mem WristRoll.wrist_roll_key action = true /\
       (WristRoll.moving_average_window self <= 0)%Z) /\
    (forall (self : WristRoll.WristRollFilter F) (action : dict F),
       (Z.of_nat (length (WristRoll.wrist_roll_history self))
        <= Z.max 0 (WristRoll.moving_average_window self))%Z ->
       WristRoll.FilterType_in (WristRoll.filter_type self)
         [WristRoll.MOVING_AVERAGE; WristRoll.COMBINED] = true ->
       dict_mem WristRoll.wrist_roll_key action = true ->
       (WristRoll.moving_average_window self <= 0)%Z ->
       exists self', WristRoll.apply_filter self action
                     = WristRoll.Raises self' ZeroDivisionError) /\
    (forall (config : WristRoll.TeleoperateFilteredConfig F) (actions : list (dict F)),
       WristRoll.FilterType_in (WristRoll.cfg_filter_type config)
         [WristRoll.MOVING_AVERAGE; WristRoll.COMBINED] = true ->
       (WristRoll.cfg_moving_average_window config <= 0)%Z ->
       snd (WristRoll.teleop_loop (WristRoll.init config) actions)
       = before_wrist_roll actions).
Proof.
  intros F ops. split; [|split].
  - intros self self' action e Hcap Hraise.
    pose proof (WristRollRuns.apply_filter_raises self action Hcap) as Hr.
    rewrite Hraise in Hr. destruct Hr as (He & _ & Hin & Hmem & Hw). auto.
  - intros self action Hcap Hin Hmem Hw.
    pose proof (WristRollRuns.apply_filter_raises self action Hcap) as Hr.
    destruct (WristRoll.apply_filter self action) as [self' a'|self' e].
    + destruct Hr as [Hr|[Hr|Hr]]; try congruence. lia.
    + destruct Hr as (-> & _). now exists self'.
  - intros config actions Hin Hw.
    now apply WristRollRuns.teleop_loop_empty_window.
Qed.

Lemma moving_average_needs_window_witness :
  snd (WristRoll.teleop_loop (WristRoll.init moving_average_0) [shoulder_12; tenth; tenth])
  = [shoulder_12].
Proof.
  apply (proj2 (proj2 (@moving_average_needs_window float binary64)) moving_average_0
           [shoulder_12; tenth; tenth]); [reflexivity|discriminate].
Defined.

(** X19. While the gripper keeps moving, the gripper-linked filter holds the
    wrist roll where it was: from a new filter, if the gripper value of
    every frame after the first differs from the one before it by more than
    the threshold, every frame sent carries the wrist roll of the first
    frame, and is otherwise the frame read. *)
Theorem gripper_freeze_persists :
  forall (F : Type) (ops : PyFloat F) (config : WristRoll.TeleoperateFilteredConfig F)
         (first : dict F) (rest : list (dict F)) (g1 w1 : F),
    WristRoll.cfg_filter_type config = WristRoll.GRIPPER_LINKED ->
    dict_get WristRoll.gripper_key first = Some g1 ->
    dict_get WristRoll.wrist_roll_key first = Some w1 ->
    gripper_moving (WristRoll.cfg_gripper_change_threshold config) g1 rest = true ->
    snd (WristRoll.teleop_loop (WristRoll.init config) (first :: rest))
    = first :: map (dict_set WristRoll.wrist_roll_key w1) rest.
Proof.
  intros F ops config first rest g1 w1 Ht Hg Hw Hmov.
  cbn [WristRoll.teleop_loop].
  rewrite (@WristRollFacts.gripper_first_tick F ops (WristRoll.init config) first g1 w1
             Ht eq_refl Hg Hw).
  pose proof (@WristRollRuns.teleop_loop_frozen F ops rest
                (WristRoll.set_prev (WristRoll.init config) (Some g1) (Some w1)) g1 w1
                Ht eq_refl eq_refl Hmov) as Hrest.
  destruct (WristRoll.teleop_loop _ rest) as [self'' sent]. simpl in *. now rewrite Hrest.
Qed.

Lemma gripper_freeze_persists_witness :
  map (dict_get WristRoll.wrist_roll_key)
      (snd (WristRoll.teleop_loop gripper_linked_5 gripper_closing))
  = [Some (f_lit 10); Some (f_lit 10); Some (f_lit 10)].
Proof.
  unfold gripper_linked_5, gripper_closing.
  rewrite (@gripper_freeze_persists float binary64
             (wrist_config WristRoll.GRIPPER_LINKED 20 10 5)
             (gripper_frame 0 10) [gripper_frame 8 12; gripper_frame 16 20]
             (f_lit 0) (f_lit 10) eq_refl eq_refl eq_refl eq_refl).
  reflexivity.
Defined.

(** X20. The combined filter is the three filters chained in the order
    deadzone, moving average, gripper link: one call of it equals the call
    of a deadzone filter, then of a moving-average filter on its output,
    then of a gripper-linked filter on that output, each with the parameters
    and the state of the combined filter. *)
Theorem combined_is_pipeline :
  forall (F : Type) (ops : PyFloat F) (self : WristRoll.WristRollFilter F)
         (action : dict F),
    WristRoll.filter_type self = WristRoll.COMBINED ->
    WristRoll.apply_filter self action = pipeline self action.
Proof. intros F ops self action. apply WristRollRuns.combined_pipeline. Qed.

Lemma combined_is_pipeline_witness :
  WristRoll.apply_filter combined_filter (gripper_frame 0 3)
  = pipeline combined_filter (gripper_frame 0 3).
Proof.
  apply (@combined_is_pipeline float binary64 combined_filter (gripper_frame 0 3) eq_refl).
Defined.

(** X21. The deadzone written into the loop of [teleoperate_logging.py] is
    the deadzone filter of [teleoperate_filtered.py] with threshold 5.0:
    on every frame both give the same action. *)
Theorem logging_deadzone_is_filter :
  forall (F : Type) (ops : PyFloat F) (self : WristRoll.WristRollFilter F)
         (action : dict F),
    WristRoll.filter_type self = WristRoll.DEADZONE ->
    WristRoll.deadzone_threshold self = f_lit 5 ->
    exists self',
      WristRoll.apply_filter self action
      = WristRoll.Returns self' (TeleoperateLogging.deadzone action).
Proof. intros F ops self action. apply WristRollRuns.logging_deadzone_filter. Qed.

Lemma logging_deadzone_is_filter_witness :
  exists self',
    WristRoll.apply_filter deadzone_5 (gripper_frame 0 3)
    = WristRoll.Returns self' (TeleoperateLogging.deadzone (gripper_frame 0 3)).
Proof.
  apply (@logging_deadzone_is_filter float binary64 deadzone_5 (gripper_frame 0 3)
           eq_refl eq_refl).
Defined.

(** ** The teleoperation scripts *)

(** X22. [get_statistics] leaves [current_threshold] out while no frame was
    counted.  In adaptive mode the statistic lines ask for it: a session of
    [teleoperate_elbow_filter.py] in which no frame holding both keys is
    read ends in the [finally] block with [KeyError], before either device
    is disconnected. *)
Theorem statistics_lack_threshold :
  forall (F : Type) (ops : PyFloat F),
    (forall self : ElbowFlex.ElbowFlexFilter F,
       dict_keys (TeleoperateElbowFilter.get_statistics self) =
         if (ElbowFlex.total_frames self =? 0)%nat
         then ["filter_rate"; "total_frames"; "filtered_frames"]
         else ["filter_rate"; "total_frames"; "filtered_frames"; "current_threshold"]) /\
    (forall (np_mean np_std : list F -> F)
            (config : ElbowFlex.TeleoperateElbowFilterConfig F) (cfg : Teleop.Config)
            (env : Teleop.session F) (w w' : world F) (exc : option exn),
       TeleoperateElbowFilter.teleoperate_elbow_filter np_mean np_std config cfg env w
         = Some (w', exc) ->
       Teleop.teleop_connect_raises env = None ->
       Teleop.robot_connect_raises env = None ->
       ElbowFlex.cfg_adaptive_threshold config = true ->
       counted (leader_actions (Teleop.ticks env)) = 0 ->
       exc = Some (OtherException "KeyError") /\
       exists evs, w' = emit w evs /\ disconnected evs = []).
Proof.
  intros F ops. split; [apply get_statistics_keys|].
  intros np_mean np_std config cfg env w w' exc Hmain Hct Hcr Had Hnone.
  unfold TeleoperateElbowFilter.teleoperate_elbow_filter in Hmain.
  destruct (@TeleopFacts.teleoperate_finally F _
              (TeleoperateElbowFilter.treat np_mean np_std)
              TeleoperateElbowFilter.report TeleoperateElbowFilter.final_report
              (elbow_treat_prints np_mean np_std)
              (fun s w0 => proj2 (elbow_report_raises s w0))
              (fun s w0 => proj2 (elbow_final_report_raises s w0))
              statistics_error
              (fun s w0 => proj1 (elbow_final_report_raises s w0))
              [] cfg env (ElbowFlex.init config) w w' exc
              (Forall_nil _) Hct Hcr Hmain)
    as (evs & j & self' & Hw' & Hself & Hfail & _).
  assert (Herr : statistics_error self' = Some (OtherException "KeyError")).
  { subst self'. rewrite (proj2 (elbow_treated np_mean np_std _ _)).
    unfold statistics_error.
    rewrite ElbowFlexRuns.loop_keeps_adaptive, ElbowFlexRuns.loop_total_frames.
    cbn [ElbowFlex.init ElbowFlex.adaptive_threshold ElbowFlex.total_frames Nat.add].
    rewrite Had.
    pose proof (counted_firstn j (leader_actions (Teleop.ticks env))) as Hle.
    replace (counted (firstn j (leader_actions (Teleop.ticks env)))) with 0 by lia.
    reflexivity. }
  destruct (Hfail _ Herr) as [Hexc Hdis].
  split; [exact Hexc|]. now exists evs.
Qed.

Lemma statistics_lack_threshold_witness :
  exists w' evs,
    TeleoperateElbowFilter.teleoperate_elbow_filter ref_mean ref_std (elbow_config true)
      teleop_cfg interrupted_at_once empty_world
      = Some (w', Some (OtherException "KeyError")) /\
    w' = emit empty_world evs /\ disconnected evs = [].
Proof.
  destruct (proj2 (@statistics_lack_threshold float binary64) ref_mean ref_std
              (elbow_config true) teleop_cfg interrupted_at_once empty_world _ _
              eq_refl eq_refl eq_refl eq_refl eq_refl)
    as (_ & evs & Hw' & Hdis).
  eexists _, evs. split; [reflexivity|]. split; [exact Hw'|exact Hdis].
Defined.

(** X23. [teleoperate_wrist_disabled.py] never lets a wrist roll through: the
    block of its loop sets [wrist_roll.pos] to [0.0] when the key is there
    and changes nothing else, and every action a session sends to the robot
    is an action read from the teleoperator so treated, in the order
    read. *)
Theorem wrist_disabled_sends_zero :
  forall (F : Type) (ops : PyFloat F),
    (forall action : dict F,
       let action' := snd (TeleoperateWristDisabled.disable_wrist_roll action) in
       dict_keys action' = dict_keys action /\
       (forall k, k <> "wrist_roll.pos" -> dict_get k action' = dict_get k action) /\
       dict_get "wrist_roll.pos" action' =
         match dict_get "wrist_roll.pos" action with
         | Some _ => Some (f_lit 0)
         | None => None
         end) /\
    (forall (cfg : Teleop.Config) (env : Teleop.session F) (w w' : world F)
            (exc : option exn),
       TeleoperateWristDisabled.teleoperate_wrist_disabled cfg env w = Some (w', exc) ->
       exists evs k,
         w' = emit w evs /\
         sent_actions evs =
           firstn k (map (fun a => snd (TeleoperateWristDisabled.disable_wrist_roll a))
                         (leader_actions (Teleop.ticks env))) /\
         Forall wrist_roll_zero (sent_actions evs)).
Proof.
  intros F ops. split.
  - intros action. cbv zeta.
    destruct (disable_wrist_roll_frame action) as (Hk & Ho & Hz & _). auto.
  - intros cfg env w w' exc Hmain.
    unfold TeleoperateWristDisabled.teleoperate_wrist_disabled in Hmain.
    destruct (@TeleopFacts.teleoperate_run F _ TeleoperateWristDisabled.treat
                TeleoperateWristDisabled.no_report TeleoperateWristDisabled.no_report
                disabled_treat_prints disabled_no_report_prints disabled_no_report_prints
                TeleoperateWristDisabled.banner cfg env tt w w' exc
                ltac:(repeat constructor) Hmain)
      as (evs & k & Hw' & _ & Hsent).
    rewrite disabled_treated in Hsent.
    exists evs, k. split; [exact Hw'|]. split; [exact Hsent|].
    rewrite Hsent. apply Forall_forall. intros a Hin.
    apply in_firstn in Hin. apply in_map_iff in Hin. destruct Hin as (a0 & <- & _).
    apply disabled_zero.
Qed.

Lemma wrist_disabled_sends_zero_witness :
  exists w' evs,
    TeleoperateWristDisabled.teleoperate_wrist_disabled teleop_cfg two_ticks empty_world
      = Some (w', None) /\
    w' = emit empty_world evs /\
    Forall wrist_roll_zero (sent_actions evs).
Proof.
  destruct (proj2 (@wrist_disabled_sends_zero float binary64) teleop_cfg two_ticks
              empty_world _ _ eq_refl)
    as (evs & k & Hw' & _ & Hzero).
  eexists _, evs. split; [reflexivity|]. split; [exact Hw'|exact Hzero].
Defined.

(** X24. The scripts send what the filters return: every action that
    [teleoperate_filtered.py] or [teleoperate_elbow_filter.py] sends to the
    robot is the output of [apply_filter] for an action read from the
    teleoperator, the filter being called once per action read, in the
    order read; and neither script writes a file. *)
Theorem scripts_send_filter_outputs :
  (forall (F : Type) (ops : PyFloat F) (config : WristRoll.TeleoperateFilteredConfig F)
          (cfg : Teleop.Config) (env : Teleop.session F) (w w' : world F)
          (exc : option exn),
     TeleoperateFiltered.teleoperate_filtered config cfg env w = Some (w', exc) ->
     exists evs k,
       w' = emit w evs /\ Forall no_dump evs /\
       sent_actions evs =
         firstn k (snd (WristRoll.teleop_loop (WristRoll.init config)
                          (leader_actions (Teleop.ticks env))))) /\
  (forall (F : Type) (ops : PyFloat F) (np_mean np_std : list F -> F)
          (config : ElbowFlex.TeleoperateElbowFilterConfig F)
          (cfg : Teleop.Config) (env : Teleop.session F) (w w' : world F)
          (exc : option exn),
     TeleoperateElbowFilter.teleoperate_elbow_filter np_mean np_std config cfg env w
       = Some (w', exc) ->
     exists evs k,
       w' = emit w evs /\ Forall no_dump evs /\
       sent_actions evs =
         firstn k (snd (ElbowFlex.teleop_loop np_mean np_std (ElbowFlex.init config)
                          (leader_actions (Teleop.ticks env))))).
Proof.
  split.
  - intros F ops config cfg env w w' exc Hmain.
    unfold TeleoperateFiltered.teleoperate_filtered in Hmain.
    destruct (@TeleopFacts.teleoperate_run F _ TeleoperateFiltered.treat
                TeleoperateFiltered.no_report TeleoperateFiltered.no_report
                filtered_treat_prints no_report_prints no_report_prints
                [] cfg env (WristRoll.init config) w w' exc (Forall_nil _) Hmain)
      as (evs & k & Hw' & Hdump & Hsent).
    rewrite (proj1 (filtered_treated _ _)) in Hsent. now exists evs, k.
  - intros F ops np_mean np_std config cfg env w w' exc Hmain.
    unfold TeleoperateElbowFilter.teleoperate_elbow_filter in Hmain.
    destruct (@TeleopFacts.teleoperate_run F _
                (TeleoperateElbowFilter.treat np_mean np_std)
                TeleoperateElbowFilter.report TeleoperateElbowFilter.final_report
                (elbow_treat_prints np_mean np_std)
                (fun s w0 => proj2 (elbow_report_raises s w0))
                (fun s w0 => proj2 (elbow_final_report_raises s w0))
                [] cfg env (ElbowFlex.init config) w w' exc (Forall_nil _) Hmain)
      as (evs & k & Hw' & Hdump & Hsent).
    rewrite (proj1 (elbow_treated np_mean np_std _ _)) in Hsent. now exists evs, k.
Qed.

Lemma scripts_send_filter_outputs_witness :
  exists w' evs k,
    TeleoperateFiltered.teleoperate_filtered (wrist_config WristRoll.DEADZONE 5 10 5)
      teleop_cfg two_ticks empty_world = Some (w', None) /\
    w' = emit empty_world evs /\
    sent_actions evs =
      firstn k (snd (WristRoll.teleop_loop deadzone_5
                       [gripper_frame 0 3; gripper_frame 8 12])).
Proof.
  destruct (proj1 scripts_send_filter_outputs float binary64
              (wrist_config WristRoll.DEADZONE 5 10 5) teleop_cfg two_ticks empty_world
              _ _ eq_refl)
    as (evs & k & Hw' & _ & Hsent).
  eexists _, evs, k. split; [reflexivity|]. split; [exact Hw'|exact Hsent].
Defined.

(** X25. The three teleoperation scripts leave through their [finally]
    block: once both devices were connected, and if neither the viewer
    shutdown nor a disconnection raises, the teleoperator and then the
    robot are disconnected, whatever ended the loop, and
    [KeyboardInterrupt] does not leave the main function.  For
    [teleoperate_elbow_filter.py] this is shown without adaptation, where
    the statistic lines of the block cannot raise. *)
Theorem teleoperation_disconnects :
  (forall (F : Type) (ops : PyFloat F) (config : WristRoll.TeleoperateFilteredConfig F)
          (cfg : Teleop.Config) (env : Teleop.session F) (w w' : world F)
          (exc : option exn),
     TeleoperateFiltered.teleoperate_filtered config cfg env w = Some (w', exc) ->
     Teleop.teleop_connect_raises env = None ->
     Teleop.robot_connect_raises env = None ->
     (if Teleop.cfg_display_data cfg then Teleop.rerun_shutdown_raises env else None)
       = None ->
     Teleop.teleop_disconnect_raises env = None ->
     Teleop.robot_disconnect_raises env = None ->
     exc <> Some KeyboardInterrupt /\
     exists evs, w' = emit w evs /\ disconnected evs = ["teleop"; "robot"]) /\
  (forall (F : Type) (ops : PyFloat F) (cfg : Teleop.Config) (env : Teleop.session F)
          (w w' : world F) (exc : option exn),
     TeleoperateWristDisabled.teleoperate_wrist_disabled cfg env w = Some (w', exc) ->
     Teleop.teleop_connect_raises env = None ->
     Teleop.robot_connect_raises env = None ->
     (if Teleop.cfg_display_data cfg then Teleop.rerun_shutdown_raises env else None)
       = None ->
     Teleop.teleop_disconnect_raises env = None ->
     Teleop.robot_disconnect_raises env = None ->
     exc <> Some KeyboardInterrupt /\
     exists evs, w' = emit w evs /\ disconnected evs = ["teleop"; "robot"]) /\
  (forall (F : Type) (ops : PyFloat F) (np_mean np_std : list F -> F)
          (config : ElbowFlex.TeleoperateElbowFilterConfig F)
          (cfg : Teleop.Config) (env : Teleop.session F) (w w' : world F)
          (exc : option exn),
     TeleoperateElbowFilter.teleoperate_elbow_filter np_mean np_std config cfg env w
       = Some (w', exc) ->
     ElbowFlex.cfg_adaptive_threshold config = false ->
     Teleop.teleop_connect_raises env = None ->
     Teleop.robot_connect_raises env = None ->
     (if Teleop.cfg_display_data cfg then Teleop.rerun_shutdown_raises env else None)
       = None ->
     Teleop.teleop_disconnect_raises env = None ->
     Teleop.robot_disconnect_raises env = None ->
     exc <> Some KeyboardInterrupt /\
     exists evs, w' = emit w evs /\ disconnected evs = ["teleop"; "robot"]).
Proof.
  split; [|split].
  - intros F ops config cfg env w w' exc Hmain Hct Hcr Hsh Htd Hrd.
    unfold TeleoperateFiltered.teleoperate_filtered in Hmain.
    destruct (@TeleopFacts.teleoperate_finally F _ TeleoperateFiltered.treat
                TeleoperateFiltered.no_report TeleoperateFiltered.no_report
                filtered_treat_prints no_report_prints no_report_prints
                (fun _ => None) (fun _ _ => eq_refl)
                [] cfg env (WristRoll.init config) w w' exc (Forall_nil _) Hct Hcr Hmain)
      as (evs & j & self' & Hw' & _ & _ & Hok).
    destruct (Hok eq_refl Hsh Htd Hrd) as [Hdis Hexc].
    split; [exact Hexc|]. now exists evs.
  - intros F ops cfg env w w' exc Hmain Hct Hcr Hsh Htd Hrd.
    unfold TeleoperateWristDisabled.teleoperate_wrist_disabled in Hmain.
    destruct (@TeleopFacts.teleoperate_finally F _ TeleoperateWristDisabled.treat
                TeleoperateWristDisabled.no_report TeleoperateWristDisabled.no_report
                disabled_treat_prints disabled_no_report_prints disabled_no_report_prints
                (fun _ => None) (fun _ _ => eq_refl)
                TeleoperateWristDisabled.banner cfg env tt w w' exc
                ltac:(repeat constructor) Hct Hcr Hmain)
      as (evs & j & self' & Hw' & _ & _ & Hok).
    destruct (Hok eq_refl Hsh Htd Hrd) as [Hdis Hexc].
    split; [exact Hexc|]. now exists evs.
  - intros F ops np_mean np_std config cfg env w w' exc Hmain Had Hct Hcr Hsh Htd Hrd.
    unfold TeleoperateElbowFilter.teleoperate_elbow_filter in Hmain.
    destruct (@TeleopFacts.teleoperate_finally F _
                (TeleoperateElbowFilter.treat np_mean np_std)
                TeleoperateElbowFilter.report TeleoperateElbowFilter.final_report
                (elbow_treat_prints np_mean np_std)
                (fun s w0 => proj2 (elbow_report_raises s w0))
                (fun s w0 => proj2 (elbow_final_report_raises s w0))
                statistics_error
                (fun s w0 => proj1 (elbow_final_report_raises s w0))
                [] cfg env (ElbowFlex.init config) w w' exc
                (Forall_nil _) Hct Hcr Hmain)
      as (evs & j & self' & Hw' & Hself & _ & Hok).
    assert (Herr : statistics_error self' = None).
    { subst self'. rewrite (proj2 (elbow_treated np_mean np_std _ _)).
      unfold statistics_error. rewrite ElbowFlexRuns.loop_keeps_adaptive.
      cbn [ElbowFlex.init ElbowFlex.adaptive_threshold]. now rewrite Had. }
    destruct (Hok Herr Hsh Htd Hrd) as [Hdis Hexc].
    split; [exact Hexc|]. now exists evs.
Qed.

Lemma teleoperation_disconnects_witness :
  exists w' evs,
    TeleoperateFiltered.teleoperate_filtered (wrist_config WristRoll.DEADZONE 5 10 5)
      teleop_cfg interrupted_at_once empty_world = Some (w', None) /\
    w' = emit empty_world evs /\ disconnected evs = ["teleop"; "robot"].
Proof.
  destruct (proj1 teleoperation_disconnects float binary64
              (wrist_config WristRoll.DEADZONE 5 10 5) teleop_cfg interrupted_at_once
              empty_world _ _ eq_refl eq_refl eq_refl eq_refl eq_refl eq_refl)
    as (_ & evs & Hw' & Hdis).
  eexists _, evs. split; [reflexivity|]. split; [exact Hw'|exact Hdis].
Defined.
